(** * Synapse A2A subsystem: message broker, agent runtime, orchestrator

    A shallow embedding of the JavaScript sources under
    [backend/src/services/a2a] (MessageQueue.js, SimpleMessageQueue.js,
    AgentOrchestrator.js, A2AService.js, agents/BaseAgent.js,
    agents/ArchitectrixAgent.js, agents/CodeConjurerAgent.js), followed by
    the properties of the specification checked against it.

    Conventions of the embedding:
    - JavaScript strings are [string]; [includes], [split('_')[0]] and
      [toLowerCase] are written out below.
    - Wall-clock instants ([Date.now()], ISO timestamps) are integers in
      milliseconds; an ISO string and the instant it denotes are identified.
    - Counters and priorities are integers ([Z] or [nat]); the averages and
      rates of the agent metrics are exact rationals ([Q]), where the code
      computes in double precision.
    - JSON values exchanged as payloads are the inductive type [JsVal].
    - The connection to Redis is up: connection failures are outside the
      model.  The commands of the lightweight queue are total.  The durable
      queue reaches Redis through the methods its client object has; the
      server behind them is a parameter.
    - A method of the orchestrator runs to its end before the next one
      starts; a method, a run of a consumer closure and a timer callback of
      the durable queue likewise.
    - Fields marked as ghost record history for the statements below and are
      never read by the embedded code. *)

From Stdlib Require Import ZArith QArith String Ascii List Lia Bool.
From stdpp Require Import gmap strings list pretty.

Local Open Scope string_scope.
Local Open Scope list_scope.
Local Open Scope Z_scope.

(** ** JavaScript values and operators *)

#[warnings="-register-all"]
Inductive JsVal : Type :=
| JUndefined
| JNull
| JBool (b : bool)
| JNum (z : Z)
| JStr (s : string)
| JArr (l : list JsVal)
| JObj (fields : list (string * JsVal)).

(** [v === s] for a string literal [s]. *)
Definition strictEqStr (v : JsVal) (s : string) : bool :=
  match v with
  | JStr s' => String.eqb s' s
  | _ => false
  end.

(** [o || d] on an optional number: [undefined] and [0] are falsy. *)
Definition orNum (o : option Z) (d : Z) : Z :=
  match o with
  | Some 0 => d
  | Some n => n
  | None => d
  end.

(** [o || d] on an optional string: [undefined] and [''] are falsy. *)
Definition orStr (o : option string) (d : string) : string :=
  match o with
  | Some EmptyString => d
  | Some s => s
  | None => d
  end.

(** [a < b] where [b] may be [undefined] (the comparison is then false). *)
Definition ltOpt (a : Z) (b : option Z) : bool :=
  match b with
  | Some b' => a <? b'
  | None => false
  end.

(** [s.includes(sub)]: [sub] occurs in [s] as a contiguous substring. *)
Fixpoint includes (s sub : string) : bool :=
  String.prefix sub s ||
  match s with
  | EmptyString => false
  | String _ s' => includes s' sub
  end.

(** [s.split(sep)[0]]: the part of [s] before the first [sep]
    (all of [s] when [sep] does not occur). *)
Fixpoint splitHead (sep : ascii) (s : string) : string :=
  match s with
  | EmptyString => EmptyString
  | String c s' => if Ascii.eqb c sep then EmptyString else String c (splitHead sep s')
  end.

(** [c.toLowerCase()] on the ASCII letters; other characters are kept. *)
Definition lowerAscii (c : ascii) : ascii :=
  let n := nat_of_ascii c in
  if (Nat.leb 65 n && Nat.leb n 90)%bool then ascii_of_nat (n + 32) else c.

Fixpoint toLowerCase (s : string) : string :=
  match s with
  | EmptyString => EmptyString
  | String c s' => String (lowerAscii c) (toLowerCase s')
  end.

(** A JavaScript [Set] of strings iterates in insertion order. *)
Definition setAdd (x : string) (s : list string) : list string :=
  if bool_decide (x ∈ s) then s else s ++ [x].

(** [uuidv4()]: the [n]-th identifier drawn from the generator. *)
Definition uuid_of (n : nat) : string := "uuid-" +:+ pretty n.

(** ** Message envelope *)

(** [toAgent] is one agent id or an array of them. *)
Inductive Recipients : Type :=
| One (agent : string)
| Many (agents : list string).

(** [Array.isArray(toAgent) ? toAgent : [toAgent]] *)
Definition recipientsOf (r : Recipients) : list string :=
  match r with
  | One a => [a]
  | Many l => l
  end.

(** The argument of [sendMessage]: optional fields may be absent. *)
Module Envelope.
Record t : Type := mk {
  type : string;
  sessionId : string;
  fromAgent : string;
  toAgent : Recipients;
  payload : JsVal;
  correlationId : option string;
  priority : option Z;
  ttl : option Z
}.
End Envelope.

(** The enriched message that travels through Redis.  [retryCount] and
    [maxRetries] are only written by the durable queue. *)
Module Message.
Record t : Type := mk {
  id : string;
  timestamp : Z;
  type : string;
  sessionId : string;
  fromAgent : string;
  toAgent : Recipients;
  payload : JsVal;
  correlationId : string;
  priority : Z;
  ttl : Z;
  status : string;
  retryCount : option Z;
  maxRetries : option Z
}.

(** [messageData.retryCount = n] *)
Definition setRetryCount (n : Z) (m : t) : t :=
  mk (id m) (timestamp m) (type m) (sessionId m) (fromAgent m) (toAgent m)
     (payload m) (correlationId m) (priority m) (ttl m) (status m)
     (Some n) (maxRetries m).
End Message.

(** [(Date.now() - new Date(timestamp)) / 1000 > ttl], the division by 1000
    moved to the other side of the comparison. *)
Definition expired (now : Z) (m : Message.t) : bool :=
  1000 * Message.ttl m <? now - Message.timestamp m.

(** A subscriber's handler returns ([true]) or throws ([false]). *)
Definition Handler : Type := Message.t -> bool.

(** ** BaseAgent.js: the agent runtime *)

Module BaseAgent.

Record Metrics : Type := mkMetrics {
  tasksCompleted : Z;
  averageResponseTime : Q;
  errorRate : Q;
  collaborations : Z
}.

Record t : Type := mk {
  id : string;
  specialization : string;
  capabilities : list string;
  metrics : Metrics
}.

(** The constructor: every metric starts at zero. *)
Definition initialMetrics : Metrics := mkMetrics 0 0%Q 0%Q 0.

Definition new (agentId specialization : string) (capabilities : list string) : t :=
  mk agentId specialization capabilities initialMetrics.

(** [canHandleTask(task)], on [task.type]. *)
Definition canHandleTask (a : t) (taskTypeString : string) : bool :=
  let taskType := splitHead "_" taskTypeString in
  existsb (fun cap => includes cap taskType || includes taskTypeString (specialization a))
          (capabilities a).

(** [updateMetrics(responseTime, success)] *)
Definition updateMetrics (responseTime : Q) (success : bool) (m : Metrics) : Metrics :=
  let m1 :=
    if success then
      let completed := tasksCompleted m + 1 in
      mkMetrics completed
        ((averageResponseTime m * inject_Z (completed - 1) + responseTime) / inject_Z completed)%Q
        (errorRate m) (collaborations m)
    else m in
  let totalTasks := tasksCompleted m1 + (if success then 0 else 1) in
  let errorCount := totalTasks - tasksCompleted m1 in
  mkMetrics (tasksCompleted m1) (averageResponseTime m1)
    ((inject_Z errorCount / inject_Z totalTasks) * 100)%Q
    (collaborations m1).

(** What an agent records for one task: [completeTask] calls
    [updateMetrics(responseTime, true)], [reportError] calls
    [updateMetrics(0, false)]. *)
Inductive Outcome : Type :=
| Completed (responseTime : Q)
| Failed.

Definition record (m : Metrics) (o : Outcome) : Metrics :=
  match o with
  | Completed rt => updateMetrics rt true m
  | Failed => updateMetrics 0%Q false m
  end.

Definition recordAll (os : list Outcome) : Metrics := fold_left record os initialMetrics.

End BaseAgent.

(** The error rate the specification prescribes for a history of outcomes:
    [errors / (completed + errors)]. *)
Definition isFailed (o : BaseAgent.Outcome) : bool :=
  match o with BaseAgent.Failed => true | _ => false end.

Definition errorsOf (os : list BaseAgent.Outcome) : Z :=
  Z.of_nat (length (filter (fun o => isFailed o = true) os)).

Definition completedOf (os : list BaseAgent.Outcome) : Z :=
  Z.of_nat (length (filter (fun o => isFailed o = false) os)).

Definition specErrorRate (os : list BaseAgent.Outcome) : Q :=
  (inject_Z (errorsOf os) / inject_Z (completedOf os + errorsOf os))%Q.

(** The reading of [canHandleTask] in the specification: the category prefix
    of the task type occurs in one of the capability tags, or the task type
    contains the specialization. *)
Definition specCanHandleTask (a : BaseAgent.t) (taskTypeString : string) : bool :=
  existsb (fun cap => includes cap (splitHead "_" taskTypeString)) (BaseAgent.capabilities a)
  || includes taskTypeString (BaseAgent.specialization a).

(** ** SimpleMessageQueue.js: the lightweight queue on Redis pub/sub *)

Module SimpleMessageQueue.

(** An entry of the list [a2a:history:${sessionId}]. *)
Record HistoryEvent : Type := mkHistoryEvent {
  event : string;
  messageId : string;
  fromAgent : string;
  toAgent : string;
  type : string;
  timestamp : Z
}.

(** [published] lists, oldest first, every [PUBLISH channel json] with the
    channel as the pair (session, recipient); [calls] is the ghost record of
    handler invocations. *)
Record World : Type := mkWorld {
  now : Z;
  uuids : nat;
  published : list (string * string * Message.t);
  history : gmap string (list HistoryEvent);
  calls : list Message.t
}.

Definition initialWorld (t0 : Z) : World := mkWorld t0 0%nat [] ∅ [].

Definition historyOf (sessionId : string) (w : World) : list HistoryEvent :=
  default [] (history w !! sessionId).

(** The object literal [enrichedMessage] of [sendMessage]: no retry fields. *)
Definition enrich (messageId : string) (timestamp : Z) (message : Envelope.t) : Message.t :=
  Message.mk messageId timestamp
    (Envelope.type message) (Envelope.sessionId message)
    (Envelope.fromAgent message) (Envelope.toAgent message)
    (Envelope.payload message)
    (orStr (Envelope.correlationId message) messageId)
    (orNum (Envelope.priority message) 5)
    (orNum (Envelope.ttl message) 300)
    "sent" None None.

(** The body of the loop over the recipients: [PUBLISH], then [LPUSH] on the
    history list. *)
Definition publishTo (enrichedMessage : Message.t) (w : World) (recipient : string) : World :=
  let sessionId := Message.sessionId enrichedMessage in
  mkWorld (now w) (uuids w)
    (published w ++ [(sessionId, recipient, enrichedMessage)])
    (<[sessionId :=
         mkHistoryEvent "message_sent" (Message.id enrichedMessage)
           (Message.fromAgent enrichedMessage) recipient
           (Message.type enrichedMessage) (Message.timestamp enrichedMessage)
         :: historyOf sessionId w]> (history w))
    (calls w).

(** [sendMessage(message)], returning the generated message id. *)
Definition sendMessage (message : Envelope.t) (w : World) : string * World :=
  let messageId := uuid_of (uuids w) in
  let enrichedMessage := enrich messageId (now w) message in
  (messageId,
   fold_left (publishTo enrichedMessage)
             (recipientsOf (Envelope.toAgent message))
             (mkWorld (now w) (S (uuids w)) (published w) (history w) (calls w))).

(** The callback [subscribeToMessages] installs on the channel, run on one
    delivered message. *)
Definition onMessage (handler : option Handler) (messageData : Message.t) (w : World) : World :=
  if expired (now w) messageData then w
  else
    match handler with
    | None => w
    | Some h =>
        let _ := h messageData in
        mkWorld (now w) (uuids w) (published w) (history w) (calls w ++ [messageData])
    end.

End SimpleMessageQueue.

(** ** More of JavaScript: property access, coercion to string *)

(** The outcome of an expression that may throw. *)
Inductive Result (A : Type) : Type :=
| Ok (a : A)
| Throw (error : string).
Arguments Ok {A} a.
Arguments Throw {A} error.

Fixpoint assoc (k : string) (fields : list (string * JsVal)) : JsVal :=
  match fields with
  | [] => JUndefined
  | (k', v) :: rest => if String.eqb k' k then v else assoc k rest
  end.

(** [v.k], also the binding of [k] in [const { k } = v]: a [TypeError] on
    [undefined] and [null], [undefined] on every other value without the
    property (none of the keys read below is a built-in property). *)
Definition getProp (v : JsVal) (k : string) : Result JsVal :=
  match v with
  | JUndefined | JNull => Throw "TypeError: cannot read properties"
  | JObj fields => Ok (assoc k fields)
  | _ => Ok JUndefined
  end.

(** [v || d]: the falsy values are [undefined], [null], [false], [0], ['']. *)
Definition truthy (v : JsVal) : bool :=
  match v with
  | JUndefined | JNull | JBool false | JNum 0 | JStr EmptyString => false
  | _ => true
  end.

Definition joinWith (sep : string) (parts : list string) : string :=
  match parts with
  | [] => EmptyString
  | p :: rest => fold_left (fun acc q => acc +:+ sep +:+ q) rest p
  end.

(** [String(v)], as a template literal interpolates it. *)
Fixpoint toStr (v : JsVal) : string :=
  match v with
  | JUndefined => "undefined"
  | JNull => "null"
  | JBool true => "true"
  | JBool false => "false"
  | JNum z => pretty z
  | JStr s => s
  | JArr l =>
      joinWith ","
        ((fix elements (l : list JsVal) : list string :=
            match l with
            | [] => []
            | x :: rest =>
                match x with
                | JUndefined | JNull => EmptyString
                | _ => toStr x
                end :: elements rest
            end) l)
  | JObj _ => "[object Object]"
  end.

(** A [toAgent] taken from a payload; the recipients are named by their
    string form, as the channel name is. *)
Definition toRecipients (v : JsVal) : Recipients :=
  match v with
  | JArr l => Many (map toStr l)
  | _ => One (toStr v)
  end.

(** ** MessageQueue.js: the durable queue on Redis Streams *)

Module Redis.

(** A field name or value of a stream entry.  The JSON text of a message is
    kept as the message it parses to, an ISO timestamp as its instant; other
    text is taken not to be JSON. *)
Inductive Field : Type :=
| Text (s : string)
| Instant (t : Z)
| Json (m : Message.t).

(** An entry as a read returns it: [[id, fields]]. *)
Definition Entry : Type := (string * list Field)%type.

(** The object [this.redis] as MessageQueue.js uses it: for each method name
    the file calls, the method the object has under that name, [None] when it
    has no such property.  [Server] is the state of the Redis server; a
    method takes the arguments the file passes (its constant arguments are
    left out) and tells what the awaited call resolves to or is rejected
    with, and what it leaves of the server.

    - [xadd(key, '*', ...fields)]
    - [xgroup('CREATE', key, group, '0', 'MKSTREAM')]
    - [xreadgroup('GROUP', group, consumer, 'COUNT', 1, 'BLOCK', 1000,
      'STREAMS', key, '>')], resolving to [null] or to an array of
      [[stream, entries]]
    - [xack(key, group, id)] *)
Record Client (Server : Type) : Type := mkClient {
  xadd : option (string -> list Field -> Server -> Result string * Server);
  xgroup : option (string -> string -> Server -> Result unit * Server);
  xreadgroup :
    option (string -> string -> string -> Server
            -> Result (option (list (string * list Entry))) * Server);
  xack : option (string -> string -> string -> Server -> Result Z * Server)
}.
Arguments mkClient {Server}.
Arguments xadd {Server}.
Arguments xgroup {Server}.
Arguments xreadgroup {Server}.
Arguments xack {Server}.

(** The client MessageQueue.js creates: [createClient] of the package
    [redis] in the version package.json declares (^4.6.7).  That client
    offers the stream commands as [xAdd], [xGroupCreate], [xReadGroup] and
    [xAck] (and as [XADD], ...), the way SimpleMessageQueue.js calls [lPush]
    and [lRange]; it has no property [xadd], [xgroup], [xreadgroup] or
    [xack]. *)
Definition nodeRedis {Server : Type} : Client Server :=
  mkClient None None None None.

End Redis.

Module MessageQueue.

(** An entry of the monitoring log [a2a:log:${sessionId}]. *)
Record LogEvent : Type := mkLogEvent {
  event : string;
  messageId : string;
  fromAgent : string;
  toAgent : string;
  type : string
}.

(** The fields [sendMessage] hands to [xadd] for a log event. *)
Definition logEntry (ev : LogEvent) : list Redis.Field :=
  [Redis.Text "event"; Redis.Text (event ev);
   Redis.Text "messageId"; Redis.Text (messageId ev);
   Redis.Text "fromAgent"; Redis.Text (fromAgent ev);
   Redis.Text "toAgent"; Redis.Text (toAgent ev);
   Redis.Text "type"; Redis.Text (type ev)].

(** The handler of a subscription, awaited on the parsed message: it
    resolves or is rejected, and it may have written to the object it was
    given, which [retryMessage] goes on to use. *)
Definition MessageHandler : Type := Message.t -> Result unit * Message.t.

(** A pending [setTimeout] of [retryMessage], with the variables its
    callback closes over. *)
Record Timer : Type := mkTimer {
  due : Z;
  t_streamKey : string;
  t_consumerGroup : string;
  t_messageId : string;
  t_messageData : Message.t
}.

(** A [consumer] closure of [consumeMessages], with the variables it closes
    over. *)
Record Consumer : Type := mkConsumer {
  streamKey : string;
  consumerGroup : string;
  consumerId : string
}.

(** The queue object, the clock, the identifier generator and the Redis
    server.  [consumers] are the closures that keep rescheduling themselves
    with [setImmediate]; [calls] is a ghost field, the messages a handler
    was invoked on. *)
Record World (Server : Type) : Type := mkWorld {
  now : Z;
  uuids : nat;
  server : Server;
  messageHandlers : gmap string MessageHandler;
  consumers : list Consumer;
  timers : list Timer;
  calls : list Message.t
}.
Arguments mkWorld {Server}.
Arguments now {Server}.
Arguments uuids {Server}.
Arguments server {Server}.
Arguments messageHandlers {Server}.
Arguments consumers {Server}.
Arguments timers {Server}.
Arguments calls {Server}.

(** The object literal [enrichedMessage] of [sendMessage]. *)
Definition enrich (messageId : string) (timestamp : Z) (message : Envelope.t) : Message.t :=
  Message.mk messageId timestamp
    (Envelope.type message) (Envelope.sessionId message)
    (Envelope.fromAgent message) (Envelope.toAgent message)
    (Envelope.payload message)
    (orStr (Envelope.correlationId message) messageId)
    (orNum (Envelope.priority message) 5)
    (orNum (Envelope.ttl message) 300)
    "sent" (Some 0) (Some 3).

(** [JSON.parse(fields[1])] *)
Definition parseMessage (field : option Redis.Field) : Result Message.t :=
  match field with
  | Some (Redis.Json m) => Ok m
  | _ => Throw "Unexpected token in JSON"
  end.

Section Queue.
Context {Server : Type}.

(** [this.redis] *)
Variable client : Redis.Client Server.

(** A queue that is connected and has nothing registered or scheduled. *)
Definition initialWorld (t0 : Z) (s : Server) : World Server :=
  mkWorld t0 0%nat s ∅ [] [] [].

Definition setServer (s : Server) (w : World Server) : World Server :=
  mkWorld (now w) (uuids w) s (messageHandlers w) (consumers w) (timers w) (calls w).

Definition setTimers (ts : list Timer) (w : World Server) : World Server :=
  mkWorld (now w) (uuids w) (server w) (messageHandlers w) (consumers w) ts (calls w).

Definition nextUuid (w : World Server) : World Server :=
  mkWorld (now w) (S (uuids w)) (server w) (messageHandlers w) (consumers w) (timers w)
          (calls w).

(** Time passes. *)
Definition tick (dt : Z) (w : World Server) : World Server :=
  mkWorld (now w + dt) (uuids w) (server w) (messageHandlers w) (consumers w) (timers w)
          (calls w).

(** *** The monad of the queue's methods: state and exceptions *)

Definition M (A : Type) : Type := World Server -> Result A * World Server.

Definition ret {A : Type} (a : A) : M A := fun w => (Ok a, w).

Definition throw {A : Type} (error : string) : M A := fun w => (Throw error, w).

Definition bind {A B : Type} (m : M A) (f : A -> M B) : M B :=
  fun w =>
    match m w with
    | (Ok a, w') => f a w'
    | (Throw e, w') => (Throw e, w')
    end.

Definition lift {A : Type} (r : Result A) : M A := fun w => (r, w).

Definition modify (f : World Server -> World Server) : M unit := fun w => (Ok tt, f w).

(** [try { m } catch (error) { h error }] *)
Definition tryCatch {A : Type} (m : M A) (h : string -> M A) : M A :=
  fun w =>
    match m w with
    | (Ok a, w') => (Ok a, w')
    | (Throw e, w') => h e w'
    end.

Notation "'let*' x ':=' m 'in' k" := (bind m (fun x => k))
  (at level 10, x name, m at level 100, k at level 200).
Notation "m ';;' k" := (bind m (fun _ => k))
  (at level 100, k at level 200, right associativity).

(** [for (const x of xs) await body(x)] *)
Fixpoint forEach {A : Type} (body : A -> M unit) (xs : list A) : M unit :=
  match xs with
  | [] => ret tt
  | x :: rest => body x ;; forEach body rest
  end.

(** [Date.now()], [new Date()] *)
Definition clock : M Z := fun w => (Ok (now w), w).

(** [uuidv4()] *)
Definition uuidv4 : M string := fun w => (Ok (uuid_of (uuids w)), nextUuid w).

(** [await this.redis.name(...)]: calling a property the object does not
    have throws the [TypeError] whose message is given. *)
Definition call {A : Type} (name : string) (method : option (Server -> Result A * Server))
    : M A :=
  fun w =>
    match method with
    | None => (Throw ("this.redis." +:+ name +:+ " is not a function"), w)
    | Some f => (fst (f (server w)), setServer (snd (f (server w))) w)
    end.

Definition xadd (key : string) (fields : list Redis.Field) : M string :=
  call "xadd" (option_map (fun f => f key fields) (Redis.xadd client)).

Definition xgroup (key group : string) : M unit :=
  call "xgroup" (option_map (fun f => f key group) (Redis.xgroup client)).

Definition xreadgroup (group consumer key : string)
    : M (option (list (string * list Redis.Entry))) :=
  call "xreadgroup" (option_map (fun f => f group consumer key) (Redis.xreadgroup client)).

Definition xack (key group id : string) : M Z :=
  call "xack" (option_map (fun f => f key group id) (Redis.xack client)).

(** [sendMessage(message)], returning the generated message id; its [catch]
    logs and throws again. *)
Definition sendMessage (message : Envelope.t) : M string :=
  let* messageId := uuidv4 in
  let* timestamp := clock in
  let enrichedMessage := enrich messageId timestamp message in
  tryCatch
    (forEach
       (fun recipient =>
          let streamKey := "a2a:" +:+ Envelope.sessionId message +:+ ":" +:+ recipient in
          xadd streamKey [Redis.Text "message"; Redis.Json enrichedMessage] ;;
          xadd ("a2a:log:" +:+ Envelope.sessionId message)
               (logEntry (mkLogEvent "message_sent" messageId (Envelope.fromAgent message)
                                     recipient (Envelope.type message))) ;;
          ret tt)
       (recipientsOf (Envelope.toAgent message)) ;;
     ret messageId)
    (fun error => throw error).

(** [retryMessage(streamKey, consumerGroup, messageId, messageData)]: what
    its body throws is logged. *)
Definition retryMessage (streamKey consumerGroup messageId : string) (messageData : Message.t)
    : M unit :=
  tryCatch
    (let retryCount := orNum (Message.retryCount messageData) 0 + 1 in
     let messageData := Message.setRetryCount retryCount messageData in
     if ltOpt retryCount (Message.maxRetries messageData) then
       let delay := 2 ^ retryCount * 1000 in
       let* t := clock in
       modify (fun w =>
                 setTimers
                   (timers w ++ [mkTimer (t + delay) streamKey consumerGroup messageId
                                         messageData]) w)
     else
       let* failedAt := clock in
       xadd ("a2a:dlq:" +:+ Message.sessionId messageData)
            [Redis.Text "message"; Redis.Json messageData;
             Redis.Text "failedAt"; Redis.Instant failedAt] ;;
       xack streamKey consumerGroup messageId ;;
       ret tt)
    (fun error => ret tt).

(** The callback of that [setTimeout]: re-publish, then acknowledge the
    delivery that failed.  Nothing catches what it throws. *)
Definition fireTimer (t : Timer) : M unit :=
  xadd (t_streamKey t) [Redis.Text "message"; Redis.Json (t_messageData t)] ;;
  xack (t_streamKey t) (t_consumerGroup t) (t_messageId t) ;;
  ret tt.

(** The body of the loop over the entries read: one [[messageId, fields]]. *)
Definition deliver (c : Consumer) (entry : Redis.Entry) : M unit :=
  let* messageData := lift (parseMessage (snd entry !! 1%nat)) in
  let* t := clock in
  if expired t messageData then
    xack (streamKey c) (consumerGroup c) (fst entry) ;;
    ret tt
  else
    fun w =>
      match messageHandlers w !! consumerId c with
      | None => (Ok tt, w)
      | Some handler =>
          tryCatch
            (lift (fst (handler messageData)) ;;
             xack (streamKey c) (consumerGroup c) (fst entry) ;;
             ret tt)
            (fun handlerError =>
               retryMessage (streamKey c) (consumerGroup c) (fst entry)
                            (snd (handler messageData)))
            (mkWorld (now w) (uuids w) (server w) (messageHandlers w) (consumers w)
                     (timers w) (calls w ++ [messageData]))
      end.

(** One run of a [consumer] closure, up to the point where it reschedules
    itself: what the read or the loop throws is logged. *)
Definition consumer (c : Consumer) : M unit :=
  tryCatch
    (let* results := xreadgroup (consumerGroup c) (consumerId c) (streamKey c) in
     match results with
     | Some ((_, messages) :: _) => forEach (deliver c) messages
     | _ => ret tt
     end)
    (fun error => ret tt).

(** [consumeMessages(streamKey, consumerGroup, consumerId)] starts a
    closure; its runs are events of their own. *)
Definition consumeMessages (streamKey consumerGroup consumerId : string) : M unit :=
  modify (fun w =>
            mkWorld (now w) (uuids w) (server w) (messageHandlers w)
                    (consumers w ++ [mkConsumer streamKey consumerGroup consumerId])
                    (timers w) (calls w)).

(** [subscribeToMessages(sessionId, agentId, messageHandler)], returning the
    consumer id; its outer [catch] logs and throws again. *)
Definition subscribeToMessages (sessionId agentId : string) (messageHandler : MessageHandler)
    : M string :=
  let streamKey := "a2a:" +:+ sessionId +:+ ":" +:+ agentId in
  let consumerGroup := agentId +:+ "_group" in
  let* t := clock in
  let consumerId := agentId +:+ "_" +:+ pretty t in
  tryCatch
    (tryCatch (xgroup streamKey consumerGroup)
              (fun error => if includes error "BUSYGROUP" then ret tt else throw error) ;;
     modify (fun w =>
               mkWorld (now w) (uuids w) (server w)
                       (<[consumerId := messageHandler]> (messageHandlers w))
                       (consumers w) (timers w) (calls w)) ;;
     consumeMessages streamKey consumerGroup consumerId ;;
     ret consumerId)
    (fun error => throw error).

(** What can happen next: time passes, a method of the queue is called, a
    consumer closure runs, a timer that is due fires. *)
Inductive Event : Type :=
| Tick (dt : Z)
| SendMessage (message : Envelope.t)
| SubscribeToMessages (sessionId agentId : string) (messageHandler : MessageHandler)
| ConsumeMessages (streamKey consumerGroup consumerId : string)
| RetryMessage (streamKey consumerGroup messageId : string) (messageData : Message.t)
| Consume (i : nat)
| Timeout (i : nat).

Definition handle (w : World Server) (e : Event) : World Server :=
  match e with
  | Tick dt => if 0 <=? dt then tick dt w else w
  | SendMessage message => snd (sendMessage message w)
  | SubscribeToMessages sessionId agentId messageHandler =>
      snd (subscribeToMessages sessionId agentId messageHandler w)
  | ConsumeMessages streamKey consumerGroup consumerId =>
      snd (consumeMessages streamKey consumerGroup consumerId w)
  | RetryMessage streamKey consumerGroup messageId messageData =>
      snd (retryMessage streamKey consumerGroup messageId messageData w)
  | Consume i =>
      match consumers w !! i with
      | Some c => snd (consumer c w)
      | None => w
      end
  | Timeout i =>
      match timers w !! i with
      | Some t =>
          if due t <=? now w then snd (fireTimer t (setTimers (delete i (timers w)) w))
          else w
      | None => w
      end
  end.

Definition run (events : list Event) (w : World Server) : World Server :=
  fold_left handle events w.

End Queue.

End MessageQueue.

(** ** AgentOrchestrator.js *)

(** The five phases; only string literals are ever assigned to
    [currentPhase]. *)
Inductive Phase : Type :=
| analysis
| planning
| implementation
| review
| completion.

Definition phases : list Phase := [analysis; planning; implementation; review; completion].

(** A task object.  Fields that handlers add later start out absent
    ([JUndefined] or [None]). *)
Module Task.
Record t : Type := mk {
  id : string;
  type : string;
  sessionId : string;
  assignedAgent : string;
  status : JsVal;
  priority : Z;
  input : JsVal;
  expectedOutput : JsVal;
  deadline : Z;
  createdAt : Z;
  progress : JsVal;
  lastUpdate : option Z;
  completedAt : option Z;
  result : JsVal;
  deliverables : JsVal;
  reassignedAt : option Z;
  previousAgent : option string
}.

(** The four assignments of [handleTaskCompletion]. *)
Definition complete (at_ : Z) (res dels : JsVal) (k : t) : t :=
  mk (id k) (type k) (sessionId k) (assignedAgent k) (JStr "completed") (priority k)
     (input k) (expectedOutput k) (deadline k) (createdAt k) (progress k) (lastUpdate k)
     (Some at_) res dels (reassignedAt k) (previousAgent k).

(** The three assignments of [handleTaskProgress]. *)
Definition update (at_ : Z) (prog stat : JsVal) (k : t) : t :=
  mk (id k) (type k) (sessionId k) (assignedAgent k) stat (priority k)
     (input k) (expectedOutput k) (deadline k) (createdAt k) prog (Some at_)
     (completedAt k) (result k) (deliverables k) (reassignedAt k) (previousAgent k).

(** The four assignments of [reassignTask]. *)
Definition reassign (at_ : Z) (replacementAgent failedAgent : string) (k : t) : t :=
  mk (id k) (type k) (sessionId k) replacementAgent (JStr "reassigned") (priority k)
     (input k) (expectedOutput k) (deadline k) (createdAt k) (progress k) (lastUpdate k)
     (completedAt k) (result k) (deliverables k) (Some at_) (Some failedAgent).

Definition optNum (k : string) (o : option Z) : list (string * JsVal) :=
  match o with Some z => [(k, JNum z)] | None => [] end.

Definition optStr (k : string) (o : option string) : list (string * JsVal) :=
  match o with Some s => [(k, JStr s)] | None => [] end.

Definition optVal (k : string) (v : JsVal) : list (string * JsVal) :=
  match v with JUndefined => [] | _ => [(k, v)] end.

(** The task as [JSON.stringify] writes it into a payload: absent fields
    are left out. *)
Definition toJs (k : t) : JsVal :=
  JObj ([("id", JStr (id k)); ("type", JStr (type k)); ("sessionId", JStr (sessionId k));
         ("assignedAgent", JStr (assignedAgent k))]
        ++ optVal "status" (status k)
        ++ [("priority", JNum (priority k)); ("dependencies", JArr [])]
        ++ optVal "input" (input k) ++ optVal "expectedOutput" (expectedOutput k)
        ++ [("deadline", JNum (deadline k)); ("createdAt", JNum (createdAt k))]
        ++ optVal "progress" (progress k) ++ optNum "lastUpdate" (lastUpdate k)
        ++ optNum "completedAt" (completedAt k)
        ++ optVal "result" (result k) ++ optVal "deliverables" (deliverables k)
        ++ optNum "reassignedAt" (reassignedAt k)
        ++ optStr "previousAgent" (previousAgent k)).
End Task.

(** [arr.findIndex(p)]; [None] stands for [-1]. *)
Fixpoint findIndex {A : Type} (p : A -> bool) (l : list A) : option nat :=
  match l with
  | [] => None
  | x :: rest => if p x then Some 0%nat else S <$> findIndex p rest
  end.

(** An object literal as it is serialised: [undefined] members are dropped. *)
Definition jsObject (fields : list (string * JsVal)) : JsVal :=
  JObj (List.filter (fun kv => match snd kv with JUndefined => false | _ => true end) fields).

(** One workflow object of [sessionWorkflows].  [activeTasks] and
    [completedTasks] hold references into the orchestrator's heap of task
    objects; [activeAgents] is a [Set]; [requirements] and [architecture] are
    the two members of [state] that are ever assigned.  [phaseTrace] is a
    ghost field: every value [currentPhase] has taken, oldest first. *)
Module Workflow.
Record t : Type := mk {
  id : string;
  sessionId : string;
  projectContext : JsVal;
  userRequirement : string;
  status : string;
  startTime : Z;
  endTime : option Z;
  currentPhase : Phase;
  phaseTrace : list Phase;
  activeTasks : list nat;
  completedTasks : list nat;
  activeAgents : list string;
  messageHistory : list (Message.t * Z);
  requirements : JsVal;
  architecture : JsVal
}.

Definition setTasks (active completed : list nat) (w : t) : t :=
  mk (id w) (sessionId w) (projectContext w) (userRequirement w) (status w) (startTime w)
     (endTime w) (currentPhase w) (phaseTrace w) active completed
     (activeAgents w) (messageHistory w) (requirements w) (architecture w).

(** [workflow.activeTasks.push(task)] *)
Definition pushActive (ref : nat) (w : t) : t :=
  setTasks (activeTasks w ++ [ref]) (completedTasks w) w.

(** [workflow.completedTasks.push(task); workflow.activeTasks.splice(i, 1)] *)
Definition moveToCompleted (i ref : nat) (w : t) : t :=
  setTasks (delete i (activeTasks w)) (completedTasks w ++ [ref]) w.

(** [workflow.activeAgents.add(agentId)] *)
Definition addAgent (agentId : string) (w : t) : t :=
  mk (id w) (sessionId w) (projectContext w) (userRequirement w) (status w) (startTime w)
     (endTime w) (currentPhase w) (phaseTrace w) (activeTasks w) (completedTasks w)
     (setAdd agentId (activeAgents w)) (messageHistory w) (requirements w) (architecture w).

(** [workflow.currentPhase = p] *)
Definition setPhase (p : Phase) (w : t) : t :=
  mk (id w) (sessionId w) (projectContext w) (userRequirement w) (status w) (startTime w)
     (endTime w) p (phaseTrace w ++ [p]) (activeTasks w) (completedTasks w)
     (activeAgents w) (messageHistory w) (requirements w) (architecture w).

(** [workflow.state.requirements = v] *)
Definition setRequirements (v : JsVal) (w : t) : t :=
  mk (id w) (sessionId w) (projectContext w) (userRequirement w) (status w) (startTime w)
     (endTime w) (currentPhase w) (phaseTrace w) (activeTasks w) (completedTasks w)
     (activeAgents w) (messageHistory w) v (architecture w).

(** [workflow.state.architecture = v] *)
Definition setArchitecture (v : JsVal) (w : t) : t :=
  mk (id w) (sessionId w) (projectContext w) (userRequirement w) (status w) (startTime w)
     (endTime w) (currentPhase w) (phaseTrace w) (activeTasks w) (completedTasks w)
     (activeAgents w) (messageHistory w) (requirements w) v.

(** [workflow.messageHistory.push({...message, processedAt})] *)
Definition pushHistory (m : Message.t) (processedAt : Z) (w : t) : t :=
  mk (id w) (sessionId w) (projectContext w) (userRequirement w) (status w) (startTime w)
     (endTime w) (currentPhase w) (phaseTrace w) (activeTasks w) (completedTasks w)
     (activeAgents w) (messageHistory w ++ [(m, processedAt)]) (requirements w)
     (architecture w).

(** [workflow.status = 'stopped'; workflow.endTime = now] *)
Definition stop (at_ : Z) (w : t) : t :=
  mk (id w) (sessionId w) (projectContext w) (userRequirement w) "stopped" (startTime w)
     (Some at_) (currentPhase w) (phaseTrace w) (activeTasks w) (completedTasks w)
     (activeAgents w) (messageHistory w) (requirements w) (architecture w).
End Workflow.

Module AgentOrchestrator.

Record Capability : Type := mkCapability {
  specialization : string;
  capabilities : list string;
  preferredModels : list string;
  maxConcurrentTasks : Z;
  averageResponseTime : Z
}.

(** An entry of [activeAgents]; its task list and metrics are never
    written and are left out. *)
Record AgentInstance : Type := mkAgentInstance {
  a_id : string;
  a_sessionId : string;
  a_capabilities : Capability;
  a_status : string;
  lastSeen : Z
}.

(** The orchestrator.  [agentCapabilities] is a [Map] in insertion order;
    [heap] holds the task objects the workflows refer to; [queue] is the
    lightweight queue the module requires, whose clock and identifier
    generator the orchestrator shares. *)
Record t : Type := mk {
  activeAgents : gmap string AgentInstance;
  sessionWorkflows : gmap string Workflow.t;
  agentCapabilities : list (string * Capability);
  workflowStates : gmap string string;
  heap : list Task.t;
  queue : SimpleMessageQueue.World
}.

(** [initializeAgentCapabilities()] *)
Definition initialCapabilities : list (string * Capability) :=
  [ ("architectrix",
     mkCapability "system_architecture"
       ["system_design"; "architecture_planning"; "technology_selection";
        "scalability_analysis"; "performance_optimization"]
       ["gpt-4"; "claude-3-opus"] 3 15000);
    ("code_conjurer",
     mkCapability "code_generation"
       ["code_writing"; "code_review"; "refactoring"; "debugging"; "testing"]
       ["gpt-4"; "claude-3-sonnet"] 5 8000);
    ("api_architect",
     mkCapability "api_design"
       ["api_design"; "endpoint_planning"; "documentation"; "integration_patterns";
        "security_design"]
       ["gpt-4"; "claude-3-sonnet"] 4 12000);
    ("frontend_developer",
     mkCapability "frontend_development"
       ["ui_development"; "component_design"; "styling"; "user_experience";
        "responsive_design"]
       ["gpt-4"; "claude-3-sonnet"] 4 10000);
    ("backend_developer",
     mkCapability "backend_development"
       ["server_logic"; "database_design"; "performance_optimization";
        "security_implementation"; "deployment"]
       ["gpt-4"; "claude-3-sonnet"] 4 12000);
    ("technical_writer",
     mkCapability "documentation"
       ["documentation"; "technical_writing"; "user_guides"; "api_documentation";
        "tutorials"]
       ["gpt-3.5-turbo"; "claude-3-haiku"] 6 6000) ].

(** The constructor. *)
Definition new (t0 : Z) : t :=
  mk ∅ ∅ initialCapabilities ∅ [] (SimpleMessageQueue.initialWorld t0).

(** *** The monad of orchestrator methods: state and exceptions *)

Definition M (A : Type) : Type := t -> Result A * t.

Definition ret {A : Type} (a : A) : M A := fun o => (Ok a, o).

Definition throw {A : Type} (error : string) : M A := fun o => (Throw error, o).

Definition bind {A B : Type} (m : M A) (f : A -> M B) : M B :=
  fun o =>
    match m o with
    | (Ok a, o') => f a o'
    | (Throw e, o') => (Throw e, o')
    end.

Definition lift {A : Type} (r : Result A) : M A := fun o => (r, o).

Definition get : M t := fun o => (Ok o, o).

Definition modify (f : t -> t) : M unit := fun o => (Ok tt, f o).

(** [try { m } catch (error) { h error }] *)
Definition tryCatch {A : Type} (m : M A) (h : string -> M A) : M A :=
  fun o =>
    match m o with
    | (Ok a, o') => (Ok a, o')
    | (Throw e, o') => h e o'
    end.

Notation "'let*' x ':=' m 'in' k" := (bind m (fun x => k))
  (at level 10, x name, m at level 100, k at level 200).
Notation "m ';;' k" := (bind m (fun _ => k))
  (at level 100, k at level 200, right associativity).

(** [for (const x of xs) await body(x)] *)
Fixpoint forEach {A : Type} (body : A -> M unit) (xs : list A) : M unit :=
  match xs with
  | [] => ret tt
  | x :: rest => body x ;; forEach body rest
  end.

Definition setQueue (q : SimpleMessageQueue.World) (o : t) : t :=
  mk (activeAgents o) (sessionWorkflows o) (agentCapabilities o) (workflowStates o) (heap o) q.

Definition setHeap (h : list Task.t) (o : t) : t :=
  mk (activeAgents o) (sessionWorkflows o) (agentCapabilities o) (workflowStates o) h (queue o).

Definition setWorkflows (ws : gmap string Workflow.t) (o : t) : t :=
  mk (activeAgents o) ws (agentCapabilities o) (workflowStates o) (heap o) (queue o).

Definition setAgents (ags : gmap string AgentInstance) (o : t) : t :=
  mk ags (sessionWorkflows o) (agentCapabilities o) (workflowStates o) (heap o) (queue o).

Definition setStates (sts : gmap string string) (o : t) : t :=
  mk (activeAgents o) (sessionWorkflows o) (agentCapabilities o) sts (heap o) (queue o).

(** [new Date()] *)
Definition clock : M Z := fun o => (Ok (SimpleMessageQueue.now (queue o)), o).

(** [uuidv4()] *)
Definition uuidv4 : M string :=
  fun o =>
    let q := queue o in
    (Ok (uuid_of (SimpleMessageQueue.uuids q)),
     setQueue (SimpleMessageQueue.mkWorld (SimpleMessageQueue.now q)
                 (S (SimpleMessageQueue.uuids q)) (SimpleMessageQueue.published q)
                 (SimpleMessageQueue.history q) (SimpleMessageQueue.calls q)) o).

(** [await messageQueue.sendMessage(message)] *)
Definition sendMessage (message : Envelope.t) : M string :=
  fun o =>
    let r := SimpleMessageQueue.sendMessage message (queue o) in
    (Ok (fst r), setQueue (snd r) o).

(** A new task object. *)
Definition alloc (k : Task.t) : M nat :=
  fun o => (Ok (length (heap o)), setHeap (heap o ++ [k]) o).

(** Reading the task object behind a reference. *)
Definition readTask (ref : nat) : M Task.t :=
  fun o =>
    match heap o !! ref with
    | Some k => (Ok k, o)
    | None => (Throw "dangling task reference", o)
    end.

(** Assigning to fields of the task object behind a reference. *)
Definition modifyTask (ref : nat) (f : Task.t -> Task.t) : M unit :=
  fun o =>
    match heap o !! ref with
    | Some k => (Ok tt, setHeap (<[ref := f k]> (heap o)) o)
    | None => (Throw "dangling task reference", o)
    end.

(** Reading a member of [this.sessionWorkflows.get(sessionId)]: a
    [TypeError] when there is no such workflow. *)
Definition readWorkflow (sessionId : string) : M Workflow.t :=
  fun o =>
    match sessionWorkflows o !! sessionId with
    | Some w => (Ok w, o)
    | None => (Throw "TypeError: cannot read properties of undefined", o)
    end.

(** Writing through [this.sessionWorkflows.get(sessionId)]. *)
Definition updWorkflow (sessionId : string) (f : Workflow.t -> Workflow.t) : M unit :=
  fun o =>
    match sessionWorkflows o !! sessionId with
    | Some w => (Ok tt, setWorkflows (<[sessionId := f w]> (sessionWorkflows o)) o)
    | None => (Throw "TypeError: cannot read properties of undefined", o)
    end.

(** [this.agentCapabilities.get(agentId)] *)
Fixpoint getCapability (agentId : string) (caps : list (string * Capability))
    : option Capability :=
  match caps with
  | [] => None
  | (a, c) :: rest => if String.eqb a agentId then Some c else getCapability agentId rest
  end.

(** The task behind [ref] has id [taskId] ([t.id === taskId]). *)
Definition hasId (h : list Task.t) (taskId : JsVal) (ref : nat) : bool :=
  match h !! ref with
  | Some k => strictEqStr taskId (Task.id k)
  | None => false
  end.

(** [findReplacementAgent(specialization, excludeAgent)]; [None] is [null]. *)
Fixpoint findReplacementAgent (caps : list (string * Capability))
    (spec excludeAgent : string) : option string :=
  match caps with
  | [] => None
  | (agentId, c) :: rest =>
      if negb (String.eqb agentId excludeAgent) && String.eqb (specialization c) spec
      then Some agentId
      else findReplacementAgent rest spec excludeAgent
  end.

(** The body of [determineRequiredAgents] once [requirements.includes] is
    known to be the membership test [has]. *)
Definition selectAgents (has : string -> bool) : list string :=
  let agents := [] in
  let agents := if has "frontend" || has "ui" then setAdd "frontend_developer" agents else agents in
  let agents := if has "backend" || has "api" then setAdd "backend_developer" agents else agents in
  let agents := if has "api" || has "endpoints" then setAdd "api_architect" agents else agents in
  let agents :=
    if has "documentation" || has "docs" then setAdd "technical_writer" agents else agents in
  setAdd "code_conjurer" agents.

(** [determineRequiredAgents(requirements, architecture)]: [includes] is the
    substring test of a string or the membership test of an array; no other
    JSON value has the method. *)
Definition determineRequiredAgents (requirements architecture : JsVal)
    : Result (list string) :=
  match requirements with
  | JStr s => Ok (selectAgents (includes s))
  | JArr l => Ok (selectAgents (fun k => existsb (fun v => strictEqStr v k) l))
  | JUndefined | JNull => Throw "TypeError: cannot read properties"
  | _ => Throw "TypeError: requirements.includes is not a function"
  end.

(** [assignTaskToAgent(sessionId, task)] *)
Definition assignTaskToAgent (sessionId : string) (ref : nat) : M unit :=
  updWorkflow sessionId (Workflow.pushActive ref) ;;
  let* task := readTask ref in
  updWorkflow sessionId (Workflow.addAgent (Task.assignedAgent task)) ;;
  sendMessage
    (Envelope.mk "task_assignment" sessionId "orchestrator"
       (One (Task.assignedAgent task))
       (jsObject
          [("task", Task.toJs task);
           ("context",
            JStr ("You are " +:+ Task.assignedAgent task
                  +:+ ". Complete the assigned task based on your specialization."))])
       (Some (Task.id task)) (Some (Task.priority task)) None) ;;
  ret tt.

(** [createImplementationTasks(sessionId, requirements, architecture,
    neededAgents)], returning references to the new task objects. *)
Fixpoint createImplementationTasks (sessionId : string) (requirements architecture : JsVal)
    (neededAgents : list string) : M (list nat) :=
  match neededAgents with
  | [] => ret []
  | agentId :: rest =>
      let* o := get in
      let* taskId := uuidv4 in
      match getCapability agentId (agentCapabilities o) with
      | None => throw "TypeError: cannot read properties of undefined"
      | Some c =>
          let* now := clock in
          let* ref :=
            alloc (Task.mk taskId (specialization c +:+ "_implementation") sessionId agentId
                     (JStr "pending") 7
                     (jsObject [("requirements", requirements);
                                ("architecture", architecture);
                                ("specialization", JStr (specialization c))])
                     JUndefined (now + 600000) now
                     JUndefined None None JUndefined JUndefined None None) in
          let* refs := createImplementationTasks sessionId requirements architecture rest in
          ret (ref :: refs)
      end
  end.

(** [initiateImplementationPlanning(sessionId, analysisResult)] *)
Definition initiateImplementationPlanning (sessionId : string) (analysisResult : JsVal)
    : M unit :=
  let* requirements := lift (getProp analysisResult "requirements") in
  let* architecture := lift (getProp analysisResult "architecture") in
  let* neededAgents := lift (determineRequiredAgents requirements architecture) in
  let* tasks :=
    createImplementationTasks sessionId requirements architecture neededAgents in
  forEach (assignTaskToAgent sessionId) tasks ;;
  updWorkflow sessionId (Workflow.setPhase implementation).

(** [initiateRequirementsAnalysis(sessionId, userRequirement, projectContext)] *)
Definition initiateRequirementsAnalysis (sessionId userRequirement : string)
    (projectContext : JsVal) : M unit :=
  let* taskId := uuidv4 in
  let* existingFiles := lift (getProp projectContext "existingFiles") in
  let* now := clock in
  let* ref :=
    alloc (Task.mk taskId "requirements_analysis" sessionId "architectrix"
             (JStr "assigned") 10
             (jsObject [("userRequirement", JStr userRequirement);
                        ("projectContext", projectContext);
                        ("existingCode",
                         if truthy existingFiles then existingFiles else JArr [])])
             (jsObject [("requirements", JStr "structured_requirements");
                        ("architecture", JStr "high_level_architecture");
                        ("recommendations", JStr "technology_recommendations")])
             (now + 300000) now
             JUndefined None None JUndefined JUndefined None None) in
  updWorkflow sessionId (Workflow.pushActive ref) ;;
  updWorkflow sessionId (Workflow.addAgent "architectrix") ;;
  let* analysisTask := readTask ref in
  sendMessage
    (Envelope.mk "task_assignment" sessionId "orchestrator" (One "architectrix")
       (jsObject
          [("task", Task.toJs analysisTask);
           ("context",
            JStr "You are Architectrix, a senior system architect. Analyze the user requirement and provide structured requirements, high-level architecture, and technology recommendations.")])
       (Some taskId) (Some 10) None) ;;
  ret tt.

(** [startSession(sessionId, projectContext, userRequirement)]; its [catch]
    logs and rethrows. *)
Definition startSession (sessionId : string) (projectContext : JsVal)
    (userRequirement : string) : M Workflow.t :=
  let* workflowId := uuidv4 in
  let* now := clock in
  let workflow :=
    Workflow.mk workflowId sessionId projectContext userRequirement "planning" now None
                analysis [analysis] [] [] [] [] (JStr userRequirement) JNull in
  modify (fun o => setWorkflows (<[sessionId := workflow]> (sessionWorkflows o)) o) ;;
  modify (fun o => setStates (<[sessionId := "active"]> (workflowStates o)) o) ;;
  initiateRequirementsAnalysis sessionId userRequirement projectContext ;;
  readWorkflow sessionId.

(** The key [`${sessionId}:${agentId}`] of [activeAgents]. *)
Definition agentKey (sessionId agentId : string) : string :=
  sessionId +:+ ":" +:+ agentId.

(** [registerAgent(sessionId, agentId)]; its [catch] logs and rethrows.  The
    subscription it opens delivers messages to [handleAgentMessage]. *)
Definition registerAgent (sessionId agentId : string) : M AgentInstance :=
  let* o := get in
  match getCapability agentId (agentCapabilities o) with
  | None => throw ("Unknown agent: " +:+ agentId)
  | Some c =>
      let* now := clock in
      let agentInstance := mkAgentInstance agentId sessionId c "active" now in
      modify (fun o =>
                setAgents (<[agentKey sessionId agentId := agentInstance]> (activeAgents o)) o) ;;
      ret agentInstance
  end.

(** [reassignTask(sessionId, taskId, failedAgent)] *)
Definition reassignTask (sessionId : string) (taskId : JsVal) (failedAgent : string)
    : M unit :=
  let* workflow := readWorkflow sessionId in
  let* o := get in
  match List.find (hasId (heap o) taskId) (Workflow.activeTasks workflow) with
  | None => ret tt
  | Some ref =>
      match getCapability failedAgent (agentCapabilities o) with
      | None => throw "TypeError: cannot read properties of undefined"
      | Some c =>
          match findReplacementAgent (agentCapabilities o) (specialization c) failedAgent with
          | None => ret tt
          | Some replacementAgent =>
              if truthy (JStr replacementAgent) then
                let* now := clock in
                modifyTask ref (Task.reassign now replacementAgent failedAgent) ;;
                assignTaskToAgent sessionId ref
              else ret tt
          end
      end
  end.

(** [handleTaskCompletion(sessionId, agentId, message)] *)
Definition handleTaskCompletion (sessionId agentId : string) (message : Message.t)
    : M unit :=
  let* taskId := lift (getProp (Message.payload message) "taskId") in
  let* result := lift (getProp (Message.payload message) "result") in
  let* deliverables := lift (getProp (Message.payload message) "deliverables") in
  let* workflow := readWorkflow sessionId in
  let* o := get in
  match findIndex (hasId (heap o) taskId) (Workflow.activeTasks workflow) with
  | None => ret tt
  | Some taskIndex =>
      match Workflow.activeTasks workflow !! taskIndex with
      | None => ret tt
      | Some ref =>
          let* now := clock in
          modifyTask ref (Task.complete now result deliverables) ;;
          updWorkflow sessionId (Workflow.moveToCompleted taskIndex ref) ;;
          let* task := readTask ref in
          if String.eqb (Task.type task) "requirements_analysis" then
            let* requirements := lift (getProp result "requirements") in
            updWorkflow sessionId (Workflow.setRequirements requirements) ;;
            let* architecture := lift (getProp result "architecture") in
            updWorkflow sessionId (Workflow.setArchitecture architecture) ;;
            updWorkflow sessionId (Workflow.setPhase planning) ;;
            initiateImplementationPlanning sessionId result
          else ret tt
      end
  end.

(** [handleTaskProgress(sessionId, agentId, message)] *)
Definition handleTaskProgress (sessionId agentId : string) (message : Message.t)
    : M unit :=
  let* taskId := lift (getProp (Message.payload message) "taskId") in
  let* progress := lift (getProp (Message.payload message) "progress") in
  let* status := lift (getProp (Message.payload message) "status") in
  let* workflow := readWorkflow sessionId in
  let* o := get in
  match List.find (hasId (heap o) taskId) (Workflow.activeTasks workflow) with
  | None => ret tt
  | Some ref =>
      let* now := clock in
      modifyTask ref (Task.update now progress status)
  end.

(** [handleAgentQuestion(sessionId, agentId, message)] *)
Definition handleAgentQuestion (sessionId agentId : string) (message : Message.t)
    : M unit :=
  let* question := lift (getProp (Message.payload message) "question") in
  let* context := lift (getProp (Message.payload message) "context") in
  let* urgency := lift (getProp (Message.payload message) "urgency") in
  sendMessage
    (Envelope.mk "user_clarification_needed" sessionId "orchestrator" (One "user")
       (jsObject [("question", question); ("context", context); ("urgency", urgency);
                  ("requestingAgent", JStr agentId)])
       None (Some (if strictEqStr urgency "high" then 8 else 5)) None) ;;
  ret tt.

(** [handleAgentError(sessionId, agentId, message)] *)
Definition handleAgentError (sessionId agentId : string) (message : Message.t)
    : M unit :=
  let* error := lift (getProp (Message.payload message) "error") in
  let* taskId := lift (getProp (Message.payload message) "taskId") in
  let* severity := lift (getProp (Message.payload message) "severity") in
  if strictEqStr severity "critical" then reassignTask sessionId taskId agentId
  else ret tt.

(** [handleCollaborationRequest(sessionId, agentId, message)] *)
Definition handleCollaborationRequest (sessionId agentId : string) (message : Message.t)
    : M unit :=
  let* targetAgent := lift (getProp (Message.payload message) "targetAgent") in
  let* collaborationType := lift (getProp (Message.payload message) "collaborationType") in
  let* context := lift (getProp (Message.payload message) "context") in
  sendMessage
    (Envelope.mk "collaboration_invitation" sessionId agentId (toRecipients targetAgent)
       (jsObject [("collaborationType", collaborationType); ("context", context);
                  ("requestingAgent", JStr agentId)])
       None (Some 7) None) ;;
  ret tt.

(** [agent.lastSeen = now], when the agent is registered. *)
Definition touchAgent (sessionId agentId : string) : M unit :=
  let* now := clock in
  modify (fun o =>
            match activeAgents o !! agentKey sessionId agentId with
            | Some a =>
                setAgents (<[agentKey sessionId agentId :=
                               mkAgentInstance (a_id a) (a_sessionId a) (a_capabilities a)
                                               (a_status a) now]> (activeAgents o)) o
            | None => o
            end).

(** The [switch] on [message.type]. *)
Definition dispatch (sessionId agentId : string) (message : Message.t) : M unit :=
  if String.eqb (Message.type message) "task_completion" then
    handleTaskCompletion sessionId agentId message
  else if String.eqb (Message.type message) "task_progress" then
    handleTaskProgress sessionId agentId message
  else if String.eqb (Message.type message) "agent_question" then
    handleAgentQuestion sessionId agentId message
  else if String.eqb (Message.type message) "error_report" then
    handleAgentError sessionId agentId message
  else if String.eqb (Message.type message) "collaboration_request" then
    handleCollaborationRequest sessionId agentId message
  else ret tt.

(** [handleAgentMessage(sessionId, agentId, message)]: whatever a handler
    throws is caught and logged here. *)
Definition handleAgentMessage (sessionId agentId : string) (message : Message.t) : M unit :=
  tryCatch
    (let* o := get in
     match sessionWorkflows o !! sessionId with
     | None => ret tt
     | Some _ =>
         touchAgent sessionId agentId ;;
         let* now := clock in
         updWorkflow sessionId (Workflow.pushHistory message now) ;;
         dispatch sessionId agentId message
     end)
    (fun _ => ret tt).

(** The object [getWorkflowStatus] returns. *)
Record WorkflowStatus : Type := mkWorkflowStatus {
  ws_id : string;
  ws_sessionId : string;
  ws_status : string;
  ws_currentPhase : Phase;
  total : nat;
  completed : nat;
  active : nat;
  ws_activeAgents : list string;
  ws_startTime : Z;
  ws_lastUpdate : Z
}.

(** [getWorkflowStatus(sessionId)]; [None] is [null]. *)
Definition getWorkflowStatus (sessionId : string) (o : t) : option WorkflowStatus :=
  match sessionWorkflows o !! sessionId with
  | None => None
  | Some workflow =>
      Some (mkWorkflowStatus (Workflow.id workflow) sessionId (Workflow.status workflow)
              (Workflow.currentPhase workflow)
              (length (Workflow.activeTasks workflow)
               + length (Workflow.completedTasks workflow))%nat
              (length (Workflow.completedTasks workflow))
              (length (Workflow.activeTasks workflow))
              (Workflow.activeAgents workflow)
              (Workflow.startTime workflow)
              (SimpleMessageQueue.now (queue o)))
  end.

(** [stopWorkflow(sessionId)] *)
Definition stopWorkflow (sessionId : string) : M unit :=
  let* o := get in
  match sessionWorkflows o !! sessionId with
  | None => ret tt
  | Some workflow =>
      let* now := clock in
      updWorkflow sessionId (Workflow.stop now) ;;
      modify (fun o =>
                setAgents
                  (fold_left (fun ags agentId => delete (agentKey sessionId agentId) ags)
                             (Workflow.activeAgents workflow) (activeAgents o)) o) ;;
      modify (fun o => setStates (<[sessionId := "stopped"]> (workflowStates o)) o)
  end.

(** What the orchestrator is asked to do, one call at a time; between two
    calls time may pass. *)
Inductive Event : Type :=
| Tick (dt : N)
| StartSession (sessionId : string) (projectContext : JsVal) (userRequirement : string)
| RegisterAgent (sessionId agentId : string)
| AgentMessage (sessionId agentId : string) (message : Message.t)
| StopWorkflow (sessionId : string).

Definition advance (dt : N) (o : t) : t :=
  let q := queue o in
  setQueue (SimpleMessageQueue.mkWorld (SimpleMessageQueue.now q + Z.of_N dt)
              (SimpleMessageQueue.uuids q) (SimpleMessageQueue.published q)
              (SimpleMessageQueue.history q) (SimpleMessageQueue.calls q)) o.

Definition handle (o : t) (e : Event) : t :=
  match e with
  | Tick dt => advance dt o
  | StartSession sessionId projectContext userRequirement =>
      snd (startSession sessionId projectContext userRequirement o)
  | RegisterAgent sessionId agentId => snd (registerAgent sessionId agentId o)
  | AgentMessage sessionId agentId message =>
      snd (handleAgentMessage sessionId agentId message o)
  | StopWorkflow sessionId => snd (stopWorkflow sessionId o)
  end.

Definition run (events : list Event) (o : t) : t := fold_left handle events o.

End AgentOrchestrator.

(** ** A2AService.js: the session manager's agent selection *)

Module A2AService.

(** [determineRequiredAgents(workflow)]; [agents] are the keys of
    [this.agents], the agents that are implemented. *)
Definition determineRequiredAgents (agents : list string) (userRequirement : string)
    : list string :=
  let requiredAgents := ["architectrix"] in
  let requirement := toLowerCase userRequirement in
  let requiredAgents :=
    if includes requirement "code" || includes requirement "implement"
    then setAdd "code_conjurer" requiredAgents else requiredAgents in
  let requiredAgents :=
    if includes requirement "frontend" || includes requirement "ui"
    then setAdd "frontend_developer" requiredAgents else requiredAgents in
  let requiredAgents :=
    if includes requirement "backend" || includes requirement "api"
    then setAdd "backend_developer" requiredAgents else requiredAgents in
  let requiredAgents :=
    if includes requirement "api" || includes requirement "endpoint"
    then setAdd "api_architect" requiredAgents else requiredAgents in
  let requiredAgents :=
    if includes requirement "documentation" || includes requirement "docs"
    then setAdd "technical_writer" requiredAgents else requiredAgents in
  List.filter (fun agentId => bool_decide (agentId ∈ agents)) requiredAgents.

(** [initializeAgents()]: the two agents that exist. *)
Definition initialAgents : list string := ["architectrix"; "code_conjurer"].

End A2AService.

(** ** The phase invariant of the orchestrator *)

(** The task behind a reference is a requirements analysis. *)
Definition analysisRef (h : list Task.t) (ref : nat) : bool :=
  match h !! ref with
  | Some k => String.eqb (Task.type k) "requirements_analysis"
  | None => false
  end.

Definition analysisCount (h : list Task.t) (refs : list nat) : nat :=
  length (List.filter (analysisRef h) refs).

(** The task behind a reference exists and is no requirements analysis. *)
Definition otherTask (h : list Task.t) (ref : nat) : Prop :=
  (ref < length h)%nat /\ analysisRef h ref = false.

(** A later heap: the tasks of the earlier one are still there, with the
    types they had. *)
Definition heapExt (h h' : list Task.t) : Prop :=
  (length h <= length h')%nat /\
  forall ref, (ref < length h)%nat -> analysisRef h' ref = analysisRef h ref.

(** A predicate on orchestrator states that does not look at the queue. *)
Definition queueFree (P : AgentOrchestrator.t -> Prop) : Prop :=
  forall o q, P o -> P (AgentOrchestrator.setQueue q o).

(** The phases a workflow has gone through, against the number of active
    requirements analyses: at most one while in analysis, none later. *)
Definition phaseOk (trace : list Phase) (analyses : nat) : Prop :=
  (trace = [analysis] /\ (analyses <= 1)%nat)
  \/ ((trace = [analysis; planning] \/ trace = [analysis; planning; implementation])
      /\ analyses = 0%nat).

Definition workflowOk (h : list Task.t) (w : Workflow.t) : Prop :=
  Forall (fun ref => (ref < length h)%nat) (Workflow.activeTasks w) /\
  phaseOk (Workflow.phaseTrace w) (analysisCount h (Workflow.activeTasks w)) /\
  last (Workflow.phaseTrace w) = Some (Workflow.currentPhase w).

(** The invariant: the registry is the one the constructor builds, and
    every workflow is in order. *)
Definition orchestratorOk (o : AgentOrchestrator.t) : Prop :=
  AgentOrchestrator.agentCapabilities o = AgentOrchestrator.initialCapabilities /\
  forall sessionId w,
    AgentOrchestrator.sessionWorkflows o !! sessionId = Some w ->
    workflowOk (AgentOrchestrator.heap o) w.

(** The invariant, with the workflow of one session known to have gone
    through [trace] and to have no active requirements analysis. *)
Definition settled (sessionId : string) (trace : list Phase) (o : AgentOrchestrator.t) : Prop :=
  orchestratorOk o /\
  exists w,
    AgentOrchestrator.sessionWorkflows o !! sessionId = Some w /\
    Workflow.phaseTrace w = trace /\
    analysisCount (AgentOrchestrator.heap o) (Workflow.activeTasks w) = 0%nat.

(** A Hoare triple for orchestrator methods: from a state in [P], [m]
    returns a value and a state in [Q] or throws in a state in [E]. *)
Definition hoare {A : Type} (P : AgentOrchestrator.t -> Prop) (m : AgentOrchestrator.M A)
    (Q : A -> AgentOrchestrator.t -> Prop) (E : AgentOrchestrator.t -> Prop) : Prop :=
  forall o, P o ->
    match m o with
    | (Ok a, o') => Q a o'
    | (Throw _, o') => E o'
    end.

(** The state [reassignTask] leaves when it finds the task and a
    replacement. *)
Definition reassigned (sessionId : string) (ref : nat) (task : Task.t)
    (workflow : Workflow.t) (failedAgent replacementAgent : string) (o : AgentOrchestrator.t) : AgentOrchestrator.t :=
  let task' := Task.reassign (SimpleMessageQueue.now (AgentOrchestrator.queue o)) replacementAgent failedAgent task in
  let o1 := AgentOrchestrator.setHeap (<[ref := task']> (AgentOrchestrator.heap o)) o in
  let o2 := AgentOrchestrator.setWorkflows (<[sessionId := Workflow.pushActive ref workflow]> (AgentOrchestrator.sessionWorkflows o1)) o1 in
  let o3 :=
    AgentOrchestrator.setWorkflows (<[sessionId := Workflow.addAgent replacementAgent (Workflow.pushActive ref workflow)]>
                    (AgentOrchestrator.sessionWorkflows o2)) o2 in
  AgentOrchestrator.setQueue
    (snd (SimpleMessageQueue.sendMessage
            (Envelope.mk "task_assignment" sessionId "orchestrator" (One replacementAgent)
               (jsObject
                  [("task", Task.toJs task');
                   ("context",
                    JStr ("You are " +:+ replacementAgent
                          +:+ ". Complete the assigned task based on your specialization."))])
               (Some (Task.id task')) (Some (Task.priority task')) None)
            (AgentOrchestrator.queue o3)))
    o3.

(** ** Sample data for the concrete runs below *)

(** A task assignment sent with the explicit priority 0 and a ttl of one
    minute. *)
Definition sampleEnvelope : Envelope.t :=
  Envelope.mk "task_assignment" "s1" "orchestrator" (One "architectrix")
              (JObj [("task", JStr "t1")]) None (Some 0) (Some 60).

(** The message [sampleEnvelope] becomes in the durable queue. *)
Definition sampleMessage : Message.t :=
  MessageQueue.enrich (uuid_of 0) 0 sampleEnvelope.

(** A handler that throws on every message. *)
Definition failingHandler : Handler := fun _ => false.

(** A handler of the durable queue that is rejected on every message and
    leaves the message as it is. *)
Definition rejectingHandler : MessageQueue.MessageHandler :=
  fun messageData => (Throw "handler failed", messageData).

(** A registry in which two agents share a specialization, and an
    orchestrator with one session whose only active task belongs to the
    first of them. *)
Definition sampleRegistry : list (string * AgentOrchestrator.Capability) :=
  [ ("backend_developer",
     AgentOrchestrator.mkCapability "backend_development" ["server_logic"] ["gpt-4"] 4 12000);
    ("backend_developer_2",
     AgentOrchestrator.mkCapability "backend_development" ["server_logic"] ["gpt-4"] 4 12000) ].

Definition sampleTask : Task.t :=
  Task.mk "t1" "backend_development_implementation" "s1" "backend_developer"
          (JStr "pending") 7 JNull JUndefined 600000 0
          JUndefined None None JUndefined JUndefined None None.

Definition sampleWorkflow : Workflow.t :=
  Workflow.mk "w1" "s1" JNull "backend" "planning" 0 None
              implementation [analysis; planning; implementation]
              [0%nat] [] ["backend_developer"] [] (JStr "backend") JNull.

Definition sampleOrchestrator : AgentOrchestrator.t :=
  AgentOrchestrator.mk ∅ {[ "s1" := sampleWorkflow ]} sampleRegistry ∅ [sampleTask]
                       (SimpleMessageQueue.initialWorld 0).

(** The first agent reports a critical error on its task. *)
Definition criticalError : Message.t :=
  Message.mk "e1" 0 "error_report" "s1" "backend_developer" (One "orchestrator")
             (JObj [("error", JStr "boom"); ("taskId", JStr "t1");
                    ("severity", JStr "critical")])
             "e1" 5 300 "sent" None None.

(** An analysis result for session s1, and a session that receives it. *)
Definition sampleCompletion : Message.t :=
  Message.mk "c1" 0 "task_completion" "s1" "architectrix" (One "orchestrator")
             (JObj [("taskId", JStr "uuid-1");
                    ("result", JObj [("requirements", JStr "backend api");
                                     ("architecture", JStr "layered")]);
                    ("deliverables", JArr [])])
             "c1" 5 300 "sent" None None.

Definition sampleEvents : list AgentOrchestrator.Event :=
  [ AgentOrchestrator.StartSession "s1" (JObj []) "Build a REST API";
    AgentOrchestrator.RegisterAgent "s1" "architectrix";
    AgentOrchestrator.AgentMessage "s1" "architectrix" sampleCompletion ].

(** ** What the metrics of an agent depend on *)

(** The response times of the tasks an agent completed, oldest first. *)
Definition responseTimes (os : list BaseAgent.Outcome) : list Q :=
  omap (fun o => match o with BaseAgent.Completed rt => Some rt | BaseAgent.Failed => None end) os.

(** ** Predicates that orchestrator methods keep *)

(** [m] keeps [F]: from a state in [F] it ends, returning or throwing, in a
    state in [F]. *)
Definition keeps {A : Type} (F : AgentOrchestrator.t -> Prop) (m : AgentOrchestrator.M A)
    : Prop :=
  forall o, F o -> F (snd (m o)).

(** The updates of a workflow object that the handlers make below
    [handleAgentMessage]. *)
Inductive handlerUpdate : (Workflow.t -> Workflow.t) -> Prop :=
| update_pushActive ref : handlerUpdate (Workflow.pushActive ref)
| update_moveToCompleted i ref : handlerUpdate (Workflow.moveToCompleted i ref)
| update_addAgent agentId : handlerUpdate (Workflow.addAgent agentId)
| update_setPhase p : handlerUpdate (Workflow.setPhase p)
| update_setRequirements v : handlerUpdate (Workflow.setRequirements v)
| update_setArchitecture v : handlerUpdate (Workflow.setArchitecture v).

(** ** The state a completed task leaves *)

(** The state [handleTaskCompletion] leaves when it finds the task at index
    [taskIndex] of the active list and the task is no requirements
    analysis. *)
Definition afterCompletion (sessionId : string) (taskIndex ref : nat) (task : Task.t)
    (workflow : Workflow.t) (result deliverables : JsVal) (o : AgentOrchestrator.t)
    : AgentOrchestrator.t :=
  let task' :=
    Task.complete (SimpleMessageQueue.now (AgentOrchestrator.queue o)) result deliverables task in
  let o1 := AgentOrchestrator.setHeap (<[ref := task']> (AgentOrchestrator.heap o)) o in
  AgentOrchestrator.setWorkflows
    (<[sessionId := Workflow.moveToCompleted taskIndex ref workflow]>
       (AgentOrchestrator.sessionWorkflows o1)) o1.

(** The first agent of the sample session reports its task done. *)
Definition sampleTaskDone : Message.t :=
  Message.mk "d1" 0 "task_completion" "s1" "backend_developer" (One "orchestrator")
             (JObj [("taskId", JStr "t1");
                    ("result", JObj [("services", JObj [])]);
                    ("deliverables", JArr [])])
             "t1" 5 300 "sent" None None.

(** An analysis result whose requirements are structured, for the sample
    session started by [sampleEvents]. *)
Definition sampleStructuredCompletion : Message.t :=
  Message.mk "c2" 0 "task_completion" "s1" "architectrix" (One "orchestrator")
             (JObj [("taskId", JStr "uuid-1");
                    ("result", JObj [("requirements", JObj [("functional", JArr [])]);
                                     ("architecture", JObj [("style", JStr "microservices")])]);
                    ("deliverables", JArr [])])
             "c2" 5 300 "sent" None None.

(** ** What implementation planning creates *)

(** [task] is an implementation task for [agentId] as
    [createImplementationTasks] builds it from the registry [caps]. *)
Definition implementationTaskFor (caps : list (string * AgentOrchestrator.Capability))
    (sessionId : string) (task : Task.t) (agentId : string) : Prop :=
  exists c,
    AgentOrchestrator.getCapability agentId caps = Some c /\
    Task.type task = AgentOrchestrator.specialization c +:+ "_implementation" /\
    Task.assignedAgent task = agentId /\
    Task.sessionId task = sessionId /\
    Task.status task = JStr "pending" /\
    Task.priority task = 7.

(** [p] is the publication of a [task_assignment] carrying [task] to the
    agent it is assigned to. *)
Definition assignmentOf (sessionId : string) (p : string * string * Message.t) (task : Task.t)
    : Prop :=
  fst p = (sessionId, Task.assignedAgent task) /\
  Message.type (snd p) = "task_assignment" /\
  Message.fromAgent (snd p) = "orchestrator" /\
  Message.toAgent (snd p) = One (Task.assignedAgent task) /\
  Message.priority (snd p) = orNum (Some (Task.priority task)) 5 /\
  getProp (Message.payload (snd p)) "task" = Ok (Task.toJs task).

(** The workflow after [assignTaskToAgent] has run on each of [refs]. *)
Definition assignAll (h : list Task.t) (refs : list nat) (workflow : Workflow.t) : Workflow.t :=
  fold_left (fun w ref =>
               match h !! ref with
               | Some task => Workflow.addAgent (Task.assignedAgent task) (Workflow.pushActive ref w)
               | None => w
               end) refs workflow.

(** [agentId] joins a [Set] that [agents] are then added to. *)
Definition addAll (agents : list string) (set : list string) : list string :=
  fold_left (fun acc agentId => setAdd agentId acc) agents set.

(** A broadcast of the sample task to three agents. *)
Definition sampleBroadcast : Envelope.t :=
  Envelope.mk "task_assignment" "s1" "orchestrator"
              (Many ["architectrix"; "code_conjurer"; "api_architect"])
              (JObj [("task", JStr "t1")]) None None None.

(** ** Reading the history back *)

(** [LRANGE key 0 stop]: the elements at positions 0 to [stop], both
    included; a negative [stop] counts from the end of the list ([-1] is the
    last element), and a range that ends before it starts is empty. *)
Definition lRange {A : Type} (l : list A) (stop : Z) : list A :=
  let stop := if stop <? 0 then Z.of_nat (length l) + stop else stop in
  if stop <? 0 then [] else take (Z.to_nat (stop + 1)) l.

(** [getMessageHistory(sessionId, limit)] of the lightweight queue, on the
    list as Redis holds it (the expiry of the list, a day after the last
    send, is not modelled). *)
Definition getMessageHistory (sessionId : string) (limit : Z)
    (w : SimpleMessageQueue.World) : list SimpleMessageQueue.HistoryEvent :=
  lRange (SimpleMessageQueue.historyOf sessionId w) (limit - 1).

(** [result[k] = v] on a plain object, for a [v] that is no object: it
    binds [k], except that an assignment to ["__proto__"] goes to the
    prototype's setter, which ignores such a value. *)
Definition setMember (k : string) (v : JsVal) (result : gmap string JsVal)
    : gmap string JsVal :=
  if String.eqb k "__proto__" then result else <[k := v]> result.

(** [parseRedisFields(fields)], started from the object [result]: a flat
    array of keys and values into an object.  A key without a value (an
    array of odd length) is bound to [undefined]. *)
Fixpoint parseRedisFields (fields : list string) (result : gmap string JsVal)
    : gmap string JsVal :=
  match fields with
  | [] => result
  | [k] => setMember k JUndefined result
  | k :: v :: rest => parseRedisFields rest (setMember k (JStr v) result)
  end.

(** The fields of the entry [sendMessage] adds to the monitoring log. *)
Definition logFields (ev : MessageQueue.LogEvent) : list string :=
  ["event"; MessageQueue.event ev; "messageId"; MessageQueue.messageId ev;
   "fromAgent"; MessageQueue.fromAgent ev; "toAgent"; MessageQueue.toAgent ev;
   "type"; MessageQueue.type ev].

(** A flat array of keys and values. *)
Definition flatten (pairs : list (string * string)) : list string :=
  flat_map (fun kv => [fst kv; snd kv]) pairs.

(** ** What a method of the durable queue leaves alone *)

(** [m] neither registers a handler nor invokes one. *)
Definition quiet {Server A : Type} (m : @MessageQueue.M Server A) : Prop :=
  forall w : MessageQueue.World Server,
    MessageQueue.messageHandlers (snd (m w)) = MessageQueue.messageHandlers w /\
    MessageQueue.calls (snd (m w)) = MessageQueue.calls w.

(** The sample message is sent, its recipient subscribes a handler, a
    consumer is started by hand and runs, and a retry is asked for and
    fires. *)
Definition sampleUse : list MessageQueue.Event :=
  [MessageQueue.SendMessage sampleEnvelope;
   MessageQueue.SubscribeToMessages "s1" "architectrix" rejectingHandler;
   MessageQueue.ConsumeMessages "a2a:s1:architectrix" "architectrix_group" "architectrix_0";
   MessageQueue.Consume 0;
   MessageQueue.RetryMessage "a2a:s1:architectrix" "architectrix_group" "0-1" sampleMessage;
   MessageQueue.Tick 2000;
   MessageQueue.Timeout 0;
   MessageQueue.Consume 0].

(** ** BaseAgent.js: an agent at work *)

(** [o.k = v], and [{ ...o, k: v }]: a member that exists keeps its place. *)
Fixpoint setField (k : string) (v : JsVal) (fields : list (string * JsVal))
    : list (string * JsVal) :=
  match fields with
  | [] => [(k, v)]
  | (k', v') :: rest =>
      if String.eqb k' k then (k', v) :: rest else (k', v') :: setField k v rest
  end.

(** [{ ...v }] for an object [v]. *)
Definition spread (v : JsVal) : list (string * JsVal) :=
  match v with
  | JObj fields => fields
  | _ => []
  end.

(** The comparison of [Map] keys, on the values that are no objects.  An
    array or an object is the same key as itself alone; the model has no
    object identity and finds none, and every statement below is about task
    ids that are strings, as the orchestrator's are. *)
Definition sameValueZero (a b : JsVal) : bool :=
  match a, b with
  | JUndefined, JUndefined => true
  | JNull, JNull => true
  | JBool x, JBool y => Bool.eqb x y
  | JNum x, JNum y => x =? y
  | JStr x, JStr y => String.eqb x y
  | _, _ => false
  end.

(** [error.message || error] for a caught [Error] whose message is [e], as
    the payload of a message carries it: the [Error] object itself, which is
    serialised as [{}], when the message is empty. *)
Definition thrown (e : string) : JsVal :=
  match e with
  | EmptyString => JObj []
  | _ => JStr e
  end.

(** [correlationId: taskId]: a falsy id is replaced by the message id when
    the message is enriched, a string is kept (the envelope of the model has
    no place for a truthy id of another type). *)
Definition correlationOf (taskId : JsVal) : option string :=
  match taskId with
  | JStr s => Some s
  | _ => None
  end.

Module Agent.

(** An element of [memory.conversations]. *)
Record Conversation : Type := mkConversation {
  c_timestamp : Z;
  c_type : string;
  c_fromAgent : string;
  content : JsVal
}.

(** An element of [memory.context.userClarifications]. *)
Record Clarification : Type := mkClarification {
  question : JsVal;
  answer : JsVal;
  cl_timestamp : Z
}.

(** A value of [currentTasks]: the members of the assigned task, spread into
    a new object, and the members the agent writes; [completedAt] and
    [result] are absent until [completeTask] assigns them. *)
Record Entry : Type := mkEntry {
  members : list (string * JsVal);
  startTime : Z;
  e_status : string;
  completedAt : option Z;
  result : JsVal
}.

(** The entry as the object it is. *)
Definition toJs (e : Entry) : JsVal :=
  let fields :=
    setField "status" (JStr (e_status e))
      (setField "startTime" (JNum (startTime e)) (members e)) in
  let fields :=
    match completedAt e with
    | Some z => setField "completedAt" (JNum z) fields
    | None => fields
    end in
  JObj (match result e with
        | JUndefined => fields
        | r => setField "result" r fields
        end).

(** The agent object.  [self] holds the members the constructor is given and
    the metrics; [currentTasks] is a [Map] in insertion order; [activeSession]
    is [null] until [initialize]; [conversations], [currentProject] and
    [userClarifications] are the parts of [memory] that are ever written;
    [queue] is the lightweight queue the module requires. *)
Record t : Type := mk {
  self : BaseAgent.t;
  status : string;
  currentTasks : list (JsVal * Entry);
  activeSession : option string;
  conversations : list Conversation;
  currentProject : JsVal;
  userClarifications : list Clarification;
  queue : SimpleMessageQueue.World
}.

(** The constructor. *)
Definition new (agentId specialization : string) (capabilities : list string)
    (q : SimpleMessageQueue.World) : t :=
  mk (BaseAgent.new agentId specialization capabilities) "idle" [] None [] JUndefined [] q.

(** *** The monad of agent methods: state and exceptions *)

Definition M (A : Type) : Type := t -> Result A * t.

Definition ret {A : Type} (x : A) : M A := fun a => (Ok x, a).

Definition throw {A : Type} (error : string) : M A := fun a => (Throw error, a).

Definition bind {A B : Type} (m : M A) (f : A -> M B) : M B :=
  fun a =>
    match m a with
    | (Ok x, a') => f x a'
    | (Throw e, a') => (Throw e, a')
    end.

Definition lift {A : Type} (r : Result A) : M A := fun a => (r, a).

Definition get : M t := fun a => (Ok a, a).

Definition modify (f : t -> t) : M unit := fun a => (Ok tt, f a).

(** [try { m } catch (error) { h error }] *)
Definition tryCatch {A : Type} (m : M A) (h : string -> M A) : M A :=
  fun a =>
    match m a with
    | (Ok x, a') => (Ok x, a')
    | (Throw e, a') => h e a'
    end.

Notation "'let*' x ':=' m 'in' k" := (bind m (fun x => k))
  (at level 10, x name, m at level 100, k at level 200).
Notation "m ';;' k" := (bind m (fun _ => k))
  (at level 100, k at level 200, right associativity).

(** [for (const x of xs) await body(x)] *)
Fixpoint forEach {A : Type} (body : A -> M unit) (xs : list A) : M unit :=
  match xs with
  | [] => ret tt
  | x :: rest => body x ;; forEach body rest
  end.

Definition setStatus (s : string) (a : t) : t :=
  mk (self a) s (currentTasks a) (activeSession a) (conversations a) (currentProject a)
     (userClarifications a) (queue a).

Definition setTasks (tasks : list (JsVal * Entry)) (a : t) : t :=
  mk (self a) (status a) tasks (activeSession a) (conversations a) (currentProject a)
     (userClarifications a) (queue a).

Definition setSession (s : option string) (a : t) : t :=
  mk (self a) (status a) (currentTasks a) s (conversations a) (currentProject a)
     (userClarifications a) (queue a).

Definition setConversations (cs : list Conversation) (a : t) : t :=
  mk (self a) (status a) (currentTasks a) (activeSession a) cs (currentProject a)
     (userClarifications a) (queue a).

Definition setCurrentProject (v : JsVal) (a : t) : t :=
  mk (self a) (status a) (currentTasks a) (activeSession a) (conversations a) v
     (userClarifications a) (queue a).

Definition setClarifications (cs : list Clarification) (a : t) : t :=
  mk (self a) (status a) (currentTasks a) (activeSession a) (conversations a)
     (currentProject a) cs (queue a).

Definition setQueue (q : SimpleMessageQueue.World) (a : t) : t :=
  mk (self a) (status a) (currentTasks a) (activeSession a) (conversations a)
     (currentProject a) (userClarifications a) q.

Definition setMetrics (f : BaseAgent.Metrics -> BaseAgent.Metrics) (a : t) : t :=
  mk (BaseAgent.mk (BaseAgent.id (self a)) (BaseAgent.specialization (self a))
        (BaseAgent.capabilities (self a)) (f (BaseAgent.metrics (self a))))
     (status a) (currentTasks a) (activeSession a) (conversations a) (currentProject a)
     (userClarifications a) (queue a).

(** [currentTasks.get(taskId)] *)
Fixpoint getTask (taskId : JsVal) (tasks : list (JsVal * Entry)) : option Entry :=
  match tasks with
  | [] => None
  | (k, e) :: rest => if sameValueZero k taskId then Some e else getTask taskId rest
  end.

(** [currentTasks.set(taskId, entry)]: a key that is present keeps its
    place. *)
Fixpoint setTask (taskId : JsVal) (entry : Entry) (tasks : list (JsVal * Entry))
    : list (JsVal * Entry) :=
  match tasks with
  | [] => [(taskId, entry)]
  | (k, e) :: rest =>
      if sameValueZero k taskId then (k, entry) :: rest
      else (k, e) :: setTask taskId entry rest
  end.

(** [currentTasks.delete(taskId)] *)
Fixpoint deleteTask (taskId : JsVal) (tasks : list (JsVal * Entry)) : list (JsVal * Entry) :=
  match tasks with
  | [] => []
  | (k, e) :: rest =>
      if sameValueZero k taskId then rest else (k, e) :: deleteTask taskId rest
  end.

(** [new Date()] and [Date.now()] *)
Definition clock : M Z := fun a => (Ok (SimpleMessageQueue.now (queue a)), a).

(** [await messageQueue.sendMessage(message)] *)
Definition sendMessage (message : Envelope.t) : M string :=
  fun a =>
    let r := SimpleMessageQueue.sendMessage message (queue a) in
    (Ok (fst r), setQueue (snd r) a).

(** [this.activeSession] where a session id is expected; [null] names the
    channel by its string form. *)
Definition sessionOf (a : t) : string := default "null" (activeSession a).

(** [canHandleTask(task)]: [task.type.split] is a [TypeError] unless
    [task.type] is a string. *)
Definition canHandleTask (a : BaseAgent.t) (task : JsVal) : Result bool :=
  match getProp task "type" with
  | Throw e => Throw e
  | Ok (JStr taskTypeString) => Ok (BaseAgent.canHandleTask a taskTypeString)
  | Ok _ => Throw "TypeError: task.type.split is not a function"
  end.

(** [reportProgress(sessionId, taskId, progress, status)] *)
Definition reportProgress (sessionId : string) (taskId : JsVal) (progress : Z)
    (status : string) : M unit :=
  let* a := get in
  sendMessage
    (Envelope.mk "task_progress" sessionId (BaseAgent.id (self a)) (One "orchestrator")
       (jsObject [("taskId", taskId); ("progress", JNum progress); ("status", JStr status)])
       None None None) ;;
  ret tt.

(** [reportError(sessionId, error, severity, taskId = null)], where [error]
    stands for the value of [error.message || error]. *)
Definition reportError (sessionId : string) (error : JsVal) (severity : string)
    (taskId : JsVal) : M unit :=
  modify (setMetrics (BaseAgent.updateMetrics 0%Q false)) ;;
  let* now := clock in
  let* a := get in
  sendMessage
    (Envelope.mk "error_report" sessionId (BaseAgent.id (self a)) (One "orchestrator")
       (jsObject [("error", error); ("severity", JStr severity); ("taskId", taskId);
                  ("timestamp", JNum now)])
       None None None) ;;
  ret tt.

(** [completeTask(sessionId, taskId, result)] *)
Definition completeTask (sessionId : string) (taskId result : JsVal) : M unit :=
  let* a := get in
  match getTask taskId (currentTasks a) with
  | None => ret tt
  | Some task =>
      let* now := clock in
      modify (fun a =>
                setTasks (setTask taskId
                            (mkEntry (members task) (startTime task) "completed" (Some now)
                                     result)
                            (currentTasks a)) a) ;;
      let responseTime := now - startTime task in
      modify (setMetrics (BaseAgent.updateMetrics (inject_Z responseTime) true)) ;;
      let* deliverables := lift (getProp result "deliverables") in
      sendMessage
        (Envelope.mk "task_completion" sessionId (BaseAgent.id (self a)) (One "orchestrator")
           (jsObject [("taskId", taskId); ("result", result);
                      ("deliverables", if truthy deliverables then deliverables else JArr []);
                      ("responseTime", JNum responseTime)])
           (correlationOf taskId) None None) ;;
      modify (fun a => setTasks (deleteTask taskId (currentTasks a)) a) ;;
      modify (fun a =>
                setStatus (match currentTasks a with [] => "idle" | _ => "working" end) a)
  end.

(** [handleTaskAssignment(message)], for the [executeTask] of the agent's
    class. *)
Definition handleTaskAssignment (executeTask : JsVal -> JsVal -> M JsVal)
    (message : Message.t) : M unit :=
  let sessionId := Message.sessionId message in
  let* task := lift (getProp (Message.payload message) "task") in
  let* context := lift (getProp (Message.payload message) "context") in
  let* a := get in
  let* able := lift (canHandleTask (self a) task) in
  let* taskId := lift (getProp task "id") in
  if negb able then
    reportError sessionId
      (JStr ("Task " +:+ toStr taskId +:+ " incompatible with capabilities")) "low" JNull
  else
    let* now := clock in
    modify (fun a =>
              setTasks (setTask taskId (mkEntry (spread task) now "in_progress" None JUndefined)
                          (currentTasks a)) a) ;;
    modify (setStatus "working") ;;
    reportProgress sessionId taskId 0 "started" ;;
    tryCatch
      (let* result := executeTask task context in
       completeTask sessionId taskId result)
      (fun error => reportError sessionId (thrown error) "high" taskId).

(** [executeTask(task, context)] of the base class. *)
Definition executeTask (task context : JsVal) : M JsVal :=
  throw "executeTask must be implemented by subclasses".

(** [shouldAcceptCollaboration(type, context)] *)
Definition shouldAcceptCollaboration (a : t) : bool :=
  negb (String.eqb (status a) "overloaded") && (Z.of_nat (length (currentTasks a)) <? 3).

(** [handleCollaborationInvitation(message)] *)
Definition handleCollaborationInvitation (message : Message.t) : M unit :=
  let* collaborationType := lift (getProp (Message.payload message) "collaborationType") in
  let* requestingAgent := lift (getProp (Message.payload message) "requestingAgent") in
  let* a := get in
  if shouldAcceptCollaboration a then
    sendMessage
      (Envelope.mk "collaboration_acceptance" (Message.sessionId message)
         (BaseAgent.id (self a)) (toRecipients requestingAgent)
         (jsObject [("accepted", JBool true); ("collaborationType", collaborationType);
                    ("availableCapabilities",
                     JArr (map JStr (BaseAgent.capabilities (self a))))])
         None None None) ;;
    modify (setMetrics (fun m =>
                          BaseAgent.mkMetrics (BaseAgent.tasksCompleted m)
                            (BaseAgent.averageResponseTime m) (BaseAgent.errorRate m)
                            (BaseAgent.collaborations m + 1)))
  else ret tt.

(** The body of the loop of [processPendingTasks], on the task that is
    stored under [taskId] when the loop reaches it. *)
Definition resumeTask (executeTask : JsVal -> JsVal -> M JsVal) (taskId : JsVal) : M unit :=
  let* a := get in
  match getTask taskId (currentTasks a) with
  | None => ret tt
  | Some task =>
      if String.eqb (e_status task) "waiting_for_clarification" then
        let task :=
          mkEntry (members task) (startTime task) "in_progress" (completedAt task)
                  (result task) in
        modify (fun a => setTasks (setTask taskId task (currentTasks a)) a) ;;
        reportProgress (sessionOf a) taskId 50 "resumed" ;;
        tryCatch
          (let* result := executeTask (toJs task) (assoc "context" (members task)) in
           let* a := get in
           completeTask (sessionOf a) taskId result)
          (fun error =>
             let* a := get in
             reportError (sessionOf a) (thrown error) "high" taskId)
      else ret tt
  end.

(** [processPendingTasks()]: the loop visits the tasks that are stored when
    it starts and are still stored when their turn comes (no [executeTask]
    of the code base stores a task). *)
Definition processPendingTasks (executeTask : JsVal -> JsVal -> M JsVal) : M unit :=
  let* a := get in
  forEach (resumeTask executeTask) (map fst (currentTasks a)).

(** [handleUserClarification(message)] *)
Definition handleUserClarification (executeTask : JsVal -> JsVal -> M JsVal)
    (message : Message.t) : M unit :=
  let* clarification := lift (getProp (Message.payload message) "clarification") in
  let* originalQuestion := lift (getProp (Message.payload message) "originalQuestion") in
  let* now := clock in
  modify (fun a =>
            setClarifications
              (userClarifications a ++ [mkClarification originalQuestion clarification now])
              a) ;;
  processPendingTasks executeTask.

(** [updateMemory(message)] *)
Definition updateMemory (message : Message.t) : M unit :=
  let* now := clock in
  modify (fun a =>
            setConversations
              (conversations a
               ++ [mkConversation now (Message.type message) (Message.fromAgent message)
                                  (Message.payload message)]) a) ;;
  modify (fun a =>
            if (50 <? length (conversations a))%nat
            then setConversations (drop (length (conversations a) - 50) (conversations a)) a
            else a) ;;
  if String.eqb (Message.type message) "task_assignment" then
    let* task := lift (getProp (Message.payload message) "task") in
    let* input := lift (getProp task "input") in
    modify (setCurrentProject input)
  else ret tt.

(** [handleMessage(message)].  No class defines [handleAgentResponse]: the
    call is a [TypeError]. *)
Definition handleMessage (executeTask : JsVal -> JsVal -> M JsVal) (message : Message.t)
    : M unit :=
  tryCatch
    (updateMemory message ;;
     if String.eqb (Message.type message) "task_assignment" then
       handleTaskAssignment executeTask message
     else if String.eqb (Message.type message) "collaboration_invitation" then
       handleCollaborationInvitation message
     else if String.eqb (Message.type message) "user_clarification" then
       handleUserClarification executeTask message
     else if String.eqb (Message.type message) "agent_response" then
       throw "TypeError: this.handleAgentResponse is not a function"
     else ret tt)
    (fun error => reportError (Message.sessionId message) (thrown error) "medium" JNull).

(** [initialize(sessionId)]; the subscription it opens delivers the messages
    of the channel to [handleMessage]. *)
Definition initialize (sessionId : string) : M unit :=
  modify (setSession (Some sessionId)) ;;
  modify (setStatus "active") ;;
  let* a := get in
  sendMessage
    (Envelope.mk "agent_status" sessionId (BaseAgent.id (self a)) (One "orchestrator")
       (jsObject [("status", JStr "initialized");
                  ("capabilities", JArr (map JStr (BaseAgent.capabilities (self a))));
                  ("specialization", JStr (BaseAgent.specialization (self a)))])
       None None None) ;;
  ret tt.

(** [shutdown()] *)
Definition shutdown : M unit :=
  modify (setStatus "shutting_down") ;;
  let* a := get in
  forEach (fun entry : JsVal * Entry =>
             if String.eqb (e_status (snd entry)) "in_progress" then
               reportError (sessionOf a) (JStr "Agent shutting down") "medium" (fst entry)
             else ret tt)
          (currentTasks a) ;;
  modify (setTasks []) ;;
  modify (setStatus "offline").

(** [getCurrentTaskId()] of the two agent classes: the key stored last, or
    [undefined]. *)
Definition getCurrentTaskId (a : t) : JsVal :=
  match last (map fst (currentTasks a)) with
  | Some taskId => taskId
  | None => JUndefined
  end.

(** Time passing while a method waits. *)
Definition advance (dt : N) (a : t) : t :=
  let q := queue a in
  setQueue (SimpleMessageQueue.mkWorld (SimpleMessageQueue.now q + Z.of_N dt)
              (SimpleMessageQueue.uuids q) (SimpleMessageQueue.published q)
              (SimpleMessageQueue.history q) (SimpleMessageQueue.calls q)) a.

(** What happens to an agent, one call at a time: time passes,
    [initialize] or [shutdown] is called, or the queue delivers a message
    to the callback of the agent's subscription, which drops a message that
    has expired and hands any other to [handleMessage].  A method runs to
    its end before the next one starts. *)
Inductive Event : Type :=
| Tick (dt : N)
| Initialize (sessionId : string)
| Deliver (message : Message.t)
| Shutdown.

Definition handle (executeTask : JsVal -> JsVal -> M JsVal) (a : t) (e : Event) : t :=
  match e with
  | Tick dt => advance dt a
  | Initialize sessionId => snd (initialize sessionId a)
  | Deliver message =>
      if expired (SimpleMessageQueue.now (queue a)) message then a
      else snd (handleMessage executeTask message a)
  | Shutdown => snd (shutdown a)
  end.

Definition run (executeTask : JsVal -> JsVal -> M JsVal) (events : list Event) (a : t) : t :=
  fold_left (handle executeTask) events a.

End Agent.

(** A method of an agent keeps a property of the agent: the property holds
    when the method has returned or thrown, if it held before. *)
Definition keepsAgent {A : Type} (F : Agent.t -> Prop) (m : Agent.M A) : Prop :=
  forall a : Agent.t, F a -> F (snd (m a)).

(** No task of the agent waits for a clarification. *)
Definition noneWaiting (a : Agent.t) : Prop :=
  forall (taskId : JsVal) (task : Agent.Entry),
    (taskId, task) ∈ Agent.currentTasks a ->
    Agent.e_status task <> "waiting_for_clarification".

(** ** ArchitectrixAgent.js and CodeConjurerAgent.js: the two agent classes *)

(** [await this.reportProgress(this.activeSession, this.getCurrentTaskId(),
    progress, status)], as both classes report the steps of a task. *)
Definition reportStep (progress : Z) (status : string) : Agent.M unit :=
  Agent.bind Agent.get
    (fun a => Agent.reportProgress (Agent.sessionOf a) (Agent.getCurrentTaskId a) progress status).

Module ArchitectrixAgent.
Import Agent.

Definition capabilities : list string :=
  ["system_design"; "architecture_planning"; "technology_selection"; "scalability_analysis";
   "performance_optimization"; "security_architecture"; "integration_patterns";
   "microservices_design"].

(** The constructor. *)
Definition new (q : SimpleMessageQueue.World) : t :=
  Agent.new "architectrix" "system_architecture" capabilities q.

Definition designSystemArchitecture (input context : JsVal) : M JsVal :=
  ret (JObj [("architecture", JStr "System architecture design"); ("components", JArr []);
             ("deliverables", JArr [])]).

Definition selectTechnologies (input context : JsVal) : M JsVal :=
  ret (JObj [("technologies", JStr "Technology selection");
             ("rationale", JStr "Technology selection rationale");
             ("deliverables", JArr [])]).

Definition analyzeScalability (input context : JsVal) : M JsVal :=
  ret (JObj [("scalability", JStr "Scalability analysis"); ("recommendations", JArr []);
             ("deliverables", JArr [])]).

Definition optimizePerformance (input context : JsVal) : M JsVal :=
  ret (JObj [("optimizations", JStr "Performance optimizations"); ("metrics", JObj []);
             ("deliverables", JArr [])]).

Definition designSecurityArchitecture (input context : JsVal) : M JsVal :=
  ret (JObj [("security", JStr "Security architecture"); ("measures", JArr []);
             ("deliverables", JArr [])]).

(** [executeTask(task, context)]; what it catches it throws again.  The
    method [analyzeRequirements] it calls is a parameter. *)
Definition executeTask (analyzeRequirements : JsVal -> JsVal -> M JsVal)
    (task context : JsVal) : M JsVal :=
  let* type := lift (getProp task "type") in
  let* input := lift (getProp task "input") in
  if strictEqStr type "requirements_analysis" then analyzeRequirements input context
  else if strictEqStr type "system_architecture" then designSystemArchitecture input context
  else if strictEqStr type "technology_selection" then selectTechnologies input context
  else if strictEqStr type "scalability_analysis" then analyzeScalability input context
  else if strictEqStr type "performance_optimization" then optimizePerformance input context
  else if strictEqStr type "security_architecture" then
    designSecurityArchitecture input context
  else throw ("Unsupported task type: " +:+ toStr type).

End ArchitectrixAgent.

Module CodeConjurerAgent.
Import Agent.

Definition capabilities : list string :=
  ["code_writing"; "code_review"; "refactoring"; "debugging"; "testing"; "optimization";
   "documentation"; "best_practices"].

(** The constructor. *)
Definition new (q : SimpleMessageQueue.World) : t :=
  Agent.new "code_conjurer" "code_generation" capabilities q.

(** An element of a result's [deliverables]. *)
Definition deliverable (type : string) (content : JsVal) (format : string) : JsVal :=
  JObj [("type", JStr type); ("content", content); ("format", JStr format)].

(** [implementFeature(input, context)]; the helpers it calls return [{}]. *)
Definition implementFeature (input context : JsVal) : M JsVal :=
  let* feature := lift (getProp input "feature") in
  reportStep 20 "analyzing_feature" ;;
  reportStep 40 "implementing_backend" ;;
  reportStep 60 "implementing_frontend" ;;
  reportStep 80 "implementing_tests" ;;
  reportStep 90 "finalizing" ;;
  ret (jsObject
         [("feature", feature); ("backend", JObj []); ("frontend", JObj []);
          ("tests", JObj []); ("integration", JObj []);
          ("deliverables",
           JArr [deliverable "feature_implementation"
                   (JObj [("backend", JObj []); ("frontend", JObj [])]) "code_files";
                 deliverable "feature_tests" (JObj []) "test_code"])]).

(** [implementFrontend(input, context)] *)
Definition implementFrontend (input context : JsVal) : M JsVal :=
  let* requirements := lift (getProp input "requirements") in
  reportStep 25 "designing_components" ;;
  reportStep 50 "implementing_components" ;;
  reportStep 75 "implementing_state" ;;
  reportStep 90 "finalizing" ;;
  ret (JObj
         [("components", JObj []); ("stateManagement", JObj []); ("routing", JObj []);
          ("styling", JObj []);
          ("deliverables",
           JArr [deliverable "frontend_components" (JObj []) "code_files";
                 deliverable "state_management" (JObj []) "code_files"])]).

(** [implementBackend(input, context)] *)
Definition implementBackend (input context : JsVal) : M JsVal :=
  let* requirements := lift (getProp input "requirements") in
  reportStep 25 "designing_services" ;;
  reportStep 50 "implementing_services" ;;
  reportStep 75 "implementing_data_layer" ;;
  reportStep 90 "finalizing" ;;
  ret (JObj
         [("services", JObj []); ("dataLayer", JObj []); ("middleware", JObj []);
          ("validation", JObj []);
          ("deliverables",
           JArr [deliverable "backend_services" (JObj []) "code_files";
                 deliverable "data_layer" (JObj []) "code_files"])]).

(** [implementAPI(input, context)] *)
Definition implementAPI (input context : JsVal) : M JsVal :=
  let* apiSpec := lift (getProp input "apiSpec") in
  reportStep 25 "analyzing_api_spec" ;;
  reportStep 50 "implementing_endpoints" ;;
  reportStep 75 "implementing_validation" ;;
  reportStep 90 "finalizing" ;;
  ret (JObj
         [("endpoints", JObj []); ("validation", JObj []); ("middleware", JObj []);
          ("documentation", JObj []);
          ("deliverables",
           JArr [deliverable "api_endpoints" (JObj []) "code_files";
                 deliverable "api_documentation" (JObj []) "openapi_spec"])]).

Definition reviewCode (input context : JsVal) : M JsVal :=
  ret (JObj [("review", JStr "Code review placeholder")]).

Definition refactorCode (input context : JsVal) : M JsVal :=
  ret (JObj [("refactored", JStr "Refactored code placeholder")]).

Definition debugCode (input context : JsVal) : M JsVal :=
  ret (JObj [("debug", JStr "Debug results placeholder")]).

Definition implementTests (input context : JsVal) : M JsVal :=
  ret (JObj [("tests", JStr "Test implementation placeholder")]).

Definition optimizeCode (input context : JsVal) : M JsVal :=
  ret (JObj [("optimized", JStr "Optimized code placeholder")]).

(** [executeTask(task, context)], with the methods of four of its branches
    as parameters; what it catches it throws again. *)
Definition executeTaskWith
    (generateCode implementFrontend implementBackend implementAPI : JsVal -> JsVal -> M JsVal)
    (task context : JsVal) : M JsVal :=
  let* type := lift (getProp task "type") in
  let* input := lift (getProp task "input") in
  if strictEqStr type "code_generation" then generateCode input context
  else if strictEqStr type "code_implementation" then implementFeature input context
  else if strictEqStr type "code_review" then reviewCode input context
  else if strictEqStr type "refactoring" then refactorCode input context
  else if strictEqStr type "debugging" then debugCode input context
  else if strictEqStr type "testing" then implementTests input context
  else if strictEqStr type "optimization" then optimizeCode input context
  else if strictEqStr type "frontend_implementation" then implementFrontend input context
  else if strictEqStr type "backend_implementation" then implementBackend input context
  else if strictEqStr type "api_implementation" then implementAPI input context
  else throw ("Unsupported task type: " +:+ toStr type).

(** [executeTask] of the class; [generateCode], whose code templates are
    not modelled, stays a parameter. *)
Definition executeTask (generateCode : JsVal -> JsVal -> M JsVal) (task context : JsVal)
    : M JsVal :=
  executeTaskWith generateCode implementFrontend implementBackend implementAPI task context.

End CodeConjurerAgent.

(** The agent was constructed with this specialization and these
    capabilities, which no method assigns. *)
Definition instanceOf (specialization : string) (capabilities : list string) (a : Agent.t)
    : Prop :=
  BaseAgent.specialization (Agent.self a) = specialization /\
  BaseAgent.capabilities (Agent.self a) = capabilities.

(** Two versions of [executeTask] agree on every task that an agent with
    this specialization and these capabilities can handle. *)
Definition agreeOnAccepted (specialization : string) (capabilities : list string)
    (exec1 exec2 : JsVal -> JsVal -> Agent.M JsVal) : Prop :=
  forall (task context : JsVal) (taskTypeString : string) (s : Agent.t),
    getProp task "type" = Ok (JStr taskTypeString) ->
    BaseAgent.canHandleTask
      (BaseAgent.mk EmptyString specialization capabilities BaseAgent.initialMetrics)
      taskTypeString = true ->
    exec1 task context s = exec2 task context s.

(** A [task_assignment] as an agent receives it. *)
Definition sampleAssignment (taskType : string) (input : JsVal) : Message.t :=
  Message.mk "m1" 0 "task_assignment" "s1" "orchestrator" (One "code_conjurer")
    (JObj [("task", JObj [("id", JStr "t1"); ("type", JStr taskType); ("input", input)]);
           ("context", JStr "Complete the assigned task")])
    "t1" 5 300 "sent" None None.

(** An [executeTask] that returns [result] after five milliseconds. *)
Definition sampleExecute (result : JsVal) (task context : JsVal) : Agent.M JsVal :=
  fun a => (Ok result, Agent.advance 5 a).

(** The implementation task the orchestrator plans for Code Conjurer, and
    its assignment. *)
Definition samplePlannedTask : Task.t :=
  Task.mk "t7" "code_generation_implementation" "s1" "code_conjurer" (JStr "pending") 7
    (JObj [("requirements", JStr "a backend"); ("specialization", JStr "code_generation")])
    JUndefined 600000 0 JUndefined None None JUndefined JUndefined None None.

Definition samplePlannedAssignment : string * string * Message.t :=
  ("s1", "code_conjurer",
   Message.mk "m7" 0 "task_assignment" "s1" "orchestrator" (One "code_conjurer")
     (JObj [("task", Task.toJs samplePlannedTask);
            ("context", JStr "You are code_conjurer.")])
     "t7" 7 300 "sent" None None).

(** ** A2AService.js: sessions, their agents and who listens *)

(** The Redis channel [`a2a:${sessionId}:${agentId}`]. *)
Definition channelOf (sessionId agentId : string) : string :=
  "a2a:" +:+ sessionId +:+ ":" +:+ agentId.

(** The part of [s] after the first [sep], if [sep] occurs. *)
Fixpoint afterFirst (sep : ascii) (s : string) : option string :=
  match s with
  | EmptyString => None
  | String c s' => if Ascii.eqb c sep then Some s' else afterFirst sep s'
  end.

(** [s.split(sep)[1]]; [None] is [undefined]. *)
Definition splitSecond (sep : ascii) (s : string) : option string :=
  option_map (splitHead sep) (afterFirst sep s).

Module Service.

(** The listener of a subscription: the one [initialize] of the agent
    stored under [agentId] installs, which calls the agent's
    [handleMessage], or the one [registerAgent] of the orchestrator
    installs, which calls [handleAgentMessage(sessionId, agentId, _)]. *)
Inductive Listener : Type :=
| AgentListener (agentId : string)
| OrchestratorListener (sessionId agentId : string).

Record Subscription : Type := mkSubscription {
  channel : string;
  listener : Listener
}.

(** The service with the singletons it requires.  [agents] is the [Map] of
    the agent objects, one per class, shared by all sessions; a value of
    [activeAgents] is one of these objects and is named by its key in
    [agents]; [subscriptions] are those of the queue's subscriber
    connection; [queue] is the one lightweight queue, which the orchestrator
    and the agents use as well: their own [queue] members are set from it
    when one of their methods is called.  [delivered] is a ghost field:
    every message Redis has handed to a listener, with the listener. *)
Record t : Type := mk {
  orchestrator : AgentOrchestrator.t;
  agents : list (string * Agent.t);
  activeAgents : list (string * string);
  subscriptions : list Subscription;
  delivered : list (Listener * Message.t);
  queue : SimpleMessageQueue.World
}.

(** The constructor, with [initializeAgents()]. *)
Definition new (t0 : Z) : t :=
  let q := SimpleMessageQueue.initialWorld t0 in
  mk (AgentOrchestrator.new t0)
     [("architectrix", ArchitectrixAgent.new q); ("code_conjurer", CodeConjurerAgent.new q)]
     [] [] [] q.

(** [PUBLISH] hands a message to the listeners that are subscribed to its
    channel at that moment, and to no one else, then or later. *)
Definition route (subs : list Subscription) (news : list (string * string * Message.t))
    : list (Listener * Message.t) :=
  flat_map
    (fun p : string * string * Message.t =>
       map (fun sub => (listener sub, snd p))
           (List.filter
              (fun sub => String.eqb (channel sub) (channelOf (fst (fst p)) (snd (fst p))))
              subs))
    news.

(** The state after a method of a singleton has run on the queue and left
    it as [q']: what it published is routed. *)
Definition withQueue (q' : SimpleMessageQueue.World) (s : t) : t :=
  mk (orchestrator s) (agents s) (activeAgents s) (subscriptions s)
     (delivered s
      ++ route (subscriptions s)
           (drop (length (SimpleMessageQueue.published (queue s)))
                 (SimpleMessageQueue.published q')))
     q'.

(** A method of the orchestrator. *)
Definition onOrchestrator {A : Type} (m : AgentOrchestrator.M A) (s : t) : Result A * t :=
  let r := m (AgentOrchestrator.setQueue (queue s) (orchestrator s)) in
  (fst r,
   withQueue (AgentOrchestrator.queue (snd r))
     (mk (snd r) (agents s) (activeAgents s) (subscriptions s) (delivered s) (queue s))).

Fixpoint getAgent (agentId : string) (agents : list (string * Agent.t)) : option Agent.t :=
  match agents with
  | [] => None
  | (k, a) :: rest => if String.eqb k agentId then Some a else getAgent agentId rest
  end.

Fixpoint setAgent (agentId : string) (agent : Agent.t) (agents : list (string * Agent.t))
    : list (string * Agent.t) :=
  match agents with
  | [] => []
  | (k, a) :: rest =>
      if String.eqb k agentId then (k, agent) :: rest else (k, a) :: setAgent agentId agent rest
  end.

(** A method of the agent object [agent] that is stored under [agentId]. *)
Definition onAgent {A : Type} (agentId : string) (agent : Agent.t) (m : Agent.M A) (s : t)
    : Result A * t :=
  let r := m (Agent.setQueue (queue s) agent) in
  (fst r,
   withQueue (Agent.queue (snd r))
     (mk (orchestrator s) (setAgent agentId (snd r) (agents s)) (activeAgents s)
         (subscriptions s) (delivered s) (queue s))).

(** [subscriber.subscribe(channel, listener)] *)
Definition subscribe (sessionId agentId : string) (l : Listener) (s : t) : t :=
  mk (orchestrator s) (agents s) (activeAgents s)
     (subscriptions s ++ [mkSubscription (channelOf sessionId agentId) l])
     (delivered s) (queue s).

(** [this.activeAgents.set(key, agent)] *)
Fixpoint setActive (key agentId : string) (active : list (string * string))
    : list (string * string) :=
  match active with
  | [] => [(key, agentId)]
  | (k, a) :: rest =>
      if String.eqb k key then (k, agentId) :: rest else (k, a) :: setActive key agentId rest
  end.

(** The body of the loop of [activateAgentsForSession]: [initialize] of the
    agent subscribes the agent to its channel before it publishes its
    status; [registerAgent] subscribes the orchestrator to the same channel
    once the agent is known to it. *)
Definition activate (sessionId agentId : string) (s : t) : Result unit * t :=
  match getAgent agentId (agents s) with
  | None => (Ok tt, s)
  | Some agent =>
      let s :=
        subscribe sessionId (BaseAgent.id (Agent.self agent)) (AgentListener agentId) s in
      let s := snd (onAgent agentId agent (Agent.initialize sessionId) s) in
      match onOrchestrator (AgentOrchestrator.registerAgent sessionId agentId) s with
      | (Throw e, s) => (Throw e, s)
      | (Ok _, s) =>
          let s := subscribe sessionId agentId (OrchestratorListener sessionId agentId) s in
          (Ok tt,
           mk (orchestrator s) (agents s)
              (setActive (AgentOrchestrator.agentKey sessionId agentId) agentId
                 (activeAgents s))
              (subscriptions s) (delivered s) (queue s))
      end
  end.

(** [activateAgentsForSession(sessionId, workflow)] *)
Fixpoint activateAll (sessionId : string) (requiredAgents : list string) (s : t)
    : Result unit * t :=
  match requiredAgents with
  | [] => (Ok tt, s)
  | agentId :: rest =>
      match activate sessionId agentId s with
      | (Throw e, s) => (Throw e, s)
      | (Ok _, s) => activateAll sessionId rest s
      end
  end.

(** [startSession(sessionId, projectContext, userRequirement)]; its [catch]
    logs and rethrows. *)
Definition startSession (sessionId : string) (projectContext : JsVal)
    (userRequirement : string) (s : t) : Result Workflow.t * t :=
  match
    onOrchestrator
      (AgentOrchestrator.startSession sessionId projectContext userRequirement) s
  with
  | (Throw e, s) => (Throw e, s)
  | (Ok workflow, s) =>
      match
        activateAll sessionId
          (A2AService.determineRequiredAgents (map fst (agents s))
             (Workflow.userRequirement workflow))
          s
      with
      | (Throw e, s) => (Throw e, s)
      | (Ok _, s) => (Ok workflow, s)
      end
  end.

(** [sendMessageToAgent(sessionId, agentId, message)], where [message] has
    the members [type], [payload] and [priority]; [None] for [agentId] is
    [undefined]. *)
Definition sendMessageToAgent (sessionId : string) (agentId : option string)
    (type : string) (payload : JsVal) (priority : option Z) (s : t) : string * t :=
  let r :=
    SimpleMessageQueue.sendMessage
      (Envelope.mk type sessionId "user" (One (default "undefined" agentId)) payload None
         (Some (orNum priority 5)) None)
      (queue s) in
  (fst r, withQueue (snd r) s).

(** [broadcastMessage(sessionId, message)], returning the message ids. *)
Definition broadcastMessage (sessionId : string) (type : string) (payload : JsVal)
    (priority : option Z) (s : t) : list string * t :=
  let sessionAgents :=
    map (splitSecond ":")
        (List.filter (String.prefix sessionId) (map fst (activeAgents s))) in
  fold_left
    (fun (acc : list string * t) agentId =>
       let r := sendMessageToAgent sessionId agentId type payload priority (snd acc) in
       (fst acc ++ [fst r], snd r))
    sessionAgents ([], s).


End Service.

(** * Properties *)

(** ** Agent metrics *)

Lemma updateMetrics_after_success (rt : Q) (m : BaseAgent.Metrics) :
  0 <= BaseAgent.tasksCompleted m ->
  (BaseAgent.errorRate (BaseAgent.updateMetrics rt true m) == 0)%Q.
Proof.
  intros Hc. unfold BaseAgent.updateMetrics. cbn.
  replace (BaseAgent.tasksCompleted m + 1 + 0 - (BaseAgent.tasksCompleted m + 1)) with 0 by lia.
  unfold Qeq, Qdiv, Qmult, inject_Z. cbn. reflexivity.
Qed.

Lemma updateMetrics_after_failure (m : BaseAgent.Metrics) :
  0 <= BaseAgent.tasksCompleted m ->
  (BaseAgent.errorRate (BaseAgent.updateMetrics 0 false m) == 100 / inject_Z (BaseAgent.tasksCompleted m + 1))%Q.
Proof.
  intros Hc. unfold BaseAgent.updateMetrics. cbn.
  replace (BaseAgent.tasksCompleted m + 1 - BaseAgent.tasksCompleted m) with 1 by lia.
  field. unfold Qeq, inject_Z. cbn. lia.
Qed.

(** C4. After a failure followed by a success, [BaseAgent.updateMetrics] leaves
    [BaseAgent.errorRate] at 0, although one of the two recorded tasks failed: the
    rate the specification prescribes, errors / (completed + errors), is
    1/2 there. *)
Theorem updateMetrics_errorRate_forgets_failures :
  (BaseAgent.errorRate (BaseAgent.recordAll [BaseAgent.Failed; BaseAgent.Completed 10]) == 0)%Q /\
  (specErrorRate [BaseAgent.Failed; BaseAgent.Completed 10] == 1 # 2)%Q /\
  ~ (BaseAgent.errorRate (BaseAgent.recordAll [BaseAgent.Failed; BaseAgent.Completed 10]) == specErrorRate [BaseAgent.Failed; BaseAgent.Completed 10])%Q.
Proof.
  repeat split; try (vm_compute; reflexivity).
  intros H. vm_compute in H. discriminate H.
Qed.

(** ** Task routing *)

Lemma existsb_or_const {A : Type} (p : A -> bool) (b : bool) (l : list A) :
  l <> [] -> existsb (fun x => p x || b) l = existsb p l || b.
Proof.
  induction l as [|x l IH]; [congruence|]. intros _.
  destruct l as [|y l].
  - cbn. rewrite !orb_false_r. reflexivity.
  - change (existsb (fun x => p x || b) (x :: y :: l))
      with ((p x || b) || existsb (fun x => p x || b) (y :: l)).
    rewrite IH by congruence.
    change (existsb p (x :: y :: l)) with (p x || existsb p (y :: l)).
    destruct (p x), b, (existsb p (y :: l)); reflexivity.
Qed.

(** With at least one capability tag, [BaseAgent.canHandleTask] is the rule of the
    specification. *)
Lemma canHandleTask_spec_nonempty (a : BaseAgent.t) (taskType : string) :
  BaseAgent.capabilities a <> [] -> BaseAgent.canHandleTask a taskType = specCanHandleTask a taskType.
Proof.
  intros Hne. unfold BaseAgent.canHandleTask, specCanHandleTask.
  apply (existsb_or_const (fun cap => includes cap (splitHead "_" taskType))); assumption.
Qed.

(** The example of the specification. *)
Lemma canHandleTask_backend_rejects_frontend :
  BaseAgent.canHandleTask (BaseAgent.new "backend_developer" "backend_development" ["backend_development"])
                "frontend_implementation" = false.
Proof. reflexivity. Qed.

(** C7. An agent without capability tags cannot handle a task whose type
    contains its specialization: [BaseAgent.canHandleTask] answers [false] where the
    rule of the specification answers [true]. *)
Theorem canHandleTask_misses_specialization :
  BaseAgent.canHandleTask (BaseAgent.new "generalist" "backend" []) "backend_implementation" = false /\
  specCanHandleTask (BaseAgent.new "generalist" "backend" []) "backend_implementation" = true.
Proof. split; reflexivity. Qed.

(** ** Agent selection: session start against implementation planning *)

Lemma elem_setAdd (x y : string) (s : list string) :
  x ∈ setAdd y s <-> (x = y \/ x ∈ s).
Proof.
  unfold setAdd. case_bool_decide as Hin.
  - split; [auto | intros [->|]; assumption].
  - rewrite elem_of_app, list_elem_of_singleton. tauto.
Qed.

Lemma elem_selectAgents (has : string -> bool) (a : string) :
  a ∈ AgentOrchestrator.selectAgents has <->
    (a = "frontend_developer" /\ has "frontend" || has "ui" = true)
    \/ (a = "backend_developer" /\ has "backend" || has "api" = true)
    \/ (a = "api_architect" /\ has "api" || has "endpoints" = true)
    \/ (a = "technical_writer" /\ has "documentation" || has "docs" = true)
    \/ a = "code_conjurer".
Proof.
  unfold AgentOrchestrator.selectAgents.
  destruct (has "frontend" || has "ui"), (has "backend" || has "api"),
    (has "api" || has "endpoints"), (has "documentation" || has "docs");
    rewrite ?elem_setAdd, ?elem_of_nil; intuition congruence.
Qed.

Lemma elem_serviceAgents (agents : list string) (r a : string) :
  a ∈ A2AService.determineRequiredAgents agents r <->
    a ∈ agents /\
    (a = "architectrix"
     \/ (a = "code_conjurer"
         /\ includes (toLowerCase r) "code" || includes (toLowerCase r) "implement" = true)
     \/ (a = "frontend_developer"
         /\ includes (toLowerCase r) "frontend" || includes (toLowerCase r) "ui" = true)
     \/ (a = "backend_developer"
         /\ includes (toLowerCase r) "backend" || includes (toLowerCase r) "api" = true)
     \/ (a = "api_architect"
         /\ includes (toLowerCase r) "api" || includes (toLowerCase r) "endpoint" = true)
     \/ (a = "technical_writer"
         /\ includes (toLowerCase r) "documentation" || includes (toLowerCase r) "docs" = true)).
Proof.
  unfold A2AService.determineRequiredAgents.
  rewrite list_elem_of_In, filter_In, <- list_elem_of_In, bool_decide_eq_true.
  destruct (includes (toLowerCase r) "code" || includes (toLowerCase r) "implement"),
    (includes (toLowerCase r) "frontend" || includes (toLowerCase r) "ui"),
    (includes (toLowerCase r) "backend" || includes (toLowerCase r) "api"),
    (includes (toLowerCase r) "api" || includes (toLowerCase r) "endpoint"),
    (includes (toLowerCase r) "documentation" || includes (toLowerCase r) "docs");
    rewrite ?elem_setAdd, ?list_elem_of_singleton; intuition congruence.
Qed.

(** C5, as stated, fails: for the empty requirement the orchestrator derives
    code_conjurer alone and the session start architectrix alone. *)
Lemma determineRequiredAgents_differ :
  AgentOrchestrator.determineRequiredAgents (JStr "") JNull = Ok ["code_conjurer"] /\
  A2AService.determineRequiredAgents A2AService.initialAgents "" = ["architectrix"] /\
  ~ (forall a : string,
       a ∈ ["code_conjurer"] <->
       a ∈ A2AService.determineRequiredAgents A2AService.initialAgents "").
Proof.
  split; [reflexivity|]. split; [reflexivity|].
  intros H. specialize (H "code_conjurer").
  change (A2AService.determineRequiredAgents A2AService.initialAgents "")
    with ["architectrix"] in H.
  rewrite !list_elem_of_singleton in H.
  destruct H as [H _]. specialize (H eq_refl). discriminate H.
Qed.

(** C5, amended.  On the lower-cased requirement the two rules select
    frontend_developer, backend_developer and technical_writer under the same
    keywords, the session start keeping only agents that are implemented;
    code_conjurer is always derived for implementation, architectrix never,
    and the session start selects architectrix whenever it is implemented. *)
Theorem determineRequiredAgents_agree_on_keyword_agents
    (agents : list string) (r : string) (architecture : JsVal) :
  exists needed : list string,
    AgentOrchestrator.determineRequiredAgents (JStr (toLowerCase r)) architecture = Ok needed /\
    (forall a : string,
        a ∈ ["frontend_developer"; "backend_developer"; "technical_writer"] ->
        (a ∈ A2AService.determineRequiredAgents agents r <-> (a ∈ agents /\ a ∈ needed))) /\
    "code_conjurer" ∈ needed /\
    ("architectrix" ∉ needed) /\
    ("architectrix" ∈ A2AService.determineRequiredAgents agents r <-> "architectrix" ∈ agents).
Proof.
  eexists. split; [reflexivity|].
  split; [|split; [|split]].
  - intros a Ha. rewrite elem_serviceAgents, elem_selectAgents.
    rewrite !elem_of_cons, elem_of_nil in Ha.
    destruct Ha as [->|[->|[->|[]]]]; intuition (try congruence; auto 10).
  - rewrite elem_selectAgents. auto 10.
  - rewrite elem_selectAgents. intuition congruence.
  - rewrite elem_serviceAgents. tauto.
Qed.

(** A run of the amended C5 on a concrete requirement. *)
Lemma determineRequiredAgents_agree_example :
  "backend_developer" ∈ A2AService.determineRequiredAgents
       ["architectrix"; "code_conjurer"; "backend_developer"] "Build a REST API"
  <-> ("backend_developer" ∈ ["architectrix"; "code_conjurer"; "backend_developer"]
       /\ "backend_developer"
            ∈ ["frontend_developer"; "backend_developer"; "api_architect"; "code_conjurer"]).
Proof.
  destruct (determineRequiredAgents_agree_on_keyword_agents
              ["architectrix"; "code_conjurer"; "backend_developer"] "Build a REST API" JNull)
    as (needed & Hneeded & Hagree & _).
  vm_compute in Hneeded. injection Hneeded as <-.
  apply Hagree. rewrite !elem_of_cons. auto.
Defined.

(** ** Publishing *)

Lemma simple_fold_publishTo (m : Message.t) (rs : list string)
    (w : SimpleMessageQueue.World) :
  SimpleMessageQueue.published (fold_left (SimpleMessageQueue.publishTo m) rs w) =
  SimpleMessageQueue.published w ++ map (fun r => (Message.sessionId m, r, m)) rs.
Proof.
  revert w. induction rs as [|r rs IH]; intros w; cbn.
  - rewrite app_nil_r. reflexivity.
  - rewrite IH. cbn. rewrite <- app_assoc. reflexivity.
Qed.

Lemma orNum_nonzero (o : option Z) (d : Z) : d <> 0 -> orNum o d <> 0.
Proof. intros Hd. destruct o as [[| |]|]; cbn; congruence. Qed.

(** ** The durable queue on the client the package declares *)

Section DeclaredClient.
Import MessageQueue.
Context {Server : Type}.

Lemma sendMessage_nodeRedis (message : Envelope.t) (w : World Server) :
  sendMessage Redis.nodeRedis message w
  = (match recipientsOf (Envelope.toAgent message) with
     | [] => Ok (uuid_of (uuids w))
     | _ :: _ => Throw "this.redis.xadd is not a function"
     end,
     nextUuid w).
Proof.
  unfold sendMessage, bind, uuidv4, clock, tryCatch.
  destruct (recipientsOf (Envelope.toAgent message)) as [|r rs]; reflexivity.
Qed.

Lemma subscribeToMessages_nodeRedis (sessionId agentId : string) (h : MessageHandler)
    (w : World Server) :
  subscribeToMessages Redis.nodeRedis sessionId agentId h w
  = (Throw "this.redis.xgroup is not a function", w).
Proof. reflexivity. Qed.

Lemma consumer_nodeRedis (c : Consumer) (w : World Server) :
  consumer Redis.nodeRedis c w = (Ok tt, w).
Proof. reflexivity. Qed.

Lemma fireTimer_nodeRedis (t : Timer) (w : World Server) :
  fireTimer Redis.nodeRedis t w = (Throw "this.redis.xadd is not a function", w).
Proof. reflexivity. Qed.

Lemma retryMessage_nodeRedis (streamKey consumerGroup messageId : string)
    (messageData : Message.t) (w : World Server) :
  retryMessage Redis.nodeRedis streamKey consumerGroup messageId messageData w
  = (Ok tt,
     let retryCount := orNum (Message.retryCount messageData) 0 + 1 in
     if ltOpt retryCount (Message.maxRetries messageData) then
       setTimers
         (timers w ++ [mkTimer (now w + 2 ^ retryCount * 1000) streamKey consumerGroup
                               messageId (Message.setRetryCount retryCount messageData)]) w
     else w).
Proof.
  unfold retryMessage, tryCatch. cbv zeta.
  change (Message.maxRetries (Message.setRetryCount ?n ?x)) with (Message.maxRetries x).
  destruct (ltOpt _ _); reflexivity.
Qed.

Lemma handle_nodeRedis (w : World Server) (e : Event) :
  server (handle Redis.nodeRedis w e) = server w /\
  messageHandlers (handle Redis.nodeRedis w e) = messageHandlers w /\
  calls (handle Redis.nodeRedis w e) = calls w.
Proof.
  destruct e as [dt|message|sessionId agentId h|k g c|k g i m|i|i]; cbn [handle].
  - destruct (0 <=? dt); repeat split.
  - rewrite sendMessage_nodeRedis. repeat split.
  - rewrite subscribeToMessages_nodeRedis. repeat split.
  - repeat split.
  - rewrite retryMessage_nodeRedis. cbn [snd]. cbv zeta.
    destruct (ltOpt _ _); repeat split.
  - destruct (consumers w !! i); [rewrite consumer_nodeRedis|]; repeat split.
  - destruct (timers w !! i) as [t|]; [|repeat split].
    destruct (due t <=? now w); [rewrite fireTimer_nodeRedis|]; repeat split.
Qed.

Lemma run_nodeRedis (events : list Event) (w : World Server) :
  server (run Redis.nodeRedis events w) = server w /\
  messageHandlers (run Redis.nodeRedis events w) = messageHandlers w /\
  calls (run Redis.nodeRedis events w) = calls w.
Proof.
  revert w. induction events as [|e events IH]; intros w; [repeat split|].
  change (run Redis.nodeRedis (e :: events) w)
    with (run Redis.nodeRedis events (handle Redis.nodeRedis w e)).
  destruct (IH (handle Redis.nodeRedis w e)) as (-> & -> & ->).
  apply handle_nodeRedis.
Qed.

End DeclaredClient.

(** C9. In the lightweight queue [sendMessage] publishes the enriched message
    once per listed recipient, and that message never has priority 0: sent
    with the explicit priority 0 it is published with priority 5.  The
    durable queue builds the same priority 5, but on the client the package
    declares the message is not published: for a message with at least one
    recipient [sendMessage] throws at its first [xadd] and leaves Redis as it
    was. *)
Theorem sendMessage_priority_zero_durable_publishes_nothing :
  (forall (message : Envelope.t) (ws : SimpleMessageQueue.World),
      let m :=
        SimpleMessageQueue.enrich (uuid_of (SimpleMessageQueue.uuids ws))
                                  (SimpleMessageQueue.now ws) message in
      SimpleMessageQueue.published (snd (SimpleMessageQueue.sendMessage message ws))
      = SimpleMessageQueue.published ws
        ++ map (fun recipient => (Envelope.sessionId message, recipient, m))
               (recipientsOf (Envelope.toAgent message)) /\
      Message.priority m <> 0 /\
      (Envelope.priority message = Some 0 -> Message.priority m = 5)) /\
  (forall (Server : Type) (message : Envelope.t) (w : MessageQueue.World Server),
      Envelope.priority message = Some 0 ->
      recipientsOf (Envelope.toAgent message) <> [] ->
      Message.priority
        (MessageQueue.enrich (uuid_of (MessageQueue.uuids w)) (MessageQueue.now w) message) = 5 /\
      MessageQueue.sendMessage Redis.nodeRedis message w
      = (Throw "this.redis.xadd is not a function", MessageQueue.nextUuid w) /\
      MessageQueue.server (snd (MessageQueue.sendMessage Redis.nodeRedis message w))
      = MessageQueue.server w).
Proof.
  split.
  - intros message ws m. split; [|split].
    + unfold SimpleMessageQueue.sendMessage. cbn [snd].
      rewrite simple_fold_publishTo. reflexivity.
    + cbn. apply orNum_nonzero. discriminate.
    + intros Hp. cbn. rewrite Hp. reflexivity.
  - intros Server message w Hp Hne. split; [cbn; rewrite Hp; reflexivity|].
    rewrite sendMessage_nodeRedis.
    destruct (recipientsOf (Envelope.toAgent message)); [congruence|]. split; reflexivity.
Qed.

(** A concrete run of C9: the sample message, sent with priority 0, is
    published with priority 5 on the channel of its recipient by the
    lightweight queue, and not at all by the durable queue. *)
Lemma sendMessage_priority_zero_example :
  (exists m : Message.t,
      SimpleMessageQueue.published
        (snd (SimpleMessageQueue.sendMessage sampleEnvelope (SimpleMessageQueue.initialWorld 0)))
      = [("s1", "architectrix", m)] /\
      Message.priority m = 5) /\
  MessageQueue.sendMessage Redis.nodeRedis sampleEnvelope (MessageQueue.initialWorld 0 tt)
  = (Throw "this.redis.xadd is not a function",
     MessageQueue.nextUuid (MessageQueue.initialWorld 0 tt)).
Proof.
  split.
  - destruct (proj1 sendMessage_priority_zero_durable_publishes_nothing
                sampleEnvelope (SimpleMessageQueue.initialWorld 0)) as (Hpub & _ & Hfive).
    eexists. split; [exact Hpub|]. apply Hfive. reflexivity.
  - apply (proj2 sendMessage_priority_zero_durable_publishes_nothing unit sampleEnvelope
             (MessageQueue.initialWorld 0 tt)); [reflexivity|discriminate].
Defined.

(** ** Expiry *)

(** C2. In the lightweight queue a message delivered later than [ttl]
    seconds after its timestamp never reaches the handler: the callback
    returns and nothing has changed.  In the durable queue, on the client
    the package declares, nothing is acknowledged: a run of a consumer
    closure throws at its read, catches that and changes nothing, whatever
    the instant; the sample message (ttl 60 s) cannot even be published, and
    at instant 61000 its recipient's consumer has read nothing, invoked no
    handler and left Redis as it was. *)
Theorem expired_message_is_dropped_without_acknowledgement :
  (forall (handler : option Handler) (m : Message.t) (ws : SimpleMessageQueue.World),
      1000 * Message.ttl m < SimpleMessageQueue.now ws - Message.timestamp m ->
      SimpleMessageQueue.onMessage handler m ws = ws) /\
  (forall (Server : Type) (c : MessageQueue.Consumer) (w : MessageQueue.World Server),
      MessageQueue.consumer Redis.nodeRedis c w = (Ok tt, w)) /\
  (forall (Server : Type) (s : Server),
      let w :=
        MessageQueue.run Redis.nodeRedis
          [MessageQueue.SendMessage sampleEnvelope;
           MessageQueue.ConsumeMessages "a2a:s1:architectrix" "architectrix_group"
                                        "architectrix_0";
           MessageQueue.Tick 61000;
           MessageQueue.Consume 0]
          (MessageQueue.initialWorld 0 s) in
      MessageQueue.now w = 61000 /\
      MessageQueue.calls w = [] /\
      MessageQueue.timers w = [] /\
      MessageQueue.server w = s).
Proof.
  split; [|split].
  - intros handler m ws Hold. unfold SimpleMessageQueue.onMessage.
    assert (Hexp : expired (SimpleMessageQueue.now ws) m = true).
    { unfold expired. apply Z.ltb_lt. exact Hold. }
    rewrite Hexp. reflexivity.
  - intros Server c w. apply consumer_nodeRedis.
  - intros Server s. repeat split.
Qed.

(** A concrete run of C2: the sample message (ttl 60 s, stamped 0) delivered
    by the lightweight queue at instant 61000 ms. *)
Lemma expired_message_example :
  SimpleMessageQueue.onMessage (Some failingHandler) sampleMessage
    (SimpleMessageQueue.mkWorld 61000 1 [] ∅ [])
  = SimpleMessageQueue.mkWorld 61000 1 [] ∅ [].
Proof.
  apply (proj1 expired_message_is_dropped_without_acknowledgement). vm_compute. reflexivity.
Defined.

(** ** Retry *)

(** C8. When [retryMessage] is called for a message whose retries are not
    used up, it schedules one re-publication on the same stream, of a copy
    whose [retryCount] is one more than the message's and whose other fields
    are the message's.  On the client the package declares the copy is never
    published: when the timer fires, its callback throws at [xadd], and
    neither writes to Redis nor acknowledges the failed delivery. *)
Theorem retry_copy_is_never_published
    (Server : Type) (w : MessageQueue.World Server)
    (streamKey consumerGroup messageId : string) (messageData : Message.t) :
  ltOpt (orNum (Message.retryCount messageData) 0 + 1) (Message.maxRetries messageData) = true ->
  exists t : MessageQueue.Timer,
    MessageQueue.retryMessage Redis.nodeRedis streamKey consumerGroup messageId messageData w
    = (Ok tt, MessageQueue.setTimers (MessageQueue.timers w ++ [t]) w) /\
    MessageQueue.t_streamKey t = streamKey /\
    MessageQueue.due t
    = MessageQueue.now w + 2 ^ (orNum (Message.retryCount messageData) 0 + 1) * 1000 /\
    (let m := messageData in
     let m' := MessageQueue.t_messageData t in
     Message.retryCount m' = Some (orNum (Message.retryCount m) 0 + 1) /\
     (forall k : Z, Message.retryCount m = Some k -> Message.retryCount m' = Some (k + 1)) /\
     Message.id m' = Message.id m /\
     Message.timestamp m' = Message.timestamp m /\
     Message.type m' = Message.type m /\
     Message.sessionId m' = Message.sessionId m /\
     Message.fromAgent m' = Message.fromAgent m /\
     Message.toAgent m' = Message.toAgent m /\
     Message.payload m' = Message.payload m /\
     Message.correlationId m' = Message.correlationId m /\
     Message.priority m' = Message.priority m /\
     Message.ttl m' = Message.ttl m /\
     Message.status m' = Message.status m /\
     Message.maxRetries m' = Message.maxRetries m) /\
    forall w2 : MessageQueue.World Server,
      MessageQueue.fireTimer Redis.nodeRedis t w2
      = (Throw "this.redis.xadd is not a function", w2).
Proof.
  intros Hleft. rewrite retryMessage_nodeRedis. cbv zeta. rewrite Hleft.
  eexists. split; [reflexivity|]. split; [reflexivity|]. split; [reflexivity|].
  split; [|intros w2; apply fireTimer_nodeRedis].
  cbn. repeat split. intros k Hk. rewrite Hk. destruct k; reflexivity.
Qed.

(** A concrete run of C8: the sample message after its first failure; the
    timer is due two seconds later and publishes nothing. *)
Lemma retry_copy_example :
  exists t : MessageQueue.Timer,
    MessageQueue.timers
      (snd (MessageQueue.retryMessage Redis.nodeRedis "a2a:s1:architectrix"
              "architectrix_group" "0-1" sampleMessage (MessageQueue.initialWorld 0 tt)))
    = [t] /\
    MessageQueue.due t = 2000 /\
    Message.retryCount (MessageQueue.t_messageData t) = Some 1 /\
    Message.payload (MessageQueue.t_messageData t) = Message.payload sampleMessage /\
    MessageQueue.fireTimer Redis.nodeRedis t (MessageQueue.initialWorld 2000 tt)
    = (Throw "this.redis.xadd is not a function", MessageQueue.initialWorld 2000 tt).
Proof.
  destruct (retry_copy_is_never_published unit (MessageQueue.initialWorld 0 tt)
              "a2a:s1:architectrix" "architectrix_group" "0-1" sampleMessage eq_refl)
    as (t & Hrun & _ & Hdue & (Hcount & _ & _ & _ & _ & _ & _ & _ & Hpayload & _) & Hfire).
  exists t. rewrite Hrun. split; [reflexivity|]. split; [exact Hdue|].
  split; [exact Hcount|]. split; [exact Hpayload|]. apply Hfire.
Defined.

(** ** Dead-lettering *)

(** C1. On the client the package declares no message is ever dead-lettered.
    The sample message cannot be published and a handler for its recipient
    cannot be subscribed: both calls throw.  [retryMessage], called for the
    message after its third failure, throws at the [xadd] of the dead
    letter, catches that and returns: nothing is written, nothing
    acknowledged, nothing scheduled.  And however the queue is used from its
    start, Redis is left as it was and no handler is invoked. *)
Theorem failed_message_is_never_dead_lettered :
  forall (Server : Type) (s : Server),
    let w0 := MessageQueue.initialWorld 0 s in
    MessageQueue.sendMessage Redis.nodeRedis sampleEnvelope w0
    = (Throw "this.redis.xadd is not a function", MessageQueue.nextUuid w0) /\
    MessageQueue.subscribeToMessages Redis.nodeRedis "s1" "architectrix" rejectingHandler w0
    = (Throw "this.redis.xgroup is not a function", w0) /\
    (forall w : MessageQueue.World Server,
        MessageQueue.retryMessage Redis.nodeRedis "a2a:s1:architectrix" "architectrix_group"
          "0-1" (Message.setRetryCount 2 sampleMessage) w
        = (Ok tt, w)) /\
    forall events : list MessageQueue.Event,
      MessageQueue.server (MessageQueue.run Redis.nodeRedis events w0) = s /\
      MessageQueue.calls (MessageQueue.run Redis.nodeRedis events w0) = [].
Proof.
  intros Server s w0. split; [reflexivity|]. split; [reflexivity|]. split.
  - intros w. rewrite retryMessage_nodeRedis. reflexivity.
  - intros events. destruct (run_nodeRedis events w0) as (Hs & _ & Hc).
    split; assumption.
Qed.

(** ** The orchestrator: reassignment after a critical error *)

Section Reassignment.
Import AgentOrchestrator.

Lemma strictEqStr_true (v : JsVal) (s : string) : strictEqStr v s = true <-> v = JStr s.
Proof.
  destruct v; cbn; try (split; [discriminate|intros [=]]).
  rewrite String.eqb_eq. split; [intros ->; reflexivity|intros [= ->]; reflexivity].
Qed.

Lemma find_hasId_valid (h : list Task.t) (taskId : JsVal) (refs : list nat) (ref : nat) :
  List.find (hasId h taskId) refs = Some ref ->
  ref ∈ refs /\ exists k, h !! ref = Some k /\ taskId = JStr (Task.id k).
Proof.
  intros Hfind. apply find_some in Hfind as [Hin Hid].
  split; [apply list_elem_of_In, Hin|].
  unfold hasId in Hid. destruct (h !! ref) as [k|]; [|discriminate].
  exists k. split; [reflexivity|]. apply strictEqStr_true, Hid.
Qed.

Lemma reassignTask_found (sessionId : string) (taskId : JsVal) (failedAgent : string)
    (o : t) (workflow : Workflow.t) (ref : nat) (task : Task.t) (c : Capability)
    (replacementAgent : string) :
  sessionWorkflows o !! sessionId = Some workflow ->
  List.find (hasId (heap o) taskId) (Workflow.activeTasks workflow) = Some ref ->
  heap o !! ref = Some task ->
  getCapability failedAgent (agentCapabilities o) = Some c ->
  findReplacementAgent (agentCapabilities o) (specialization c) failedAgent
    = Some replacementAgent ->
  replacementAgent <> "" ->
  reassignTask sessionId taskId failedAgent o
  = (Ok tt, reassigned sessionId ref task workflow failedAgent replacementAgent o).
Proof.
  intros Hwf Hfind Htask Hcap Hrep Hne.
  unfold reassignTask, bind, readWorkflow, get. rewrite Hwf, Hfind, Hcap, Hrep.
  assert (truthy (JStr replacementAgent) = true) as ->.
  { destruct replacementAgent; [congruence|reflexivity]. }
  unfold clock, modifyTask. rewrite Htask.
  unfold assignTaskToAgent, bind, updWorkflow. cbn [sessionWorkflows setHeap].
  rewrite Hwf. unfold readTask. cbn [heap setWorkflows setHeap].
  rewrite list_lookup_insert_eq by (apply lookup_lt_Some in Htask; exact Htask).
  cbn [sessionWorkflows setWorkflows]. rewrite lookup_insert_eq.
  reflexivity.
Qed.

(** [handleAgentMessage] on an existing workflow: the agent is touched, the
    message is pushed on the history, and the handler for the message type
    runs under the [catch]. *)
Lemma handleAgentMessage_dispatch (sessionId agentId : string) (message : Message.t)
    (o : t) (workflow : Workflow.t) :
  sessionWorkflows o !! sessionId = Some workflow ->
  exists o1 : t,
    handleAgentMessage sessionId agentId message o
    = tryCatch (dispatch sessionId agentId message) (fun _ => ret tt) o1 /\
    heap o1 = heap o /\ queue o1 = queue o /\
    agentCapabilities o1 = agentCapabilities o /\
    sessionWorkflows o1
    = <[sessionId := Workflow.pushHistory message (SimpleMessageQueue.now (queue o)) workflow]>
        (sessionWorkflows o).
Proof.
  intros Hwf. unfold handleAgentMessage, tryCatch, bind, get. rewrite Hwf.
  unfold touchAgent, bind, clock, modify, updWorkflow.
  destruct (activeAgents o !! agentKey sessionId agentId) as [a|];
    cbn [sessionWorkflows setAgents queue]; rewrite Hwf;
    eexists; (split; [reflexivity|]); cbn; auto.
Qed.

Lemma getProp_Ok_any (v x : JsVal) (k k' : string) :
  getProp v k = Ok x -> exists y, getProp v k' = Ok y.
Proof. destruct v; cbn; try discriminate; eauto. Qed.

Lemma handleAgentMessage_critical (sessionId agentId : string) (message : Message.t)
    (o : t) (workflow : Workflow.t) (taskId : JsVal) (ref : nat) (task : Task.t)
    (c : Capability) (replacementAgent : string) :
  sessionWorkflows o !! sessionId = Some workflow ->
  Message.type message = "error_report" ->
  getProp (Message.payload message) "taskId" = Ok taskId ->
  getProp (Message.payload message) "severity" = Ok (JStr "critical") ->
  List.find (hasId (heap o) taskId) (Workflow.activeTasks workflow) = Some ref ->
  heap o !! ref = Some task ->
  getCapability agentId (agentCapabilities o) = Some c ->
  findReplacementAgent (agentCapabilities o) (specialization c) agentId
    = Some replacementAgent ->
  replacementAgent <> "" ->
  exists (o1 : t) (workflow1 : Workflow.t),
    snd (handleAgentMessage sessionId agentId message o)
    = reassigned sessionId ref task workflow1 agentId replacementAgent o1 /\
    heap o1 = heap o /\ queue o1 = queue o /\
    Workflow.activeTasks workflow1 = Workflow.activeTasks workflow /\
    Workflow.completedTasks workflow1 = Workflow.completedTasks workflow.
Proof.
  intros Hwf Htype Hid Hsev Hfind Htask Hcap Hrep Hne.
  destruct (handleAgentMessage_dispatch sessionId agentId message o workflow Hwf)
    as (o1 & -> & Hheap & Hqueue & Hcaps & Hws).
  exists o1, (Workflow.pushHistory message (SimpleMessageQueue.now (queue o)) workflow).
  split; [|auto].
  unfold tryCatch, dispatch. rewrite Htype. cbn [String.eqb Ascii.eqb Bool.eqb].
  unfold handleAgentError, bind, lift.
  destruct (getProp_Ok_any _ _ _ "error" Hid) as [err ->].
  rewrite Hid, Hsev. cbn [strictEqStr String.eqb Ascii.eqb Bool.eqb].
  rewrite (reassignTask_found sessionId taskId agentId o1
             (Workflow.pushHistory message (SimpleMessageQueue.now (queue o)) workflow)
             ref task c replacementAgent);
    rewrite ?Hws, ?Hheap, ?Hcaps, ?lookup_insert_eq; auto.
Qed.

(** What [findReplacementAgent] returns is the first agent of the registry,
    other than the excluded one, with the given specialization. *)
Lemma findReplacementAgent_first (caps : list (string * Capability))
    (spec excludeAgent replacementAgent : string) :
  findReplacementAgent caps spec excludeAgent = Some replacementAgent ->
  exists before c after,
    caps = before ++ (replacementAgent, c) :: after /\
    replacementAgent <> excludeAgent /\
    specialization c = spec /\
    Forall (fun ac => fst ac = excludeAgent \/ specialization (snd ac) <> spec) before.
Proof.
  induction caps as [|[a c] caps IH]; cbn; [discriminate|].
  destruct (String.eqb_spec a excludeAgent) as [->|Hne]; cbn.
  - intros H. destruct (IH H) as (before & c' & after & -> & ? & ? & ?).
    exists ((excludeAgent, c) :: before), c', after. repeat split; auto.
  - destruct (String.eqb_spec (specialization c) spec) as [Hs|Hs].
    + intros [= <-]. exists [], c, caps. repeat split; auto.
    + intros H. destruct (IH H) as (before & c' & after & -> & ? & ? & ?).
      exists ((a, c) :: before), c', after. repeat split; auto.
Qed.


End Reassignment.



(** C10. The same reassignment leaves the task twice on the workflow's
    active list: the entry that was there and the one [assignTaskToAgent]
    pushes.  No task object is created, yet [getWorkflowStatus] counts one
    more active task and one more task in total. *)
Theorem critical_reassignment_duplicates_active_task
    (sessionId A : string) (message : Message.t) (o : AgentOrchestrator.t)
    (workflow : Workflow.t) (taskId : JsVal) (ref : nat) (task : Task.t)
    (c : AgentOrchestrator.Capability) (B : string) :
  AgentOrchestrator.sessionWorkflows o !! sessionId = Some workflow ->
  Message.type message = "error_report" ->
  getProp (Message.payload message) "taskId" = Ok taskId ->
  getProp (Message.payload message) "severity" = Ok (JStr "critical") ->
  List.find (AgentOrchestrator.hasId (AgentOrchestrator.heap o) taskId)
            (Workflow.activeTasks workflow) = Some ref ->
  AgentOrchestrator.heap o !! ref = Some task ->
  AgentOrchestrator.getCapability A (AgentOrchestrator.agentCapabilities o) = Some c ->
  AgentOrchestrator.findReplacementAgent (AgentOrchestrator.agentCapabilities o)
    (AgentOrchestrator.specialization c) A = Some B ->
  B <> "" ->
  let o' := snd (AgentOrchestrator.handleAgentMessage sessionId A message o) in
  exists (workflow' : Workflow.t) (before after : AgentOrchestrator.WorkflowStatus),
    AgentOrchestrator.sessionWorkflows o' !! sessionId = Some workflow' /\
    ref ∈ Workflow.activeTasks workflow /\
    Workflow.activeTasks workflow' = Workflow.activeTasks workflow ++ [ref] /\
    Workflow.completedTasks workflow' = Workflow.completedTasks workflow /\
    length (AgentOrchestrator.heap o') = length (AgentOrchestrator.heap o) /\
    AgentOrchestrator.getWorkflowStatus sessionId o = Some before /\
    AgentOrchestrator.getWorkflowStatus sessionId o' = Some after /\
    AgentOrchestrator.active after = S (AgentOrchestrator.active before) /\
    AgentOrchestrator.total after = S (AgentOrchestrator.total before) /\
    AgentOrchestrator.completed after = AgentOrchestrator.completed before.
Proof.
  intros Hwf Htype Hid Hsev Hfind Htask Hcap Hrep Hne o'.
  destruct (handleAgentMessage_critical sessionId A message o workflow taskId ref task c B
              Hwf Htype Hid Hsev Hfind Htask Hcap Hrep Hne)
    as (o1 & workflow1 & Ho' & Hheap & Hqueue & Hact & Hcomp).
  subst o'. rewrite Ho'. unfold reassigned, AgentOrchestrator.getWorkflowStatus.
  cbn [AgentOrchestrator.sessionWorkflows AgentOrchestrator.heap AgentOrchestrator.queue
       AgentOrchestrator.setQueue AgentOrchestrator.setWorkflows AgentOrchestrator.setHeap].
  rewrite Hwf, !lookup_insert_eq.
  eexists. eexists. eexists.
  split; [reflexivity|].
  split; [apply (find_hasId_valid _ _ _ _ Hfind)|].
  split; [cbn; rewrite Hact; reflexivity|].
  split; [cbn; exact Hcomp|].
  split; [rewrite length_insert, Hheap; reflexivity|].
  split; [reflexivity|]. split; [reflexivity|].
  cbn. rewrite Hact, Hcomp, !length_app. cbn. repeat split; lia.
Qed.

(** A concrete run of C10 on the sample orchestrator. *)
Lemma critical_reassignment_example :
  exists (workflow' : Workflow.t) (before after : AgentOrchestrator.WorkflowStatus),
    AgentOrchestrator.sessionWorkflows
      (snd (AgentOrchestrator.handleAgentMessage "s1" "backend_developer" criticalError
              sampleOrchestrator)) !! "s1" = Some workflow' /\
    0%nat ∈ Workflow.activeTasks sampleWorkflow /\
    Workflow.activeTasks workflow' = Workflow.activeTasks sampleWorkflow ++ [0%nat] /\
    Workflow.completedTasks workflow' = Workflow.completedTasks sampleWorkflow /\
    length (AgentOrchestrator.heap
              (snd (AgentOrchestrator.handleAgentMessage "s1" "backend_developer"
                      criticalError sampleOrchestrator)))
    = length (AgentOrchestrator.heap sampleOrchestrator) /\
    AgentOrchestrator.getWorkflowStatus "s1" sampleOrchestrator = Some before /\
    AgentOrchestrator.getWorkflowStatus "s1"
      (snd (AgentOrchestrator.handleAgentMessage "s1" "backend_developer" criticalError
              sampleOrchestrator)) = Some after /\
    AgentOrchestrator.active after = S (AgentOrchestrator.active before) /\
    AgentOrchestrator.total after = S (AgentOrchestrator.total before) /\
    AgentOrchestrator.completed after = AgentOrchestrator.completed before.
Proof.
  refine (critical_reassignment_duplicates_active_task "s1" "backend_developer" criticalError
            sampleOrchestrator sampleWorkflow (JStr "t1") 0%nat sampleTask
            (AgentOrchestrator.mkCapability "backend_development" ["server_logic"]
               ["gpt-4"] 4 12000)
            "backend_developer_2" _ _ _ _ _ _ _ _ _);
    try (vm_compute; reflexivity).
  discriminate.
Defined.

(** ** The orchestrator: phases only move forward *)

Section HoareRules.
Import AgentOrchestrator.
Context {A B : Type}.

Lemma hoare_ret (P : t -> Prop) (a : A) (Q : A -> t -> Prop) (E : t -> Prop) :
  (forall o, P o -> Q a o) -> hoare P (ret a) Q E.
Proof. intros H o Ho. cbn. auto. Qed.

Lemma hoare_throw (P : t -> Prop) (e : string) (Q : A -> t -> Prop) (E : t -> Prop) :
  (forall o, P o -> E o) -> hoare P (throw e) Q E.
Proof. intros H o Ho. cbn. auto. Qed.

Lemma hoare_lift (P : t -> Prop) (r : Result A) (Q : A -> t -> Prop) (E : t -> Prop) :
  (forall a, r = Ok a -> forall o, P o -> Q a o) ->
  (forall o, P o -> E o) ->
  hoare P (lift r) Q E.
Proof. intros HQ HE o Ho. unfold lift. destruct r; eauto. Qed.

Lemma hoare_bind (P : t -> Prop) (m : M A) (f : A -> M B) (R : A -> t -> Prop)
    (Q : B -> t -> Prop) (E : t -> Prop) :
  hoare P m R E -> (forall a, hoare (R a) (f a) Q E) -> hoare P (bind m f) Q E.
Proof.
  intros Hm Hf o Ho. unfold bind. specialize (Hm o Ho).
  destruct (m o) as [[a|e] o']; [apply Hf, Hm|exact Hm].
Qed.

Lemma hoare_conseq (P P' : t -> Prop) (m : M A) (Q Q' : A -> t -> Prop) (E E' : t -> Prop) :
  hoare P' m Q' E' ->
  (forall o, P o -> P' o) -> (forall a o, Q' a o -> Q a o) -> (forall o, E' o -> E o) ->
  hoare P m Q E.
Proof.
  intros Hm HP HQ HE o Ho. specialize (Hm o (HP o Ho)).
  destruct (m o) as [[a|e] o']; auto.
Qed.

Lemma hoare_tryCatch (P : t -> Prop) (m : M A) (h : string -> M A)
    (Q : A -> t -> Prop) (E E' : t -> Prop) :
  hoare P m Q E' -> (forall e, hoare E' (h e) Q E) -> hoare P (tryCatch m h) Q E.
Proof.
  intros Hm Hh o Ho. unfold tryCatch. specialize (Hm o Ho).
  destruct (m o) as [[a|e] o']; [exact Hm|apply Hh, Hm].
Qed.

End HoareRules.

Lemma hoare_get (P : AgentOrchestrator.t -> Prop) (E : AgentOrchestrator.t -> Prop) :
  hoare P AgentOrchestrator.get (fun o' o => o' = o /\ P o) E.
Proof. intros o Ho. cbn. auto. Qed.

Lemma hoare_modify (P Q : AgentOrchestrator.t -> Prop)
    (f : AgentOrchestrator.t -> AgentOrchestrator.t) (E : AgentOrchestrator.t -> Prop) :
  (forall o, P o -> Q (f o)) -> hoare P (AgentOrchestrator.modify f) (fun _ => Q) E.
Proof. intros H o Ho. cbn. auto. Qed.

Section HoareSteps.
Import AgentOrchestrator.
Context {A B : Type}.

Lemma hoare_bind_lift (P : t -> Prop) (r : Result A) (f : A -> M B)
    (Q : B -> t -> Prop) (E : t -> Prop) :
  (forall a, r = Ok a -> hoare P (f a) Q E) ->
  (forall o, P o -> E o) ->
  hoare P (bind (lift r) f) Q E.
Proof.
  intros Hf HE o Ho. unfold bind, lift. destruct r as [a|e]; [apply (Hf a eq_refl), Ho|auto].
Qed.

Lemma hoare_bind_step (P P' : t -> Prop) (m : M A) (f : A -> M B)
    (Q : B -> t -> Prop) (E : t -> Prop) :
  hoare P m (fun _ => P') E -> (forall a, hoare P' (f a) Q E) -> hoare P (bind m f) Q E.
Proof. intros Hm Hf. apply hoare_bind with (R := fun _ => P'); assumption. Qed.

End HoareSteps.

Section Primitives.
Import AgentOrchestrator.

Lemma hoare_bind_get {B : Type} (P : t -> Prop) (f : t -> M B)
    (Q : B -> t -> Prop) (E : t -> Prop) :
  (forall o0, hoare (fun o => o = o0 /\ P o) (f o0) Q E) -> hoare P (bind get f) Q E.
Proof. intros Hf o Ho. unfold bind, get. apply (Hf o). auto. Qed.

Lemma hoare_uuidv4 (P : t -> Prop) (E : t -> Prop) :
  queueFree P -> hoare P uuidv4 (fun _ => P) E.
Proof. intros HP o Ho. cbn. apply HP, Ho. Qed.

Lemma hoare_clock (P : t -> Prop) (E : t -> Prop) : hoare P clock (fun _ => P) E.
Proof. intros o Ho. cbn. exact Ho. Qed.

Lemma hoare_sendMessage (P : t -> Prop) (message : Envelope.t) (E : t -> Prop) :
  queueFree P -> hoare P (sendMessage message) (fun _ => P) E.
Proof. intros HP o Ho. cbn. apply HP, Ho. Qed.

Lemma hoare_alloc (P : t -> Prop) (k : Task.t) (Q : nat -> t -> Prop) (E : t -> Prop) :
  (forall o, P o -> Q (length (heap o)) (setHeap (heap o ++ [k]) o)) ->
  hoare P (alloc k) Q E.
Proof. intros H o Ho. cbn. auto. Qed.

Lemma hoare_readTask (P : t -> Prop) (ref : nat) (Q : Task.t -> t -> Prop) (E : t -> Prop) :
  (forall o k, P o -> heap o !! ref = Some k -> Q k o) ->
  (forall o, P o -> E o) ->
  hoare P (readTask ref) Q E.
Proof. intros HQ HE o Ho. unfold readTask. destruct (heap o !! ref) eqn:Hl; eauto. Qed.

Lemma hoare_modifyTask (P : t -> Prop) (ref : nat) (f : Task.t -> Task.t)
    (Q : t -> Prop) (E : t -> Prop) :
  (forall o k, P o -> heap o !! ref = Some k -> Q (setHeap (<[ref := f k]> (heap o)) o)) ->
  (forall o, P o -> E o) ->
  hoare P (modifyTask ref f) (fun _ => Q) E.
Proof. intros HQ HE o Ho. unfold modifyTask. destruct (heap o !! ref) eqn:Hl; eauto. Qed.

Lemma hoare_readWorkflow (P : t -> Prop) (sessionId : string)
    (Q : Workflow.t -> t -> Prop) (E : t -> Prop) :
  (forall o w, P o -> sessionWorkflows o !! sessionId = Some w -> Q w o) ->
  (forall o, P o -> E o) ->
  hoare P (readWorkflow sessionId) Q E.
Proof.
  intros HQ HE o Ho. unfold readWorkflow.
  destruct (sessionWorkflows o !! sessionId) eqn:Hl; eauto.
Qed.

Lemma hoare_updWorkflow (P : t -> Prop) (sessionId : string) (f : Workflow.t -> Workflow.t)
    (Q : t -> Prop) (E : t -> Prop) :
  (forall o w, P o -> sessionWorkflows o !! sessionId = Some w ->
               Q (setWorkflows (<[sessionId := f w]> (sessionWorkflows o)) o)) ->
  (forall o, P o -> E o) ->
  hoare P (updWorkflow sessionId f) (fun _ => Q) E.
Proof.
  intros HQ HE o Ho. unfold updWorkflow.
  destruct (sessionWorkflows o !! sessionId) eqn:Hl; eauto.
Qed.

End Primitives.

(** *** The invariant under the elementary updates *)

Lemma analysisCount_ext (h h' : list Task.t) (refs : list nat) :
  Forall (fun ref => analysisRef h' ref = analysisRef h ref) refs ->
  analysisCount h' refs = analysisCount h refs.
Proof.
  unfold analysisCount. induction 1 as [|ref refs Href _ IH]; [reflexivity|].
  cbn. rewrite Href. destruct (analysisRef h ref); cbn; rewrite IH; reflexivity.
Qed.

Lemma analysisCount_app (h : list Task.t) (l1 l2 : list nat) :
  analysisCount h (l1 ++ l2) = (analysisCount h l1 + analysisCount h l2)%nat.
Proof. unfold analysisCount. rewrite List.filter_app, length_app. reflexivity. Qed.

Lemma analysisCount_cons (h : list Task.t) (r : nat) (refs : list nat) :
  analysisCount h (r :: refs)
  = ((if analysisRef h r then 1 else 0) + analysisCount h refs)%nat.
Proof. unfold analysisCount. cbn. destruct (analysisRef h r); reflexivity. Qed.

Lemma analysisCount_delete (h : list Task.t) (refs : list nat) (i ref : nat) :
  refs !! i = Some ref ->
  analysisCount h refs
  = ((if analysisRef h ref then 1 else 0) + analysisCount h (delete i refs))%nat.
Proof.
  revert i. induction refs as [|r refs IH]; intros [|i] Hl; try discriminate.
  - cbn in Hl. injection Hl as ->. rewrite analysisCount_cons. reflexivity.
  - cbn in Hl. change (delete (S i) (r :: refs)) with (r :: delete i refs).
    rewrite !analysisCount_cons, (IH i Hl). lia.
Qed.

Lemma heapExt_refl (h : list Task.t) : heapExt h h.
Proof. split; [lia|reflexivity]. Qed.

Lemma heapExt_app (h : list Task.t) (k : Task.t) : heapExt h (h ++ [k]).
Proof.
  split; [rewrite length_app; lia|]. intros ref Href. unfold analysisRef.
  rewrite lookup_app_l by exact Href. reflexivity.
Qed.

Lemma heapExt_insert (h : list Task.t) (ref : nat) (k : Task.t) (f : Task.t -> Task.t) :
  h !! ref = Some k -> Task.type (f k) = Task.type k -> heapExt h (<[ref := f k]> h).
Proof.
  intros Hk Hty. split; [rewrite length_insert; lia|]. intros r Hr. unfold analysisRef.
  destruct (decide (r = ref)) as [->|Hne].
  - rewrite list_lookup_insert_eq by exact Hr. rewrite Hk, Hty. reflexivity.
  - rewrite list_lookup_insert_ne by congruence. reflexivity.
Qed.

Lemma otherTask_ext (h h' : list Task.t) (ref : nat) :
  heapExt h h' -> otherTask h ref -> otherTask h' ref.
Proof. intros [Hlen Hsame] [Hlt Hno]. split; [lia|]. rewrite Hsame; assumption. Qed.

Lemma workflowOk_ext (h h' : list Task.t) (w : Workflow.t) :
  heapExt h h' -> workflowOk h w -> workflowOk h' w.
Proof.
  intros [Hlen Hsame] (Hvalid & Hphase & Hlast). split; [|split; [|exact Hlast]].
  - eapply Forall_impl; [exact Hvalid|]. cbn. intros. lia.
  - rewrite (analysisCount_ext h h'); [exact Hphase|].
    eapply Forall_impl; [exact Hvalid|]. cbn. intros ref Href. apply Hsame, Href.
Qed.

Section InvariantUpdates.
Import AgentOrchestrator.

Lemma queueFree_orchestratorOk : queueFree orchestratorOk.
Proof. intros o q H. exact H. Qed.

Lemma queueFree_settled (sessionId : string) (trace : list Phase) :
  queueFree (settled sessionId trace).
Proof. intros o q H. exact H. Qed.

Lemma settled_ok (sessionId : string) (trace : list Phase) (o : t) :
  settled sessionId trace o -> orchestratorOk o.
Proof. intros [H _]. exact H. Qed.

Lemma orchestratorOk_setHeap (o : t) (h' : list Task.t) :
  orchestratorOk o -> heapExt (heap o) h' -> orchestratorOk (setHeap h' o).
Proof.
  intros [Hcaps Hws] Hext. split; [exact Hcaps|].
  intros sessionId w Hw. cbn in *. eapply workflowOk_ext; [exact Hext|]. eapply Hws, Hw.
Qed.

Lemma settled_setHeap (sessionId : string) (trace : list Phase) (o : t) (h' : list Task.t) :
  settled sessionId trace o -> heapExt (heap o) h' -> settled sessionId trace (setHeap h' o).
Proof.
  intros [Hok (w & Hw & Htrace & Hcount)] Hext.
  split; [apply orchestratorOk_setHeap; assumption|].
  exists w. split; [exact Hw|]. split; [exact Htrace|]. cbn.
  rewrite (analysisCount_ext (heap o) h'); [exact Hcount|].
  destruct Hok as [_ Hws]. destruct (Hws _ _ Hw) as (Hvalid & _).
  eapply Forall_impl; [exact Hvalid|]. cbn. intros ref Href. apply Hext, Href.
Qed.

Lemma orchestratorOk_setWorkflow (o : t) (sessionId : string) (w' : Workflow.t) :
  orchestratorOk o -> workflowOk (heap o) w' ->
  orchestratorOk (setWorkflows (<[sessionId := w']> (sessionWorkflows o)) o).
Proof.
  intros [Hcaps Hws] Hw'. split; [exact Hcaps|].
  intros s w Hw. cbn in *. rewrite lookup_insert in Hw.
  destruct (decide (sessionId = s)); [injection Hw as <-; exact Hw'|eapply Hws, Hw].
Qed.

Lemma orchestratorOk_setAgents (o : t) (ags : gmap string AgentInstance) :
  orchestratorOk o -> orchestratorOk (setAgents ags o).
Proof. intros H. exact H. Qed.

Lemma orchestratorOk_setStates (o : t) (sts : gmap string string) :
  orchestratorOk o -> orchestratorOk (setStates sts o).
Proof. intros H. exact H. Qed.

End InvariantUpdates.

Lemma prefix_refl (s : string) : String.prefix s s = true.
Proof.
  induction s as [|c s IH]; [reflexivity|]. cbn.
  destruct (ascii_dec c c); [exact IH|congruence].
Qed.

Lemma includes_prefix (s sub : string) : String.prefix sub s = true -> includes s sub = true.
Proof. intros H. destruct s; cbn [includes]; rewrite H; reflexivity. Qed.

Lemma includes_append_r (s t : string) : includes (s +:+ t) t = true.
Proof.
  induction s as [|c s IH].
  - apply includes_prefix, prefix_refl.
  - change (String c s +:+ t) with (String c (s +:+ t)).
    cbn [includes]. rewrite IH. apply orb_true_r.
Qed.

(** No implementation task is a requirements analysis. *)
Lemma implementation_type_ne (spec : string) :
  String.eqb (spec +:+ "_implementation") "requirements_analysis" = false.
Proof.
  apply String.eqb_neq. intros Heq.
  pose proof (includes_append_r spec "_implementation") as Hinc.
  rewrite Heq in Hinc. vm_compute in Hinc. discriminate Hinc.
Qed.

Lemma workflowOk_same (h : list Task.t) (w w' : Workflow.t) :
  Workflow.activeTasks w' = Workflow.activeTasks w ->
  Workflow.phaseTrace w' = Workflow.phaseTrace w ->
  Workflow.currentPhase w' = Workflow.currentPhase w ->
  workflowOk h w -> workflowOk h w'.
Proof. unfold workflowOk. intros -> -> ->. auto. Qed.

Section Methods.
Import AgentOrchestrator.

Lemma hoare_with_heap {A : Type} (P : t -> Prop) (m : M A) (Q : A -> t -> Prop)
    (E : t -> Prop) :
  (forall h, hoare (fun o => P o /\ heap o = h) m Q E) -> hoare P m Q E.
Proof. intros H o Ho. apply (H (heap o)). auto. Qed.

(** Updating the settled workflow without touching tasks or phases. *)
Lemma settled_update_same (sessionId : string) (trace : list Phase) (o : t)
    (w : Workflow.t) (f : Workflow.t -> Workflow.t) :
  settled sessionId trace o ->
  sessionWorkflows o !! sessionId = Some w ->
  Workflow.activeTasks (f w) = Workflow.activeTasks w ->
  Workflow.phaseTrace (f w) = Workflow.phaseTrace w ->
  Workflow.currentPhase (f w) = Workflow.currentPhase w ->
  settled sessionId trace (setWorkflows (<[sessionId := f w]> (sessionWorkflows o)) o).
Proof.
  intros [Hok (w0 & Hw0 & Htrace & Hcount)] Hw Hact Htr Hcur.
  rewrite Hw in Hw0. injection Hw0 as <-.
  split.
  - apply orchestratorOk_setWorkflow; [exact Hok|].
    apply (workflowOk_same _ w); try assumption. destruct Hok as [_ Hws]. eapply Hws, Hw.
  - exists (f w). cbn. rewrite lookup_insert_eq, Hact, Htr. auto.
Qed.

Lemma ok_update_same (sessionId : string) (o : t) (w : Workflow.t)
    (f : Workflow.t -> Workflow.t) :
  orchestratorOk o ->
  sessionWorkflows o !! sessionId = Some w ->
  Workflow.activeTasks (f w) = Workflow.activeTasks w ->
  Workflow.phaseTrace (f w) = Workflow.phaseTrace w ->
  Workflow.currentPhase (f w) = Workflow.currentPhase w ->
  orchestratorOk (setWorkflows (<[sessionId := f w]> (sessionWorkflows o)) o).
Proof.
  intros Hok Hw Hact Htr Hcur. apply orchestratorOk_setWorkflow; [exact Hok|].
  apply (workflowOk_same _ w); try assumption. destruct Hok as [_ Hws]. eapply Hws, Hw.
Qed.

(** Pushing a task that is no requirements analysis on the settled workflow. *)
Lemma settled_pushActive (sessionId : string) (trace : list Phase) (o : t)
    (w : Workflow.t) (ref : nat) :
  settled sessionId trace o ->
  sessionWorkflows o !! sessionId = Some w ->
  otherTask (heap o) ref ->
  settled sessionId trace
    (setWorkflows (<[sessionId := Workflow.pushActive ref w]> (sessionWorkflows o)) o).
Proof.
  intros [Hok (w0 & Hw0 & Htrace & Hcount)] Hw [Hlt Hno].
  rewrite Hw in Hw0. injection Hw0 as <-.
  assert (Hcount' : analysisCount (heap o) (Workflow.activeTasks w ++ [ref]) = 0%nat).
  { rewrite analysisCount_app, Hcount, analysisCount_cons, Hno. reflexivity. }
  split.
  - apply orchestratorOk_setWorkflow; [exact Hok|].
    destruct Hok as [_ Hws]. destruct (Hws _ _ Hw) as (Hvalid & Hphase & Hlast).
    split; [|split].
    + change (Forall (fun r => (r < length (heap o))%nat) (Workflow.activeTasks w ++ [ref])).
      apply Forall_app. split; [exact Hvalid|]. repeat constructor. exact Hlt.
    + change (phaseOk (Workflow.phaseTrace w)
                      (analysisCount (heap o) (Workflow.activeTasks w ++ [ref]))).
      rewrite Hcount'. rewrite Hcount in Hphase. exact Hphase.
    + exact Hlast.
  - exists (Workflow.pushActive ref w).
    split; [cbn; apply lookup_insert_eq|]. split; [exact Htrace|exact Hcount'].
Qed.

Lemma assignTaskToAgent_settled (sessionId : string) (trace : list Phase) (ref : nat)
    (h : list Task.t) :
  otherTask h ref ->
  hoare (fun o => settled sessionId trace o /\ heap o = h)
        (assignTaskToAgent sessionId ref)
        (fun _ o => settled sessionId trace o /\ heap o = h)
        orchestratorOk.
Proof.
  intros Hother. unfold assignTaskToAgent.
  apply hoare_bind_step with (P' := fun o => settled sessionId trace o /\ heap o = h).
  { apply hoare_updWorkflow.
    - intros o w [Hs Hh] Hw. split; [|exact Hh].
      apply settled_pushActive; [exact Hs|exact Hw|]. rewrite Hh. exact Hother.
    - intros o [Hs _]. apply Hs. }
  intros _.
  apply hoare_bind with (R := fun _ o => settled sessionId trace o /\ heap o = h).
  { apply hoare_readTask; [auto|]. intros o [Hs _]. apply Hs. }
  intros task.
  apply hoare_bind_step with (P' := fun o => settled sessionId trace o /\ heap o = h).
  { apply hoare_updWorkflow.
    - intros o w [Hs Hh] Hw. split; [|exact Hh].
      apply settled_update_same; auto.
    - intros o [Hs _]. apply Hs. }
  intros _.
  apply hoare_bind_step with (P' := fun o => settled sessionId trace o /\ heap o = h).
  { apply hoare_sendMessage. intros o q H. exact H. }
  intros _. apply hoare_ret. auto.
Qed.

Lemma forEach_assign_settled (sessionId : string) (trace : list Phase) (refs : list nat)
    (h : list Task.t) :
  Forall (otherTask h) refs ->
  hoare (fun o => settled sessionId trace o /\ heap o = h)
        (forEach (assignTaskToAgent sessionId) refs)
        (fun _ o => settled sessionId trace o /\ heap o = h)
        orchestratorOk.
Proof.
  induction 1 as [|ref refs Href _ IH]; cbn [forEach].
  - apply hoare_ret. auto.
  - apply hoare_bind_step with (P' := fun o => settled sessionId trace o /\ heap o = h).
    + apply assignTaskToAgent_settled, Href.
    + intros _. exact IH.
Qed.

Lemma heapExt_trans (h1 h2 h3 : list Task.t) : heapExt h1 h2 -> heapExt h2 h3 -> heapExt h1 h3.
Proof.
  intros [L1 S1] [L2 S2]. split; [lia|]. intros ref Href.
  rewrite S2 by lia. apply S1, Href.
Qed.

Lemma createImplementationTasks_settled (sessionId : string) (trace : list Phase)
    (requirements architecture : JsVal) (neededAgents : list string) (h0 : list Task.t) :
  hoare (fun o => settled sessionId trace o /\ heapExt h0 (heap o))
        (createImplementationTasks sessionId requirements architecture neededAgents)
        (fun refs o => settled sessionId trace o /\ heapExt h0 (heap o)
                       /\ Forall (otherTask (heap o)) refs)
        orchestratorOk.
Proof.
  revert h0. induction neededAgents as [|agentId rest IH]; intros h0;
    cbn [createImplementationTasks].
  - apply hoare_ret. intros o [Hs Hext]. auto.
  - apply hoare_bind_get. intros o0.
    apply hoare_bind_step
      with (P' := fun o => settled sessionId trace o /\ heapExt h0 (heap o)).
    { eapply hoare_conseq; [apply hoare_uuidv4 | | intros a o H; exact H | intros o H; exact H].
      - intros o q H. exact H.
      - intros o (_ & H). exact H. }
    intros taskId.
    destruct (getCapability agentId (agentCapabilities o0)) as [c|].
    2:{ apply hoare_throw. intros o [Hs _]. apply Hs. }
    apply hoare_bind with (R := fun _ o => settled sessionId trace o /\ heapExt h0 (heap o)).
    { apply hoare_clock. }
    intros now.
    apply hoare_with_heap. intros h1.
    apply hoare_bind
      with (R := fun ref o => settled sessionId trace o /\ heapExt h0 (heap o)
                              /\ exists k, heap o = h1 ++ [k] /\ ref = length h1
                                            /\ analysisRef (heap o) ref = false).
    { apply hoare_alloc. intros o [[Hs Hext] Hh]. subst h1. cbn [heap setHeap].
      split; [apply settled_setHeap; [exact Hs|apply heapExt_app]|].
      split; [eapply heapExt_trans; [exact Hext|apply heapExt_app]|].
      eexists. split; [reflexivity|]. split; [reflexivity|].
      unfold analysisRef. rewrite list_lookup_middle by reflexivity.
      cbn [Task.type]. apply implementation_type_ne. }
    intros ref.
    apply hoare_bind
      with (R := fun refs o => settled sessionId trace o /\ heapExt h0 (heap o)
                               /\ Forall (otherTask (heap o)) (ref :: refs)).
    { intros o (Hs & Hext & k & Hh & Href & Hno).
      pose proof (IH (heap o) o (conj Hs (heapExt_refl _))) as Hrec.
      destruct (createImplementationTasks sessionId requirements architecture rest o)
        as [[refs|e] o']; [|exact Hrec].
      destruct Hrec as (Hs' & Hext' & Hrefs).
      split; [exact Hs'|]. split; [eapply heapExt_trans; eassumption|].
      constructor; [|exact Hrefs].
      apply (otherTask_ext (heap o)); [exact Hext'|].
      split; [|exact Hno]. rewrite Hh, length_app, Href. cbn. lia. }
    intros refs. apply hoare_ret. auto.
Qed.

Lemma phaseOk_le (trace : list Phase) (c c' : nat) :
  phaseOk trace c -> (c' <= c)%nat -> phaseOk trace c'.
Proof. unfold phaseOk. intros [[-> Hc]|[Htr ->]] Hle; [left|right]; split; auto; lia. Qed.

(** Moving the settled workflow on to the next phase. *)
Lemma settled_setPhase (sessionId : string) (trace : list Phase) (p : Phase) (o : t)
    (w : Workflow.t) :
  settled sessionId trace o ->
  sessionWorkflows o !! sessionId = Some w ->
  phaseOk (trace ++ [p]) 0 ->
  settled sessionId (trace ++ [p])
    (setWorkflows (<[sessionId := Workflow.setPhase p w]> (sessionWorkflows o)) o).
Proof.
  intros [Hok (w0 & Hw0 & Htrace & Hcount)] Hw Hphase.
  rewrite Hw in Hw0. injection Hw0 as <-.
  split.
  - apply orchestratorOk_setWorkflow; [exact Hok|].
    destruct Hok as [_ Hws]. destruct (Hws _ _ Hw) as (Hvalid & _ & _).
    split; [exact Hvalid|]. split.
    + change (phaseOk (Workflow.phaseTrace w ++ [p])
                      (analysisCount (heap o) (Workflow.activeTasks w))).
      rewrite Htrace, Hcount. exact Hphase.
    + change (last (Workflow.phaseTrace w ++ [p]) = Some p). apply last_snoc.
  - exists (Workflow.setPhase p w).
    split; [cbn; apply lookup_insert_eq|]. split; [|exact Hcount].
    change (Workflow.phaseTrace w ++ [p] = trace ++ [p]). rewrite Htrace. reflexivity.
Qed.

Lemma initiateImplementationPlanning_ok (sessionId : string) (analysisResult : JsVal) :
  hoare (settled sessionId [analysis; planning])
        (initiateImplementationPlanning sessionId analysisResult)
        (fun _ => orchestratorOk) orchestratorOk.
Proof.
  unfold initiateImplementationPlanning.
  apply hoare_bind_lift; [intros requirements _|apply settled_ok].
  apply hoare_bind_lift; [intros architecture _|apply settled_ok].
  apply hoare_bind_lift; [intros neededAgents _|apply settled_ok].
  intros o Hs. unfold bind.
  pose proof (createImplementationTasks_settled sessionId [analysis; planning]
                requirements architecture neededAgents (heap o) o
                (conj Hs (heapExt_refl _))) as Hcreate.
  destruct (createImplementationTasks sessionId requirements architecture neededAgents o)
    as [[refs|e] o1]; [|exact Hcreate].
  destruct Hcreate as (Hs1 & _ & Hrefs).
  pose proof (forEach_assign_settled sessionId [analysis; planning] refs (heap o1) Hrefs o1
                (conj Hs1 eq_refl)) as Hassign.
  destruct (forEach (assignTaskToAgent sessionId) refs o1) as [[[]|e] o2]; [|exact Hassign].
  destruct Hassign as [Hs2 _].
  unfold updWorkflow. destruct (sessionWorkflows o2 !! sessionId) as [w|] eqn:Hw;
    [|apply Hs2].
  apply (settled_ok sessionId ([analysis; planning] ++ [implementation])).
  apply settled_setPhase; [exact Hs2|exact Hw|]. right. auto.
Qed.

Lemma findIndex_lookup {A : Type} (p : A -> bool) (l : list A) (i : nat) :
  findIndex p l = Some i -> exists x, l !! i = Some x /\ p x = true.
Proof.
  revert i. induction l as [|x l IH]; intros i; cbn; [discriminate|].
  destruct (p x) eqn:Hp.
  - intros [= <-]. eauto.
  - destruct (findIndex p l) as [j|]; [|discriminate]. cbn. intros [= <-].
    destruct (IH j eq_refl) as (y & Hy & Hpy). eauto.
Qed.

(** Taking a task off the active list. *)
Lemma moveToCompleted_ok (sessionId : string) (o : t) (w : Workflow.t) (i ref : nat) :
  orchestratorOk o ->
  sessionWorkflows o !! sessionId = Some w ->
  Workflow.activeTasks w !! i = Some ref ->
  let o' := setWorkflows (<[sessionId := Workflow.moveToCompleted i ref w]>
                            (sessionWorkflows o)) o in
  orchestratorOk o' /\
  (analysisRef (heap o) ref = true -> settled sessionId [analysis] o').
Proof.
  intros Hok Hw Hi o'. pose proof Hok as [_ Hws].
  destruct (Hws _ _ Hw) as (Hvalid & Hphase & Hlast).
  pose proof (analysisCount_delete (heap o) _ i ref Hi) as Hcount.
  assert (Hok' : orchestratorOk o').
  { apply orchestratorOk_setWorkflow; [exact Hok|]. split; [|split].
    - apply Forall_delete, Hvalid.
    - change (phaseOk (Workflow.phaseTrace w)
                      (analysisCount (heap o) (delete i (Workflow.activeTasks w)))).
      eapply phaseOk_le; [exact Hphase|]. lia.
    - exact Hlast. }
  split; [exact Hok'|]. intros Hra. rewrite Hra in Hcount.
  split; [exact Hok'|]. exists (Workflow.moveToCompleted i ref w).
  split; [cbn; apply lookup_insert_eq|].
  destruct Hphase as [[Htr Hle]|[_ Hzero]]; [|lia].
  split; [exact Htr|].
  change (analysisCount (heap o) (delete i (Workflow.activeTasks w)) = 0%nat). lia.
Qed.

Lemma handleTaskCompletion_ok (sessionId agentId : string) (message : Message.t) :
  hoare orchestratorOk (handleTaskCompletion sessionId agentId message)
        (fun _ => orchestratorOk) orchestratorOk.
Proof.
  unfold handleTaskCompletion.
  apply hoare_bind_lift; [intros taskId _|auto].
  apply hoare_bind_lift; [intros result _|auto].
  apply hoare_bind_lift; [intros deliverables _|auto].
  apply hoare_bind
    with (R := fun w o => orchestratorOk o /\ sessionWorkflows o !! sessionId = Some w).
  { apply hoare_readWorkflow; auto. }
  intros workflow. apply hoare_bind_get. intros o0.
  destruct (findIndex (hasId (heap o0) taskId) (Workflow.activeTasks workflow)) as [i|];
    [|apply hoare_ret; intros o (_ & H & _); exact H].
  destruct (Workflow.activeTasks workflow !! i) as [ref|] eqn:Hi;
    [|apply hoare_ret; intros o (_ & H & _); exact H].
  apply hoare_bind
    with (R := fun _ o => orchestratorOk o /\ sessionWorkflows o !! sessionId = Some workflow).
  { eapply hoare_conseq; [apply hoare_clock| |intros a o H; exact H|intros o H; exact H].
    intros o (_ & H). exact H. }
  intros now.
  apply hoare_bind_step
    with (P' := fun o => orchestratorOk o /\ sessionWorkflows o !! sessionId = Some workflow).
  { apply hoare_modifyTask; [|intros o [H _]; exact H].
    intros o k [Hok Hw] Hk. split; [|exact Hw].
    apply orchestratorOk_setHeap; [exact Hok|].
    apply heapExt_insert; [exact Hk|reflexivity]. }
  intros _.
  apply hoare_bind_step
    with (P' := fun o => orchestratorOk o /\
                         (analysisRef (heap o) ref = true -> settled sessionId [analysis] o)).
  { apply hoare_updWorkflow; [|intros o [H _]; exact H].
    intros o w [Hok Hw] Hw'. rewrite Hw in Hw'. injection Hw' as <-.
    apply (moveToCompleted_ok sessionId o workflow i ref Hok Hw Hi). }
  intros _.
  apply hoare_bind
    with (R := fun task o =>
                 orchestratorOk o /\
                 (String.eqb (Task.type task) "requirements_analysis" = true ->
                  settled sessionId [analysis] o)).
  { apply hoare_readTask; [|intros o [H _]; exact H].
    intros o k [Hok Hset] Hk. split; [exact Hok|]. intros Hty. apply Hset.
    unfold analysisRef. rewrite Hk. exact Hty. }
  intros task.
  destruct (String.eqb (Task.type task) "requirements_analysis");
    [|apply hoare_ret; intros o [H _]; exact H].
  eapply hoare_conseq
    with (P' := settled sessionId [analysis]) (Q' := fun _ => orchestratorOk)
         (E' := orchestratorOk); [|intros o [_ H]; auto|auto|auto].
  apply hoare_bind_lift; [intros requirements _|apply settled_ok].
  apply hoare_bind_step with (P' := settled sessionId [analysis]).
  { apply hoare_updWorkflow; [|apply settled_ok].
    intros o w Hs Hw. apply settled_update_same; auto. }
  intros _.
  apply hoare_bind_lift; [intros architecture _|apply settled_ok].
  apply hoare_bind_step with (P' := settled sessionId [analysis]).
  { apply hoare_updWorkflow; [|apply settled_ok].
    intros o w Hs Hw. apply settled_update_same; auto. }
  intros _.
  apply hoare_bind_step with (P' := settled sessionId [analysis; planning]).
  { apply hoare_updWorkflow; [|apply settled_ok].
    intros o w Hs Hw. apply (settled_setPhase sessionId [analysis] planning); auto.
    right. auto. }
  intros _. apply initiateImplementationPlanning_ok.
Qed.

Lemma handleTaskProgress_ok (sessionId agentId : string) (message : Message.t) :
  hoare orchestratorOk (handleTaskProgress sessionId agentId message)
        (fun _ => orchestratorOk) orchestratorOk.
Proof.
  unfold handleTaskProgress.
  apply hoare_bind_lift; [intros taskId _|auto].
  apply hoare_bind_lift; [intros progress _|auto].
  apply hoare_bind_lift; [intros status _|auto].
  apply hoare_bind with (R := fun _ => orchestratorOk).
  { apply hoare_readWorkflow; auto. }
  intros workflow. apply hoare_bind_get. intros o0.
  destruct (find (hasId (heap o0) taskId) (Workflow.activeTasks workflow)) as [ref|];
    [|apply hoare_ret; intros o [_ H]; exact H].
  apply hoare_bind with (R := fun _ => orchestratorOk).
  { eapply hoare_conseq; [apply hoare_clock| |intros a o H; exact H|intros o H; exact H].
    intros o (_ & H). exact H. }
  intros now. apply hoare_modifyTask; [|auto].
  intros o k Hok Hk. apply orchestratorOk_setHeap; [exact Hok|].
  apply heapExt_insert; [exact Hk|reflexivity].
Qed.

Lemma handleAgentQuestion_ok (sessionId agentId : string) (message : Message.t) :
  hoare orchestratorOk (handleAgentQuestion sessionId agentId message)
        (fun _ => orchestratorOk) orchestratorOk.
Proof.
  unfold handleAgentQuestion.
  apply hoare_bind_lift; [intros question _|auto].
  apply hoare_bind_lift; [intros context _|auto].
  apply hoare_bind_lift; [intros urgency _|auto].
  apply hoare_bind_step with (P' := orchestratorOk).
  { apply hoare_sendMessage, queueFree_orchestratorOk. }
  intros _. apply hoare_ret. auto.
Qed.

Lemma handleCollaborationRequest_ok (sessionId agentId : string) (message : Message.t) :
  hoare orchestratorOk (handleCollaborationRequest sessionId agentId message)
        (fun _ => orchestratorOk) orchestratorOk.
Proof.
  unfold handleCollaborationRequest.
  apply hoare_bind_lift; [intros targetAgent _|auto].
  apply hoare_bind_lift; [intros collaborationType _|auto].
  apply hoare_bind_lift; [intros context _|auto].
  apply hoare_bind_step with (P' := orchestratorOk).
  { apply hoare_sendMessage, queueFree_orchestratorOk. }
  intros _. apply hoare_ret. auto.
Qed.

(** In the registry the constructor builds no two agents share a
    specialization: [findReplacementAgent] never finds a replacement. *)
Lemma initialCapabilities_no_replacement (agentId : string) (c : Capability) :
  getCapability agentId initialCapabilities = Some c ->
  findReplacementAgent initialCapabilities (specialization c) agentId = None.
Proof.
  unfold initialCapabilities. cbn [getCapability].
  repeat match goal with
         | |- context [String.eqb ?a agentId] =>
             destruct (String.eqb_spec a agentId) as [<-|_];
             [intros [= <-]; vm_compute; reflexivity|]
         end.
  discriminate.
Qed.

Lemma reassignTask_ok (sessionId : string) (taskId : JsVal) (failedAgent : string) :
  hoare orchestratorOk (reassignTask sessionId taskId failedAgent)
        (fun _ => orchestratorOk) orchestratorOk.
Proof.
  intros o Hok. unfold reassignTask, bind, readWorkflow, get.
  destruct (sessionWorkflows o !! sessionId) as [workflow|]; [|exact Hok].
  destruct (find (hasId (heap o) taskId) (Workflow.activeTasks workflow)) as [ref|];
    [|exact Hok].
  destruct (getCapability failedAgent (agentCapabilities o)) as [c|] eqn:Hcap; [|exact Hok].
  destruct Hok as [Hcaps Hws]. rewrite Hcaps in Hcap |- *.
  rewrite (initialCapabilities_no_replacement failedAgent c Hcap).
  split; assumption.
Qed.

Lemma handleAgentError_ok (sessionId agentId : string) (message : Message.t) :
  hoare orchestratorOk (handleAgentError sessionId agentId message)
        (fun _ => orchestratorOk) orchestratorOk.
Proof.
  unfold handleAgentError.
  apply hoare_bind_lift; [intros error _|auto].
  apply hoare_bind_lift; [intros taskId _|auto].
  apply hoare_bind_lift; [intros severity _|auto].
  destruct (strictEqStr severity "critical"); [apply reassignTask_ok|apply hoare_ret; auto].
Qed.

Lemma dispatch_ok (sessionId agentId : string) (message : Message.t) :
  hoare orchestratorOk (dispatch sessionId agentId message)
        (fun _ => orchestratorOk) orchestratorOk.
Proof.
  unfold dispatch.
  destruct (String.eqb _ "task_completion"); [apply handleTaskCompletion_ok|].
  destruct (String.eqb _ "task_progress"); [apply handleTaskProgress_ok|].
  destruct (String.eqb _ "agent_question"); [apply handleAgentQuestion_ok|].
  destruct (String.eqb _ "error_report"); [apply handleAgentError_ok|].
  destruct (String.eqb _ "collaboration_request"); [apply handleCollaborationRequest_ok|].
  apply hoare_ret. auto.
Qed.

Lemma handleAgentMessage_ok (sessionId agentId : string) (message : Message.t) :
  hoare orchestratorOk (handleAgentMessage sessionId agentId message)
        (fun _ => orchestratorOk) orchestratorOk.
Proof.
  unfold handleAgentMessage.
  apply hoare_tryCatch with (E' := orchestratorOk); [|intros e; apply hoare_ret; auto].
  apply hoare_bind_get. intros o0.
  destruct (sessionWorkflows o0 !! sessionId) as [w0|];
    [|apply hoare_ret; intros o [_ H]; exact H].
  apply hoare_bind_step with (P' := orchestratorOk).
  { unfold touchAgent. apply hoare_bind with (R := fun _ => orchestratorOk).
    - eapply hoare_conseq; [apply hoare_clock| |intros a o H; exact H|intros o H; exact H].
      intros o (_ & H). exact H.
    - intros now. apply hoare_modify. intros o Hok.
      destruct (activeAgents o !! agentKey sessionId agentId); exact Hok. }
  intros _.
  apply hoare_bind with (R := fun _ => orchestratorOk); [apply hoare_clock|].
  intros now.
  apply hoare_bind_step with (P' := orchestratorOk).
  { apply hoare_updWorkflow; [|auto]. intros o w Hok Hw. apply ok_update_same; auto. }
  intros _. apply dispatch_ok.
Qed.

Lemma startSession_ok (sessionId : string) (projectContext : JsVal) (userRequirement : string) :
  hoare orchestratorOk (startSession sessionId projectContext userRequirement)
        (fun _ => orchestratorOk) orchestratorOk.
Proof.
  unfold startSession.
  apply hoare_bind with (R := fun _ => orchestratorOk).
  { apply hoare_uuidv4, queueFree_orchestratorOk. }
  intros workflowId.
  apply hoare_bind with (R := fun _ => orchestratorOk); [apply hoare_clock|].
  intros now.
  apply hoare_bind_step with (P' := settled sessionId [analysis]).
  { apply hoare_modify. intros o Hok. split.
    - apply orchestratorOk_setWorkflow; [exact Hok|].
      split; [constructor|]. split; [left; split; [reflexivity|cbn; lia]|reflexivity].
    - eexists. split; [cbn; apply lookup_insert_eq|]. split; reflexivity. }
  intros _.
  apply hoare_bind_step with (P' := settled sessionId [analysis]).
  { apply hoare_modify. intros o Hs. exact Hs. }
  intros _.
  apply hoare_bind_step with (P' := orchestratorOk).
  2:{ intros _. apply hoare_readWorkflow; auto. }
  unfold initiateRequirementsAnalysis.
  apply hoare_bind with (R := fun _ => settled sessionId [analysis]).
  { apply hoare_uuidv4, queueFree_settled. }
  intros taskId.
  apply hoare_bind_lift; [intros existingFiles _|apply settled_ok].
  apply hoare_bind with (R := fun _ => settled sessionId [analysis]); [apply hoare_clock|].
  intros now'.
  apply hoare_bind
    with (R := fun ref o => settled sessionId [analysis] o /\ (ref < length (heap o))%nat).
  { apply hoare_alloc. intros o Hs. split.
    - apply settled_setHeap; [exact Hs|apply heapExt_app].
    - cbn. rewrite length_app. cbn. lia. }
  intros ref.
  apply hoare_bind_step with (P' := orchestratorOk).
  { apply hoare_updWorkflow; [|intros o [H _]; apply H].
    intros o w [[Hok (w0 & Hw0 & Htrace & Hcount)] Hlt] Hw.
    rewrite Hw in Hw0. injection Hw0 as <-.
    apply orchestratorOk_setWorkflow; [exact Hok|].
    destruct Hok as [_ Hws]. destruct (Hws _ _ Hw) as (Hvalid & _ & Hlast).
    split; [|split; [|exact Hlast]].
    - change (Forall (fun r => (r < length (heap o))%nat) (Workflow.activeTasks w ++ [ref])).
      apply Forall_app. split; [exact Hvalid|]. repeat constructor. exact Hlt.
    - change (phaseOk (Workflow.phaseTrace w)
                      (analysisCount (heap o) (Workflow.activeTasks w ++ [ref]))).
      rewrite Htrace, analysisCount_app, Hcount, analysisCount_cons.
      left. split; [reflexivity|]. destruct (analysisRef (heap o) ref); cbn; lia. }
  intros _.
  apply hoare_bind_step with (P' := orchestratorOk).
  { apply hoare_updWorkflow; [|auto]. intros o w Hok Hw. apply ok_update_same; auto. }
  intros _.
  apply hoare_bind with (R := fun _ => orchestratorOk).
  { apply hoare_readTask; auto. }
  intros analysisTask.
  apply hoare_bind_step with (P' := orchestratorOk).
  { apply hoare_sendMessage, queueFree_orchestratorOk. }
  intros _. apply hoare_ret. auto.
Qed.

Lemma registerAgent_ok (sessionId agentId : string) :
  hoare orchestratorOk (registerAgent sessionId agentId)
        (fun _ => orchestratorOk) orchestratorOk.
Proof.
  unfold registerAgent. apply hoare_bind_get. intros o0.
  destruct (getCapability agentId (agentCapabilities o0)) as [c|];
    [|apply hoare_throw; intros o [_ H]; exact H].
  apply hoare_bind with (R := fun _ => orchestratorOk).
  { eapply hoare_conseq; [apply hoare_clock| |intros a o H; exact H|intros o H; exact H].
    intros o (_ & H). exact H. }
  intros now.
  apply hoare_bind_step with (P' := orchestratorOk).
  { apply hoare_modify. intros o H. exact H. }
  intros _. apply hoare_ret. auto.
Qed.

Lemma stopWorkflow_ok (sessionId : string) :
  hoare orchestratorOk (stopWorkflow sessionId) (fun _ => orchestratorOk) orchestratorOk.
Proof.
  unfold stopWorkflow. apply hoare_bind_get. intros o0.
  destruct (sessionWorkflows o0 !! sessionId) as [workflow|];
    [|apply hoare_ret; intros o [_ H]; exact H].
  apply hoare_bind with (R := fun _ => orchestratorOk).
  { eapply hoare_conseq; [apply hoare_clock| |intros a o H; exact H|intros o H; exact H].
    intros o (_ & H). exact H. }
  intros now.
  apply hoare_bind_step with (P' := orchestratorOk).
  { apply hoare_updWorkflow; [|auto]. intros o w Hok Hw. apply ok_update_same; auto. }
  intros _.
  apply hoare_bind_step with (P' := orchestratorOk).
  { apply hoare_modify. intros o H. exact H. }
  intros _. apply hoare_modify. intros o H. exact H.
Qed.

Lemma new_ok (t0 : Z) : orchestratorOk (new t0).
Proof. split; [reflexivity|]. intros s w Hw. cbn in Hw. rewrite lookup_empty in Hw. discriminate. Qed.

Lemma hoare_snd {A : Type} (m : M A) (o : t) :
  hoare orchestratorOk m (fun _ => orchestratorOk) orchestratorOk ->
  orchestratorOk o -> orchestratorOk (snd (m o)).
Proof. intros H Ho. specialize (H o Ho). destruct (m o) as [[a|e] o']; exact H. Qed.

Lemma handle_ok (o : t) (e : Event) : orchestratorOk o -> orchestratorOk (handle o e).
Proof.
  intros Hok. destruct e as [dt|s ctx req|s a|s a m|s]; cbn [handle].
  - exact Hok.
  - apply hoare_snd; [apply startSession_ok|exact Hok].
  - apply hoare_snd; [apply registerAgent_ok|exact Hok].
  - apply hoare_snd; [apply handleAgentMessage_ok|exact Hok].
  - apply hoare_snd; [apply stopWorkflow_ok|exact Hok].
Qed.

Lemma run_ok (events : list Event) (o : t) : orchestratorOk o -> orchestratorOk (run events o).
Proof.
  unfold run. revert o. induction events as [|e events IH]; intros o Hok; cbn; [exact Hok|].
  apply IH, handle_ok, Hok.
Qed.

End Methods.

(** C3. Whatever the orchestrator is asked to do after its construction
    (sessions started and stopped, agents registered, agent messages
    handled), the values [currentPhase] has taken in a session's workflow
    form a subsequence of analysis, planning, implementation, review,
    completion, and [currentPhase] is the last of them: no handler sets it
    back. *)
Theorem phase_only_moves_forward
    (t0 : Z) (events : list AgentOrchestrator.Event) (sessionId : string) (w : Workflow.t) :
  AgentOrchestrator.sessionWorkflows
    (AgentOrchestrator.run events (AgentOrchestrator.new t0)) !! sessionId = Some w ->
  Workflow.phaseTrace w `sublist_of` phases /\
  last (Workflow.phaseTrace w) = Some (Workflow.currentPhase w).
Proof.
  intros Hw.
  destruct (run_ok events (AgentOrchestrator.new t0) (new_ok t0)) as [_ Hws].
  destruct (Hws _ _ Hw) as (_ & Hphase & Hlast).
  split; [|exact Hlast].
  destruct Hphase as [[-> _]|[[->| ->] _]]; unfold phases; repeat constructor.
Qed.

(** A concrete run of C3: a session whose requirements analysis completes
    goes through analysis, planning and implementation. *)
Lemma phase_example :
  exists w : Workflow.t,
    AgentOrchestrator.sessionWorkflows
      (AgentOrchestrator.run sampleEvents (AgentOrchestrator.new 0)) !! "s1" = Some w /\
    Workflow.phaseTrace w = [analysis; planning; implementation] /\
    Workflow.phaseTrace w `sublist_of` phases.
Proof.
  destruct (AgentOrchestrator.sessionWorkflows
              (AgentOrchestrator.run sampleEvents (AgentOrchestrator.new 0)) !! "s1")
    as [w|] eqn:Hw; [|vm_compute in Hw; discriminate Hw].
  exists w. split; [reflexivity|]. split.
  - vm_compute in Hw. injection Hw as <-. reflexivity.
  - apply (phase_only_moves_forward 0 sampleEvents "s1" w Hw).
Defined.

(** ** The agent metrics: completed tasks and their response times *)

Lemma responseTimes_snoc (os : list BaseAgent.Outcome) (o : BaseAgent.Outcome) :
  responseTimes (os ++ [o])
  = responseTimes os
    ++ match o with BaseAgent.Completed rt => [rt] | BaseAgent.Failed => [] end.
Proof. unfold responseTimes. rewrite omap_app. destruct o; reflexivity. Qed.

Lemma recordAll_snoc (os : list BaseAgent.Outcome) (o : BaseAgent.Outcome) :
  BaseAgent.recordAll (os ++ [o]) = BaseAgent.record (BaseAgent.recordAll os) o.
Proof. unfold BaseAgent.recordAll. rewrite fold_left_app. reflexivity. Qed.

Lemma recordAll_completed_only (os : list BaseAgent.Outcome) :
  BaseAgent.tasksCompleted (BaseAgent.recordAll os) = Z.of_nat (length (responseTimes os)) /\
  BaseAgent.tasksCompleted (BaseAgent.recordAll (map BaseAgent.Completed (responseTimes os)))
  = Z.of_nat (length (responseTimes os)) /\
  BaseAgent.averageResponseTime (BaseAgent.recordAll os)
  = BaseAgent.averageResponseTime
      (BaseAgent.recordAll (map BaseAgent.Completed (responseTimes os))).
Proof.
  induction os as [|o os (IHc & IHd & IHa)] using rev_ind.
  - repeat split.
  - rewrite recordAll_snoc, responseTimes_snoc. destruct o as [rt|].
    + rewrite map_app. cbn [map]. rewrite recordAll_snoc. cbn [BaseAgent.record].
      unfold BaseAgent.updateMetrics.
      cbn [BaseAgent.tasksCompleted BaseAgent.averageResponseTime].
      rewrite length_app, IHc, IHd, IHa. cbn [length].
      repeat split; lia.
    + rewrite app_nil_r. cbn [BaseAgent.record]. unfold BaseAgent.updateMetrics.
      cbn [BaseAgent.tasksCompleted BaseAgent.averageResponseTime].
      repeat split; assumption.
Qed.

(** X1. Failed tasks are invisible in [metrics.tasksCompleted] and in
    [metrics.averageResponseTime]: whatever tasks an agent completed and
    failed, in whatever order, [tasksCompleted] is the number of completed
    tasks, and [averageResponseTime] is the value the same completed tasks
    give, in the same order, without any failure between them.  In
    particular recording a failure changes neither. *)
Theorem failures_leave_completed_metrics_alone (os : list BaseAgent.Outcome) :
  let m := BaseAgent.recordAll os in
  let completedOnly := BaseAgent.recordAll (map BaseAgent.Completed (responseTimes os)) in
  BaseAgent.tasksCompleted m = Z.of_nat (length (responseTimes os)) /\
  BaseAgent.tasksCompleted m = BaseAgent.tasksCompleted completedOnly /\
  BaseAgent.averageResponseTime m = BaseAgent.averageResponseTime completedOnly /\
  BaseAgent.tasksCompleted (BaseAgent.record m BaseAgent.Failed) = BaseAgent.tasksCompleted m /\
  BaseAgent.averageResponseTime (BaseAgent.record m BaseAgent.Failed)
  = BaseAgent.averageResponseTime m.
Proof.
  intros m completedOnly. destruct (recordAll_completed_only os) as (Hc & Hd & Ha).
  split; [exact Hc|]. split; [subst m completedOnly; rewrite Hc, Hd; reflexivity|].
  split; [exact Ha|]. split; reflexivity.
Qed.

(** ** The orchestrator: what the handlers of a message leave alone *)

Section Keeps.
Import AgentOrchestrator.
Context {A B : Type}.
Variable F : t -> Prop.

Lemma keeps_ret (a : A) : keeps F (ret a).
Proof. intros o Ho. exact Ho. Qed.

Lemma keeps_throw (e : string) : keeps F (@throw A e).
Proof. intros o Ho. exact Ho. Qed.

Lemma keeps_lift (r : Result A) : keeps F (lift r).
Proof. intros o Ho. exact Ho. Qed.

Lemma keeps_bind (m : M A) (f : A -> M B) :
  keeps F m -> (forall a, keeps F (f a)) -> keeps F (bind m f).
Proof.
  intros Hm Hf o Ho. unfold bind. specialize (Hm o Ho).
  destruct (m o) as [[a|e] o']; [apply Hf, Hm|exact Hm].
Qed.

Lemma keeps_bind_get (f : t -> M B) : (forall o0, keeps F (f o0)) -> keeps F (bind get f).
Proof. intros Hf o Ho. unfold bind, get. apply Hf, Ho. Qed.

Lemma keeps_tryCatch (m : M A) (h : string -> M A) :
  keeps F m -> (forall e, keeps F (h e)) -> keeps F (tryCatch m h).
Proof.
  intros Hm Hh o Ho. unfold tryCatch. specialize (Hm o Ho).
  destruct (m o) as [[a|e] o']; [exact Hm|apply Hh, Hm].
Qed.

End Keeps.

(** A predicate on the table of workflows that the updates of one session's
    workflow by the handlers respect is kept by every handler run for that
    session. *)
Section KeepsWorkflows.
Import AgentOrchestrator.

Variable sessionId : string.
Variable R : gmap string Workflow.t -> Prop.
Hypothesis R_update :
  forall ws w f, R ws -> ws !! sessionId = Some w -> handlerUpdate f ->
                 R (<[sessionId := f w]> ws).

Let F : t -> Prop := fun o => R (sessionWorkflows o).

Lemma keeps_clock : keeps F clock.
Proof. intros o Ho. exact Ho. Qed.

Lemma keeps_uuidv4 : keeps F uuidv4.
Proof. intros o Ho. exact Ho. Qed.

Lemma keeps_sendMessage (message : Envelope.t) : keeps F (sendMessage message).
Proof. intros o Ho. exact Ho. Qed.

Lemma keeps_alloc (k : Task.t) : keeps F (alloc k).
Proof. intros o Ho. exact Ho. Qed.

Lemma keeps_readTask (ref : nat) : keeps F (readTask ref).
Proof. intros o Ho. unfold readTask. destruct (heap o !! ref); exact Ho. Qed.

Lemma keeps_modifyTask (ref : nat) (f : Task.t -> Task.t) : keeps F (modifyTask ref f).
Proof. intros o Ho. unfold modifyTask. destruct (heap o !! ref); exact Ho. Qed.

Lemma keeps_readWorkflow : keeps F (readWorkflow sessionId).
Proof. intros o Ho. unfold readWorkflow. destruct (sessionWorkflows o !! sessionId); exact Ho. Qed.

Lemma keeps_updWorkflow (f : Workflow.t -> Workflow.t) :
  handlerUpdate f -> keeps F (updWorkflow sessionId f).
Proof.
  intros Hf o Ho. unfold updWorkflow.
  destruct (sessionWorkflows o !! sessionId) as [w|] eqn:Hw; [|exact Ho].
  apply R_update; assumption.
Qed.

Lemma keeps_assignTaskToAgent (ref : nat) : keeps F (assignTaskToAgent sessionId ref).
Proof.
  unfold assignTaskToAgent.
  apply keeps_bind; [apply keeps_updWorkflow; constructor|intros _].
  apply keeps_bind; [apply keeps_readTask|intros task].
  apply keeps_bind; [apply keeps_updWorkflow; constructor|intros _].
  apply keeps_bind; [apply keeps_sendMessage|intros _].
  apply keeps_ret.
Qed.

Lemma keeps_forEach {X : Type} (body : X -> M unit) (xs : list X) :
  (forall x, keeps F (body x)) -> keeps F (forEach body xs).
Proof.
  intros Hbody. induction xs as [|x xs IH]; cbn [forEach].
  - apply keeps_ret.
  - apply keeps_bind; [apply Hbody|intros _; exact IH].
Qed.

Lemma keeps_createImplementationTasks (requirements architecture : JsVal)
    (neededAgents : list string) :
  keeps F (createImplementationTasks sessionId requirements architecture neededAgents).
Proof.
  induction neededAgents as [|agentId rest IH]; cbn [createImplementationTasks].
  - apply keeps_ret.
  - apply keeps_bind_get. intros o0.
    apply keeps_bind; [apply keeps_uuidv4|intros taskId].
    destruct (getCapability agentId (agentCapabilities o0)) as [c|]; [|apply keeps_throw].
    apply keeps_bind; [apply keeps_clock|intros now].
    apply keeps_bind; [apply keeps_alloc|intros ref].
    apply keeps_bind; [exact IH|intros refs].
    apply keeps_ret.
Qed.

Lemma keeps_initiateImplementationPlanning (analysisResult : JsVal) :
  keeps F (initiateImplementationPlanning sessionId analysisResult).
Proof.
  unfold initiateImplementationPlanning.
  apply keeps_bind; [apply keeps_lift|intros requirements].
  apply keeps_bind; [apply keeps_lift|intros architecture].
  apply keeps_bind; [apply keeps_lift|intros neededAgents].
  apply keeps_bind; [apply keeps_createImplementationTasks|intros tasks].
  apply keeps_bind; [apply keeps_forEach, keeps_assignTaskToAgent|intros _].
  apply keeps_updWorkflow. constructor.
Qed.

Lemma keeps_reassignTask (taskId : JsVal) (failedAgent : string) :
  keeps F (reassignTask sessionId taskId failedAgent).
Proof.
  unfold reassignTask.
  apply keeps_bind; [apply keeps_readWorkflow|intros workflow].
  apply keeps_bind_get. intros o0.
  destruct (find _ _) as [ref|]; [|apply keeps_ret].
  destruct (getCapability _ _) as [c|]; [|apply keeps_throw].
  destruct (findReplacementAgent _ _ _) as [replacementAgent|]; [|apply keeps_ret].
  destruct (truthy _); [|apply keeps_ret].
  apply keeps_bind; [apply keeps_clock|intros now].
  apply keeps_bind; [apply keeps_modifyTask|intros _].
  apply keeps_assignTaskToAgent.
Qed.

Lemma keeps_handleTaskCompletion (agentId : string) (message : Message.t) :
  keeps F (handleTaskCompletion sessionId agentId message).
Proof.
  unfold handleTaskCompletion.
  apply keeps_bind; [apply keeps_lift|intros taskId].
  apply keeps_bind; [apply keeps_lift|intros result].
  apply keeps_bind; [apply keeps_lift|intros deliverables].
  apply keeps_bind; [apply keeps_readWorkflow|intros workflow].
  apply keeps_bind_get. intros o0.
  destruct (findIndex _ _) as [taskIndex|]; [|apply keeps_ret].
  destruct (Workflow.activeTasks workflow !! taskIndex) as [ref|]; [|apply keeps_ret].
  apply keeps_bind; [apply keeps_clock|intros now].
  apply keeps_bind; [apply keeps_modifyTask|intros _].
  apply keeps_bind; [apply keeps_updWorkflow; constructor|intros _].
  apply keeps_bind; [apply keeps_readTask|intros task].
  destruct (String.eqb _ _); [|apply keeps_ret].
  apply keeps_bind; [apply keeps_lift|intros requirements].
  apply keeps_bind; [apply keeps_updWorkflow; constructor|intros _].
  apply keeps_bind; [apply keeps_lift|intros architecture].
  apply keeps_bind; [apply keeps_updWorkflow; constructor|intros _].
  apply keeps_bind; [apply keeps_updWorkflow; constructor|intros _].
  apply keeps_initiateImplementationPlanning.
Qed.

Lemma keeps_handleTaskProgress (agentId : string) (message : Message.t) :
  keeps F (handleTaskProgress sessionId agentId message).
Proof.
  unfold handleTaskProgress.
  apply keeps_bind; [apply keeps_lift|intros taskId].
  apply keeps_bind; [apply keeps_lift|intros progress].
  apply keeps_bind; [apply keeps_lift|intros status].
  apply keeps_bind; [apply keeps_readWorkflow|intros workflow].
  apply keeps_bind_get. intros o0.
  destruct (find _ _) as [ref|]; [|apply keeps_ret].
  apply keeps_bind; [apply keeps_clock|intros now].
  apply keeps_modifyTask.
Qed.

Lemma keeps_handleAgentQuestion (agentId : string) (message : Message.t) :
  keeps F (handleAgentQuestion sessionId agentId message).
Proof.
  unfold handleAgentQuestion.
  apply keeps_bind; [apply keeps_lift|intros question].
  apply keeps_bind; [apply keeps_lift|intros context].
  apply keeps_bind; [apply keeps_lift|intros urgency].
  apply keeps_bind; [apply keeps_sendMessage|intros _].
  apply keeps_ret.
Qed.

Lemma keeps_handleAgentError (agentId : string) (message : Message.t) :
  keeps F (handleAgentError sessionId agentId message).
Proof.
  unfold handleAgentError.
  apply keeps_bind; [apply keeps_lift|intros error].
  apply keeps_bind; [apply keeps_lift|intros taskId].
  apply keeps_bind; [apply keeps_lift|intros severity].
  destruct (strictEqStr _ _); [apply keeps_reassignTask|apply keeps_ret].
Qed.

Lemma keeps_handleCollaborationRequest (agentId : string) (message : Message.t) :
  keeps F (handleCollaborationRequest sessionId agentId message).
Proof.
  unfold handleCollaborationRequest.
  apply keeps_bind; [apply keeps_lift|intros targetAgent].
  apply keeps_bind; [apply keeps_lift|intros collaborationType].
  apply keeps_bind; [apply keeps_lift|intros context].
  apply keeps_bind; [apply keeps_sendMessage|intros _].
  apply keeps_ret.
Qed.

Lemma keeps_dispatch (agentId : string) (message : Message.t) :
  keeps F (dispatch sessionId agentId message).
Proof.
  unfold dispatch.
  destruct (String.eqb _ _); [apply keeps_handleTaskCompletion|].
  destruct (String.eqb _ _); [apply keeps_handleTaskProgress|].
  destruct (String.eqb _ _); [apply keeps_handleAgentQuestion|].
  destruct (String.eqb _ _); [apply keeps_handleAgentError|].
  destruct (String.eqb _ _); [apply keeps_handleCollaborationRequest|].
  apply keeps_ret.
Qed.

End KeepsWorkflows.

Lemma keeps_handler (sessionId agentId : string) (message : Message.t)
    (R : gmap string Workflow.t -> Prop) :
  (forall ws w f, R ws -> ws !! sessionId = Some w -> handlerUpdate f ->
                  R (<[sessionId := f w]> ws)) ->
  keeps (fun o => R (AgentOrchestrator.sessionWorkflows o))
        (AgentOrchestrator.tryCatch (AgentOrchestrator.dispatch sessionId agentId message)
           (fun _ => AgentOrchestrator.ret tt)).
Proof.
  intros HR. apply keeps_tryCatch; [apply keeps_dispatch, HR|intros e; apply keeps_ret].
Qed.

(** X2. Every message handled for a session that has a workflow is appended
    to the workflow's [messageHistory] exactly once, stamped with the
    instant of handling, whatever its type or payload and whether or not
    its handler throws. *)
Theorem handled_message_is_recorded_once
    (sessionId agentId : string) (message : Message.t) (o : AgentOrchestrator.t)
    (workflow : Workflow.t) :
  AgentOrchestrator.sessionWorkflows o !! sessionId = Some workflow ->
  exists workflow' : Workflow.t,
    AgentOrchestrator.sessionWorkflows
      (snd (AgentOrchestrator.handleAgentMessage sessionId agentId message o)) !! sessionId
    = Some workflow' /\
    Workflow.messageHistory workflow'
    = Workflow.messageHistory workflow
      ++ [(message, SimpleMessageQueue.now (AgentOrchestrator.queue o))].
Proof.
  intros Hw.
  destruct (handleAgentMessage_dispatch sessionId agentId message o workflow Hw)
    as (o1 & -> & _ & _ & _ & Hws).
  set (H := Workflow.messageHistory workflow
            ++ [(message, SimpleMessageQueue.now (AgentOrchestrator.queue o))]).
  apply (keeps_handler sessionId agentId message
           (fun ws => exists w, ws !! sessionId = Some w /\ Workflow.messageHistory w = H)).
  - intros ws w f (w0 & Hw0 & Hh) Hl Hf. exists (f w). split; [apply lookup_insert_eq|].
    rewrite Hl in Hw0. injection Hw0 as <-.
    destruct Hf; exact Hh.
  - rewrite Hws. eexists. split; [apply lookup_insert_eq|reflexivity].
Qed.

(** The critical error of the sample run is on the history afterwards. *)
Lemma handled_message_is_recorded_once_example :
  exists workflow' : Workflow.t,
    AgentOrchestrator.sessionWorkflows
      (snd (AgentOrchestrator.handleAgentMessage "s1" "backend_developer" criticalError
              sampleOrchestrator)) !! "s1"
    = Some workflow' /\
    Workflow.messageHistory workflow'
    = Workflow.messageHistory sampleWorkflow
      ++ [(criticalError, SimpleMessageQueue.now (AgentOrchestrator.queue sampleOrchestrator))].
Proof.
  apply (handled_message_is_recorded_once "s1" "backend_developer" criticalError
           sampleOrchestrator sampleWorkflow).
  vm_compute. reflexivity.
Defined.

(** X3. Handling a message for one session leaves the workflow object of
    every other session as it was. *)
Theorem handled_message_leaves_other_sessions
    (sessionId agentId : string) (message : Message.t) (o : AgentOrchestrator.t)
    (other : string) :
  other <> sessionId ->
  AgentOrchestrator.sessionWorkflows
    (snd (AgentOrchestrator.handleAgentMessage sessionId agentId message o)) !! other
  = AgentOrchestrator.sessionWorkflows o !! other.
Proof.
  intros Hne.
  destruct (AgentOrchestrator.sessionWorkflows o !! sessionId) as [workflow|] eqn:Hw.
  - destruct (handleAgentMessage_dispatch sessionId agentId message o workflow Hw)
      as (o1 & -> & _ & _ & _ & Hws).
    apply (keeps_handler sessionId agentId message
             (fun ws => ws !! other = AgentOrchestrator.sessionWorkflows o !! other)).
    + intros ws w f Hws' _ _. rewrite lookup_insert_ne by congruence. exact Hws'.
    + rewrite Hws. apply lookup_insert_ne. congruence.
  - unfold AgentOrchestrator.handleAgentMessage, AgentOrchestrator.tryCatch,
      AgentOrchestrator.bind, AgentOrchestrator.get.
    rewrite Hw. reflexivity.
Qed.

Lemma handled_message_leaves_other_sessions_example :
  AgentOrchestrator.sessionWorkflows
    (snd (AgentOrchestrator.handleAgentMessage "s1" "backend_developer" criticalError
            sampleOrchestrator)) !! "s2"
  = AgentOrchestrator.sessionWorkflows sampleOrchestrator !! "s2".
Proof.
  apply (handled_message_leaves_other_sessions "s1" "backend_developer" criticalError
           sampleOrchestrator "s2").
  discriminate.
Defined.

(** ** The orchestrator: starting a session *)

Ltac orchestrator_fields :=
  cbn [AgentOrchestrator.activeAgents AgentOrchestrator.sessionWorkflows
       AgentOrchestrator.agentCapabilities AgentOrchestrator.workflowStates
       AgentOrchestrator.heap AgentOrchestrator.queue
       AgentOrchestrator.setQueue AgentOrchestrator.setHeap AgentOrchestrator.setWorkflows
       AgentOrchestrator.setAgents AgentOrchestrator.setStates
       SimpleMessageQueue.now SimpleMessageQueue.uuids SimpleMessageQueue.published
       SimpleMessageQueue.history SimpleMessageQueue.calls fst snd].

(** X4. [startSession] with a project context other than [undefined] and
    [null] registers a fresh workflow for the session, whatever was
    registered for it before: status "planning", phase "analysis", one
    active task and none completed, "architectrix" the only active agent.
    The task is a new [requirements_analysis] due five minutes later, and
    exactly one message is published: its [task_assignment] to
    "architectrix", with priority 10 and the task id as correlation id. *)
Theorem startSession_registers_analysis
    (sessionId : string) (projectContext : JsVal) (userRequirement : string)
    (o : AgentOrchestrator.t) :
  projectContext <> JUndefined ->
  projectContext <> JNull ->
  let q := AgentOrchestrator.queue o in
  let now := SimpleMessageQueue.now q in
  let n := SimpleMessageQueue.uuids q in
  let r := AgentOrchestrator.startSession sessionId projectContext userRequirement o in
  (exists workflow : Workflow.t,
      fst r = Ok workflow /\
      AgentOrchestrator.sessionWorkflows (snd r) !! sessionId = Some workflow /\
      Workflow.activeTasks workflow = [length (AgentOrchestrator.heap o)] /\
      Workflow.messageHistory workflow = [] /\
      Workflow.requirements workflow = JStr userRequirement) /\
  AgentOrchestrator.getWorkflowStatus sessionId (snd r)
  = Some (AgentOrchestrator.mkWorkflowStatus (uuid_of n) sessionId "planning" analysis
            1 0 1 ["architectrix"] now now) /\
  AgentOrchestrator.workflowStates (snd r) !! sessionId = Some "active" /\
  (exists (task : Task.t) (m : Message.t),
      AgentOrchestrator.heap (snd r) = AgentOrchestrator.heap o ++ [task] /\
      Task.id task = uuid_of (S n) /\
      Task.type task = "requirements_analysis" /\
      Task.assignedAgent task = "architectrix" /\
      Task.status task = JStr "assigned" /\
      Task.deadline task = now + 300000 /\
      SimpleMessageQueue.published (AgentOrchestrator.queue (snd r))
      = SimpleMessageQueue.published q ++ [(sessionId, "architectrix", m)] /\
      Message.type m = "task_assignment" /\
      Message.fromAgent m = "orchestrator" /\
      Message.priority m = 10 /\
      Message.correlationId m = uuid_of (S n) /\
      getProp (Message.payload m) "task" = Ok (Task.toJs task)).
Proof.
  intros Hu Hn q now n r.
  assert (Hfiles : exists v, getProp projectContext "existingFiles" = Ok v).
  { destruct projectContext; cbn; try congruence; eauto. }
  destruct Hfiles as [v Hv].
  subst r. unfold AgentOrchestrator.startSession, AgentOrchestrator.bind,
    AgentOrchestrator.uuidv4, AgentOrchestrator.clock, AgentOrchestrator.modify,
    AgentOrchestrator.initiateRequirementsAnalysis, AgentOrchestrator.bind,
    AgentOrchestrator.uuidv4, AgentOrchestrator.lift, AgentOrchestrator.clock,
    AgentOrchestrator.alloc, AgentOrchestrator.updWorkflow, AgentOrchestrator.readTask,
    AgentOrchestrator.sendMessage, AgentOrchestrator.ret, AgentOrchestrator.readWorkflow,
    AgentOrchestrator.getWorkflowStatus.
  rewrite Hv. orchestrator_fields.
  rewrite !lookup_insert_eq. orchestrator_fields.
  rewrite !lookup_insert_eq. orchestrator_fields.
  rewrite lookup_app_r by reflexivity. rewrite Nat.sub_diag. cbn [lookup list_lookup].
  orchestrator_fields. rewrite !lookup_insert_eq.
  unfold SimpleMessageQueue.sendMessage. cbn [recipientsOf Envelope.toAgent fold_left].
  unfold SimpleMessageQueue.publishTo.
  repeat (progress (orchestrator_fields; rewrite ?lookup_insert_eq)).
  split; [eexists; repeat split|].
  split; [reflexivity|]. split; [reflexivity|].
  eexists. eexists. repeat split.
Qed.

(** A session started on the orchestrator the constructor builds. *)
Lemma startSession_registers_analysis_example :
  AgentOrchestrator.getWorkflowStatus "s1"
    (snd (AgentOrchestrator.startSession "s1" (JObj []) "Build a REST API"
            (AgentOrchestrator.new 0)))
  = Some (AgentOrchestrator.mkWorkflowStatus (uuid_of 0) "s1" "planning" analysis
            1 0 1 ["architectrix"] 0 0).
Proof.
  refine (proj1 (proj2 (startSession_registers_analysis "s1" (JObj []) "Build a REST API"
                          (AgentOrchestrator.new 0) _ _))); discriminate.
Defined.

(** X5. [startSession] with [undefined] or [null] for the project context
    throws, but only after the workflow has been registered: the session is
    left with an "active" workflow in phase "analysis" that has no task, no
    agent, and for which nothing was published. *)
Theorem startSession_without_context_leaves_empty_workflow
    (sessionId : string) (projectContext : JsVal) (userRequirement : string)
    (o : AgentOrchestrator.t) :
  projectContext = JUndefined \/ projectContext = JNull ->
  let r := AgentOrchestrator.startSession sessionId projectContext userRequirement o in
  (exists error : string, fst r = Throw error) /\
  AgentOrchestrator.getWorkflowStatus sessionId (snd r)
  = Some (AgentOrchestrator.mkWorkflowStatus
            (uuid_of (SimpleMessageQueue.uuids (AgentOrchestrator.queue o)))
            sessionId "planning" analysis 0 0 0 []
            (SimpleMessageQueue.now (AgentOrchestrator.queue o))
            (SimpleMessageQueue.now (AgentOrchestrator.queue o))) /\
  AgentOrchestrator.workflowStates (snd r) !! sessionId = Some "active" /\
  AgentOrchestrator.heap (snd r) = AgentOrchestrator.heap o /\
  SimpleMessageQueue.published (AgentOrchestrator.queue (snd r))
  = SimpleMessageQueue.published (AgentOrchestrator.queue o).
Proof.
  intros Hctx r.
  assert (Hfiles : exists e, getProp projectContext "existingFiles" = Throw e).
  { destruct Hctx as [-> | ->]; cbn; eauto. }
  destruct Hfiles as [e He].
  subst r. unfold AgentOrchestrator.startSession, AgentOrchestrator.bind,
    AgentOrchestrator.uuidv4, AgentOrchestrator.clock, AgentOrchestrator.modify,
    AgentOrchestrator.initiateRequirementsAnalysis, AgentOrchestrator.bind,
    AgentOrchestrator.uuidv4, AgentOrchestrator.lift,
    AgentOrchestrator.getWorkflowStatus.
  rewrite He. orchestrator_fields.
  rewrite !lookup_insert_eq. orchestrator_fields.
  repeat split. eexists. reflexivity.
Qed.

Lemma startSession_without_context_example :
  AgentOrchestrator.getWorkflowStatus "s1"
    (snd (AgentOrchestrator.startSession "s1" JNull "Build a REST API"
            (AgentOrchestrator.new 0)))
  = Some (AgentOrchestrator.mkWorkflowStatus (uuid_of 0) "s1" "planning" analysis
            0 0 0 [] 0 0).
Proof.
  refine (proj1 (proj2 (startSession_without_context_leaves_empty_workflow
                          "s1" JNull "Build a REST API" (AgentOrchestrator.new 0) _))).
  right. reflexivity.
Defined.

(** ** The orchestrator: stopping a workflow *)

Lemma append_inj_r (s a b : string) : s +:+ a = s +:+ b -> a = b.
Proof.
  induction s as [|c s IH]; [intros H; exact H|].
  change (String c s +:+ a) with (String c (s +:+ a)).
  change (String c s +:+ b) with (String c (s +:+ b)).
  intros [= H]. apply IH, H.
Qed.

Lemma agentKey_inj (sessionId a b : string) :
  AgentOrchestrator.agentKey sessionId a = AgentOrchestrator.agentKey sessionId b -> a = b.
Proof.
  unfold AgentOrchestrator.agentKey. intros H.
  apply append_inj_r in H. apply append_inj_r in H. exact H.
Qed.

Lemma lookup_fold_delete {V : Type} (key : string -> string) (l : list string)
    (m : gmap string V) (k : string) :
  fold_left (fun acc a => delete (key a) acc) l m !! k
  = if bool_decide (k ∈ key <$> l) then None else m !! k.
Proof.
  revert m. induction l as [|a l IH]; intros m; cbn [fold_left fmap list_fmap].
  - rewrite bool_decide_eq_false_2 by (apply not_elem_of_nil). reflexivity.
  - rewrite IH. destruct (decide (k = key a)) as [->|Hne].
    + rewrite lookup_delete_eq.
      rewrite (bool_decide_eq_true_2 (key a ∈ key a :: (key <$> l))) by (apply list_elem_of_here).
      destruct (bool_decide _); reflexivity.
    + rewrite lookup_delete_ne by congruence.
      destruct (bool_decide (k ∈ key <$> l)) eqn:Hin.
      * apply bool_decide_eq_true in Hin.
        rewrite bool_decide_eq_true_2 by (apply list_elem_of_further, Hin). reflexivity.
      * apply bool_decide_eq_false in Hin.
        rewrite bool_decide_eq_false_2; [reflexivity|].
        intros [?|?]%elem_of_cons; [congruence|contradiction].
Qed.

(** X6. [stopWorkflow] on a session with a workflow marks it "stopped" with
    the instant as end time and drops the registrations of exactly the
    agents in the workflow's [activeAgents], those that were assigned a
    task: an agent registered for the session but never assigned one stays
    registered.  The tasks are not touched (those active stay on the active
    list), and nothing is published to the agents. *)
Theorem stopWorkflow_drops_assigned_agents
    (sessionId : string) (o : AgentOrchestrator.t) (workflow : Workflow.t) :
  AgentOrchestrator.sessionWorkflows o !! sessionId = Some workflow ->
  let r := AgentOrchestrator.stopWorkflow sessionId o in
  let now := SimpleMessageQueue.now (AgentOrchestrator.queue o) in
  fst r = Ok tt /\
  AgentOrchestrator.sessionWorkflows (snd r)
  = <[sessionId := Workflow.stop now workflow]> (AgentOrchestrator.sessionWorkflows o) /\
  (exists before after : AgentOrchestrator.WorkflowStatus,
      AgentOrchestrator.getWorkflowStatus sessionId o = Some before /\
      AgentOrchestrator.getWorkflowStatus sessionId (snd r) = Some after /\
      AgentOrchestrator.ws_status after = "stopped" /\
      AgentOrchestrator.ws_currentPhase after = AgentOrchestrator.ws_currentPhase before /\
      AgentOrchestrator.active after = AgentOrchestrator.active before /\
      AgentOrchestrator.completed after = AgentOrchestrator.completed before /\
      AgentOrchestrator.ws_activeAgents after = AgentOrchestrator.ws_activeAgents before) /\
  AgentOrchestrator.workflowStates (snd r) !! sessionId = Some "stopped" /\
  (forall agentId : string,
      AgentOrchestrator.activeAgents (snd r) !! AgentOrchestrator.agentKey sessionId agentId
      = if bool_decide (agentId ∈ Workflow.activeAgents workflow) then None
        else AgentOrchestrator.activeAgents o !! AgentOrchestrator.agentKey sessionId agentId) /\
  AgentOrchestrator.heap (snd r) = AgentOrchestrator.heap o /\
  AgentOrchestrator.queue (snd r) = AgentOrchestrator.queue o.
Proof.
  intros Hw r now. subst r.
  unfold AgentOrchestrator.stopWorkflow, AgentOrchestrator.bind, AgentOrchestrator.get.
  rewrite Hw.
  unfold AgentOrchestrator.clock, AgentOrchestrator.updWorkflow, AgentOrchestrator.modify,
    AgentOrchestrator.bind.
  rewrite Hw. cbn -[Workflow.stop].
  split; [reflexivity|]. split; [reflexivity|].
  split.
  { unfold AgentOrchestrator.getWorkflowStatus. cbn -[Workflow.stop].
    rewrite Hw, lookup_insert_eq. eexists. eexists. repeat split. }
  split; [apply lookup_insert_eq|]. split; [|split; reflexivity].
  intros agentId.
  rewrite (lookup_fold_delete (AgentOrchestrator.agentKey sessionId)).
  destruct (bool_decide (agentId ∈ Workflow.activeAgents workflow)) eqn:Hin.
  - apply bool_decide_eq_true in Hin.
    rewrite bool_decide_eq_true_2; [reflexivity|].
    apply list_elem_of_fmap. exists agentId. split; [reflexivity|exact Hin].
  - apply bool_decide_eq_false in Hin.
    rewrite bool_decide_eq_false_2; [reflexivity|].
    intros (a & Ha & Hl)%list_elem_of_fmap. apply agentKey_inj in Ha. subst a. contradiction.
Qed.

(** Stopping the sample session, whose workflow has "backend_developer"
    as its active agent. *)
Lemma stopWorkflow_drops_assigned_agents_example :
  AgentOrchestrator.workflowStates (snd (AgentOrchestrator.stopWorkflow "s1" sampleOrchestrator))
    !! "s1" = Some "stopped".
Proof.
  refine (proj1 (proj2 (proj2 (proj2
            (stopWorkflow_drops_assigned_agents "s1" sampleOrchestrator sampleWorkflow _))))).
  vm_compute. reflexivity.
Defined.

(** ** The orchestrator: completing a task *)

Section Completion.
Import AgentOrchestrator.

Lemma handleTaskCompletion_found (sessionId agentId : string) (message : Message.t)
    (o : t) (workflow : Workflow.t) (taskId result deliverables : JsVal)
    (taskIndex ref : nat) (task : Task.t) :
  getProp (Message.payload message) "taskId" = Ok taskId ->
  getProp (Message.payload message) "result" = Ok result ->
  getProp (Message.payload message) "deliverables" = Ok deliverables ->
  sessionWorkflows o !! sessionId = Some workflow ->
  findIndex (hasId (heap o) taskId) (Workflow.activeTasks workflow) = Some taskIndex ->
  Workflow.activeTasks workflow !! taskIndex = Some ref ->
  heap o !! ref = Some task ->
  Task.type task <> "requirements_analysis" ->
  handleTaskCompletion sessionId agentId message o
  = (Ok tt, afterCompletion sessionId taskIndex ref task workflow result deliverables o).
Proof.
  intros Hid Hres Hdel Hw Hfind Hi Htask Htype.
  unfold handleTaskCompletion, bind, lift. rewrite Hid, Hres, Hdel.
  unfold readWorkflow, get. rewrite Hw, Hfind, Hi.
  unfold clock, modifyTask. rewrite Htask.
  unfold updWorkflow. cbn [sessionWorkflows setHeap]. rewrite Hw.
  unfold readTask. cbn [heap setWorkflows setHeap].
  rewrite list_lookup_insert_eq by (apply lookup_lt_Some in Htask; exact Htask).
  cbn [Task.type Task.complete].
  destruct (String.eqb_spec (Task.type task) "requirements_analysis") as [?|_];
    [contradiction|].
  reflexivity.
Qed.

Lemma delete_app_l {X : Type} (i : nat) (l k : list X) :
  (i < length l)%nat -> delete i (l ++ k) = delete i l ++ k.
Proof.
  revert i. induction l as [|x l IH]; intros i Hi; cbn in Hi; [lia|].
  destruct i as [|i]; [reflexivity|].
  change (delete (S i) ((x :: l) ++ k)) with (x :: delete i (l ++ k)).
  rewrite IH by lia. reflexivity.
Qed.

Lemma findIndex_app_l {X : Type} (p : X -> bool) (l k : list X) (i : nat) :
  findIndex p l = Some i -> findIndex p (l ++ k) = Some i.
Proof.
  revert i. induction l as [|x l IH]; intros i; cbn; [discriminate|].
  destruct (p x); [auto|].
  destruct (findIndex p l) as [j|]; [|discriminate].
  rewrite (IH j eq_refl). auto.
Qed.

Lemma findIndex_ext {X : Type} (p q : X -> bool) (l : list X) :
  (forall x, x ∈ l -> p x = q x) -> findIndex p l = findIndex q l.
Proof.
  induction l as [|x l IH]; intros H; cbn; [reflexivity|].
  rewrite (H x) by (apply list_elem_of_here).
  rewrite IH; [reflexivity|]. intros y Hy. apply H, list_elem_of_further, Hy.
Qed.

Lemma find_findIndex {X : Type} (p : X -> bool) (l : list X) (x : X) :
  List.find p l = Some x -> exists i, findIndex p l = Some i /\ l !! i = Some x.
Proof.
  induction l as [|y l IH]; cbn; [discriminate|].
  destruct (p y).
  - intros [= <-]. exists 0%nat. auto.
  - intros H. destruct (IH H) as (i & -> & Hi). exists (S i). auto.
Qed.

(** Assigning to fields other than [id] of one task object does not change
    which references carry a given id. *)
Lemma hasId_insert (h : list Task.t) (taskId : JsVal) (ref : nat) (task task' : Task.t)
    (r : nat) :
  h !! ref = Some task -> Task.id task' = Task.id task ->
  hasId (<[ref := task']> h) taskId r = hasId h taskId r.
Proof.
  intros Htask Hid. unfold hasId. destruct (decide (r = ref)) as [->|Hne].
  - rewrite list_lookup_insert_eq by (apply lookup_lt_Some in Htask; exact Htask).
    rewrite Htask, Hid. reflexivity.
  - rewrite list_lookup_insert_ne by congruence. reflexivity.
Qed.

End Completion.

Lemma handleAgentMessage_completion
    (sessionId agentId : string) (message : Message.t) (o : AgentOrchestrator.t)
    (workflow : Workflow.t) (taskId result deliverables : JsVal)
    (taskIndex ref : nat) (task : Task.t) :
  AgentOrchestrator.sessionWorkflows o !! sessionId = Some workflow ->
  Message.type message = "task_completion" ->
  getProp (Message.payload message) "taskId" = Ok taskId ->
  getProp (Message.payload message) "result" = Ok result ->
  getProp (Message.payload message) "deliverables" = Ok deliverables ->
  findIndex (AgentOrchestrator.hasId (AgentOrchestrator.heap o) taskId)
            (Workflow.activeTasks workflow) = Some taskIndex ->
  Workflow.activeTasks workflow !! taskIndex = Some ref ->
  AgentOrchestrator.heap o !! ref = Some task ->
  Task.type task <> "requirements_analysis" ->
  let o' := snd (AgentOrchestrator.handleAgentMessage sessionId agentId message o) in
  (exists workflow' : Workflow.t,
      AgentOrchestrator.sessionWorkflows o' !! sessionId = Some workflow' /\
      Workflow.activeTasks workflow' = delete taskIndex (Workflow.activeTasks workflow) /\
      Workflow.completedTasks workflow' = Workflow.completedTasks workflow ++ [ref] /\
      Workflow.currentPhase workflow' = Workflow.currentPhase workflow) /\
  AgentOrchestrator.heap o'
  = <[ref := Task.complete (SimpleMessageQueue.now (AgentOrchestrator.queue o))
               result deliverables task]> (AgentOrchestrator.heap o) /\
  AgentOrchestrator.queue o' = AgentOrchestrator.queue o.
Proof.
  intros Hw Htype Hid Hres Hdel Hfind Hi Htask Hnot o'.
  destruct (handleAgentMessage_dispatch sessionId agentId message o workflow Hw)
    as (o1 & Ho' & Hheap & Hqueue & Hcaps & Hws).
  subst o'. rewrite Ho'. clear Ho'.
  unfold AgentOrchestrator.tryCatch, AgentOrchestrator.dispatch. rewrite Htype.
  cbn [String.eqb Ascii.eqb Bool.eqb].
  rewrite (handleTaskCompletion_found sessionId agentId message o1
             (Workflow.pushHistory message
                (SimpleMessageQueue.now (AgentOrchestrator.queue o)) workflow)
             taskId result deliverables taskIndex ref task);
    rewrite ?Hws, ?Hheap, ?lookup_insert_eq; auto.
  unfold afterCompletion.
  cbn [snd AgentOrchestrator.sessionWorkflows AgentOrchestrator.heap AgentOrchestrator.queue
       AgentOrchestrator.setWorkflows AgentOrchestrator.setHeap].
  rewrite Hws, Hheap, Hqueue, !lookup_insert_eq.
  split; [eexists; repeat split|]. split; reflexivity.
Qed.

(** X7. A [task_completion] whose [taskId] is that of an active task, not a
    requirements analysis, moves exactly the first such entry of
    [activeTasks] to the end of [completedTasks] and marks the task object
    "completed" with the instant, the result and the deliverables of the
    message.  The total of the status report is unchanged, its completed
    count one higher, its active count one lower, the phase is what it was,
    and nothing is published. *)
Theorem task_completion_moves_task
    (sessionId agentId : string) (message : Message.t) (o : AgentOrchestrator.t)
    (workflow : Workflow.t) (taskId result deliverables : JsVal)
    (taskIndex ref : nat) (task : Task.t) :
  AgentOrchestrator.sessionWorkflows o !! sessionId = Some workflow ->
  Message.type message = "task_completion" ->
  getProp (Message.payload message) "taskId" = Ok taskId ->
  getProp (Message.payload message) "result" = Ok result ->
  getProp (Message.payload message) "deliverables" = Ok deliverables ->
  findIndex (AgentOrchestrator.hasId (AgentOrchestrator.heap o) taskId)
            (Workflow.activeTasks workflow) = Some taskIndex ->
  Workflow.activeTasks workflow !! taskIndex = Some ref ->
  AgentOrchestrator.heap o !! ref = Some task ->
  Task.type task <> "requirements_analysis" ->
  let o' := snd (AgentOrchestrator.handleAgentMessage sessionId agentId message o) in
  let now := SimpleMessageQueue.now (AgentOrchestrator.queue o) in
  (exists workflow' : Workflow.t,
      AgentOrchestrator.sessionWorkflows o' !! sessionId = Some workflow' /\
      Workflow.activeTasks workflow' = delete taskIndex (Workflow.activeTasks workflow) /\
      Workflow.completedTasks workflow' = Workflow.completedTasks workflow ++ [ref] /\
      Workflow.currentPhase workflow' = Workflow.currentPhase workflow) /\
  AgentOrchestrator.heap o'
  = <[ref := Task.complete now result deliverables task]> (AgentOrchestrator.heap o) /\
  AgentOrchestrator.queue o' = AgentOrchestrator.queue o /\
  (exists before after : AgentOrchestrator.WorkflowStatus,
      AgentOrchestrator.getWorkflowStatus sessionId o = Some before /\
      AgentOrchestrator.getWorkflowStatus sessionId o' = Some after /\
      AgentOrchestrator.total after = AgentOrchestrator.total before /\
      AgentOrchestrator.completed after = S (AgentOrchestrator.completed before) /\
      S (AgentOrchestrator.active after) = AgentOrchestrator.active before).
Proof.
  intros Hw Htype Hid Hres Hdel Hfind Hi Htask Hnot o' now.
  destruct (handleAgentMessage_completion sessionId agentId message o workflow taskId result
              deliverables taskIndex ref task Hw Htype Hid Hres Hdel Hfind Hi Htask Hnot)
    as ((workflow' & Hw' & Hact & Hcomp & Hphase) & Hheap & Hqueue).
  fold o' in Hw', Hheap, Hqueue.
  split; [exists workflow'; auto|]. split; [exact Hheap|]. split; [exact Hqueue|].
  unfold AgentOrchestrator.getWorkflowStatus. rewrite Hw, Hw'.
  eexists. eexists. split; [reflexivity|]. split; [reflexivity|].
  cbn. rewrite Hact, Hcomp, length_app, length_delete by (rewrite Hi; eauto).
  apply lookup_lt_Some in Hi. cbn. repeat split; lia.
Qed.

(** The sample session's only task is reported done. *)
Lemma task_completion_moves_task_example :
  AgentOrchestrator.heap
    (snd (AgentOrchestrator.handleAgentMessage "s1" "backend_developer" sampleTaskDone
            sampleOrchestrator))
  = <[0%nat := Task.complete 0 (JObj [("services", JObj [])]) (JArr []) sampleTask]>
      (AgentOrchestrator.heap sampleOrchestrator).
Proof.
  refine (proj1 (proj2 (task_completion_moves_task "s1" "backend_developer" sampleTaskDone
                          sampleOrchestrator sampleWorkflow (JStr "t1")
                          (JObj [("services", JObj [])]) (JArr []) 0%nat 0%nat sampleTask
                          _ _ _ _ _ _ _ _ _)));
    try (vm_compute; reflexivity).
  discriminate.
Defined.

(** X8. After a critical error has had a task that is not a requirements
    analysis reassigned to a replacement agent, the task stands twice on the
    active list; the [task_completion] that follows removes only the first
    of the two entries.  The task object is then "completed" and listed
    under [completedTasks], yet still listed under [activeTasks]: the status
    report counts as many active tasks as before the error, and one task
    more in total. *)
Theorem reassigned_task_stays_active_when_completed
    (sessionId A : string) (failure : Message.t) (agentId : string) (done : Message.t)
    (o : AgentOrchestrator.t) (workflow : Workflow.t) (taskId result deliverables : JsVal)
    (ref : nat) (task : Task.t) (c : AgentOrchestrator.Capability) (B : string) :
  AgentOrchestrator.sessionWorkflows o !! sessionId = Some workflow ->
  Message.type failure = "error_report" ->
  getProp (Message.payload failure) "taskId" = Ok taskId ->
  getProp (Message.payload failure) "severity" = Ok (JStr "critical") ->
  List.find (AgentOrchestrator.hasId (AgentOrchestrator.heap o) taskId)
            (Workflow.activeTasks workflow) = Some ref ->
  AgentOrchestrator.heap o !! ref = Some task ->
  Task.type task <> "requirements_analysis" ->
  AgentOrchestrator.getCapability A (AgentOrchestrator.agentCapabilities o) = Some c ->
  AgentOrchestrator.findReplacementAgent (AgentOrchestrator.agentCapabilities o)
    (AgentOrchestrator.specialization c) A = Some B ->
  B <> "" ->
  Message.type done = "task_completion" ->
  getProp (Message.payload done) "taskId" = Ok taskId ->
  getProp (Message.payload done) "result" = Ok result ->
  getProp (Message.payload done) "deliverables" = Ok deliverables ->
  let o1 := snd (AgentOrchestrator.handleAgentMessage sessionId A failure o) in
  let o2 := snd (AgentOrchestrator.handleAgentMessage sessionId agentId done o1) in
  exists (workflow2 : Workflow.t) (task2 : Task.t)
         (before after : AgentOrchestrator.WorkflowStatus),
    AgentOrchestrator.sessionWorkflows o2 !! sessionId = Some workflow2 /\
    ref ∈ Workflow.activeTasks workflow2 /\
    ref ∈ Workflow.completedTasks workflow2 /\
    AgentOrchestrator.heap o2 !! ref = Some task2 /\
    Task.status task2 = JStr "completed" /\
    Task.assignedAgent task2 = B /\
    AgentOrchestrator.getWorkflowStatus sessionId o = Some before /\
    AgentOrchestrator.getWorkflowStatus sessionId o2 = Some after /\
    AgentOrchestrator.active after = AgentOrchestrator.active before /\
    AgentOrchestrator.completed after = S (AgentOrchestrator.completed before) /\
    AgentOrchestrator.total after = S (AgentOrchestrator.total before).
Proof.
  intros Hw Htype Hid Hsev Hfind Htask Hnot Hcap Hrep Hne Htype2 Hid2 Hres2 Hdel2 o1 o2.
  destruct (handleAgentMessage_critical sessionId A failure o workflow taskId ref task c B
              Hw Htype Hid Hsev Hfind Htask Hcap Hrep Hne)
    as (o0 & workflow1 & Ho1 & Hheap0 & Hqueue0 & Hact1 & Hcomp1).
  fold o1 in Ho1.
  destruct (find_findIndex _ _ _ Hfind) as (i & Hfi & Hi).
  set (task1 := Task.reassign (SimpleMessageQueue.now (AgentOrchestrator.queue o0)) B A task).
  assert (Hheap1 : AgentOrchestrator.heap o1 = <[ref := task1]> (AgentOrchestrator.heap o)).
  { rewrite Ho1. unfold reassigned. cbn. rewrite Hheap0. reflexivity. }
  assert (Hw1 : AgentOrchestrator.sessionWorkflows o1 !! sessionId
                = Some (Workflow.addAgent B (Workflow.pushActive ref workflow1))).
  { rewrite Ho1. unfold reassigned. cbn. apply lookup_insert_eq. }
  assert (Hlt : (ref < length (AgentOrchestrator.heap o))%nat)
    by (apply lookup_lt_Some in Htask; exact Htask).
  assert (Hfi1 : findIndex (AgentOrchestrator.hasId (AgentOrchestrator.heap o1) taskId)
                   (Workflow.activeTasks (Workflow.addAgent B (Workflow.pushActive ref workflow1)))
                 = Some i).
  { cbn. rewrite Hact1. apply findIndex_app_l. rewrite <- Hfi. apply findIndex_ext.
    intros r _. rewrite Hheap1. apply (hasId_insert _ _ _ task); [exact Htask|reflexivity]. }
  assert (Hi1 : Workflow.activeTasks (Workflow.addAgent B (Workflow.pushActive ref workflow1))
                !! i = Some ref).
  { cbn. rewrite Hact1. apply lookup_app_l_Some, Hi. }
  assert (Htask1 : AgentOrchestrator.heap o1 !! ref = Some task1).
  { rewrite Hheap1. apply list_lookup_insert_eq, Hlt. }
  destruct (handleAgentMessage_completion sessionId agentId done o1 _ taskId result
              deliverables i ref task1 Hw1 Htype2 Hid2 Hres2 Hdel2 Hfi1 Hi1 Htask1 Hnot)
    as ((workflow2 & Hw2 & Hact2 & Hcomp2 & _) & Hheap2 & _).
  fold o2 in Hw2, Hheap2.
  exists workflow2. eexists. eexists. eexists.
  split; [exact Hw2|].
  assert (Hact2' : Workflow.activeTasks workflow2
                   = delete i (Workflow.activeTasks workflow) ++ [ref]).
  { rewrite Hact2. cbn. rewrite Hact1. apply delete_app_l.
    apply lookup_lt_Some in Hi. exact Hi. }
  split; [rewrite Hact2'; apply elem_of_app; right; apply list_elem_of_here|].
  split; [rewrite Hcomp2; apply elem_of_app; right; apply list_elem_of_here|].
  split; [rewrite Hheap2; apply list_lookup_insert_eq; rewrite Hheap1, length_insert; exact Hlt|].
  split; [reflexivity|]. split; [reflexivity|].
  unfold AgentOrchestrator.getWorkflowStatus. rewrite Hw, Hw2.
  split; [reflexivity|]. split; [reflexivity|].
  cbn. rewrite Hact2', Hcomp2. cbn. rewrite Hcomp1, !length_app, length_delete by (rewrite Hi; eauto).
  apply lookup_lt_Some in Hi. cbn. repeat split; lia.
Qed.

(** The sample run: the critical error of the first agent, then the
    completion of the task. *)
Lemma reassigned_task_stays_active_example :
  exists (workflow2 : Workflow.t) (task2 : Task.t)
         (before after : AgentOrchestrator.WorkflowStatus),
    AgentOrchestrator.sessionWorkflows
      (snd (AgentOrchestrator.handleAgentMessage "s1" "backend_developer_2" sampleTaskDone
              (snd (AgentOrchestrator.handleAgentMessage "s1" "backend_developer"
                      criticalError sampleOrchestrator)))) !! "s1" = Some workflow2 /\
    0%nat ∈ Workflow.activeTasks workflow2 /\
    0%nat ∈ Workflow.completedTasks workflow2 /\
    AgentOrchestrator.heap
      (snd (AgentOrchestrator.handleAgentMessage "s1" "backend_developer_2" sampleTaskDone
              (snd (AgentOrchestrator.handleAgentMessage "s1" "backend_developer"
                      criticalError sampleOrchestrator)))) !! 0%nat = Some task2 /\
    Task.status task2 = JStr "completed" /\
    Task.assignedAgent task2 = "backend_developer_2" /\
    AgentOrchestrator.getWorkflowStatus "s1" sampleOrchestrator = Some before /\
    AgentOrchestrator.getWorkflowStatus "s1"
      (snd (AgentOrchestrator.handleAgentMessage "s1" "backend_developer_2" sampleTaskDone
              (snd (AgentOrchestrator.handleAgentMessage "s1" "backend_developer"
                      criticalError sampleOrchestrator)))) = Some after /\
    AgentOrchestrator.active after = AgentOrchestrator.active before /\
    AgentOrchestrator.completed after = S (AgentOrchestrator.completed before) /\
    AgentOrchestrator.total after = S (AgentOrchestrator.total before).
Proof.
  refine (reassigned_task_stays_active_when_completed "s1" "backend_developer" criticalError
            "backend_developer_2" sampleTaskDone sampleOrchestrator sampleWorkflow
            (JStr "t1") (JObj [("services", JObj [])]) (JArr []) 0%nat sampleTask
            (AgentOrchestrator.mkCapability "backend_development" ["server_logic"]
               ["gpt-4"] 4 12000)
            "backend_developer_2" _ _ _ _ _ _ _ _ _ _ _ _ _ _);
    try (vm_compute; reflexivity); discriminate.
Defined.

(** ** The orchestrator: an analysis result it cannot plan from *)

Section Stall.
Import AgentOrchestrator.

Lemma handleTaskCompletion_stalls (sessionId agentId : string) (message : Message.t)
    (o : t) (workflow : Workflow.t) (taskId result deliverables requirements architecture : JsVal)
    (taskIndex ref : nat) (task : Task.t) (error : string) :
  getProp (Message.payload message) "taskId" = Ok taskId ->
  getProp (Message.payload message) "result" = Ok result ->
  getProp (Message.payload message) "deliverables" = Ok deliverables ->
  sessionWorkflows o !! sessionId = Some workflow ->
  findIndex (hasId (heap o) taskId) (Workflow.activeTasks workflow) = Some taskIndex ->
  Workflow.activeTasks workflow !! taskIndex = Some ref ->
  heap o !! ref = Some task ->
  Task.type task = "requirements_analysis" ->
  getProp result "requirements" = Ok requirements ->
  getProp result "architecture" = Ok architecture ->
  determineRequiredAgents requirements architecture = Throw error ->
  handleTaskCompletion sessionId agentId message o
  = (Throw error,
     setWorkflows
       (<[sessionId :=
            Workflow.setPhase planning
              (Workflow.setArchitecture architecture
                 (Workflow.setRequirements requirements
                    (Workflow.moveToCompleted taskIndex ref workflow)))]>
          (sessionWorkflows o))
       (setHeap (<[ref := Task.complete (SimpleMessageQueue.now (queue o)) result
                            deliverables task]> (heap o)) o)).
Proof.
  intros Hid Hres Hdel Hw Hfind Hi Htask Htype Hreq Harch Hthrow.
  unfold handleTaskCompletion, bind, lift. rewrite Hid, Hres, Hdel.
  unfold readWorkflow, get. rewrite Hw, Hfind, Hi.
  unfold clock, modifyTask. rewrite Htask.
  unfold updWorkflow. cbn [sessionWorkflows setHeap]. rewrite Hw.
  unfold readTask. cbn [heap setWorkflows setHeap].
  rewrite list_lookup_insert_eq by (apply lookup_lt_Some in Htask; exact Htask).
  cbn [Task.type Task.complete]. rewrite Htype. cbn [String.eqb Ascii.eqb Bool.eqb].
  rewrite Hreq, Harch.
  unfold initiateImplementationPlanning, bind, lift. rewrite Hreq, Harch, Hthrow.
  repeat (progress (cbn [sessionWorkflows setWorkflows setHeap heap];
                    rewrite ?insert_insert_eq, ?lookup_insert_eq)).
  reflexivity.
Qed.

End Stall.

(** X9. When the result of the requirements analysis carries requirements
    that are neither a string nor an array (a structured object, say), so
    that [requirements.includes] is no function, the [task_completion] still
    completes the task and moves the workflow to phase "planning", but no
    further: the exception is swallowed, no implementation task is created,
    no agent is added, nothing is published, and the phase "implementation"
    is not entered. *)
Theorem structured_requirements_stop_at_planning
    (sessionId agentId : string) (message : Message.t) (o : AgentOrchestrator.t)
    (workflow : Workflow.t) (taskId result deliverables requirements architecture : JsVal)
    (taskIndex ref : nat) (task : Task.t) :
  AgentOrchestrator.sessionWorkflows o !! sessionId = Some workflow ->
  Message.type message = "task_completion" ->
  getProp (Message.payload message) "taskId" = Ok taskId ->
  getProp (Message.payload message) "result" = Ok result ->
  getProp (Message.payload message) "deliverables" = Ok deliverables ->
  findIndex (AgentOrchestrator.hasId (AgentOrchestrator.heap o) taskId)
            (Workflow.activeTasks workflow) = Some taskIndex ->
  Workflow.activeTasks workflow !! taskIndex = Some ref ->
  AgentOrchestrator.heap o !! ref = Some task ->
  Task.type task = "requirements_analysis" ->
  getProp result "requirements" = Ok requirements ->
  getProp result "architecture" = Ok architecture ->
  (forall s, requirements <> JStr s) ->
  (forall l, requirements <> JArr l) ->
  let o' := snd (AgentOrchestrator.handleAgentMessage sessionId agentId message o) in
  (exists workflow' : Workflow.t,
      AgentOrchestrator.sessionWorkflows o' !! sessionId = Some workflow' /\
      Workflow.currentPhase workflow' = planning /\
      Workflow.phaseTrace workflow' = Workflow.phaseTrace workflow ++ [planning] /\
      Workflow.requirements workflow' = requirements /\
      Workflow.architecture workflow' = architecture /\
      Workflow.activeTasks workflow' = delete taskIndex (Workflow.activeTasks workflow) /\
      Workflow.completedTasks workflow' = Workflow.completedTasks workflow ++ [ref] /\
      Workflow.activeAgents workflow' = Workflow.activeAgents workflow) /\
  length (AgentOrchestrator.heap o') = length (AgentOrchestrator.heap o) /\
  AgentOrchestrator.queue o' = AgentOrchestrator.queue o.
Proof.
  intros Hw Htype Hid Hres Hdel Hfind Hi Htask Hana Hreq Harch Hstr Harr o'.
  assert (Hthrow : exists e, AgentOrchestrator.determineRequiredAgents requirements architecture
                             = Throw e).
  { destruct requirements; cbn; eauto; [destruct (Hstr s)|destruct (Harr l)]; reflexivity. }
  destruct Hthrow as [e Hthrow].
  destruct (handleAgentMessage_dispatch sessionId agentId message o workflow Hw)
    as (o1 & Ho' & Hheap & Hqueue & Hcaps & Hws).
  subst o'. rewrite Ho'. clear Ho'.
  unfold AgentOrchestrator.tryCatch, AgentOrchestrator.dispatch. rewrite Htype.
  cbn [String.eqb Ascii.eqb Bool.eqb].
  rewrite (handleTaskCompletion_stalls sessionId agentId message o1
             (Workflow.pushHistory message
                (SimpleMessageQueue.now (AgentOrchestrator.queue o)) workflow)
             taskId result deliverables requirements architecture taskIndex ref task e);
    rewrite ?Hws, ?Hheap, ?lookup_insert_eq; auto.
  cbn [snd AgentOrchestrator.ret AgentOrchestrator.sessionWorkflows AgentOrchestrator.heap
       AgentOrchestrator.queue AgentOrchestrator.setWorkflows AgentOrchestrator.setHeap].
  rewrite ?Hws, ?Hheap, ?Hqueue, ?lookup_insert_eq, ?length_insert.
  split; [eexists; repeat split|]. split; reflexivity.
Qed.

(** The sample session receives an analysis whose requirements are an
    object. *)
Lemma structured_requirements_example :
  exists workflow' : Workflow.t,
    AgentOrchestrator.sessionWorkflows
      (snd (AgentOrchestrator.handleAgentMessage "s1" "architectrix" sampleStructuredCompletion
              (snd (AgentOrchestrator.startSession "s1" (JObj []) "Build a REST API"
                      (AgentOrchestrator.new 0))))) !! "s1" = Some workflow' /\
    Workflow.currentPhase workflow' = planning.
Proof.
  destruct (structured_requirements_stop_at_planning "s1" "architectrix"
              sampleStructuredCompletion
              (snd (AgentOrchestrator.startSession "s1" (JObj []) "Build a REST API"
                      (AgentOrchestrator.new 0)))
              (Workflow.mk "uuid-0" "s1" (JObj []) "Build a REST API" "planning" 0 None
                 analysis [analysis] [0%nat] [] ["architectrix"] []
                 (JStr "Build a REST API") JNull)
              (JStr "uuid-1")
              (JObj [("requirements", JObj [("functional", JArr [])]);
                     ("architecture", JObj [("style", JStr "microservices")])])
              (JArr []) (JObj [("functional", JArr [])])
              (JObj [("style", JStr "microservices")]) 0%nat 0%nat
              (Task.mk "uuid-1" "requirements_analysis" "s1" "architectrix" (JStr "assigned") 10
                 (jsObject [("userRequirement", JStr "Build a REST API");
                            ("projectContext", JObj []); ("existingCode", JArr [])])
                 (jsObject [("requirements", JStr "structured_requirements");
                            ("architecture", JStr "high_level_architecture");
                            ("recommendations", JStr "technology_recommendations")])
                 300000 0 JUndefined None None JUndefined JUndefined None None))
    as ((workflow' & Hw' & Hphase & _) & _);
    try (vm_compute; reflexivity); try discriminate.
  exists workflow'. split; assumption.
Defined.

(** ** The orchestrator: from the analysis to the implementation tasks *)

Section Planning.
Import AgentOrchestrator.

Lemma assignTaskToAgent_found (sessionId : string) (ref : nat) (o : t)
    (workflow : Workflow.t) (task : Task.t) :
  sessionWorkflows o !! sessionId = Some workflow ->
  heap o !! ref = Some task ->
  exists (o' : t) (p : string * string * Message.t),
    assignTaskToAgent sessionId ref o = (Ok tt, o') /\
    heap o' = heap o /\
    agentCapabilities o' = agentCapabilities o /\
    activeAgents o' = activeAgents o /\
    workflowStates o' = workflowStates o /\
    sessionWorkflows o'
    = <[sessionId := Workflow.addAgent (Task.assignedAgent task)
                       (Workflow.pushActive ref workflow)]> (sessionWorkflows o) /\
    SimpleMessageQueue.published (queue o') = SimpleMessageQueue.published (queue o) ++ [p] /\
    SimpleMessageQueue.now (queue o') = SimpleMessageQueue.now (queue o) /\
    assignmentOf sessionId p task.
Proof.
  intros Hw Htask.
  unfold assignTaskToAgent, bind, updWorkflow. rewrite Hw.
  unfold readTask. cbn [heap setWorkflows]. rewrite Htask.
  cbn [sessionWorkflows setWorkflows]. rewrite lookup_insert_eq.
  unfold sendMessage, ret. cbn [queue setWorkflows fst snd].
  eexists. eexists. split; [reflexivity|].
  cbn [heap agentCapabilities activeAgents workflowStates sessionWorkflows queue setQueue
       setWorkflows].
  rewrite insert_insert_eq.
  do 5 (split; [reflexivity|]).
  unfold SimpleMessageQueue.sendMessage.
  cbn [snd recipientsOf Envelope.toAgent fold_left].
  unfold SimpleMessageQueue.publishTo.
  cbn [SimpleMessageQueue.published SimpleMessageQueue.now].
  split; [reflexivity|]. split; [reflexivity|].
  unfold assignmentOf. cbn. repeat split.
Qed.

Lemma forEach_assign_found (sessionId : string) (h : list Task.t) (refs : list nat)
    (tasks : list Task.t) (o : t) (workflow : Workflow.t) :
  heap o = h ->
  sessionWorkflows o !! sessionId = Some workflow ->
  Forall2 (fun ref task => h !! ref = Some task) refs tasks ->
  exists (o' : t) (ps : list (string * string * Message.t)),
    forEach (assignTaskToAgent sessionId) refs o = (Ok tt, o') /\
    heap o' = h /\
    agentCapabilities o' = agentCapabilities o /\
    activeAgents o' = activeAgents o /\
    workflowStates o' = workflowStates o /\
    sessionWorkflows o' = <[sessionId := assignAll h refs workflow]> (sessionWorkflows o) /\
    SimpleMessageQueue.published (queue o') = SimpleMessageQueue.published (queue o) ++ ps /\
    SimpleMessageQueue.now (queue o') = SimpleMessageQueue.now (queue o) /\
    Forall2 (assignmentOf sessionId) ps tasks.
Proof.
  intros Hh Hw Hrefs. revert o workflow Hh Hw.
  induction Hrefs as [|ref task refs tasks Href Hrest IH]; intros o workflow Hh Hw.
  - exists o, []. cbn [forEach assignAll fold_left]. unfold ret.
    rewrite !app_nil_r. rewrite insert_id by exact Hw.
    repeat split; try assumption; try reflexivity. constructor.
  - rewrite <- Hh in Href.
    destruct (assignTaskToAgent_found sessionId ref o workflow task Hw Href)
      as (o1 & p & Hrun & Hheap1 & Hcaps1 & Hags1 & Hsts1 & Hws1 & Hpub1 & Hnow1 & Hp).
    destruct (IH o1 (Workflow.addAgent (Task.assignedAgent task)
                       (Workflow.pushActive ref workflow)))
      as (o' & ps & Hrun' & Hheap' & Hcaps' & Hags' & Hsts' & Hws' & Hpub' & Hnow' & Hps).
    { congruence. }
    { rewrite Hws1. apply lookup_insert_eq. }
    exists o', (p :: ps). cbn [forEach]. unfold bind. rewrite Hrun, Hrun'.
    split; [reflexivity|]. split; [exact Hheap'|].
    split; [congruence|]. split; [congruence|]. split; [congruence|].
    split.
    { rewrite Hws', Hws1, insert_insert_eq. unfold assignAll. cbn [fold_left].
      rewrite <- Hh, Href. reflexivity. }
    split; [rewrite Hpub', Hpub1, <- app_assoc; reflexivity|].
    split; [congruence|]. constructor; assumption.
Qed.

Lemma assignAll_fields (h : list Task.t) (refs : list nat) (tasks : list Task.t)
    (workflow : Workflow.t) :
  Forall2 (fun ref task => h !! ref = Some task) refs tasks ->
  let workflow' := assignAll h refs workflow in
  Workflow.activeTasks workflow' = Workflow.activeTasks workflow ++ refs /\
  Workflow.completedTasks workflow' = Workflow.completedTasks workflow /\
  Workflow.activeAgents workflow'
  = addAll (map Task.assignedAgent tasks) (Workflow.activeAgents workflow) /\
  Workflow.currentPhase workflow' = Workflow.currentPhase workflow /\
  Workflow.phaseTrace workflow' = Workflow.phaseTrace workflow /\
  Workflow.messageHistory workflow' = Workflow.messageHistory workflow /\
  Workflow.requirements workflow' = Workflow.requirements workflow /\
  Workflow.architecture workflow' = Workflow.architecture workflow /\
  Workflow.status workflow' = Workflow.status workflow /\
  Workflow.id workflow' = Workflow.id workflow /\
  Workflow.startTime workflow' = Workflow.startTime workflow.
Proof.
  intros Hrefs. revert workflow.
  induction Hrefs as [|ref task refs tasks Href Hrest IH]; intros workflow;
    cbn [assignAll fold_left map addAll].
  - rewrite app_nil_r. repeat split.
  - unfold assignAll in *. cbn [fold_left]. rewrite Href.
    destruct (IH (Workflow.addAgent (Task.assignedAgent task)
                    (Workflow.pushActive ref workflow)))
      as (H1 & H2 & H3 & H4 & H5 & H6 & H7 & H8 & H9 & H10 & H11).
    cbn zeta in *. rewrite H1, H2, H3, H4, H5, H6, H7, H8, H9, H10, H11.
    cbn. rewrite <- app_assoc. repeat split.
Qed.

Lemma createImplementationTasks_found (sessionId : string) (requirements architecture : JsVal)
    (neededAgents : list string) (o : t) :
  Forall (fun agentId => is_Some (getCapability agentId (agentCapabilities o))) neededAgents ->
  exists (o' : t) (tasks : list Task.t),
    createImplementationTasks sessionId requirements architecture neededAgents o
    = (Ok (seq (length (heap o)) (length neededAgents)), o') /\
    heap o' = heap o ++ tasks /\
    Forall2 (implementationTaskFor (agentCapabilities o) sessionId) tasks neededAgents /\
    agentCapabilities o' = agentCapabilities o /\
    activeAgents o' = activeAgents o /\
    workflowStates o' = workflowStates o /\
    sessionWorkflows o' = sessionWorkflows o /\
    SimpleMessageQueue.published (queue o') = SimpleMessageQueue.published (queue o) /\
    SimpleMessageQueue.now (queue o') = SimpleMessageQueue.now (queue o).
Proof.
  intros Hknown. revert o Hknown.
  induction neededAgents as [|agentId rest IH]; intros o Hknown;
    cbn [createImplementationTasks length seq].
  - exists o, []. unfold ret. rewrite app_nil_r. repeat split. constructor.
  - apply Forall_cons in Hknown as [[c Hc] Hrest].
    unfold bind at 1, get. unfold bind at 1, uuidv4. rewrite Hc.
    unfold bind at 1, clock. unfold bind at 1, alloc.
    cbn [queue setQueue heap setHeap SimpleMessageQueue.now].
    set (task := Task.mk _ _ _ _ _ _ _ _ _ _ _ _ _ _ _ _ _).
    set (o1 := setHeap _ _).
    destruct (IH o1) as (o' & tasks & Hrun & Hheap & Htasks & Hcaps & Hags & Hsts & Hws
                         & Hpub & Hnow).
    { exact Hrest. }
    exists o', (task :: tasks). unfold bind.
    replace (length (heap o1)) with (S (length (heap o))) in Hrun
      by (subst o1; cbn; rewrite length_app; cbn; lia).
    rewrite Hrun. unfold ret.
    split; [reflexivity|].
    split; [rewrite Hheap; subst o1; cbn; rewrite <- app_assoc; reflexivity|].
    split.
    { constructor; [|exact Htasks]. exists c. subst task. cbn. repeat split. exact Hc. }
    repeat split; assumption.
Qed.

Lemma implementationTaskFor_agents (caps : list (string * Capability)) (sessionId : string)
    (tasks : list Task.t) (agents : list string) :
  Forall2 (implementationTaskFor caps sessionId) tasks agents ->
  map Task.assignedAgent tasks = agents.
Proof.
  induction 1 as [|task agentId tasks agents (c & _ & _ & Ha & _) _ IH]; cbn; [reflexivity|].
  rewrite Ha, IH. reflexivity.
Qed.

Lemma lookup_seq_app (h tasks : list Task.t) :
  Forall2 (fun ref task => (h ++ tasks) !! ref = Some task) (seq (length h) (length tasks)) tasks.
Proof.
  revert h. induction tasks as [|task tasks IH]; intros h; cbn [length seq]; constructor.
  - rewrite lookup_app_r by reflexivity. rewrite Nat.sub_diag. reflexivity.
  - specialize (IH (h ++ [task])). rewrite length_app in IH. cbn [length] in IH.
    rewrite Nat.add_1_r, <- app_assoc in IH. exact IH.
Qed.

Lemma initiateImplementationPlanning_found (sessionId : string) (analysisResult : JsVal)
    (s : string) (architecture : JsVal) (o : t) (workflow : Workflow.t) :
  getProp analysisResult "requirements" = Ok (JStr s) ->
  getProp analysisResult "architecture" = Ok architecture ->
  sessionWorkflows o !! sessionId = Some workflow ->
  Forall (fun agentId => is_Some (getCapability agentId (agentCapabilities o)))
         (selectAgents (includes s)) ->
  exists (o' : t) (tasks : list Task.t) (ps : list (string * string * Message.t)),
    initiateImplementationPlanning sessionId analysisResult o = (Ok tt, o') /\
    heap o' = heap o ++ tasks /\
    Forall2 (implementationTaskFor (agentCapabilities o) sessionId) tasks
            (selectAgents (includes s)) /\
    sessionWorkflows o'
    = <[sessionId :=
          Workflow.setPhase implementation
            (assignAll (heap o ++ tasks)
               (seq (length (heap o)) (length (selectAgents (includes s)))) workflow)]>
        (sessionWorkflows o) /\
    SimpleMessageQueue.published (queue o') = SimpleMessageQueue.published (queue o) ++ ps /\
    Forall2 (assignmentOf sessionId) ps tasks.
Proof.
  intros Hreq Harch Hw Hknown.
  unfold initiateImplementationPlanning, bind at 1, lift. rewrite Hreq.
  unfold bind at 1. rewrite Harch. unfold bind at 1. cbn [determineRequiredAgents].
  destruct (createImplementationTasks_found sessionId (JStr s) architecture _ o Hknown)
    as (o1 & tasks & Hrun1 & Hheap1 & Htasks & Hcaps1 & Hags1 & Hsts1 & Hws1 & Hpub1 & Hnow1).
  unfold bind at 1. rewrite Hrun1.
  assert (Hlen : length (selectAgents (includes s)) = length tasks).
  { symmetry. apply (Forall2_length _ _ _ Htasks). }
  assert (Hrefs : Forall2 (fun ref task => (heap o ++ tasks) !! ref = Some task)
                    (seq (length (heap o)) (length (selectAgents (includes s)))) tasks).
  { rewrite Hlen. apply lookup_seq_app. }
  destruct (forEach_assign_found sessionId (heap o ++ tasks) _ tasks o1 workflow Hheap1
              (eq_trans (f_equal (fun ws => ws !! sessionId) Hws1) Hw) Hrefs)
    as (o2 & ps & Hrun2 & Hheap2 & Hcaps2 & Hags2 & Hsts2 & Hws2 & Hpub2 & Hnow2 & Hps).
  unfold bind. rewrite Hrun2. unfold updWorkflow. rewrite Hws2, lookup_insert_eq.
  exists (setWorkflows
            (<[sessionId := Workflow.setPhase implementation
                              (assignAll (heap o ++ tasks)
                                 (seq (length (heap o)) (length (selectAgents (includes s))))
                                 workflow)]>
               (<[sessionId := assignAll (heap o ++ tasks)
                                 (seq (length (heap o)) (length (selectAgents (includes s))))
                                 workflow]> (sessionWorkflows o1))) o2), tasks, ps.
  split; [reflexivity|].
  cbn [heap sessionWorkflows queue setWorkflows].
  split; [exact Hheap2|]. split; [exact Htasks|].
  split; [rewrite insert_insert_eq, Hws1; reflexivity|].
  split; [rewrite Hpub2, Hpub1; reflexivity|exact Hps].
Qed.

Lemma handleTaskCompletion_plans (sessionId agentId : string) (message : Message.t)
    (o : t) (workflow : Workflow.t) (taskId result deliverables architecture : JsVal)
    (s : string) (taskIndex ref : nat) (task : Task.t) :
  getProp (Message.payload message) "taskId" = Ok taskId ->
  getProp (Message.payload message) "result" = Ok result ->
  getProp (Message.payload message) "deliverables" = Ok deliverables ->
  sessionWorkflows o !! sessionId = Some workflow ->
  findIndex (hasId (heap o) taskId) (Workflow.activeTasks workflow) = Some taskIndex ->
  Workflow.activeTasks workflow !! taskIndex = Some ref ->
  heap o !! ref = Some task ->
  Task.type task = "requirements_analysis" ->
  getProp result "requirements" = Ok (JStr s) ->
  getProp result "architecture" = Ok architecture ->
  Forall (fun agentId => is_Some (getCapability agentId (agentCapabilities o)))
         (selectAgents (includes s)) ->
  exists (o' : t) (tasks : list Task.t) (ps : list (string * string * Message.t)),
    handleTaskCompletion sessionId agentId message o = (Ok tt, o') /\
    heap o'
    = <[ref := Task.complete (SimpleMessageQueue.now (queue o)) result deliverables task]>
        (heap o) ++ tasks /\
    Forall2 (implementationTaskFor (agentCapabilities o) sessionId) tasks
            (selectAgents (includes s)) /\
    sessionWorkflows o'
    = <[sessionId :=
          Workflow.setPhase implementation
            (assignAll (heap o') (seq (length (heap o)) (length (selectAgents (includes s))))
               (Workflow.setPhase planning
                  (Workflow.setArchitecture architecture
                     (Workflow.setRequirements (JStr s)
                        (Workflow.moveToCompleted taskIndex ref workflow)))))]>
        (sessionWorkflows o) /\
    SimpleMessageQueue.published (queue o') = SimpleMessageQueue.published (queue o) ++ ps /\
    Forall2 (assignmentOf sessionId) ps tasks.
Proof.
  intros Hid Hres Hdel Hw Hfind Hi Htask Htype Hreq Harch Hknown.
  unfold handleTaskCompletion, bind, lift. rewrite Hid, Hres, Hdel.
  unfold readWorkflow, get. rewrite Hw, Hfind, Hi.
  unfold clock, modifyTask. rewrite Htask.
  unfold updWorkflow. cbn [sessionWorkflows setHeap]. rewrite Hw.
  unfold readTask. cbn [heap setWorkflows setHeap].
  rewrite list_lookup_insert_eq by (apply lookup_lt_Some in Htask; exact Htask).
  cbn [Task.type Task.complete]. rewrite Htype. cbn [String.eqb Ascii.eqb Bool.eqb].
  rewrite Hreq, Harch.
  repeat (progress (cbn [sessionWorkflows setWorkflows setHeap heap];
                    rewrite ?insert_insert_eq, ?lookup_insert_eq)).
  set (o1 := setWorkflows _ _).
  destruct (initiateImplementationPlanning_found sessionId result s architecture o1
              (Workflow.setPhase planning
                 (Workflow.setArchitecture architecture
                    (Workflow.setRequirements (JStr s)
                       (Workflow.moveToCompleted taskIndex ref workflow)))) Hreq Harch)
    as (o' & tasks & ps & Hrun & Hheap & Htasks & Hws & Hpub & Hps).
  { subst o1. cbn. apply lookup_insert_eq. }
  { subst o1. cbn. exact Hknown. }
  exists o', tasks, ps. rewrite Hrun.
  split; [reflexivity|].
  split; [rewrite Hheap; subst o1; reflexivity|].
  split; [exact Htasks|].
  split.
  { rewrite Hws, Hheap. subst o1. cbn. rewrite insert_insert_eq, length_insert. reflexivity. }
  split; [rewrite Hpub; subst o1; reflexivity|exact Hps].
Qed.

End Planning.
(** X10. When the result of the requirements analysis carries its
    requirements as a string and the registry knows every agent that
    [determineRequiredAgents] selects from it, the [task_completion] takes
    the workflow through "planning" to "implementation": the analysis is
    moved to the completed tasks, one new task of type
    [<specialization>_implementation] is created for each selected agent,
    in the order of selection, each is appended to the active tasks and its
    agent added to the active agents, and exactly one [task_assignment] per
    new task is published to that agent. *)
Theorem analysis_completion_plans_implementation
    (sessionId agentId : string) (message : Message.t) (o : AgentOrchestrator.t)
    (workflow : Workflow.t) (taskId result deliverables architecture : JsVal) (s : string)
    (taskIndex ref : nat) (task : Task.t) :
  AgentOrchestrator.sessionWorkflows o !! sessionId = Some workflow ->
  Message.type message = "task_completion" ->
  getProp (Message.payload message) "taskId" = Ok taskId ->
  getProp (Message.payload message) "result" = Ok result ->
  getProp (Message.payload message) "deliverables" = Ok deliverables ->
  findIndex (AgentOrchestrator.hasId (AgentOrchestrator.heap o) taskId)
            (Workflow.activeTasks workflow) = Some taskIndex ->
  Workflow.activeTasks workflow !! taskIndex = Some ref ->
  AgentOrchestrator.heap o !! ref = Some task ->
  Task.type task = "requirements_analysis" ->
  getProp result "requirements" = Ok (JStr s) ->
  getProp result "architecture" = Ok architecture ->
  Forall (fun a => is_Some (AgentOrchestrator.getCapability a
                              (AgentOrchestrator.agentCapabilities o)))
         (AgentOrchestrator.selectAgents (includes s)) ->
  let o' := snd (AgentOrchestrator.handleAgentMessage sessionId agentId message o) in
  let agents := AgentOrchestrator.selectAgents (includes s) in
  exists (workflow' : Workflow.t) (tasks : list Task.t)
         (ps : list (string * string * Message.t)),
    AgentOrchestrator.sessionWorkflows o' !! sessionId = Some workflow' /\
    Workflow.currentPhase workflow' = implementation /\
    Workflow.phaseTrace workflow' = Workflow.phaseTrace workflow ++ [planning; implementation] /\
    Workflow.requirements workflow' = JStr s /\
    Workflow.architecture workflow' = architecture /\
    Workflow.activeTasks workflow'
    = delete taskIndex (Workflow.activeTasks workflow)
      ++ seq (length (AgentOrchestrator.heap o)) (length agents) /\
    Workflow.completedTasks workflow' = Workflow.completedTasks workflow ++ [ref] /\
    Workflow.activeAgents workflow' = addAll agents (Workflow.activeAgents workflow) /\
    AgentOrchestrator.heap o'
    = <[ref := Task.complete (SimpleMessageQueue.now (AgentOrchestrator.queue o))
                 result deliverables task]> (AgentOrchestrator.heap o) ++ tasks /\
    Forall2 (implementationTaskFor (AgentOrchestrator.agentCapabilities o) sessionId)
            tasks agents /\
    SimpleMessageQueue.published (AgentOrchestrator.queue o')
    = SimpleMessageQueue.published (AgentOrchestrator.queue o) ++ ps /\
    Forall2 (assignmentOf sessionId) ps tasks.
Proof.
  intros Hw Htype Hid Hres Hdel Hfind Hi Htask Hana Hreq Harch Hknown o' agents.
  destruct (handleAgentMessage_dispatch sessionId agentId message o workflow Hw)
    as (o1 & Ho' & Hheap & Hqueue & Hcaps & Hws).
  subst o'. rewrite Ho'. clear Ho'.
  unfold AgentOrchestrator.tryCatch, AgentOrchestrator.dispatch. rewrite Htype.
  cbn [String.eqb Ascii.eqb Bool.eqb].
  destruct (handleTaskCompletion_plans sessionId agentId message o1
              (Workflow.pushHistory message
                 (SimpleMessageQueue.now (AgentOrchestrator.queue o)) workflow)
              taskId result deliverables architecture s taskIndex ref task)
    as (o2 & tasks & ps & Hrun & Hheap2 & Htasks & Hws2 & Hpub2 & Hps);
    rewrite ?Hws, ?Hheap, ?Hcaps, ?lookup_insert_eq; auto.
  rewrite Hrun. cbn [snd].
  rewrite Hheap, Hqueue in Hheap2. rewrite Hcaps in Htasks. rewrite Hqueue in Hpub2.
  fold agents in Htasks, Hws2.
  assert (Hlen : length agents = length tasks).
  { symmetry. apply (Forall2_length _ _ _ Htasks). }
  assert (Hrefs : Forall2 (fun r k => AgentOrchestrator.heap o2 !! r = Some k)
                    (seq (length (AgentOrchestrator.heap o1)) (length agents)) tasks).
  { rewrite Hheap2, Hlen, Hheap.
    replace (length (AgentOrchestrator.heap o))
      with (length (<[ref := Task.complete (SimpleMessageQueue.now (AgentOrchestrator.queue o))
                               result deliverables task]> (AgentOrchestrator.heap o)))
      by apply length_insert.
    apply lookup_seq_app. }
  destruct (assignAll_fields _ _ _
              (Workflow.setPhase planning
                 (Workflow.setArchitecture architecture
                    (Workflow.setRequirements (JStr s)
                       (Workflow.moveToCompleted taskIndex ref
                          (Workflow.pushHistory message
                             (SimpleMessageQueue.now (AgentOrchestrator.queue o)) workflow)))))
              Hrefs)
    as (F1 & F2 & F3 & F4 & F5 & F6 & F7 & F8 & _).
  eexists. exists tasks, ps.
  split; [rewrite Hws2; apply lookup_insert_eq|].
  cbn [Workflow.currentPhase Workflow.phaseTrace Workflow.requirements Workflow.architecture
       Workflow.activeTasks Workflow.completedTasks Workflow.activeAgents Workflow.setPhase].
  rewrite F1, F2, F3, F5, F7, F8, (implementationTaskFor_agents _ _ _ _ Htasks), Hheap.
  cbn. rewrite <- app_assoc.
  repeat split; assumption.
Qed.

(** The sample session: started on the orchestrator the constructor builds,
    it receives the analysis with requirements "backend api"; tasks for
    "backend_developer", "api_architect" and "code_conjurer" follow. *)
Lemma analysis_completion_plans_example :
  exists (workflow' : Workflow.t) (tasks : list Task.t)
         (ps : list (string * string * Message.t)),
    AgentOrchestrator.sessionWorkflows
      (snd (AgentOrchestrator.handleAgentMessage "s1" "architectrix" sampleCompletion
              (snd (AgentOrchestrator.startSession "s1" (JObj []) "Build a REST API"
                      (AgentOrchestrator.new 0))))) !! "s1" = Some workflow' /\
    Workflow.currentPhase workflow' = implementation /\
    Workflow.activeTasks workflow' = [1; 2; 3]%nat /\
    Workflow.activeAgents workflow'
    = ["architectrix"; "backend_developer"; "api_architect"; "code_conjurer"] /\
    Forall2 (assignmentOf "s1") ps tasks.
Proof.
  destruct (analysis_completion_plans_implementation "s1" "architectrix" sampleCompletion
              (snd (AgentOrchestrator.startSession "s1" (JObj []) "Build a REST API"
                      (AgentOrchestrator.new 0)))
              (Workflow.mk "uuid-0" "s1" (JObj []) "Build a REST API" "planning" 0 None
                 analysis [analysis] [0%nat] [] ["architectrix"] []
                 (JStr "Build a REST API") JNull)
              (JStr "uuid-1")
              (JObj [("requirements", JStr "backend api"); ("architecture", JStr "layered")])
              (JArr []) (JStr "layered") "backend api" 0%nat 0%nat
              (Task.mk "uuid-1" "requirements_analysis" "s1" "architectrix" (JStr "assigned") 10
                 (jsObject [("userRequirement", JStr "Build a REST API");
                            ("projectContext", JObj []); ("existingCode", JArr [])])
                 (jsObject [("requirements", JStr "structured_requirements");
                            ("architecture", JStr "high_level_architecture");
                            ("recommendations", JStr "technology_recommendations")])
                 300000 0 JUndefined None None JUndefined JUndefined None None))
    as (workflow' & tasks & ps & Hw' & Hphase & _ & _ & _ & Hact & _ & Hags & _ & _ & _ & Hps);
    try (vm_compute; reflexivity).
  - vm_compute. repeat constructor; eexists; reflexivity.
  - exists workflow', tasks, ps. repeat split; assumption.
Defined.

(** ** The session manager: which agents a session activates *)

Lemma NoDup_setAdd (x : string) (s : list string) : NoDup s -> NoDup (setAdd x s).
Proof.
  intros Hs. unfold setAdd. case_bool_decide as Hin; [exact Hs|].
  apply NoDup_app. split; [exact Hs|]. split; [|apply NoDup_singleton].
  intros y Hy ->%list_elem_of_singleton. contradiction.
Qed.

Lemma head_setAdd (x : string) (s : list string) : s <> [] -> head (setAdd x s) = head s.
Proof.
  intros Hs. unfold setAdd. case_bool_decide; [reflexivity|].
  destruct s; [congruence|reflexivity].
Qed.

Lemma setAdd_if_keeps_head (c : bool) (x a : string) (s : list string) :
  NoDup s /\ head s = Some a ->
  NoDup (if c then setAdd x s else s) /\ head (if c then setAdd x s else s) = Some a.
Proof.
  intros [Hn Hh]. destruct c; [|auto].
  split; [apply NoDup_setAdd, Hn|]. rewrite head_setAdd; [exact Hh|].
  intros E. rewrite E in Hh. discriminate.
Qed.

(** X11. Whatever the requirement says, [determineRequiredAgents] of the
    session manager returns agents of the manager's own table only, each
    once, and "architectrix" first when the table has it.  With the table
    that [initializeAgents] builds, the result is "architectrix" alone, or
    "architectrix" and "code_conjurer" when the requirement mentions "code"
    or "implement" in any letter case: no requirement activates another
    agent. *)
Theorem determineRequiredAgents_activates_implemented_agents
    (agents : list string) (userRequirement : string) :
  let required := A2AService.determineRequiredAgents agents userRequirement in
  (forall agentId : string, agentId ∈ required -> agentId ∈ agents) /\
  NoDup required /\
  ("architectrix" ∈ agents -> head required = Some "architectrix") /\
  A2AService.determineRequiredAgents A2AService.initialAgents userRequirement
  = if includes (toLowerCase userRequirement) "code"
       || includes (toLowerCase userRequirement) "implement"
    then ["architectrix"; "code_conjurer"]
    else ["architectrix"].
Proof.
  intros required. subst required. unfold A2AService.determineRequiredAgents.
  set (r := toLowerCase userRequirement).
  set (s1 := if includes r "code" || includes r "implement"
             then setAdd "code_conjurer" ["architectrix"] else ["architectrix"]).
  set (s2 := if includes r "frontend" || includes r "ui"
             then setAdd "frontend_developer" s1 else s1).
  set (s3 := if includes r "backend" || includes r "api"
             then setAdd "backend_developer" s2 else s2).
  set (s4 := if includes r "api" || includes r "endpoint"
             then setAdd "api_architect" s3 else s3).
  set (s5 := if includes r "documentation" || includes r "docs"
             then setAdd "technical_writer" s4 else s4).
  assert (H5 : NoDup s5 /\ head s5 = Some "architectrix").
  { repeat apply setAdd_if_keeps_head. split; [apply NoDup_singleton|reflexivity]. }
  destruct H5 as [Hn Hh].
  split; [|split; [|split]].
  - intros agentId Hin. apply list_elem_of_In, filter_In in Hin as [_ Hin].
    apply bool_decide_eq_true in Hin. exact Hin.
  - apply NoDup_ListNoDup, List.NoDup_filter, NoDup_ListNoDup, Hn.
  - intros Hin. destruct s5 as [|a s5']; [discriminate|]. injection Hh as ->.
    cbn [List.filter]. rewrite bool_decide_eq_true_2 by exact Hin. reflexivity.
  - clear Hn Hh. subst s5 s4 s3 s2 s1.
    destruct (includes r "code" || includes r "implement");
      destruct (includes r "frontend" || includes r "ui");
      destruct (includes r "backend" || includes r "api");
      destruct (includes r "api" || includes r "endpoint");
      destruct (includes r "documentation" || includes r "docs");
      vm_compute; reflexivity.
Qed.

(** ** The durable queue: what [sendMessage] writes *)

(** X12. With a client object that has no method [xadd] (the client the
    package declares is one), [sendMessage] of the durable queue writes
    nothing: for a message with at least one recipient it throws at the
    first recipient, after it has drawn the message id, and Redis is left as
    it was for every recipient; with an empty recipient array it returns the
    id. *)
Theorem sendMessage_without_xadd_writes_nothing
    (Server : Type) (client : Redis.Client Server) (message : Envelope.t)
    (w : MessageQueue.World Server) :
  Redis.xadd client = None ->
  MessageQueue.sendMessage client message w
  = (match recipientsOf (Envelope.toAgent message) with
     | [] => Ok (uuid_of (MessageQueue.uuids w))
     | _ :: _ => Throw "this.redis.xadd is not a function"
     end,
     MessageQueue.nextUuid w) /\
  MessageQueue.server (snd (MessageQueue.sendMessage client message w))
  = MessageQueue.server w.
Proof.
  intros Hno.
  assert (H : MessageQueue.sendMessage client message w
              = (match recipientsOf (Envelope.toAgent message) with
                 | [] => Ok (uuid_of (MessageQueue.uuids w))
                 | _ :: _ => Throw "this.redis.xadd is not a function"
                 end,
                 MessageQueue.nextUuid w)).
  { unfold MessageQueue.sendMessage, MessageQueue.bind, MessageQueue.uuidv4,
      MessageQueue.clock, MessageQueue.tryCatch.
    destruct (recipientsOf (Envelope.toAgent message)) as [|r rs]; [reflexivity|].
    cbn [MessageQueue.forEach]. unfold MessageQueue.bind, MessageQueue.xadd, MessageQueue.call.
    rewrite Hno. reflexivity. }
  rewrite H. split; reflexivity.
Qed.

(** A concrete run of X12: the broadcast to three agents on the client the
    package declares reaches none of them. *)
Lemma sendMessage_without_xadd_example :
  MessageQueue.sendMessage Redis.nodeRedis sampleBroadcast (MessageQueue.initialWorld 0 tt)
  = (Throw "this.redis.xadd is not a function",
     MessageQueue.nextUuid (MessageQueue.initialWorld 0 tt)).
Proof.
  apply (proj1 (sendMessage_without_xadd_writes_nothing unit Redis.nodeRedis sampleBroadcast
                  (MessageQueue.initialWorld 0 tt) eq_refl)).
Defined.

(** ** The lightweight queue: the history list *)

Lemma simple_fold_publishTo_history (m : Message.t) (rs : list string)
    (w : SimpleMessageQueue.World) :
  SimpleMessageQueue.historyOf (Message.sessionId m)
    (fold_left (SimpleMessageQueue.publishTo m) rs w)
  = rev (map (fun r => SimpleMessageQueue.mkHistoryEvent "message_sent" (Message.id m)
                         (Message.fromAgent m) r (Message.type m) (Message.timestamp m)) rs)
    ++ SimpleMessageQueue.historyOf (Message.sessionId m) w.
Proof.
  revert w. induction rs as [|r rs IH]; intros w; cbn [fold_left map rev]; [reflexivity|].
  rewrite IH. unfold SimpleMessageQueue.publishTo. unfold SimpleMessageQueue.historyOf at 1.
  cbn [SimpleMessageQueue.history]. rewrite lookup_insert_eq. cbn [default].
  rewrite <- app_assoc. reflexivity.
Qed.

Lemma lRange_nonneg {A : Type} (l : list A) (stop : Z) :
  0 <= stop -> lRange l stop = take (Z.to_nat (stop + 1)) l.
Proof.
  intros H. unfold lRange.
  destruct (Z.ltb_spec stop 0) as [?|_]; [lia|].
  destruct (Z.ltb_spec stop 0) as [?|_]; [lia|]. reflexivity.
Qed.

(** X13. In the lightweight queue, the events of a [sendMessage] stand at
    the head of the session's history, the last recipient first, and
    [getMessageHistory] with a positive limit returns that many of the
    newest events, newest first: asked for as many events as the message
    had recipients, right after the send, it returns exactly the events of
    that send.  With limit 0 it returns the whole history, not nothing
    (the range then ends at index -1, the last element). *)
Theorem getMessageHistory_returns_newest_first
    (message : Envelope.t) (w : SimpleMessageQueue.World) (sessionId : string) (limit : Z) :
  let w' := snd (SimpleMessageQueue.sendMessage message w) in
  let m := SimpleMessageQueue.enrich (uuid_of (SimpleMessageQueue.uuids w))
             (SimpleMessageQueue.now w) message in
  let recipients := recipientsOf (Envelope.toAgent message) in
  let sent :=
    rev (map (fun r => SimpleMessageQueue.mkHistoryEvent "message_sent" (Message.id m)
                         (Envelope.fromAgent message) r (Envelope.type message)
                         (SimpleMessageQueue.now w)) recipients) in
  SimpleMessageQueue.historyOf (Envelope.sessionId message) w'
  = sent ++ SimpleMessageQueue.historyOf (Envelope.sessionId message) w /\
  (recipients <> [] ->
   getMessageHistory (Envelope.sessionId message) (Z.of_nat (length recipients)) w'
   = sent) /\
  (0 < limit ->
   getMessageHistory sessionId limit w
   = take (Z.to_nat limit) (SimpleMessageQueue.historyOf sessionId w)) /\
  getMessageHistory sessionId 0 w = SimpleMessageQueue.historyOf sessionId w.
Proof.
  intros w' m recipients sent.
  assert (Hhist : SimpleMessageQueue.historyOf (Envelope.sessionId message) w'
                  = sent ++ SimpleMessageQueue.historyOf (Envelope.sessionId message) w).
  { subst w'. unfold SimpleMessageQueue.sendMessage. cbn [snd]. fold m. fold recipients.
    rewrite (simple_fold_publishTo_history m recipients). reflexivity. }
  split; [exact Hhist|]. split; [|split].
  - intros Hne. unfold getMessageHistory. rewrite Hhist.
    assert (Hlen : length sent = length recipients).
    { subst sent. rewrite length_rev, length_map. reflexivity. }
    assert (0 < length recipients)%nat by (destruct recipients; [congruence|cbn; lia]).
    rewrite lRange_nonneg by lia.
    replace (Z.to_nat (Z.of_nat (length recipients) - 1 + 1)) with (length sent)
      by (rewrite Hlen; lia).
    apply take_app_length.
  - intros Hlimit. unfold getMessageHistory.
    rewrite lRange_nonneg by lia. f_equal. lia.
  - unfold getMessageHistory, lRange.
    change (0 - 1 <? 0) with true. cbn match.
    destruct (SimpleMessageQueue.historyOf sessionId w) as [|h hs]; [reflexivity|].
    destruct (Z.ltb_spec (Z.of_nat (length (h :: hs)) + (0 - 1)) 0) as [Hlt|_];
      [cbn [length] in Hlt; lia|].
    replace (Z.to_nat (Z.of_nat (length (h :: hs)) + (0 - 1) + 1)) with (length (h :: hs))
      by lia.
    apply firstn_all.
Qed.

(** ** The durable queue: reading the fields of a log entry *)

Lemma parseRedisFields_flatten (pairs : list (string * string)) (result : gmap string JsVal) :
  Forall (fun kv => fst kv <> "__proto__") pairs ->
  parseRedisFields (flatten pairs) result
  = list_to_map (rev (map (fun kv => (fst kv, JStr (snd kv))) pairs)) ∪ result.
Proof.
  intros Hkeys. revert result.
  induction Hkeys as [|[k v] pairs Hk _ IH]; intros result.
  - cbn. rewrite (left_id_L ∅ (∪)). reflexivity.
  - cbn [flatten flat_map app fst snd parseRedisFields map rev].
    fold (flatten pairs). rewrite IH. unfold setMember.
    destruct (String.eqb_spec k "__proto__") as [E|_]; [destruct (Hk E)|].
    rewrite list_to_map_app. cbn [list_to_map foldr fst snd uncurry].
    rewrite insert_empty, <- (assoc_L (∪)), <- insert_union_singleton_l. reflexivity.
Qed.

Lemma parseRedisFields_keeps_absent (fields : list string) (result : gmap string JsVal) :
  result !! "__proto__" = None -> parseRedisFields fields result !! "__proto__" = None.
Proof.
  revert result. induction fields as [fields IH] using (induction_ltof1 _ (@length string)).
  unfold ltof in IH. intros result Hr. destruct fields as [|k [|v rest]]; cbn [parseRedisFields].
  - exact Hr.
  - unfold setMember. destruct (String.eqb_spec k "__proto__") as [|Hk]; [exact Hr|].
    rewrite lookup_insert_ne by exact Hk. exact Hr.
  - apply IH; [cbn; lia|]. unfold setMember.
    destruct (String.eqb_spec k "__proto__") as [|Hk]; [exact Hr|].
    rewrite lookup_insert_ne by exact Hk. exact Hr.
Qed.

(** X14. [parseRedisFields] on a flat array of keys and values binds every
    key to the value that follows its last occurrence, as a string; a key
    left without a value at the end of an array of odd length is bound to
    [undefined]; the key "__proto__" is never bound.  Applied to the fields
    [sendMessage] writes for a log entry, it gives back the five members of
    the entry. *)
Theorem parseRedisFields_reads_back_fields :
  (forall pairs : list (string * string),
      Forall (fun kv => fst kv <> "__proto__") pairs ->
      parseRedisFields (flatten pairs) ∅
      = list_to_map (rev (map (fun kv => (fst kv, JStr (snd kv))) pairs))) /\
  (forall (pairs : list (string * string)) (k : string),
      k <> "__proto__" ->
      parseRedisFields (flatten pairs ++ [k]) ∅ !! k = Some JUndefined) /\
  (forall fields : list string, parseRedisFields fields ∅ !! "__proto__" = None) /\
  (forall ev : MessageQueue.LogEvent,
      parseRedisFields (logFields ev) ∅
      = {[ "event" := JStr (MessageQueue.event ev);
           "messageId" := JStr (MessageQueue.messageId ev);
           "fromAgent" := JStr (MessageQueue.fromAgent ev);
           "toAgent" := JStr (MessageQueue.toAgent ev);
           "type" := JStr (MessageQueue.type ev) ]}).
Proof.
  split; [|split; [|split]].
  - intros pairs Hkeys. rewrite parseRedisFields_flatten by exact Hkeys.
    apply (right_id_L ∅ (∪)).
  - intros pairs k Hk. generalize (∅ : gmap string JsVal).
    induction pairs as [|[k' v] pairs IH]; intros result.
    + cbn. unfold setMember.
      destruct (String.eqb_spec k "__proto__") as [E|_]; [destruct (Hk E)|].
      apply lookup_insert_eq.
    + cbn [flatten flat_map app fst snd parseRedisFields]. fold (flatten pairs). apply IH.
  - intros fields. apply parseRedisFields_keeps_absent, lookup_empty.
  - intros ev. apply map_eq. intros k. cbn [logFields parseRedisFields].
    unfold setMember. cbn [String.eqb Ascii.eqb Bool.eqb].
    rewrite !lookup_insert, lookup_singleton, lookup_empty.
    repeat case_decide; subst; try reflexivity; congruence.
Qed.

(** ** The durable queue: subscriptions and deliveries *)

Section Quiet.
Import MessageQueue.
Context {Server : Type}.
Variable client : Redis.Client Server.

Lemma quiet_ret {A : Type} (a : A) : quiet (Server := Server) (ret a).
Proof. intros w. split; reflexivity. Qed.

Lemma quiet_throw {A : Type} (e : string) : quiet (Server := Server) (@throw Server A e).
Proof. intros w. split; reflexivity. Qed.

Lemma quiet_bind {A B : Type} (m : @M Server A) (f : A -> @M Server B) :
  quiet m -> (forall a, quiet (f a)) -> quiet (bind m f).
Proof.
  intros Hm Hf w. unfold bind. specialize (Hm w).
  destruct (m w) as [[a|e] w1]; cbn [snd] in Hm |- *; [|exact Hm].
  destruct (Hf a w1) as [H1 H2]. destruct Hm as [H3 H4].
  rewrite H1, H2. split; assumption.
Qed.

Lemma quiet_tryCatch {A : Type} (m : @M Server A) (h : string -> @M Server A) :
  quiet m -> (forall e, quiet (h e)) -> quiet (tryCatch m h).
Proof.
  intros Hm Hh w. unfold tryCatch. specialize (Hm w).
  destruct (m w) as [[a|e] w1]; cbn [snd] in Hm |- *; [exact Hm|].
  destruct (Hh e w1) as [H1 H2]. destruct Hm as [H3 H4].
  rewrite H1, H2. split; assumption.
Qed.

Lemma quiet_call {A : Type} (name : string) (method : option (Server -> Result A * Server)) :
  quiet (call name method).
Proof. intros w. unfold call. destruct method; split; reflexivity. Qed.

Lemma quiet_forEach {A : Type} (body : A -> @M Server unit) (xs : list A) :
  (forall x, quiet (body x)) -> quiet (forEach body xs).
Proof.
  intros Hb. induction xs as [|x xs IH]; cbn [forEach].
  - apply quiet_ret.
  - apply quiet_bind; [apply Hb|intros _; exact IH].
Qed.

Lemma quiet_sendMessage (message : Envelope.t) : quiet (sendMessage client message).
Proof.
  unfold sendMessage.
  apply quiet_bind; [intros w; split; reflexivity|intros messageId].
  apply quiet_bind; [intros w; split; reflexivity|intros timestamp].
  apply quiet_tryCatch; [|intros e; apply quiet_throw].
  apply quiet_bind; [|intros _; apply quiet_ret].
  apply quiet_forEach. intros recipient.
  apply quiet_bind; [apply quiet_call|intros _].
  apply quiet_bind; [apply quiet_call|intros _]. apply quiet_ret.
Qed.

Lemma quiet_retryMessage (streamKey consumerGroup messageId : string)
    (messageData : Message.t) :
  quiet (retryMessage client streamKey consumerGroup messageId messageData).
Proof.
  unfold retryMessage. apply quiet_tryCatch; [|intros e; apply quiet_ret]. cbv zeta.
  destruct (ltOpt _ _).
  - apply quiet_bind; [intros w; split; reflexivity|intros t]. intros w. split; reflexivity.
  - apply quiet_bind; [intros w; split; reflexivity|intros t].
    apply quiet_bind; [apply quiet_call|intros _].
    apply quiet_bind; [apply quiet_call|intros _]. apply quiet_ret.
Qed.

Lemma quiet_fireTimer (t : Timer) : quiet (fireTimer client t).
Proof.
  unfold fireTimer.
  apply quiet_bind; [apply quiet_call|intros _].
  apply quiet_bind; [apply quiet_call|intros _]. apply quiet_ret.
Qed.

Hypothesis no_xgroup : Redis.xgroup client = None.
Hypothesis no_xreadgroup : Redis.xreadgroup client = None.

Lemma subscribeToMessages_throws (sessionId agentId : string) (h : MessageHandler)
    (w : World Server) :
  subscribeToMessages client sessionId agentId h w
  = (Throw "this.redis.xgroup is not a function", w).
Proof.
  unfold subscribeToMessages, bind, clock, tryCatch, xgroup, call.
  rewrite no_xgroup. reflexivity.
Qed.

Lemma consumer_reads_nothing (c : Consumer) (w : World Server) :
  consumer client c w = (Ok tt, w).
Proof.
  unfold consumer, bind, tryCatch, xreadgroup, call. rewrite no_xreadgroup. reflexivity.
Qed.

Lemma handle_quiet (w : World Server) (e : Event) :
  messageHandlers (handle client w e) = messageHandlers w /\
  calls (handle client w e) = calls w.
Proof.
  destruct e as [dt|message|sessionId agentId h|k g c|k g i m|i|i]; cbn [handle].
  - destruct (0 <=? dt); split; reflexivity.
  - apply quiet_sendMessage.
  - rewrite subscribeToMessages_throws. split; reflexivity.
  - split; reflexivity.
  - apply quiet_retryMessage.
  - destruct (consumers w !! i); [rewrite consumer_reads_nothing|]; split; reflexivity.
  - destruct (timers w !! i) as [t|]; [|split; reflexivity].
    destruct (due t <=? now w); [|split; reflexivity].
    destruct (quiet_fireTimer t (setTimers (delete i (timers w)) w)) as [H1 H2].
    rewrite H1, H2. split; reflexivity.
Qed.

Lemma run_quiet (events : list Event) (w : World Server) :
  messageHandlers (run client events w) = messageHandlers w /\
  calls (run client events w) = calls w.
Proof.
  revert w. induction events as [|e events IH]; intros w; [split; reflexivity|].
  change (run client (e :: events) w) with (run client events (handle client w e)).
  destruct (IH (handle client w e)) as [-> ->]. apply handle_quiet.
Qed.

End Quiet.

(** X15. With a client object that has neither [xgroup] nor [xreadgroup]
    (the client the package declares is one), the durable queue never
    delivers anything.  [subscribeToMessages] throws before it has stored
    the handler or started a consumer; a consumer started by calling
    [consumeMessages] throws at every read and catches that.  So however the
    queue is used (sends, subscriptions, consumers, retries, timers), no
    handler is ever registered and none is ever invoked. *)
Theorem subscription_never_delivers
    (Server : Type) (client : Redis.Client Server) (events : list MessageQueue.Event)
    (w : MessageQueue.World Server) :
  Redis.xgroup client = None ->
  Redis.xreadgroup client = None ->
  (forall (sessionId agentId : string) (h : MessageQueue.MessageHandler)
          (w' : MessageQueue.World Server),
      MessageQueue.subscribeToMessages client sessionId agentId h w'
      = (Throw "this.redis.xgroup is not a function", w')) /\
  (forall (c : MessageQueue.Consumer) (w' : MessageQueue.World Server),
      MessageQueue.consumer client c w' = (Ok tt, w')) /\
  MessageQueue.messageHandlers (MessageQueue.run client events w)
  = MessageQueue.messageHandlers w /\
  MessageQueue.calls (MessageQueue.run client events w) = MessageQueue.calls w.
Proof.
  intros Hg Hr. split; [|split].
  - intros sessionId agentId h w'. apply subscribeToMessages_throws. exact Hg.
  - intros c w'. apply consumer_reads_nothing. exact Hr.
  - apply run_quiet; assumption.
Qed.

(** A concrete run of X15 on the client the package declares: after the
    sample use of the queue no handler is registered and none was invoked,
    although a consumer runs and a retry was scheduled and has fired. *)
Lemma subscription_never_delivers_example :
  let w := MessageQueue.run Redis.nodeRedis sampleUse (MessageQueue.initialWorld 0 tt) in
  MessageQueue.messageHandlers w = ∅ /\
  MessageQueue.calls w = [] /\
  length (MessageQueue.consumers w) = 1%nat /\
  MessageQueue.timers w = [].
Proof.
  destruct (subscription_never_delivers unit Redis.nodeRedis sampleUse
              (MessageQueue.initialWorld 0 tt) eq_refl eq_refl) as (_ & _ & Hh & Hc).
  cbv zeta. rewrite Hh, Hc. repeat split.
Defined.

(** ** The agent and its tasks *)

Tactic Notation "agent_fields" "in" hyp(H) :=
  cbn [Agent.self Agent.status Agent.currentTasks Agent.activeSession Agent.conversations
       Agent.currentProject Agent.userClarifications Agent.queue
       Agent.setStatus Agent.setTasks Agent.setSession Agent.setConversations
       Agent.setCurrentProject Agent.setClarifications Agent.setQueue Agent.setMetrics
       BaseAgent.id BaseAgent.specialization BaseAgent.capabilities BaseAgent.metrics
       SimpleMessageQueue.now SimpleMessageQueue.uuids SimpleMessageQueue.published
       SimpleMessageQueue.history SimpleMessageQueue.calls fst snd] in H.

Ltac agent_fields :=
  cbn [Agent.self Agent.status Agent.currentTasks Agent.activeSession Agent.conversations
       Agent.currentProject Agent.userClarifications Agent.queue
       Agent.setStatus Agent.setTasks Agent.setSession Agent.setConversations
       Agent.setCurrentProject Agent.setClarifications Agent.setQueue Agent.setMetrics
       BaseAgent.id BaseAgent.specialization BaseAgent.capabilities BaseAgent.metrics
       SimpleMessageQueue.now SimpleMessageQueue.uuids SimpleMessageQueue.published
       SimpleMessageQueue.history SimpleMessageQueue.calls fst snd].

Ltac agent_unfold :=
  unfold Agent.reportError, Agent.reportProgress,
    Agent.tryCatch, Agent.bind, Agent.lift, Agent.get, Agent.modify, Agent.clock,
    Agent.sendMessage, Agent.ret, Agent.throw.

Ltac agent_published :=
  unfold SimpleMessageQueue.sendMessage, SimpleMessageQueue.publishTo;
  cbn [recipientsOf Envelope.toAgent Envelope.sessionId Message.sessionId
       SimpleMessageQueue.enrich fold_left];
  agent_fields; rewrite <- ?app_assoc; cbn [app].

Section AgentSteps.
Import Agent.

Lemma sendMessage_one (message : Envelope.t) (recipient : string)
    (q : SimpleMessageQueue.World) :
  Envelope.toAgent message = One recipient ->
  let q' := snd (SimpleMessageQueue.sendMessage message q) in
  SimpleMessageQueue.published q'
  = SimpleMessageQueue.published q
    ++ [(Envelope.sessionId message, recipient,
         SimpleMessageQueue.enrich (uuid_of (SimpleMessageQueue.uuids q))
           (SimpleMessageQueue.now q) message)] /\
  SimpleMessageQueue.now q' = SimpleMessageQueue.now q /\
  SimpleMessageQueue.uuids q' = S (SimpleMessageQueue.uuids q).
Proof.
  intros Hto. unfold SimpleMessageQueue.sendMessage. rewrite Hto.
  cbn [recipientsOf fold_left snd]. unfold SimpleMessageQueue.publishTo.
  cbn [SimpleMessageQueue.published SimpleMessageQueue.now SimpleMessageQueue.uuids].
  repeat split.
Qed.

(** The conversations [updateMemory] leaves: the last fifty. *)
Lemma updateMemory_run (message : Message.t) (a : t) :
  let c := mkConversation (SimpleMessageQueue.now (queue a)) (Message.type message)
             (Message.fromAgent message) (Message.payload message) in
  let cs := drop (length (conversations a) + 1 - 50) (conversations a ++ [c]) in
  updateMemory message a
  = if String.eqb (Message.type message) "task_assignment" then
      match getProp (Message.payload message) "task" with
      | Throw e => (Throw e, setConversations cs a)
      | Ok task =>
          match getProp task "input" with
          | Throw e => (Throw e, setConversations cs a)
          | Ok input => (Ok tt, setCurrentProject input (setConversations cs a))
          end
      end
    else (Ok tt, setConversations cs a).
Proof.
  intros c cs. unfold updateMemory. agent_unfold. agent_fields. fold c.
  assert (Hcs : (if (50 <? length (conversations a ++ [c]))%nat
                 then setConversations
                        (drop (length (conversations a ++ [c]) - 50) (conversations a ++ [c]))
                        (setConversations (conversations a ++ [c]) a)
                 else setConversations (conversations a ++ [c]) a)
                = setConversations cs a).
  { subst cs. rewrite length_app. cbn [length]. destruct (Nat.ltb_spec 50 (length (conversations a) + 1)).
    - reflexivity.
    - replace (length (conversations a) + 1 - 50)%nat with 0%nat by lia. reflexivity. }
  rewrite Hcs. destruct (String.eqb (Message.type message) "task_assignment"); [|reflexivity].
  destruct (getProp (Message.payload message) "task") as [task|e]; [|reflexivity].
  destruct (getProp task "input"); reflexivity.
Qed.

Lemma reportError_run (sessionId : string) (error : JsVal) (severity : string) (taskId : JsVal)
    (a : t) :
  reportError sessionId error severity taskId a
  = (Ok tt,
     setQueue
       (snd (SimpleMessageQueue.sendMessage
               (Envelope.mk "error_report" sessionId (BaseAgent.id (self a)) (One "orchestrator")
                  (jsObject [("error", error); ("severity", JStr severity); ("taskId", taskId);
                             ("timestamp", JNum (SimpleMessageQueue.now (queue a)))])
                  None None None)
               (queue a)))
       (setMetrics (BaseAgent.updateMetrics 0%Q false) a)).
Proof. reflexivity. Qed.

Lemma reportProgress_run (sessionId : string) (taskId : JsVal) (progress : Z) (st : string)
    (a : t) :
  reportProgress sessionId taskId progress st a
  = (Ok tt,
     setQueue
       (snd (SimpleMessageQueue.sendMessage
               (Envelope.mk "task_progress" sessionId (BaseAgent.id (self a)) (One "orchestrator")
                  (jsObject [("taskId", taskId); ("progress", JNum progress);
                             ("status", JStr st)])
                  None None None)
               (queue a)))
       a).
Proof. reflexivity. Qed.

Lemma getTask_setTask (taskId : JsVal) (entry : Entry) (tasks : list (JsVal * Entry)) :
  sameValueZero taskId taskId = true ->
  getTask taskId (setTask taskId entry tasks) = Some entry.
Proof.
  intros Hk. induction tasks as [|[k e] rest IH]; cbn [setTask getTask].
  - rewrite Hk. reflexivity.
  - destruct (sameValueZero k taskId) eqn:E; cbn [getTask]; rewrite E; [reflexivity|exact IH].
Qed.

Lemma setTask_setTask (taskId : JsVal) (entry entry' : Entry) (tasks : list (JsVal * Entry)) :
  sameValueZero taskId taskId = true ->
  setTask taskId entry' (setTask taskId entry tasks) = setTask taskId entry' tasks.
Proof.
  intros Hk. induction tasks as [|[k e] rest IH]; cbn [setTask].
  - rewrite Hk. reflexivity.
  - destruct (sameValueZero k taskId) eqn:E; cbn [setTask]; rewrite E; [reflexivity|].
    rewrite IH. reflexivity.
Qed.

Lemma deleteTask_setTask (taskId : JsVal) (entry : Entry) (tasks : list (JsVal * Entry)) :
  sameValueZero taskId taskId = true ->
  deleteTask taskId (setTask taskId entry tasks) = deleteTask taskId tasks.
Proof.
  intros Hk. induction tasks as [|[k e] rest IH]; cbn [setTask deleteTask].
  - rewrite Hk. reflexivity.
  - destruct (sameValueZero k taskId) eqn:E; cbn [deleteTask]; rewrite E; [reflexivity|].
    rewrite IH. reflexivity.
Qed.

Lemma sameValueZero_string (id : string) : sameValueZero (JStr id) (JStr id) = true.
Proof. apply String.eqb_refl. Qed.

(** [completeTask] on a stored task whose result has members. *)
Lemma completeTask_run (sessionId : string) (taskId result deliverables : JsVal)
    (task : Entry) (a : t) :
  getTask taskId (currentTasks a) = Some task ->
  getProp result "deliverables" = Ok deliverables ->
  let now := SimpleMessageQueue.now (queue a) in
  let responseTime := now - startTime task in
  let tasks :=
    deleteTask taskId
      (setTask taskId (mkEntry (members task) (startTime task) "completed" (Some now) result)
         (currentTasks a)) in
  completeTask sessionId taskId result a
  = (Ok tt,
     setStatus (match tasks with [] => "idle" | _ => "working" end)
       (setTasks tasks
          (setQueue
             (snd (SimpleMessageQueue.sendMessage
                     (Envelope.mk "task_completion" sessionId (BaseAgent.id (self a))
                        (One "orchestrator")
                        (jsObject
                           [("taskId", taskId); ("result", result);
                            ("deliverables",
                             if truthy deliverables then deliverables else JArr []);
                            ("responseTime", JNum responseTime)])
                        (correlationOf taskId) None None)
                     (queue a)))
             (setMetrics (BaseAgent.updateMetrics (inject_Z responseTime) true) a)))).
Proof.
  intros Hget Hdel now responseTime tasks.
  unfold completeTask, bind, get. rewrite Hget. agent_unfold. agent_fields. rewrite Hdel.
  reflexivity.
Qed.

(** [completeTask] on a stored task whose result is [undefined] or [null]:
    reading [result.deliverables] throws after the task has been marked. *)
Lemma completeTask_throws (sessionId : string) (taskId result : JsVal) (error : string)
    (task : Entry) (a : t) :
  getTask taskId (currentTasks a) = Some task ->
  getProp result "deliverables" = Throw error ->
  let now := SimpleMessageQueue.now (queue a) in
  completeTask sessionId taskId result a
  = (Throw error,
     setMetrics (BaseAgent.updateMetrics (inject_Z (now - startTime task)) true)
       (setTasks
          (setTask taskId (mkEntry (members task) (startTime task) "completed" (Some now) result)
             (currentTasks a)) a)).
Proof.
  intros Hget Hdel now.
  unfold completeTask, bind, get. rewrite Hget. agent_unfold. agent_fields. rewrite Hdel.
  reflexivity.
Qed.

Variable executeTask : JsVal -> JsVal -> M JsVal.

(** A task the agent cannot handle: [reportError] and nothing else. *)
Lemma handleTaskAssignment_rejected (message : Message.t) (task taskId : JsVal)
    (taskTypeString : string) (a : t) :
  getProp (Message.payload message) "task" = Ok task ->
  getProp task "type" = Ok (JStr taskTypeString) ->
  getProp task "id" = Ok taskId ->
  BaseAgent.canHandleTask (self a) taskTypeString = false ->
  handleTaskAssignment executeTask message a
  = reportError (Message.sessionId message)
      (JStr ("Task " +:+ toStr taskId +:+ " incompatible with capabilities")) "low" JNull a.
Proof.
  intros Htask Htype Hid Hcan.
  assert (Hctx : exists context, getProp (Message.payload message) "context" = Ok context).
  { destruct (Message.payload message); try discriminate; cbn; eauto. }
  destruct Hctx as [context Hctx].
  unfold handleTaskAssignment, canHandleTask, bind, lift, get.
  rewrite Htask, Hctx, Htype, Hid, Hcan. reflexivity.
Qed.

(** A task the agent can handle: it is stored, announced and executed. *)
Lemma handleTaskAssignment_accepted (message : Message.t) (task context taskId : JsVal)
    (taskTypeString : string) (a : t) :
  getProp (Message.payload message) "task" = Ok task ->
  getProp (Message.payload message) "context" = Ok context ->
  getProp task "type" = Ok (JStr taskTypeString) ->
  getProp task "id" = Ok taskId ->
  BaseAgent.canHandleTask (self a) taskTypeString = true ->
  let sessionId := Message.sessionId message in
  let entry := mkEntry (spread task) (SimpleMessageQueue.now (queue a)) "in_progress" None
                 JUndefined in
  handleTaskAssignment executeTask message a
  = tryCatch
      (let* result := executeTask task context in completeTask sessionId taskId result)
      (fun error => reportError sessionId (thrown error) "high" taskId)
      (snd (reportProgress sessionId taskId 0 "started"
              (setStatus "working" (setTasks (setTask taskId entry (currentTasks a)) a)))).
Proof.
  intros Htask Hctx Htype Hid Hcan sessionId entry.
  unfold handleTaskAssignment, canHandleTask, bind, lift, get.
  rewrite Htask, Hctx, Htype, Hid, Hcan. reflexivity.
Qed.

(** [handleMessage] on a [task_assignment] whose task can be read. *)
Lemma handleMessage_assignment (message : Message.t) (task input : JsVal) (a : t) :
  Message.type message = "task_assignment" ->
  getProp (Message.payload message) "task" = Ok task ->
  getProp task "input" = Ok input ->
  let c := mkConversation (SimpleMessageQueue.now (queue a)) (Message.type message)
             (Message.fromAgent message) (Message.payload message) in
  let cs := drop (length (conversations a) + 1 - 50) (conversations a ++ [c]) in
  handleMessage executeTask message a
  = tryCatch (handleTaskAssignment executeTask message)
      (fun error => reportError (Message.sessionId message) (thrown error) "medium" JNull)
      (setCurrentProject input (setConversations cs a)).
Proof.
  intros Hty Htask Hin c cs.
  unfold handleMessage, tryCatch, bind.
  rewrite updateMemory_run, Htask, Hin. subst cs c. rewrite Hty.
  cbn [String.eqb Ascii.eqb Bool.eqb]. reflexivity.
Qed.

End AgentSteps.

(** X16. A [task_assignment] whose task the agent's capabilities do not
    cover is not executed and not stored: the agent keeps its tasks and its
    status, counts one error in its metrics, and publishes exactly one
    message, an [error_report] of severity "low" to the orchestrator that
    names the task in its text and carries [null] for the task id. *)
Theorem incompatible_task_is_reported_and_dropped
    (executeTask : JsVal -> JsVal -> Agent.M JsVal) (message : Message.t)
    (task taskId : JsVal) (taskTypeString : string) (a : Agent.t) :
  Message.type message = "task_assignment" ->
  getProp (Message.payload message) "task" = Ok task ->
  getProp task "type" = Ok (JStr taskTypeString) ->
  getProp task "id" = Ok taskId ->
  BaseAgent.canHandleTask (Agent.self a) taskTypeString = false ->
  let r := Agent.handleMessage executeTask message a in
  let q := Agent.queue a in
  let now := SimpleMessageQueue.now q in
  fst r = Ok tt /\
  Agent.currentTasks (snd r) = Agent.currentTasks a /\
  Agent.status (snd r) = Agent.status a /\
  BaseAgent.metrics (Agent.self (snd r))
  = BaseAgent.updateMetrics 0%Q false (BaseAgent.metrics (Agent.self a)) /\
  SimpleMessageQueue.published (Agent.queue (snd r))
  = SimpleMessageQueue.published q
    ++ [(Message.sessionId message, "orchestrator",
         SimpleMessageQueue.enrich (uuid_of (SimpleMessageQueue.uuids q)) now
           (Envelope.mk "error_report" (Message.sessionId message)
              (BaseAgent.id (Agent.self a)) (One "orchestrator")
              (JObj [("error",
                      JStr ("Task " +:+ toStr taskId +:+ " incompatible with capabilities"));
                     ("severity", JStr "low"); ("taskId", JNull);
                     ("timestamp", JNum now)])
              None None None))].
Proof.
  intros Hty Htask Htype Hid Hcan r q now.
  assert (Hin : exists input, getProp task "input" = Ok input).
  { destruct task; try discriminate; cbn; eauto. }
  destruct Hin as [input Hin].
  subst r. unfold Agent.handleMessage, Agent.tryCatch, Agent.bind.
  rewrite updateMemory_run, Hty, Htask, Hin. cbn [String.eqb Ascii.eqb Bool.eqb].
  rewrite (handleTaskAssignment_rejected executeTask message task taskId taskTypeString)
    by assumption.
  rewrite reportError_run. agent_fields.
  repeat split.
Qed.

(** X17. A task the agent can handle and whose execution throws stays in
    [currentTasks], marked "in_progress", and the agent stays "working":
    besides the progress report "started" it publishes one [error_report] of
    severity "high" with the task id and the text of the error, and counts
    one error.  (The [executeTask] of the base class throws on every task.) *)
Theorem failed_task_stays_in_progress
    (executeTask : JsVal -> JsVal -> Agent.M JsVal) (message : Message.t)
    (task context taskId : JsVal) (taskTypeString error : string) (a : Agent.t) :
  Message.type message = "task_assignment" ->
  getProp (Message.payload message) "task" = Ok task ->
  getProp (Message.payload message) "context" = Ok context ->
  getProp task "type" = Ok (JStr taskTypeString) ->
  getProp task "id" = Ok taskId ->
  BaseAgent.canHandleTask (Agent.self a) taskTypeString = true ->
  (forall s : Agent.t, executeTask task context s = (Throw error, s)) ->
  let r := Agent.handleMessage executeTask message a in
  let q := Agent.queue a in
  let now := SimpleMessageQueue.now q in
  let n := SimpleMessageQueue.uuids q in
  let sessionId := Message.sessionId message in
  let agentId := BaseAgent.id (Agent.self a) in
  fst r = Ok tt /\
  Agent.currentTasks (snd r)
  = Agent.setTask taskId (Agent.mkEntry (spread task) now "in_progress" None JUndefined)
      (Agent.currentTasks a) /\
  Agent.status (snd r) = "working" /\
  BaseAgent.metrics (Agent.self (snd r))
  = BaseAgent.updateMetrics 0%Q false (BaseAgent.metrics (Agent.self a)) /\
  SimpleMessageQueue.published (Agent.queue (snd r))
  = SimpleMessageQueue.published q
    ++ [(sessionId, "orchestrator",
         SimpleMessageQueue.enrich (uuid_of n) now
           (Envelope.mk "task_progress" sessionId agentId (One "orchestrator")
              (jsObject [("taskId", taskId); ("progress", JNum 0); ("status", JStr "started")])
              None None None));
        (sessionId, "orchestrator",
         SimpleMessageQueue.enrich (uuid_of (S n)) now
           (Envelope.mk "error_report" sessionId agentId (One "orchestrator")
              (jsObject [("error", thrown error); ("severity", JStr "high");
                         ("taskId", taskId); ("timestamp", JNum now)])
              None None None))].
Proof.
  intros Hty Htask Hctx Htype Hid Hcan Hexec r q now n sessionId agentId.
  assert (Hin : exists input, getProp task "input" = Ok input).
  { destruct task; try discriminate; cbn; eauto. }
  destruct Hin as [input Hin].
  destruct (Agent.handleMessage executeTask message a) as [res a'] eqn:Hrun.
  rewrite (handleMessage_assignment executeTask message task input) in Hrun by assumption.
  unfold Agent.tryCatch at 1 in Hrun.
  rewrite (handleTaskAssignment_accepted executeTask message task context taskId taskTypeString)
    in Hrun by assumption.
  rewrite reportProgress_run in Hrun. unfold Agent.tryCatch, Agent.bind in Hrun.
  rewrite Hexec, reportError_run in Hrun. injection Hrun as <- <-.
  subst r. agent_fields.
  repeat split. agent_published. reflexivity.
Qed.

(** X18. A task the agent can handle and whose execution returns a result
    after [dt] milliseconds is completed and forgotten: the agent publishes
    the progress report "started" and then one [task_completion] that
    carries the task id (also as correlation id), the result, the result's
    deliverables (an empty array when it has none) and [dt] as response time;
    the task is removed from [currentTasks], the agent is "idle" when no
    other task is left and "working" otherwise, and the metrics count one
    completion of [dt]. *)
Theorem executed_task_is_completed_and_removed
    (executeTask : JsVal -> JsVal -> Agent.M JsVal) (message : Message.t)
    (task context result deliverables : JsVal) (id taskTypeString : string) (dt : N)
    (a : Agent.t) :
  Message.type message = "task_assignment" ->
  getProp (Message.payload message) "task" = Ok task ->
  getProp (Message.payload message) "context" = Ok context ->
  getProp task "type" = Ok (JStr taskTypeString) ->
  getProp task "id" = Ok (JStr id) ->
  BaseAgent.canHandleTask (Agent.self a) taskTypeString = true ->
  (forall s : Agent.t, executeTask task context s = (Ok result, Agent.advance dt s)) ->
  getProp result "deliverables" = Ok deliverables ->
  let r := Agent.handleMessage executeTask message a in
  let q := Agent.queue a in
  let now := SimpleMessageQueue.now q in
  let n := SimpleMessageQueue.uuids q in
  let sessionId := Message.sessionId message in
  let agentId := BaseAgent.id (Agent.self a) in
  let others := Agent.deleteTask (JStr id) (Agent.currentTasks a) in
  fst r = Ok tt /\
  Agent.currentTasks (snd r) = others /\
  Agent.status (snd r) = match others with [] => "idle" | _ => "working" end /\
  BaseAgent.metrics (Agent.self (snd r))
  = BaseAgent.updateMetrics (inject_Z (Z.of_N dt)) true (BaseAgent.metrics (Agent.self a)) /\
  SimpleMessageQueue.published (Agent.queue (snd r))
  = SimpleMessageQueue.published q
    ++ [(sessionId, "orchestrator",
         SimpleMessageQueue.enrich (uuid_of n) now
           (Envelope.mk "task_progress" sessionId agentId (One "orchestrator")
              (JObj [("taskId", JStr id); ("progress", JNum 0); ("status", JStr "started")])
              None None None));
        (sessionId, "orchestrator",
         SimpleMessageQueue.enrich (uuid_of (S n)) (now + Z.of_N dt)
           (Envelope.mk "task_completion" sessionId agentId (One "orchestrator")
              (jsObject [("taskId", JStr id); ("result", result);
                         ("deliverables",
                          if truthy deliverables then deliverables else JArr []);
                         ("responseTime", JNum (Z.of_N dt))])
              (Some id) None None))].
Proof.
  intros Hty Htask Hctx Htype Hid Hcan Hexec Hdel r q now n sessionId agentId others.
  assert (Hin : exists input, getProp task "input" = Ok input).
  { destruct task; try discriminate; cbn; eauto. }
  destruct Hin as [input Hin].
  destruct (Agent.handleMessage executeTask message a) as [res a'] eqn:Hrun.
  rewrite (handleMessage_assignment executeTask message task input) in Hrun by assumption.
  unfold Agent.tryCatch at 1 in Hrun.
  rewrite (handleTaskAssignment_accepted executeTask message task context (JStr id)
             taskTypeString) in Hrun by assumption.
  rewrite reportProgress_run in Hrun. unfold Agent.tryCatch, Agent.bind in Hrun.
  rewrite Hexec in Hrun.
  erewrite completeTask_run in Hrun;
    [|unfold Agent.advance; agent_fields; apply getTask_setTask, sameValueZero_string
     |exact Hdel].
  injection Hrun as <- <-. subst r. unfold Agent.advance. agent_fields.
  rewrite setTask_setTask, deleteTask_setTask by apply sameValueZero_string.
  agent_published. fold now. rewrite Z.add_simpl_l.
  repeat split.
Qed.

(** X19. When [executeTask] returns [undefined] or [null], [completeTask]
    throws on [result.deliverables] after it has marked the task and counted
    it: the task stays in [currentTasks] with status "completed", the agent
    stays "working", no [task_completion] is published but an [error_report]
    of severity "high", and the metrics count the task once as completed and
    once as failed. *)
Theorem result_without_members_leaves_completed_task
    (executeTask : JsVal -> JsVal -> Agent.M JsVal) (message : Message.t)
    (task context result : JsVal) (id taskTypeString : string) (dt : N) (a : Agent.t) :
  Message.type message = "task_assignment" ->
  getProp (Message.payload message) "task" = Ok task ->
  getProp (Message.payload message) "context" = Ok context ->
  getProp task "type" = Ok (JStr taskTypeString) ->
  getProp task "id" = Ok (JStr id) ->
  BaseAgent.canHandleTask (Agent.self a) taskTypeString = true ->
  (forall s : Agent.t, executeTask task context s = (Ok result, Agent.advance dt s)) ->
  result = JUndefined \/ result = JNull ->
  let r := Agent.handleMessage executeTask message a in
  let q := Agent.queue a in
  let now := SimpleMessageQueue.now q in
  let n := SimpleMessageQueue.uuids q in
  let sessionId := Message.sessionId message in
  let agentId := BaseAgent.id (Agent.self a) in
  fst r = Ok tt /\
  Agent.currentTasks (snd r)
  = Agent.setTask (JStr id)
      (Agent.mkEntry (spread task) now "completed" (Some (now + Z.of_N dt)) result)
      (Agent.currentTasks a) /\
  Agent.status (snd r) = "working" /\
  BaseAgent.metrics (Agent.self (snd r))
  = BaseAgent.updateMetrics 0%Q false
      (BaseAgent.updateMetrics (inject_Z (Z.of_N dt)) true
         (BaseAgent.metrics (Agent.self a))) /\
  exists error : JsVal,
    SimpleMessageQueue.published (Agent.queue (snd r))
    = SimpleMessageQueue.published q
      ++ [(sessionId, "orchestrator",
           SimpleMessageQueue.enrich (uuid_of n) now
             (Envelope.mk "task_progress" sessionId agentId (One "orchestrator")
                (JObj [("taskId", JStr id); ("progress", JNum 0); ("status", JStr "started")])
                None None None));
          (sessionId, "orchestrator",
           SimpleMessageQueue.enrich (uuid_of (S n)) (now + Z.of_N dt)
             (Envelope.mk "error_report" sessionId agentId (One "orchestrator")
                (jsObject [("error", error); ("severity", JStr "high");
                           ("taskId", JStr id); ("timestamp", JNum (now + Z.of_N dt))])
                None None None))].
Proof.
  intros Hty Htask Hctx Htype Hid Hcan Hexec Hres r q now n sessionId agentId.
  assert (Hin : exists input, getProp task "input" = Ok input).
  { destruct task; try discriminate; cbn; eauto. }
  destruct Hin as [input Hin].
  assert (Hdel : exists e, getProp result "deliverables" = Throw e).
  { destruct Hres as [-> | ->]; cbn; eauto. }
  destruct Hdel as [e Hdel].
  destruct (Agent.handleMessage executeTask message a) as [res a'] eqn:Hrun.
  rewrite (handleMessage_assignment executeTask message task input) in Hrun by assumption.
  unfold Agent.tryCatch at 1 in Hrun.
  rewrite (handleTaskAssignment_accepted executeTask message task context (JStr id)
             taskTypeString) in Hrun by assumption.
  rewrite reportProgress_run in Hrun. unfold Agent.tryCatch, Agent.bind in Hrun.
  rewrite Hexec in Hrun.
  erewrite completeTask_throws in Hrun;
    [|unfold Agent.advance; agent_fields; apply getTask_setTask, sameValueZero_string
     |exact Hdel].
  rewrite reportError_run in Hrun.
  injection Hrun as <- <-. subst r. unfold Agent.advance. agent_fields.
  rewrite setTask_setTask by apply sameValueZero_string.
  fold now. rewrite Z.add_simpl_l.
  split; [reflexivity|]. split; [reflexivity|]. split; [reflexivity|]. split; [reflexivity|].
  exists (thrown e). agent_published. reflexivity.
Qed.

(** X20. No class defines [handleAgentResponse], so an [agent_response]
    cannot be handled: whatever it carries, the agent remembers it, counts
    one error and publishes one [error_report] of severity "medium" with
    [null] for the task id; its tasks and status are as before. *)
Theorem agent_response_is_reported_as_error
    (executeTask : JsVal -> JsVal -> Agent.M JsVal) (message : Message.t) (a : Agent.t) :
  Message.type message = "agent_response" ->
  let r := Agent.handleMessage executeTask message a in
  let q := Agent.queue a in
  let now := SimpleMessageQueue.now q in
  fst r = Ok tt /\
  Agent.currentTasks (snd r) = Agent.currentTasks a /\
  Agent.status (snd r) = Agent.status a /\
  BaseAgent.metrics (Agent.self (snd r))
  = BaseAgent.updateMetrics 0%Q false (BaseAgent.metrics (Agent.self a)) /\
  exists error : string,
    SimpleMessageQueue.published (Agent.queue (snd r))
    = SimpleMessageQueue.published q
      ++ [(Message.sessionId message, "orchestrator",
           SimpleMessageQueue.enrich (uuid_of (SimpleMessageQueue.uuids q)) now
             (Envelope.mk "error_report" (Message.sessionId message)
                (BaseAgent.id (Agent.self a)) (One "orchestrator")
                (JObj [("error", JStr error); ("severity", JStr "medium"); ("taskId", JNull);
                       ("timestamp", JNum now)])
                None None None))].
Proof.
  intros Hty r q now.
  destruct (Agent.handleMessage executeTask message a) as [res a'] eqn:Hrun.
  unfold Agent.handleMessage, Agent.tryCatch, Agent.bind in Hrun.
  rewrite updateMemory_run, Hty in Hrun. cbn [String.eqb Ascii.eqb Bool.eqb] in Hrun.
  unfold Agent.throw in Hrun. rewrite reportError_run in Hrun.
  injection Hrun as <- <-. subst r. agent_fields.
  split; [reflexivity|]. split; [reflexivity|]. split; [reflexivity|]. split; [reflexivity|].
  eexists. agent_published. reflexivity.
Qed.

(** ** Shutting down *)

Section Shutdown.
Import Agent.

Lemma updateMetrics_failed_twice (m : BaseAgent.Metrics) :
  BaseAgent.updateMetrics 0%Q false (BaseAgent.updateMetrics 0%Q false m)
  = BaseAgent.updateMetrics 0%Q false m.
Proof. reflexivity. Qed.

Lemma shutdown_loop (sessionId : string) (tasks : list (JsVal * Entry)) (a : t) :
  let body := fun entry : JsVal * Entry =>
                if String.eqb (e_status (snd entry)) "in_progress" then
                  reportError sessionId (JStr "Agent shutting down") "medium" (fst entry)
                else ret tt in
  let q := queue a in
  let stopped :=
    List.filter (fun entry => String.eqb (e_status (snd entry)) "in_progress") tasks in
  exists q' : SimpleMessageQueue.World,
    forEach body tasks a
    = (Ok tt,
       setQueue q'
         (match stopped with
          | [] => a
          | _ => setMetrics (BaseAgent.updateMetrics 0%Q false) a
          end)) /\
    SimpleMessageQueue.published q'
    = SimpleMessageQueue.published q
      ++ imap (fun i entry =>
                 (sessionId, "orchestrator",
                  SimpleMessageQueue.enrich (uuid_of (SimpleMessageQueue.uuids q + i))
                    (SimpleMessageQueue.now q)
                    (Envelope.mk "error_report" sessionId (BaseAgent.id (self a))
                       (One "orchestrator")
                       (jsObject [("error", JStr "Agent shutting down");
                                  ("severity", JStr "medium"); ("taskId", fst entry);
                                  ("timestamp", JNum (SimpleMessageQueue.now q))])
                       None None None)))
           stopped /\
    SimpleMessageQueue.now q' = SimpleMessageQueue.now q /\
    SimpleMessageQueue.uuids q' = (SimpleMessageQueue.uuids q + length stopped)%nat.
Proof.
  intros body q stopped. subst q stopped. revert a.
  induction tasks as [|entry rest IH]; intros a; cbn [forEach List.filter].
  - exists (queue a). cbn [imap length]. rewrite app_nil_r, Nat.add_0_r.
    destruct a; repeat split.
  - unfold bind at 1. subst body. cbn beta.
    destruct (String.eqb (e_status (snd entry)) "in_progress") eqn:E.
    + rewrite reportError_run.
      match goal with
      | |- context [forEach ?b rest ?s] => destruct (IH s) as (q' & Hrun & Hp & Hn & Hu)
      end.
      exists q'. rewrite Hrun. clear Hrun IH.
      revert Hp Hn Hu.
      destruct (sendMessage_one
                  (Envelope.mk "error_report" sessionId (BaseAgent.id (self a)) (One "orchestrator")
                     (jsObject [("error", JStr "Agent shutting down"); ("severity", JStr "medium");
                                ("taskId", fst entry);
                                ("timestamp", JNum (SimpleMessageQueue.now (queue a)))])
                     None None None) "orchestrator" (queue a) eq_refl) as (Hp1 & Hn1 & Hu1).
      agent_fields. rewrite Hp1, Hn1, Hu1. intros Hp Hn Hu.
      split; [|split; [|split]].
      * destruct (List.filter _ rest); reflexivity.
      * rewrite Hp. cbn [imap]. rewrite <- app_assoc. cbn [app]. f_equal. f_equal.
        -- rewrite Nat.add_0_r. reflexivity.
        -- apply imap_ext. intros i x _. cbn. rewrite Nat.add_succ_r. reflexivity.
      * exact Hn.
      * rewrite Hu. cbn [length]. lia.
    + unfold ret at 1. apply IH.
Qed.

End Shutdown.

(** X21. [shutdown] forgets every task and leaves the agent "offline" in
    the session it was in.  For each task that was "in_progress", in the
    order of [currentTasks], it publishes one [error_report] of severity
    "medium" with the task's id to the orchestrator of the agent's active
    session - not of the session the task came from - and the metrics count
    an error if there was such a task; tasks in another state are dropped
    without a message. *)
Theorem shutdown_reports_tasks_in_progress (a : Agent.t) :
  let r := Agent.shutdown a in
  let q := Agent.queue a in
  let now := SimpleMessageQueue.now q in
  let sessionId := Agent.sessionOf a in
  let stopped :=
    List.filter (fun entry => String.eqb (Agent.e_status (snd entry)) "in_progress")
      (Agent.currentTasks a) in
  fst r = Ok tt /\
  Agent.currentTasks (snd r) = [] /\
  Agent.status (snd r) = "offline" /\
  Agent.activeSession (snd r) = Agent.activeSession a /\
  BaseAgent.metrics (Agent.self (snd r))
  = match stopped with
    | [] => BaseAgent.metrics (Agent.self a)
    | _ => BaseAgent.updateMetrics 0%Q false (BaseAgent.metrics (Agent.self a))
    end /\
  SimpleMessageQueue.published (Agent.queue (snd r))
  = SimpleMessageQueue.published q
    ++ imap (fun i entry =>
               (sessionId, "orchestrator",
                SimpleMessageQueue.enrich (uuid_of (SimpleMessageQueue.uuids q + i)) now
                  (Envelope.mk "error_report" sessionId (BaseAgent.id (Agent.self a))
                     (One "orchestrator")
                     (jsObject [("error", JStr "Agent shutting down");
                                ("severity", JStr "medium"); ("taskId", fst entry);
                                ("timestamp", JNum now)])
                     None None None)))
         stopped.
Proof.
  intros r q now sessionId stopped.
  destruct (Agent.shutdown a) as [res a'] eqn:Hrun.
  unfold Agent.shutdown in Hrun. unfold Agent.bind at 1 2, Agent.modify at 1, Agent.get in Hrun.
  destruct (shutdown_loop (Agent.sessionOf (Agent.setStatus "shutting_down" a))
              (Agent.currentTasks (Agent.setStatus "shutting_down" a))
              (Agent.setStatus "shutting_down" a)) as (q' & Hloop & Hp & _ & _).
  unfold Agent.bind at 1 in Hrun. rewrite Hloop in Hrun.
  unfold Agent.bind, Agent.modify in Hrun. injection Hrun as <- <-.
  subst r. agent_fields. agent_fields in Hp.
  split; [reflexivity|]. split; [reflexivity|]. split; [reflexivity|].
  split; [destruct (List.filter _ (Agent.currentTasks a)); reflexivity|].
  split; [destruct (List.filter _ (Agent.currentTasks a)); reflexivity|].
  exact Hp.
Qed.

(** ** What the methods of an agent leave alone *)

Section KeepsAgent.
Import Agent.

Variable F : t -> Prop.

Lemma keepsAgent_ret {A : Type} (x : A) : keepsAgent F (ret x).
Proof. intros a Ha. exact Ha. Qed.

Lemma keepsAgent_throw {A : Type} (e : string) : keepsAgent F (throw (A := A) e).
Proof. intros a Ha. exact Ha. Qed.

Lemma keepsAgent_lift {A : Type} (r : Result A) : keepsAgent F (lift r).
Proof. intros a Ha. exact Ha. Qed.

Lemma keepsAgent_clock : keepsAgent F clock.
Proof. intros a Ha. exact Ha. Qed.

Lemma keepsAgent_bind {A B : Type} (m : M A) (f : A -> M B) :
  keepsAgent F m -> (forall x, keepsAgent F (f x)) -> keepsAgent F (bind m f).
Proof.
  intros Hm Hf a Ha. unfold bind. specialize (Hm a Ha).
  destruct (m a) as [[x|e] a']; cbn [snd] in *; [apply Hf, Hm|exact Hm].
Qed.

(** The continuation may use that the state it reads has the property. *)
Lemma keepsAgent_get {B : Type} (f : t -> M B) :
  (forall s, F s -> keepsAgent F (f s)) -> keepsAgent F (bind get f).
Proof. intros Hf a Ha. unfold bind, get. apply (Hf a Ha a Ha). Qed.

Lemma keepsAgent_tryCatch {A : Type} (m : M A) (h : string -> M A) :
  keepsAgent F m -> (forall e, keepsAgent F (h e)) -> keepsAgent F (tryCatch m h).
Proof.
  intros Hm Hh a Ha. unfold tryCatch. specialize (Hm a Ha).
  destruct (m a) as [[x|e] a']; cbn [snd] in *; [exact Hm|apply Hh, Hm].
Qed.

Lemma keepsAgent_forEach {A : Type} (body : A -> M unit) (xs : list A) :
  (forall x, keepsAgent F (body x)) -> keepsAgent F (forEach body xs).
Proof.
  intros Hb. induction xs as [|x rest IH]; cbn [forEach].
  - apply keepsAgent_ret.
  - apply keepsAgent_bind; [apply Hb|intros _; exact IH].
Qed.

Lemma keepsAgent_modify (f : t -> t) : (forall a, F a -> F (f a)) -> keepsAgent F (modify f).
Proof. intros Hf a Ha. apply Hf, Ha. Qed.

Lemma keepsAgent_if {A : Type} (c : bool) (m1 m2 : M A) :
  keepsAgent F m1 -> keepsAgent F m2 -> keepsAgent F (if c then m1 else m2).
Proof. destruct c; auto. Qed.

Hypothesis F_status : forall s a, F a -> F (setStatus s a).
Hypothesis F_queue : forall q a, F a -> F (setQueue q a).
Hypothesis F_metrics : forall f a, F a -> F (setMetrics f a).
Hypothesis F_clarifications : forall cs a, F a -> F (setClarifications cs a).
Hypothesis F_setTask :
  forall taskId m st c r a,
    F a ->
    F (setTasks (setTask taskId (mkEntry m st "in_progress" c r) (currentTasks a)) a) /\
    F (setTasks (setTask taskId (mkEntry m st "completed" c r) (currentTasks a)) a).
Hypothesis F_deleteTask :
  forall taskId a, F a -> F (setTasks (deleteTask taskId (currentTasks a)) a).

Lemma keepsAgent_sendMessage (message : Envelope.t) : keepsAgent F (sendMessage message).
Proof. intros a Ha. apply F_queue, Ha. Qed.

Lemma keepsAgent_reportProgress (sessionId : string) (taskId : JsVal) (progress : Z)
    (st : string) :
  keepsAgent F (reportProgress sessionId taskId progress st).
Proof. intros a Ha. rewrite reportProgress_run. apply F_queue, Ha. Qed.

Lemma keepsAgent_reportError (sessionId : string) (error : JsVal) (severity : string)
    (taskId : JsVal) :
  keepsAgent F (reportError sessionId error severity taskId).
Proof. intros a Ha. rewrite reportError_run. apply F_queue, F_metrics, Ha. Qed.

Lemma keepsAgent_completeTask (sessionId : string) (taskId result : JsVal) :
  keepsAgent F (completeTask sessionId taskId result).
Proof.
  unfold completeTask. apply keepsAgent_get. intros s _.
  destruct (getTask taskId (currentTasks s)) as [task|]; [|apply keepsAgent_ret].
  apply keepsAgent_bind; [apply keepsAgent_clock|intros now].
  apply keepsAgent_bind; [apply keepsAgent_modify; intros a Ha; apply F_setTask, Ha|intros _].
  apply keepsAgent_bind; [apply keepsAgent_modify; intros a Ha; apply F_metrics, Ha|intros _].
  apply keepsAgent_bind; [apply keepsAgent_lift|intros deliverables].
  apply keepsAgent_bind; [apply keepsAgent_sendMessage|intros _].
  apply keepsAgent_bind; [apply keepsAgent_modify; intros a Ha; apply F_deleteTask, Ha|intros _].
  apply keepsAgent_modify. intros a Ha. apply F_status, Ha.
Qed.

Lemma keepsAgent_handleCollaborationInvitation (message : Message.t) :
  keepsAgent F (handleCollaborationInvitation message).
Proof.
  unfold handleCollaborationInvitation.
  apply keepsAgent_bind; [apply keepsAgent_lift|intros collaborationType].
  apply keepsAgent_bind; [apply keepsAgent_lift|intros requestingAgent].
  apply keepsAgent_get. intros s _.
  apply keepsAgent_if; [|apply keepsAgent_ret].
  apply keepsAgent_bind; [apply keepsAgent_sendMessage|intros _].
  apply keepsAgent_modify. intros a Ha. apply F_metrics, Ha.
Qed.

Variable executeTask : JsVal -> JsVal -> M JsVal.
Hypothesis F_executeTask : forall task context, keepsAgent F (executeTask task context).

Lemma keepsAgent_handleTaskAssignment (message : Message.t) :
  keepsAgent F (handleTaskAssignment executeTask message).
Proof.
  unfold handleTaskAssignment.
  apply keepsAgent_bind; [apply keepsAgent_lift|intros task].
  apply keepsAgent_bind; [apply keepsAgent_lift|intros context].
  apply keepsAgent_get. intros s _.
  apply keepsAgent_bind; [apply keepsAgent_lift|intros able].
  apply keepsAgent_bind; [apply keepsAgent_lift|intros taskId].
  apply keepsAgent_if; [apply keepsAgent_reportError|].
  apply keepsAgent_bind; [apply keepsAgent_clock|intros now].
  apply keepsAgent_bind; [apply keepsAgent_modify; intros a Ha; apply F_setTask, Ha|intros _].
  apply keepsAgent_bind; [apply keepsAgent_modify; intros a Ha; apply F_status, Ha|intros _].
  apply keepsAgent_bind; [apply keepsAgent_reportProgress|intros _].
  apply keepsAgent_tryCatch; [|intros e; apply keepsAgent_reportError].
  apply keepsAgent_bind; [apply F_executeTask|intros result].
  apply keepsAgent_completeTask.
Qed.

Lemma keepsAgent_resumeTask (taskId : JsVal) : keepsAgent F (resumeTask executeTask taskId).
Proof.
  unfold resumeTask. apply keepsAgent_get. intros s _.
  destruct (getTask taskId (currentTasks s)) as [task|]; [|apply keepsAgent_ret].
  apply keepsAgent_if; [|apply keepsAgent_ret].
  apply keepsAgent_bind; [apply keepsAgent_modify; intros a Ha; apply F_setTask, Ha|intros _].
  apply keepsAgent_bind; [apply keepsAgent_reportProgress|intros _].
  apply keepsAgent_tryCatch.
  - apply keepsAgent_bind; [apply F_executeTask|intros result].
    apply keepsAgent_get. intros s' _. apply keepsAgent_completeTask.
  - intros e. apply keepsAgent_get. intros s' _. apply keepsAgent_reportError.
Qed.

Lemma keepsAgent_handleUserClarification (message : Message.t) :
  keepsAgent F (handleUserClarification executeTask message).
Proof.
  unfold handleUserClarification.
  apply keepsAgent_bind; [apply keepsAgent_lift|intros clarification].
  apply keepsAgent_bind; [apply keepsAgent_lift|intros originalQuestion].
  apply keepsAgent_bind; [apply keepsAgent_clock|intros now].
  apply keepsAgent_bind;
    [apply keepsAgent_modify; intros a Ha; apply F_clarifications, Ha|intros _].
  unfold processPendingTasks. apply keepsAgent_get. intros s _.
  apply keepsAgent_forEach. intros taskId. apply keepsAgent_resumeTask.
Qed.

(** What [handleMessage] does once [updateMemory] has run. *)
Lemma keepsAgent_dispatch (message : Message.t) :
  keepsAgent F
    (if String.eqb (Message.type message) "task_assignment" then
       handleTaskAssignment executeTask message
     else if String.eqb (Message.type message) "collaboration_invitation" then
       handleCollaborationInvitation message
     else if String.eqb (Message.type message) "user_clarification" then
       handleUserClarification executeTask message
     else if String.eqb (Message.type message) "agent_response" then
       throw "TypeError: this.handleAgentResponse is not a function"
     else ret tt).
Proof.
  repeat apply keepsAgent_if.
  - apply keepsAgent_handleTaskAssignment.
  - apply keepsAgent_handleCollaborationInvitation.
  - apply keepsAgent_handleUserClarification.
  - apply keepsAgent_throw.
  - apply keepsAgent_ret.
Qed.

Hypothesis F_conversations : forall cs a, F a -> F (setConversations cs a).
Hypothesis F_currentProject : forall v a, F a -> F (setCurrentProject v a).

Lemma keepsAgent_updateMemory (message : Message.t) : keepsAgent F (updateMemory message).
Proof.
  intros a Ha. rewrite updateMemory_run.
  destruct (String.eqb (Message.type message) "task_assignment");
    [|apply F_conversations, Ha].
  destruct (getProp (Message.payload message) "task") as [task|e];
    [|apply F_conversations, Ha].
  destruct (getProp task "input"); [apply F_currentProject|]; apply F_conversations, Ha.
Qed.

Lemma keepsAgent_handleMessage (message : Message.t) :
  keepsAgent F (handleMessage executeTask message).
Proof.
  unfold handleMessage. apply keepsAgent_tryCatch; [|intros e; apply keepsAgent_reportError].
  apply keepsAgent_bind; [apply keepsAgent_updateMemory|intros _].
  apply keepsAgent_dispatch.
Qed.

Hypothesis F_session : forall s a, F a -> F (setSession s a).
Hypothesis F_clear : forall a, F a -> F (setTasks [] a).

Lemma keepsAgent_initialize (sessionId : string) : keepsAgent F (initialize sessionId).
Proof.
  unfold initialize.
  apply keepsAgent_bind; [apply keepsAgent_modify; intros a Ha; apply F_session, Ha|intros _].
  apply keepsAgent_bind; [apply keepsAgent_modify; intros a Ha; apply F_status, Ha|intros _].
  apply keepsAgent_get. intros s _.
  apply keepsAgent_bind; [apply keepsAgent_sendMessage|intros _; apply keepsAgent_ret].
Qed.

Lemma keepsAgent_shutdown : keepsAgent F shutdown.
Proof.
  unfold shutdown.
  apply keepsAgent_bind; [apply keepsAgent_modify; intros a Ha; apply F_status, Ha|intros _].
  apply keepsAgent_get. intros s _.
  apply keepsAgent_bind.
  - apply keepsAgent_forEach. intros entry.
    apply keepsAgent_if; [apply keepsAgent_reportError|apply keepsAgent_ret].
  - intros _.
    apply keepsAgent_bind; [apply keepsAgent_modify; intros a Ha; apply F_clear, Ha|intros _].
    apply keepsAgent_modify. intros a Ha. apply F_status, Ha.
Qed.

(** Whatever happens to the agent keeps the property. *)
Lemma keepsAgent_run (events : list Event) (a : t) : F a -> F (run executeTask events a).
Proof.
  revert a. induction events as [|e rest IH]; intros a Ha; [exact Ha|].
  cbn [run fold_left]. apply IH. destruct e as [dt|sessionId|message|]; cbn [handle].
  - apply F_queue, Ha.
  - apply keepsAgent_initialize, Ha.
  - destruct (expired _ message); [exact Ha|apply keepsAgent_handleMessage, Ha].
  - apply keepsAgent_shutdown, Ha.
Qed.

End KeepsAgent.

(** ** Memory *)

Section Memory.
Import Agent.

Variable executeTask : JsVal -> JsVal -> M JsVal.
Hypothesis executeTask_conversations :
  forall task context s, conversations (snd (executeTask task context s)) = conversations s.

Lemma updateMemory_conversations (message : Message.t) (a : t) :
  conversations (snd (updateMemory message a))
  = drop (length (conversations a) + 1 - 50)
      (conversations a
       ++ [mkConversation (SimpleMessageQueue.now (queue a)) (Message.type message)
             (Message.fromAgent message) (Message.payload message)]).
Proof.
  rewrite updateMemory_run.
  destruct (String.eqb (Message.type message) "task_assignment"); [|reflexivity].
  destruct (getProp (Message.payload message) "task") as [task|e]; [|reflexivity].
  destruct (getProp task "input"); reflexivity.
Qed.

Lemma handleMessage_conversations (message : Message.t) (a : t) :
  conversations (snd (handleMessage executeTask message a))
  = drop (length (conversations a) + 1 - 50)
      (conversations a
       ++ [mkConversation (SimpleMessageQueue.now (queue a)) (Message.type message)
             (Message.fromAgent message) (Message.payload message)]).
Proof.
  rewrite <- updateMemory_conversations.
  set (cs := conversations (snd (updateMemory message a))).
  assert (Hexec : forall task context,
             keepsAgent (fun s => conversations s = cs) (executeTask task context)).
  { intros task context s Hs. rewrite executeTask_conversations. exact Hs. }
  assert (Hset : forall taskId m st c r s,
             conversations s = cs ->
             conversations (setTasks (setTask taskId (mkEntry m st "in_progress" c r)
                                        (currentTasks s)) s) = cs /\
             conversations (setTasks (setTask taskId (mkEntry m st "completed" c r)
                                        (currentTasks s)) s) = cs).
  { intros; split; assumption. }
  assert (Herr : forall sessionId error severity taskId,
             keepsAgent (fun s => conversations s = cs)
               (reportError sessionId error severity taskId)).
  { intros. apply keepsAgent_reportError; auto. }
  unfold handleMessage, tryCatch, bind. subst cs.
  destruct (updateMemory message a) as [[[]|e] s1]; cbn [snd] in *; [|apply Herr; reflexivity].
  match goal with
  | |- context [let (_, _) := ?d s1 in _] =>
      assert (Hd : conversations (snd (d s1)) = conversations s1);
      [apply (keepsAgent_dispatch (fun s => conversations s = conversations s1));
       auto|destruct (d s1) as [[[]|e] s2]]
  end; cbn [snd] in *; [exact Hd|].
  apply Herr. exact Hd.
Qed.

Lemma handle_conversations (a : t) (e : Event) :
  conversations (handle executeTask a e)
  = match e with
    | Deliver message =>
        if expired (SimpleMessageQueue.now (queue a)) message then conversations a
        else drop (length (conversations a) + 1 - 50)
               (conversations a
                ++ [mkConversation (SimpleMessageQueue.now (queue a)) (Message.type message)
                      (Message.fromAgent message) (Message.payload message)])
    | _ => conversations a
    end.
Proof.
  destruct e as [dt|sessionId|message|]; cbn [handle].
  - reflexivity.
  - apply (keepsAgent_initialize (fun s => conversations s = conversations a)); auto.
  - destruct (expired _ message); [reflexivity|apply handleMessage_conversations].
  - apply (keepsAgent_shutdown (fun s => conversations s = conversations a)); auto.
Qed.

End Memory.

(** X22. Of what happens to an agent, only the delivery of a message that
    has not expired changes [memory.conversations]: the message is appended,
    with its type, sender, payload and the time of delivery, and the oldest
    entries beyond fifty are dropped - whatever the type of the message and
    whether handling it succeeds.  An agent that remembers at most fifty
    messages therefore never remembers more. *)
Theorem agent_remembers_last_fifty_messages
    (executeTask : JsVal -> JsVal -> Agent.M JsVal) :
  (forall task context s,
      Agent.conversations (snd (executeTask task context s)) = Agent.conversations s) ->
  (forall (a : Agent.t) (e : Agent.Event),
      Agent.conversations (Agent.handle executeTask a e)
      = match e with
        | Agent.Deliver message =>
            if expired (SimpleMessageQueue.now (Agent.queue a)) message
            then Agent.conversations a
            else drop (length (Agent.conversations a) + 1 - 50)
                   (Agent.conversations a
                    ++ [Agent.mkConversation (SimpleMessageQueue.now (Agent.queue a))
                          (Message.type message) (Message.fromAgent message)
                          (Message.payload message)])
        | _ => Agent.conversations a
        end) /\
  (forall (events : list Agent.Event) (a : Agent.t),
      (length (Agent.conversations a) <= 50)%nat ->
      (length (Agent.conversations (Agent.run executeTask events a)) <= 50)%nat).
Proof.
  intros Hexec. split; [intros a e; apply handle_conversations, Hexec|].
  intros events. induction events as [|e rest IH]; intros a Ha; [exact Ha|].
  cbn [Agent.run fold_left]. apply IH. rewrite handle_conversations by exact Hexec.
  destruct e as [dt|sessionId|message|]; try exact Ha.
  destruct (expired _ message); [exact Ha|].
  rewrite length_drop, length_app. cbn [length]. lia.
Qed.

(** ** Clarifications *)

Section Clarification.
Import Agent.

Lemma elem_of_setTask (taskId k : JsVal) (entry e : Entry) (tasks : list (JsVal * Entry)) :
  (k, e) ∈ setTask taskId entry tasks -> (k, e) ∈ tasks \/ e = entry.
Proof.
  induction tasks as [|[k' e'] rest IH]; cbn [setTask].
  - intros Hin%list_elem_of_singleton. right. congruence.
  - destruct (sameValueZero k' taskId).
    + intros [Heq|Hin]%elem_of_cons; [right; congruence|left; apply list_elem_of_further, Hin].
    + intros [Heq|Hin]%elem_of_cons.
      * left. rewrite Heq. apply list_elem_of_here.
      * destruct (IH Hin) as [H|H]; [left; apply list_elem_of_further, H|right; exact H].
Qed.

Lemma elem_of_deleteTask (taskId k : JsVal) (e : Entry) (tasks : list (JsVal * Entry)) :
  (k, e) ∈ deleteTask taskId tasks -> (k, e) ∈ tasks.
Proof.
  induction tasks as [|[k' e'] rest IH]; cbn [deleteTask]; [auto|].
  destruct (sameValueZero k' taskId).
  - intros Hin. apply list_elem_of_further, Hin.
  - intros [Heq|Hin]%elem_of_cons.
    + rewrite Heq. apply list_elem_of_here.
    + apply list_elem_of_further, IH, Hin.
Qed.

Lemma getTask_elem (taskId : JsVal) (e : Entry) (tasks : list (JsVal * Entry)) :
  getTask taskId tasks = Some e -> exists k, (k, e) ∈ tasks.
Proof.
  induction tasks as [|[k' e'] rest IH]; cbn [getTask]; [discriminate|].
  destruct (sameValueZero k' taskId).
  - intros [= ->]. exists k'. apply list_elem_of_here.
  - intros H. destruct (IH H) as [k Hk]. exists k. apply list_elem_of_further, Hk.
Qed.

Lemma noneWaiting_setTask (taskId : JsVal) (m : list (string * JsVal)) (st : Z)
    (c : option Z) (r : JsVal) (a : t) :
  noneWaiting a ->
  noneWaiting (setTasks (setTask taskId (mkEntry m st "in_progress" c r) (currentTasks a)) a) /\
  noneWaiting (setTasks (setTask taskId (mkEntry m st "completed" c r) (currentTasks a)) a).
Proof.
  intros Ha. split; intros k e Hin; cbn [currentTasks setTasks] in Hin;
    apply elem_of_setTask in Hin as [Hin| ->]; try (exact (Ha k e Hin)); discriminate.
Qed.

Lemma noneWaiting_deleteTask (taskId : JsVal) (a : t) :
  noneWaiting a -> noneWaiting (setTasks (deleteTask taskId (currentTasks a)) a).
Proof.
  intros Ha k e Hin. cbn [currentTasks setTasks] in Hin.
  apply elem_of_deleteTask in Hin. exact (Ha k e Hin).
Qed.

Variable executeTask : JsVal -> JsVal -> M JsVal.

(** With no task waiting, the loop of [processPendingTasks] does nothing. *)
Lemma processPendingTasks_idle (a : t) :
  noneWaiting a -> processPendingTasks executeTask a = (Ok tt, a).
Proof.
  intros Ha. unfold processPendingTasks, bind, get.
  generalize (map fst (currentTasks a)) as keys.
  induction keys as [|k rest IH]; [reflexivity|].
  cbn [forEach]. unfold bind at 1.
  assert (Hk : resumeTask executeTask k a = (Ok tt, a)).
  { unfold resumeTask, bind, get.
    destruct (getTask k (currentTasks a)) as [e|] eqn:E; [|reflexivity].
    destruct (getTask_elem k e _ E) as [k' Hin].
    destruct (String.eqb_spec (e_status e) "waiting_for_clarification") as [Heq|Hne];
      [|reflexivity].
    destruct (Ha k' e Hin Heq). }
  rewrite Hk. exact IH.
Qed.

Hypothesis executeTask_noneWaiting :
  forall task context, keepsAgent noneWaiting (executeTask task context).

Lemma noneWaiting_run (events : list Event) (a : t) :
  noneWaiting a -> noneWaiting (run executeTask events a).
Proof.
  apply keepsAgent_run; auto using noneWaiting_setTask, noneWaiting_deleteTask.
  intros a' _ k e Hin. cbn in Hin. apply elem_of_nil in Hin. destruct Hin.
Qed.

End Clarification.

(** X23. No method puts a task in the state "waiting_for_clarification",
    so a clarification from the user never resumes one.  In every state an
    agent reaches from its constructor - with an [executeTask] that does not
    produce such a task either - no task is waiting, and a
    [user_clarification] is only recorded: the question and the answer are
    appended to [memory.context.userClarifications], and no task is touched,
    nothing is executed and nothing is published. *)
Theorem clarification_never_resumes_a_task
    (executeTask : JsVal -> JsVal -> Agent.M JsVal)
    (agentId specialization : string) (capabilities : list string)
    (q : SimpleMessageQueue.World) (events : list Agent.Event)
    (message : Message.t) (clarification originalQuestion : JsVal) :
  (forall task context, keepsAgent noneWaiting (executeTask task context)) ->
  Message.type message = "user_clarification" ->
  getProp (Message.payload message) "clarification" = Ok clarification ->
  getProp (Message.payload message) "originalQuestion" = Ok originalQuestion ->
  let a := Agent.run executeTask events (Agent.new agentId specialization capabilities q) in
  let r := Agent.handleMessage executeTask message a in
  noneWaiting a /\
  fst r = Ok tt /\
  Agent.userClarifications (snd r)
  = Agent.userClarifications a
    ++ [Agent.mkClarification originalQuestion clarification
          (SimpleMessageQueue.now (Agent.queue a))] /\
  Agent.currentTasks (snd r) = Agent.currentTasks a /\
  Agent.status (snd r) = Agent.status a /\
  Agent.self (snd r) = Agent.self a /\
  Agent.queue (snd r) = Agent.queue a.
Proof.
  intros Hexec Hty Hc Hq a r.
  assert (Ha : noneWaiting a).
  { apply noneWaiting_run; [exact Hexec|]. intros k e Hin. apply elem_of_nil in Hin. destruct Hin. }
  split; [exact Ha|].
  destruct (Agent.handleMessage executeTask message a) as [res a'] eqn:Hrun.
  unfold Agent.handleMessage, Agent.tryCatch, Agent.bind at 1 in Hrun.
  rewrite updateMemory_run, Hty in Hrun. cbn [String.eqb Ascii.eqb Bool.eqb] in Hrun.
  unfold Agent.handleUserClarification, Agent.bind, Agent.lift, Agent.clock, Agent.modify in Hrun.
  rewrite Hc, Hq in Hrun.
  rewrite processPendingTasks_idle in Hrun by exact Ha.
  injection Hrun as <- <-. subst r. agent_fields. repeat split.
Qed.

(** ** Branches of [executeTask] that no message reaches *)

Section Unreached.
Import Agent.

Variables (specialization : string) (capabilities : list string).

Lemma canHandleTask_instance (a : t) (taskTypeString : string) :
  instanceOf specialization capabilities a ->
  BaseAgent.canHandleTask (self a) taskTypeString
  = BaseAgent.canHandleTask
      (BaseAgent.mk EmptyString specialization capabilities BaseAgent.initialMetrics)
      taskTypeString.
Proof.
  intros [Hs Hc]. unfold BaseAgent.canHandleTask. cbn [BaseAgent.capabilities BaseAgent.specialization].
  rewrite Hs, Hc. reflexivity.
Qed.

Variables exec1 exec2 : JsVal -> JsVal -> M JsVal.
Hypothesis exec_agree : agreeOnAccepted specialization capabilities exec1 exec2.

Lemma handleTaskAssignment_agree (message : Message.t) (a : t) :
  instanceOf specialization capabilities a ->
  handleTaskAssignment exec1 message a = handleTaskAssignment exec2 message a.
Proof.
  intros Ha.
  destruct (getProp (Message.payload message) "task") as [task|e] eqn:Htask;
    [|unfold handleTaskAssignment, bind, lift; rewrite Htask; reflexivity].
  destruct (getProp (Message.payload message) "context") as [context|e] eqn:Hctx;
    [|unfold handleTaskAssignment, bind, lift; rewrite Htask, Hctx; reflexivity].
  destruct (getProp task "type") as [type|e] eqn:Htype;
    [|unfold handleTaskAssignment, canHandleTask, bind, lift, get;
      rewrite Htask, Hctx, Htype; reflexivity].
  destruct (getProp task "id") as [taskId|e] eqn:Hid;
    [|unfold handleTaskAssignment, canHandleTask, bind, lift, get;
      rewrite Htask, Hctx, Htype, Hid; destruct type; reflexivity].
  destruct type as [| | | |taskTypeString| |];
    try (unfold handleTaskAssignment, canHandleTask, bind, lift, get;
         rewrite Htask, Hctx, Htype; reflexivity).
  destruct (BaseAgent.canHandleTask (self a) taskTypeString) eqn:Hcan.
  - rewrite !(handleTaskAssignment_accepted _ message task context taskId taskTypeString)
      by assumption.
    unfold tryCatch, bind.
    rewrite (exec_agree task context taskTypeString); [reflexivity|exact Htype|].
    rewrite <- (canHandleTask_instance a) by exact Ha. exact Hcan.
  - rewrite !(handleTaskAssignment_rejected _ message task taskId taskTypeString)
      by assumption.
    reflexivity.
Qed.

(** With no task waiting, [handleMessage] is the same for both. *)
Lemma handleMessage_agree (message : Message.t) (a : t) :
  instanceOf specialization capabilities a ->
  noneWaiting a ->
  handleMessage exec1 message a = handleMessage exec2 message a.
Proof.
  intros Ha Hw. unfold handleMessage, tryCatch, bind.
  pose proof (updateMemory_run message a) as Hm. cbv zeta in Hm.
  destruct (updateMemory message a) as [[[]|e] s1] eqn:E; [|reflexivity].
  assert (Hs1 : instanceOf specialization capabilities s1 /\ noneWaiting s1).
  { destruct (String.eqb (Message.type message) "task_assignment").
    - destruct (getProp (Message.payload message) "task") as [task|e']; [|discriminate].
      destruct (getProp task "input"); [|discriminate].
      injection Hm as ->. split; assumption.
    - injection Hm as ->. split; assumption. }
  destruct Hs1 as [Hi1 Hw1]. clear Hm E.
  destruct (String.eqb (Message.type message) "task_assignment").
  { rewrite handleTaskAssignment_agree by exact Hi1. reflexivity. }
  destruct (String.eqb (Message.type message) "collaboration_invitation"); [reflexivity|].
  destruct (String.eqb (Message.type message) "user_clarification"); [|reflexivity].
  unfold handleUserClarification, bind, lift, clock, modify.
  destruct (getProp (Message.payload message) "clarification"); [|reflexivity].
  destruct (getProp (Message.payload message) "originalQuestion"); [|reflexivity].
  rewrite !processPendingTasks_idle by exact Hw1. reflexivity.
Qed.

Hypothesis exec2_self : forall task context s, self (snd (exec2 task context s)) = self s.
Hypothesis exec2_tasks :
  forall task context s, currentTasks (snd (exec2 task context s)) = currentTasks s.

Lemma instance_run (events : list Event) (a : t) :
  instanceOf specialization capabilities a /\ noneWaiting a ->
  instanceOf specialization capabilities (run exec2 events a)
  /\ noneWaiting (run exec2 events a).
Proof.
  apply (keepsAgent_run
           (fun s => instanceOf specialization capabilities s /\ noneWaiting s)).
  - intros st s [Hi Hw]. split; [exact Hi|exact Hw].
  - intros q s [Hi Hw]. split; [exact Hi|exact Hw].
  - intros f s [Hi Hw]. split; [exact Hi|exact Hw].
  - intros cs s [Hi Hw]. split; [exact Hi|exact Hw].
  - intros taskId m st c r s [Hi Hw].
    destruct (noneWaiting_setTask taskId m st c r s Hw) as [H1 H2].
    split; (split; [exact Hi|assumption]).
  - intros taskId s [Hi Hw]. split; [exact Hi|apply noneWaiting_deleteTask, Hw].
  - intros task context s [Hi Hw]. split.
    + unfold instanceOf. rewrite exec2_self. exact Hi.
    + intros k e Hin. rewrite exec2_tasks in Hin. exact (Hw k e Hin).
  - intros cs s [Hi Hw]. split; [exact Hi|exact Hw].
  - intros v s [Hi Hw]. split; [exact Hi|exact Hw].
  - intros ss s [Hi Hw]. split; [exact Hi|exact Hw].
  - intros s [Hi Hw]. split; [exact Hi|].
    intros k e Hin. cbn in Hin. apply elem_of_nil in Hin. destruct Hin.
Qed.

Lemma run_agree (events : list Event) (a : t) :
  instanceOf specialization capabilities a ->
  noneWaiting a ->
  run exec1 events a = run exec2 events a.
Proof.
  revert a. induction events as [|e rest IH]; intros a Hi Hw; [reflexivity|].
  cbn [run fold_left].
  assert (Hstep : handle exec1 a e = handle exec2 a e).
  { destruct e as [dt|sessionId|message|]; cbn [handle]; try reflexivity.
    rewrite handleMessage_agree by assumption. reflexivity. }
  rewrite Hstep.
  destruct (instance_run [e] a (conj Hi Hw)) as [Hi' Hw'].
  apply IH; assumption.
Qed.

End Unreached.

Lemma noneWaiting_new (agentId specialization : string) (capabilities : list string)
    (q : SimpleMessageQueue.World) :
  noneWaiting (Agent.new agentId specialization capabilities q).
Proof. intros k e Hin. cbn in Hin. apply elem_of_nil in Hin. destruct Hin. Qed.

Lemma strictEqStr_ne (s literal : string) : s <> literal -> strictEqStr (JStr s) literal = false.
Proof. intros Hne. cbn [strictEqStr]. apply String.eqb_neq, Hne. Qed.

(** X24. Architectrix never analyses requirements.  Its capabilities do
    not cover the task type [requirements_analysis], the only one whose
    branch of [executeTask] calls [analyzeRequirements], and no task ever
    waits for a clarification: whatever happens to the agent after its
    construction, it ends in the same state whichever function stands for
    [analyzeRequirements]. *)
Theorem architectrix_never_analyses_requirements
    (analyzeRequirements analyzeRequirements' : JsVal -> JsVal -> Agent.M JsVal)
    (events : list Agent.Event) (q : SimpleMessageQueue.World) :
  Agent.run (ArchitectrixAgent.executeTask analyzeRequirements) events
    (ArchitectrixAgent.new q)
  = Agent.run (ArchitectrixAgent.executeTask analyzeRequirements') events
      (ArchitectrixAgent.new q).
Proof.
  set (unused := fun _ _ : JsVal => Agent.throw (A := JsVal) EmptyString).
  assert (Hany : forall f,
             Agent.run (ArchitectrixAgent.executeTask f) events (ArchitectrixAgent.new q)
             = Agent.run (ArchitectrixAgent.executeTask unused) events
                 (ArchitectrixAgent.new q)).
  { intros f.
    apply (run_agree "system_architecture" ArchitectrixAgent.capabilities);
      [| | |split; reflexivity|apply noneWaiting_new].
    - intros task context taskTypeString s Htype Hcan.
      assert (Hne : taskTypeString <> "requirements_analysis").
      { intros ->. vm_compute in Hcan. discriminate. }
      unfold ArchitectrixAgent.executeTask, Agent.bind, Agent.lift. rewrite Htype.
      destruct (getProp task "input"); [|reflexivity].
      rewrite (strictEqStr_ne _ _ Hne). reflexivity.
    - intros task context s.
      unfold ArchitectrixAgent.executeTask, Agent.bind, Agent.lift.
      destruct (getProp task "type") as [type|]; [|reflexivity].
      destruct (getProp task "input"); [|reflexivity].
      repeat match goal with |- context [if ?c then _ else _] => destruct c end; reflexivity.
    - intros task context s.
      unfold ArchitectrixAgent.executeTask, Agent.bind, Agent.lift.
      destruct (getProp task "type") as [type|]; [|reflexivity].
      destruct (getProp task "input"); [|reflexivity].
      repeat match goal with |- context [if ?c then _ else _] => destruct c end; reflexivity. }
  rewrite (Hany analyzeRequirements), (Hany analyzeRequirements'). reflexivity.
Qed.

Lemma reportStep_run (progress : Z) (st : string) (a : Agent.t) :
  reportStep progress st a
  = Agent.reportProgress (Agent.sessionOf a) (Agent.getCurrentTaskId a) progress st a.
Proof. reflexivity. Qed.

Lemma reportStep_self (progress : Z) (st : string) (a : Agent.t) :
  Agent.self (snd (reportStep progress st a)) = Agent.self a /\
  Agent.currentTasks (snd (reportStep progress st a)) = Agent.currentTasks a.
Proof. split; reflexivity. Qed.

(** X25. Code Conjurer never runs [implementFrontend], [implementBackend]
    or [implementAPI]: its capabilities cover none of the task types
    [frontend_implementation], [backend_implementation] and
    [api_implementation].  Provided [generateCode] leaves the agent's
    identity, metrics and tasks alone, the agent ends in the same state
    whichever functions stand for the three methods. *)
Theorem code_conjurer_never_implements_layers
    (generateCode implementFrontend implementBackend implementAPI
     implementFrontend' implementBackend' implementAPI' : JsVal -> JsVal -> Agent.M JsVal)
    (events : list Agent.Event) (q : SimpleMessageQueue.World) :
  (forall input context s,
      Agent.self (snd (generateCode input context s)) = Agent.self s /\
      Agent.currentTasks (snd (generateCode input context s)) = Agent.currentTasks s) ->
  Agent.run (CodeConjurerAgent.executeTaskWith generateCode implementFrontend
               implementBackend implementAPI) events (CodeConjurerAgent.new q)
  = Agent.run (CodeConjurerAgent.executeTaskWith generateCode implementFrontend'
                 implementBackend' implementAPI') events (CodeConjurerAgent.new q).
Proof.
  intros Hgen.
  set (unused := fun _ _ : JsVal => Agent.throw (A := JsVal) EmptyString).
  assert (Hkeeps : forall task context s,
             Agent.self (snd (CodeConjurerAgent.executeTaskWith generateCode unused unused
                                unused task context s)) = Agent.self s /\
             Agent.currentTasks
               (snd (CodeConjurerAgent.executeTaskWith generateCode unused unused unused
                       task context s)) = Agent.currentTasks s).
  { intros task context s.
    unfold CodeConjurerAgent.executeTaskWith, Agent.bind, Agent.lift.
    destruct (getProp task "type") as [type|]; [|split; reflexivity].
    destruct (getProp task "input") as [input|]; [|split; reflexivity].
    destruct (strictEqStr type "code_generation"); [apply Hgen|].
    destruct (strictEqStr type "code_implementation").
    { unfold CodeConjurerAgent.implementFeature, Agent.bind, Agent.lift.
      destruct (getProp input "feature"); split; reflexivity. }
    repeat match goal with |- context [if ?c then _ else _] => destruct c end;
      split; reflexivity. }
  assert (Hany : forall f1 f2 f3,
             Agent.run (CodeConjurerAgent.executeTaskWith generateCode f1 f2 f3) events
               (CodeConjurerAgent.new q)
             = Agent.run (CodeConjurerAgent.executeTaskWith generateCode unused unused unused)
                 events (CodeConjurerAgent.new q)).
  { intros f1 f2 f3.
    apply (run_agree "code_generation" CodeConjurerAgent.capabilities);
      [|intros; apply Hkeeps|intros; apply Hkeeps|split; reflexivity|apply noneWaiting_new].
    intros task context taskTypeString s Htype Hcan.
    assert (Hne : taskTypeString <> "frontend_implementation"
                  /\ taskTypeString <> "backend_implementation"
                  /\ taskTypeString <> "api_implementation").
    { repeat split; intros ->; vm_compute in Hcan; discriminate. }
    destruct Hne as (Hf & Hb & Ha).
    unfold CodeConjurerAgent.executeTaskWith, Agent.bind, Agent.lift.
    rewrite Htype.
    destruct (getProp task "input"); [|reflexivity].
    rewrite (strictEqStr_ne _ _ Hf), (strictEqStr_ne _ _ Hb), (strictEqStr_ne _ _ Ha).
    reflexivity. }
  rewrite (Hany implementFrontend implementBackend implementAPI),
    (Hany implementFrontend' implementBackend' implementAPI').
  reflexivity.
Qed.

(** ** The agents and the tasks the orchestrator creates *)

(** X26. The first task of every session is refused by the agent it is
    meant for.  [startSession] publishes one [task_assignment] of a
    [requirements_analysis] to "architectrix"; an agent with Architectrix's
    specialization and capabilities that handles this message stores no task
    and executes nothing, and answers with one [error_report] of severity
    "low" saying that the task is incompatible with its capabilities. *)
Theorem architectrix_rejects_the_analysis_task
    (sessionId : string) (projectContext : JsVal) (userRequirement : string)
    (o : AgentOrchestrator.t) (executeTask : JsVal -> JsVal -> Agent.M JsVal)
    (a : Agent.t) :
  projectContext <> JUndefined ->
  projectContext <> JNull ->
  instanceOf "system_architecture" ArchitectrixAgent.capabilities a ->
  let o' := snd (AgentOrchestrator.startSession sessionId projectContext userRequirement o) in
  let taskId := uuid_of (S (SimpleMessageQueue.uuids (AgentOrchestrator.queue o))) in
  let q := Agent.queue a in
  let now := SimpleMessageQueue.now q in
  exists m : Message.t,
    SimpleMessageQueue.published (AgentOrchestrator.queue o')
    = SimpleMessageQueue.published (AgentOrchestrator.queue o)
      ++ [(sessionId, "architectrix", m)] /\
    Message.type m = "task_assignment" /\
    fst (Agent.handleMessage executeTask m a) = Ok tt /\
    Agent.currentTasks (snd (Agent.handleMessage executeTask m a)) = Agent.currentTasks a /\
    Agent.status (snd (Agent.handleMessage executeTask m a)) = Agent.status a /\
    SimpleMessageQueue.published (Agent.queue (snd (Agent.handleMessage executeTask m a)))
    = SimpleMessageQueue.published q
      ++ [(sessionId, "orchestrator",
           SimpleMessageQueue.enrich (uuid_of (SimpleMessageQueue.uuids q)) now
             (Envelope.mk "error_report" sessionId (BaseAgent.id (Agent.self a))
                (One "orchestrator")
                (JObj [("error",
                        JStr ("Task " +:+ taskId +:+ " incompatible with capabilities"));
                       ("severity", JStr "low"); ("taskId", JNull);
                       ("timestamp", JNum now)])
                None None None))].
Proof.
  intros Hu Hn Ha o' taskId q now.
  assert (Hfiles : exists v, getProp projectContext "existingFiles" = Ok v).
  { destruct projectContext; cbn; try congruence; eauto. }
  destruct Hfiles as [v Hv].
  subst o'. unfold AgentOrchestrator.startSession, AgentOrchestrator.bind,
    AgentOrchestrator.uuidv4, AgentOrchestrator.clock, AgentOrchestrator.modify,
    AgentOrchestrator.initiateRequirementsAnalysis, AgentOrchestrator.bind,
    AgentOrchestrator.uuidv4, AgentOrchestrator.lift, AgentOrchestrator.clock,
    AgentOrchestrator.alloc, AgentOrchestrator.updWorkflow, AgentOrchestrator.readTask,
    AgentOrchestrator.sendMessage, AgentOrchestrator.ret, AgentOrchestrator.readWorkflow.
  rewrite Hv. orchestrator_fields.
  rewrite !lookup_insert_eq. orchestrator_fields.
  rewrite !lookup_insert_eq. orchestrator_fields.
  rewrite lookup_app_r by reflexivity. rewrite Nat.sub_diag. cbn [lookup list_lookup].
  orchestrator_fields. rewrite !lookup_insert_eq.
  unfold SimpleMessageQueue.sendMessage. cbn [recipientsOf Envelope.toAgent fold_left].
  unfold SimpleMessageQueue.publishTo.
  repeat (progress (orchestrator_fields; rewrite ?lookup_insert_eq)).
  eexists. split; [reflexivity|]. split; [reflexivity|].
  match goal with
  | |- context [Agent.handleMessage executeTask ?m a] =>
      destruct (Agent.handleMessage executeTask m a) as [res a'] eqn:Hrun;
      erewrite (handleMessage_assignment executeTask m) in Hrun
        by (cbn; reflexivity);
      unfold Agent.tryCatch in Hrun;
      erewrite (handleTaskAssignment_rejected executeTask m _ (JStr taskId)
                  "requirements_analysis") in Hrun;
      [|cbn; reflexivity|cbn; reflexivity|cbn; reflexivity|]
  end.
  - rewrite reportError_run in Hrun. injection Hrun as <- <-. agent_fields.
    repeat split.
  - agent_fields. destruct Ha as [Hs Hc]. unfold BaseAgent.canHandleTask.
    rewrite Hs, Hc. reflexivity.
Qed.

Lemma toJs_members (task : Task.t) :
  getProp (Task.toJs task) "id" = Ok (JStr (Task.id task)) /\
  getProp (Task.toJs task) "type" = Ok (JStr (Task.type task)) /\
  exists input, getProp (Task.toJs task) "input" = Ok input.
Proof. repeat split. eexists. reflexivity. Qed.

(** X27. Code Conjurer accepts the implementation task the orchestrator
    plans for it and cannot execute it.  The task has the type
    [code_generation_implementation], which the agent's capabilities cover
    and for which [executeTask] has no branch: the agent stores the task,
    reports it "started", and then reports an error of severity "high";
    the task stays "in_progress" in [currentTasks] and the agent "working". *)
Theorem code_conjurer_cannot_execute_its_planned_task
    (generateCode : JsVal -> JsVal -> Agent.M JsVal) (sessionId : string) (task : Task.t)
    (p : string * string * Message.t) (a : Agent.t) :
  implementationTaskFor AgentOrchestrator.initialCapabilities sessionId task "code_conjurer" ->
  assignmentOf sessionId p task ->
  instanceOf "code_generation" CodeConjurerAgent.capabilities a ->
  let message := snd p in
  let r := Agent.handleMessage (CodeConjurerAgent.executeTask generateCode) message a in
  let q := Agent.queue a in
  let now := SimpleMessageQueue.now q in
  let n := SimpleMessageQueue.uuids q in
  let agentId := BaseAgent.id (Agent.self a) in
  let taskId := JStr (Task.id task) in
  Task.type task = "code_generation_implementation" /\
  fst r = Ok tt /\
  Agent.currentTasks (snd r)
  = Agent.setTask taskId
      (Agent.mkEntry (spread (Task.toJs task)) now "in_progress" None JUndefined)
      (Agent.currentTasks a) /\
  Agent.status (snd r) = "working" /\
  SimpleMessageQueue.published (Agent.queue (snd r))
  = SimpleMessageQueue.published q
    ++ [(Message.sessionId message, "orchestrator",
         SimpleMessageQueue.enrich (uuid_of n) now
           (Envelope.mk "task_progress" (Message.sessionId message) agentId
              (One "orchestrator")
              (JObj [("taskId", taskId); ("progress", JNum 0); ("status", JStr "started")])
              None None None));
        (Message.sessionId message, "orchestrator",
         SimpleMessageQueue.enrich (uuid_of (S n)) now
           (Envelope.mk "error_report" (Message.sessionId message) agentId
              (One "orchestrator")
              (JObj [("error",
                      JStr "Unsupported task type: code_generation_implementation");
                     ("severity", JStr "high"); ("taskId", taskId);
                     ("timestamp", JNum now)])
              None None None))].
Proof.
  intros (c & Hc & Htype & _) (_ & Hty & _ & _ & _ & Htask) [Hs Hcaps]
    message r q now n agentId taskId.
  injection Hc as <-. cbn [AgentOrchestrator.specialization] in Htype.
  change ("code_generation" +:+ "_implementation")
    with "code_generation_implementation" in Htype.
  split; [exact Htype|].
  destruct (toJs_members task) as (Hid & Htt & input & Hin). rewrite Htype in Htt.
  assert (Hctx : exists context, getProp (Message.payload message) "context" = Ok context).
  { subst message. destruct (Message.payload (snd p)); try discriminate; cbn; eauto. }
  destruct Hctx as [context Hctx].
  destruct (Agent.handleMessage _ message a) as [res a'] eqn:Hrun.
  rewrite (handleMessage_assignment _ message (Task.toJs task) input) in Hrun
    by assumption.
  unfold Agent.tryCatch at 1 in Hrun.
  rewrite (handleTaskAssignment_accepted _ message (Task.toJs task) context taskId
             "code_generation_implementation") in Hrun;
    [|assumption|assumption|assumption|assumption
     |agent_fields; unfold BaseAgent.canHandleTask; rewrite Hs, Hcaps; reflexivity].
  rewrite reportProgress_run in Hrun. unfold Agent.tryCatch, Agent.bind at 1 in Hrun.
  unfold CodeConjurerAgent.executeTask, CodeConjurerAgent.executeTaskWith,
    Agent.bind at 1 2, Agent.lift in Hrun.
  rewrite Htt, Hin in Hrun. cbn [strictEqStr String.eqb Ascii.eqb Bool.eqb] in Hrun.
  unfold Agent.throw in Hrun. rewrite reportError_run in Hrun.
  injection Hrun as <- <-. subst r. agent_fields.
  repeat split. agent_published. reflexivity.
Qed.

Lemma reportProgress_spec (sessionId : string) (taskId : JsVal) (progress : Z) (st : string)
    (s : Agent.t) :
  exists q' : SimpleMessageQueue.World,
    Agent.reportProgress sessionId taskId progress st s = (Ok tt, Agent.setQueue q' s) /\
    SimpleMessageQueue.published q'
    = SimpleMessageQueue.published (Agent.queue s)
      ++ [(sessionId, "orchestrator",
           SimpleMessageQueue.enrich (uuid_of (SimpleMessageQueue.uuids (Agent.queue s)))
             (SimpleMessageQueue.now (Agent.queue s))
             (Envelope.mk "task_progress" sessionId (BaseAgent.id (Agent.self s))
                (One "orchestrator")
                (jsObject [("taskId", taskId); ("progress", JNum progress);
                           ("status", JStr st)])
                None None None))] /\
    SimpleMessageQueue.now q' = SimpleMessageQueue.now (Agent.queue s) /\
    SimpleMessageQueue.uuids q' = S (SimpleMessageQueue.uuids (Agent.queue s)).
Proof.
  eexists. split; [apply reportProgress_run|].
  apply (sendMessage_one
           (Envelope.mk "task_progress" sessionId (BaseAgent.id (Agent.self s))
              (One "orchestrator")
              (jsObject [("taskId", taskId); ("progress", JNum progress); ("status", JStr st)])
              None None None) "orchestrator" (Agent.queue s) eq_refl).
Qed.

Lemma completeTask_spec (sessionId : string) (taskId result deliverables : JsVal)
    (task : Agent.Entry) (s : Agent.t) :
  Agent.getTask taskId (Agent.currentTasks s) = Some task ->
  getProp result "deliverables" = Ok deliverables ->
  let now := SimpleMessageQueue.now (Agent.queue s) in
  let responseTime := now - Agent.startTime task in
  let tasks :=
    Agent.deleteTask taskId
      (Agent.setTask taskId
         (Agent.mkEntry (Agent.members task) (Agent.startTime task) "completed" (Some now)
            result)
         (Agent.currentTasks s)) in
  exists q' : SimpleMessageQueue.World,
    Agent.completeTask sessionId taskId result s
    = (Ok tt,
       Agent.setStatus (match tasks with [] => "idle" | _ => "working" end)
         (Agent.setTasks tasks
            (Agent.setQueue q'
               (Agent.setMetrics (BaseAgent.updateMetrics (inject_Z responseTime) true) s)))) /\
    SimpleMessageQueue.published q'
    = SimpleMessageQueue.published (Agent.queue s)
      ++ [(sessionId, "orchestrator",
           SimpleMessageQueue.enrich (uuid_of (SimpleMessageQueue.uuids (Agent.queue s))) now
             (Envelope.mk "task_completion" sessionId (BaseAgent.id (Agent.self s))
                (One "orchestrator")
                (jsObject
                   [("taskId", taskId); ("result", result);
                    ("deliverables", if truthy deliverables then deliverables else JArr []);
                    ("responseTime", JNum responseTime)])
                (correlationOf taskId) None None))].
Proof.
  intros Hget Hdel now responseTime tasks.
  eexists. split; [apply (completeTask_run sessionId taskId result deliverables task s Hget Hdel)|].
  apply (sendMessage_one
           (Envelope.mk "task_completion" sessionId (BaseAgent.id (Agent.self s))
              (One "orchestrator")
              (jsObject
                 [("taskId", taskId); ("result", result);
                  ("deliverables", if truthy deliverables then deliverables else JArr []);
                  ("responseTime", JNum responseTime)])
              (correlationOf taskId) None None) "orchestrator" (Agent.queue s) eq_refl).
Qed.

Ltac report_step :=
  rewrite reportStep_run;
  match goal with
  | |- context [Agent.reportProgress ?sid ?k ?p ?st ?s] =>
      let q := fresh "q" in
      let Hr := fresh "Hr" in
      let Hp := fresh "Hp" in
      let Hn := fresh "Hn" in
      let Hu := fresh "Hu" in
      destruct (reportProgress_spec sid k p st s) as (q & Hr & Hp & Hn & Hu);
      rewrite Hr; clear Hr;
      unfold Agent.sessionOf, Agent.getCurrentTaskId in Hp |- *;
      agent_fields in Hp; agent_fields in Hn; agent_fields in Hu; agent_fields
  end.

(** The five reports of [implementFeature] and its result. *)
Lemma implementFeature_spec (input context feature : JsVal) (s : Agent.t) :
  getProp input "feature" = Ok feature ->
  let q := Agent.queue s in
  let report (i : nat) (progress : Z) (st : string) :=
    (Agent.sessionOf s, "orchestrator",
     SimpleMessageQueue.enrich (uuid_of (SimpleMessageQueue.uuids q + i))
       (SimpleMessageQueue.now q)
       (Envelope.mk "task_progress" (Agent.sessionOf s) (BaseAgent.id (Agent.self s))
          (One "orchestrator")
          (jsObject [("taskId", Agent.getCurrentTaskId s); ("progress", JNum progress);
                     ("status", JStr st)])
          None None None)) in
  exists q' : SimpleMessageQueue.World,
    CodeConjurerAgent.implementFeature input context s
    = (Ok (jsObject
             [("feature", feature); ("backend", JObj []); ("frontend", JObj []);
              ("tests", JObj []); ("integration", JObj []);
              ("deliverables",
               JArr [CodeConjurerAgent.deliverable "feature_implementation"
                       (JObj [("backend", JObj []); ("frontend", JObj [])]) "code_files";
                     CodeConjurerAgent.deliverable "feature_tests" (JObj []) "test_code"])]),
       Agent.setQueue q' s) /\
    SimpleMessageQueue.published q'
    = SimpleMessageQueue.published q
      ++ [report 0%nat 20 "analyzing_feature"; report 1%nat 40 "implementing_backend";
          report 2%nat 60 "implementing_frontend"; report 3%nat 80 "implementing_tests";
          report 4%nat 90 "finalizing"] /\
    SimpleMessageQueue.now q' = SimpleMessageQueue.now q /\
    SimpleMessageQueue.uuids q' = (SimpleMessageQueue.uuids q + 5)%nat.
Proof.
  intros Hfeat q report.
  unfold CodeConjurerAgent.implementFeature, Agent.bind, Agent.lift. rewrite Hfeat.
  do 5 report_step.
  exists q4. unfold Agent.ret. split; [destruct s; reflexivity|].
  subst report q. cbn beta. unfold Agent.sessionOf, Agent.getCurrentTaskId.
  rewrite Hp3, Hp2, Hp1, Hp0, Hp, Hn3, Hn2, Hn1, Hn0, Hn, Hu3, Hu2, Hu1, Hu0, Hu.
  rewrite <- !app_assoc. cbn [app].
  rewrite !Nat.add_succ_r, !Nat.add_0_r. repeat split.
Qed.

Lemma setTask_new (taskId : JsVal) (entry : Agent.Entry) (tasks : list (JsVal * Agent.Entry)) :
  Agent.getTask taskId tasks = None ->
  Agent.setTask taskId entry tasks = tasks ++ [(taskId, entry)].
Proof.
  induction tasks as [|[k e] rest IH]; cbn [Agent.getTask Agent.setTask app]; [reflexivity|].
  destruct (sameValueZero k taskId); [discriminate|].
  intros H. rewrite IH by exact H. reflexivity.
Qed.

(** X28. A [code_implementation] task is executed by [implementFeature] and
    completed, but its five step reports do not follow the task: they are
    published to the session the agent was initialised for last
    ([activeSession]), whatever session the task came from, and they name
    the task that was stored last in [currentTasks], which is the task at
    hand when its id was not stored before.  Only the report "started" and
    the [task_completion], with the result and its two deliverables, go to
    the session of the message and carry the task's own id. *)
Theorem feature_steps_are_reported_to_the_active_session
    (generateCode : JsVal -> JsVal -> Agent.M JsVal) (message : Message.t)
    (task context input feature : JsVal) (id : string) (a : Agent.t) :
  Message.type message = "task_assignment" ->
  getProp (Message.payload message) "task" = Ok task ->
  getProp (Message.payload message) "context" = Ok context ->
  getProp task "type" = Ok (JStr "code_implementation") ->
  getProp task "id" = Ok (JStr id) ->
  getProp task "input" = Ok input ->
  getProp input "feature" = Ok feature ->
  BaseAgent.capabilities (Agent.self a) = CodeConjurerAgent.capabilities ->
  let r := Agent.handleMessage (CodeConjurerAgent.executeTask generateCode) message a in
  let q := Agent.queue a in
  let now := SimpleMessageQueue.now q in
  let n := SimpleMessageQueue.uuids q in
  let agentId := BaseAgent.id (Agent.self a) in
  let stored :=
    Agent.setTask (JStr id) (Agent.mkEntry (spread task) now "in_progress" None JUndefined)
      (Agent.currentTasks a) in
  let current := Agent.getCurrentTaskId (Agent.setTasks stored a) in
  let report (sessionId : string) (taskId : JsVal) (i : nat) (progress : Z) (st : string) :=
    (sessionId, "orchestrator",
     SimpleMessageQueue.enrich (uuid_of (n + i)) now
       (Envelope.mk "task_progress" sessionId agentId (One "orchestrator")
          (jsObject [("taskId", taskId); ("progress", JNum progress); ("status", JStr st)])
          None None None)) in
  fst r = Ok tt /\
  Agent.currentTasks (snd r) = Agent.deleteTask (JStr id) (Agent.currentTasks a) /\
  (Agent.getTask (JStr id) (Agent.currentTasks a) = None -> current = JStr id) /\
  exists responseTime : Z,
    SimpleMessageQueue.published (Agent.queue (snd r))
    = SimpleMessageQueue.published q
      ++ [report (Message.sessionId message) (JStr id) 0%nat 0 "started";
          report (Agent.sessionOf a) current 1%nat 20 "analyzing_feature";
          report (Agent.sessionOf a) current 2%nat 40 "implementing_backend";
          report (Agent.sessionOf a) current 3%nat 60 "implementing_frontend";
          report (Agent.sessionOf a) current 4%nat 80 "implementing_tests";
          report (Agent.sessionOf a) current 5%nat 90 "finalizing";
          (Message.sessionId message, "orchestrator",
           SimpleMessageQueue.enrich (uuid_of (n + 6)) now
             (Envelope.mk "task_completion" (Message.sessionId message) agentId
                (One "orchestrator")
                (jsObject
                   [("taskId", JStr id);
                    ("result",
                     jsObject
                       [("feature", feature); ("backend", JObj []); ("frontend", JObj []);
                        ("tests", JObj []); ("integration", JObj []);
                        ("deliverables",
                         JArr [CodeConjurerAgent.deliverable "feature_implementation"
                                 (JObj [("backend", JObj []); ("frontend", JObj [])])
                                 "code_files";
                               CodeConjurerAgent.deliverable "feature_tests" (JObj [])
                                 "test_code"])]);
                    ("deliverables",
                     JArr [CodeConjurerAgent.deliverable "feature_implementation"
                             (JObj [("backend", JObj []); ("frontend", JObj [])])
                             "code_files";
                           CodeConjurerAgent.deliverable "feature_tests" (JObj [])
                             "test_code"]);
                    ("responseTime", JNum responseTime)])
                (Some id) None None))].
Proof.
  intros Hty Htask Hctx Htype Hid Hin Hfeat Hcaps r q now n agentId stored current report.
  destruct (Agent.handleMessage _ message a) as [res a'] eqn:Hrun.
  rewrite (handleMessage_assignment _ message task input) in Hrun by assumption.
  unfold Agent.tryCatch at 1 in Hrun.
  rewrite (handleTaskAssignment_accepted _ message task context (JStr id)
             "code_implementation") in Hrun;
    [|assumption|assumption|assumption|assumption
     |agent_fields; unfold BaseAgent.canHandleTask; rewrite Hcaps; reflexivity].
  match type of Hrun with
  | context [Agent.reportProgress ?sid ?k ?p ?st ?s] =>
      destruct (reportProgress_spec sid k p st s) as (q0 & Hrun0 & Hp0 & Hn0 & Hu0);
      rewrite Hrun0 in Hrun; clear Hrun0; agent_fields in Hp0; agent_fields in Hn0;
      agent_fields in Hu0
  end.
  unfold Agent.tryCatch, Agent.bind at 1 in Hrun.
  unfold CodeConjurerAgent.executeTask, CodeConjurerAgent.executeTaskWith,
    Agent.bind at 1 2, Agent.lift in Hrun.
  rewrite Htype, Hin in Hrun. cbn [strictEqStr String.eqb Ascii.eqb Bool.eqb snd] in Hrun.
  match type of Hrun with
  | context [CodeConjurerAgent.implementFeature input context ?s] =>
      destruct (implementFeature_spec input context feature s Hfeat)
        as (q1 & Hrun1 & Hp1 & Hn1 & Hu1);
      rewrite Hrun1 in Hrun; clear Hrun1;
      unfold Agent.sessionOf, Agent.getCurrentTaskId in Hp1;
      agent_fields in Hp1; agent_fields in Hn1; agent_fields in Hu1
  end.
  match type of Hrun with
  | context [Agent.completeTask ?sid ?k ?res ?s] =>
      assert (Hget : Agent.getTask k (Agent.currentTasks s)
                     = Some (Agent.mkEntry (spread task) now "in_progress" None JUndefined))
        by (agent_fields; apply getTask_setTask, sameValueZero_string);
      assert (Hdel : getProp res "deliverables"
                     = Ok (JArr [CodeConjurerAgent.deliverable "feature_implementation"
                                   (JObj [("backend", JObj []); ("frontend", JObj [])])
                                   "code_files";
                                 CodeConjurerAgent.deliverable "feature_tests" (JObj [])
                                   "test_code"]))
        by (destruct feature; reflexivity);
      destruct (completeTask_spec sid k res _ _ s Hget Hdel) as (q2 & Hrun2 & Hp2);
      rewrite Hrun2 in Hrun; clear Hrun2 Hget Hdel; agent_fields in Hp2
  end.
  injection Hrun as <- <-. subst r. agent_fields.
  rewrite setTask_setTask, deleteTask_setTask by apply sameValueZero_string.
  split; [reflexivity|]. split; [reflexivity|]. split.
  { intros Hnew. subst current stored. unfold Agent.getCurrentTaskId. agent_fields.
    rewrite setTask_new by exact Hnew. rewrite map_app. cbn [map fst].
    rewrite last_snoc. reflexivity. }
  exists (now - now).
  rewrite Hp2, Hp1, Hp0, Hn1, Hn0, Hu1, Hu0. subst report. cbn beta.
  rewrite <- !app_assoc. cbn [app truthy correlationOf Agent.startTime].
  subst current stored n now q agentId. unfold Agent.sessionOf, Agent.getCurrentTaskId.
  agent_fields.
  rewrite !Nat.add_succ_r, !Nat.add_0_r. reflexivity.
Qed.


(** ** Examples *)

(** Code Conjurer is offered a frontend implementation. *)
Lemma incompatible_task_example :
  Agent.currentTasks
    (snd (Agent.handleMessage Agent.executeTask
            (sampleAssignment "frontend_implementation" JNull)
            (CodeConjurerAgent.new (SimpleMessageQueue.initialWorld 0))))
  = [].
Proof.
  exact (proj1 (proj2 (incompatible_task_is_reported_and_dropped Agent.executeTask
                         (sampleAssignment "frontend_implementation" JNull)
                         (JObj [("id", JStr "t1"); ("type", JStr "frontend_implementation");
                                ("input", JNull)])
                         (JStr "t1") "frontend_implementation"
                         (CodeConjurerAgent.new (SimpleMessageQueue.initialWorld 0))
                         eq_refl eq_refl eq_refl eq_refl eq_refl))).
Defined.

(** An agent of the base class is given a code review. *)
Lemma failed_task_example :
  Agent.status
    (snd (Agent.handleMessage Agent.executeTask (sampleAssignment "code_review" JNull)
            (CodeConjurerAgent.new (SimpleMessageQueue.initialWorld 0))))
  = "working".
Proof.
  exact (proj1 (proj2 (proj2
           (failed_task_stays_in_progress Agent.executeTask
              (sampleAssignment "code_review" JNull)
              (JObj [("id", JStr "t1"); ("type", JStr "code_review"); ("input", JNull)])
              (JStr "Complete the assigned task") (JStr "t1") "code_review"
              "executeTask must be implemented by subclasses"
              (CodeConjurerAgent.new (SimpleMessageQueue.initialWorld 0))
              eq_refl eq_refl eq_refl eq_refl eq_refl eq_refl (fun s => eq_refl))))).
Defined.

(** A task that takes five milliseconds. *)
Lemma executed_task_example :
  Agent.status
    (snd (Agent.handleMessage (sampleExecute (JObj []))
            (sampleAssignment "code_review" JNull)
            (CodeConjurerAgent.new (SimpleMessageQueue.initialWorld 0))))
  = "idle".
Proof.
  exact (proj1 (proj2 (proj2
           (executed_task_is_completed_and_removed (sampleExecute (JObj []))
              (sampleAssignment "code_review" JNull)
              (JObj [("id", JStr "t1"); ("type", JStr "code_review"); ("input", JNull)])
              (JStr "Complete the assigned task") (JObj []) JUndefined "t1" "code_review" 5
              (CodeConjurerAgent.new (SimpleMessageQueue.initialWorld 0))
              eq_refl eq_refl eq_refl eq_refl eq_refl eq_refl (fun s => eq_refl)
              eq_refl)))).
Defined.

(** A task whose execution returns [undefined]. *)
Lemma result_without_members_example :
  Agent.status
    (snd (Agent.handleMessage (sampleExecute JUndefined)
            (sampleAssignment "code_review" JNull)
            (CodeConjurerAgent.new (SimpleMessageQueue.initialWorld 0))))
  = "working".
Proof.
  exact (proj1 (proj2 (proj2
           (result_without_members_leaves_completed_task (sampleExecute JUndefined)
              (sampleAssignment "code_review" JNull)
              (JObj [("id", JStr "t1"); ("type", JStr "code_review"); ("input", JNull)])
              (JStr "Complete the assigned task") JUndefined "t1" "code_review" 5
              (CodeConjurerAgent.new (SimpleMessageQueue.initialWorld 0))
              eq_refl eq_refl eq_refl eq_refl eq_refl eq_refl (fun s => eq_refl)
              (or_introl eq_refl))))).
Defined.

(** An answer from another agent. *)
Lemma agent_response_example :
  Agent.status
    (snd (Agent.handleMessage Agent.executeTask
            (Message.mk "m2" 0 "agent_response" "s1" "architectrix" (One "code_conjurer")
               (JObj []) "m2" 5 300 "sent" None None)
            (CodeConjurerAgent.new (SimpleMessageQueue.initialWorld 0))))
  = "idle".
Proof.
  exact (proj1 (proj2 (proj2
           (agent_response_is_reported_as_error Agent.executeTask
              (Message.mk "m2" 0 "agent_response" "s1" "architectrix" (One "code_conjurer")
                 (JObj []) "m2" 5 300 "sent" None None)
              (CodeConjurerAgent.new (SimpleMessageQueue.initialWorld 0)) eq_refl)))).
Defined.

(** One delivery to a new agent. *)
Lemma agent_remembers_example :
  (length (Agent.conversations
             (Agent.run Agent.executeTask
                [Agent.Deliver (sampleAssignment "code_review" JNull)]
                (CodeConjurerAgent.new (SimpleMessageQueue.initialWorld 0)))) <= 50)%nat.
Proof.
  apply (proj2 (agent_remembers_last_fifty_messages Agent.executeTask
                  (fun task context s => eq_refl))).
  cbn. lia.
Defined.

(** A clarification arrives after a task has failed. *)
Lemma clarification_example :
  Agent.status
    (snd (Agent.handleMessage Agent.executeTask
            (Message.mk "m3" 0 "user_clarification" "s1" "user" (One "code_conjurer")
               (JObj [("clarification", JStr "yes"); ("originalQuestion", JStr "really?")])
               "m3" 5 300 "sent" None None)
            (Agent.run Agent.executeTask
               [Agent.Deliver (sampleAssignment "code_review" JNull)]
               (Agent.new "code_conjurer" "code_generation" CodeConjurerAgent.capabilities
                  (SimpleMessageQueue.initialWorld 0)))))
  = "working".
Proof.
  exact (proj1 (proj2 (proj2 (proj2 (proj2
           (clarification_never_resumes_a_task Agent.executeTask
              "code_conjurer" "code_generation" CodeConjurerAgent.capabilities
              (SimpleMessageQueue.initialWorld 0)
              [Agent.Deliver (sampleAssignment "code_review" JNull)]
              (Message.mk "m3" 0 "user_clarification" "s1" "user" (One "code_conjurer")
                 (JObj [("clarification", JStr "yes"); ("originalQuestion", JStr "really?")])
                 "m3" 5 300 "sent" None None)
              (JStr "yes") (JStr "really?")
              (fun task context a Ha => Ha) eq_refl eq_refl eq_refl)))))).
Defined.

(** Two versions of the three methods, on one delivery. *)
Lemma code_conjurer_layers_example :
  Agent.run (CodeConjurerAgent.executeTaskWith (fun _ _ => Agent.ret JNull)
               CodeConjurerAgent.implementFrontend CodeConjurerAgent.implementBackend
               CodeConjurerAgent.implementAPI)
    [Agent.Deliver (sampleAssignment "frontend_implementation" JNull)]
    (CodeConjurerAgent.new (SimpleMessageQueue.initialWorld 0))
  = Agent.run (CodeConjurerAgent.executeTaskWith (fun _ _ => Agent.ret JNull)
                 Agent.executeTask Agent.executeTask Agent.executeTask)
      [Agent.Deliver (sampleAssignment "frontend_implementation" JNull)]
      (CodeConjurerAgent.new (SimpleMessageQueue.initialWorld 0)).
Proof.
  exact (code_conjurer_never_implements_layers (fun _ _ => Agent.ret JNull)
           CodeConjurerAgent.implementFrontend CodeConjurerAgent.implementBackend
           CodeConjurerAgent.implementAPI
           Agent.executeTask Agent.executeTask Agent.executeTask
           [Agent.Deliver (sampleAssignment "frontend_implementation" JNull)]
           (SimpleMessageQueue.initialWorld 0)
           (fun input context s => conj eq_refl eq_refl)).
Defined.

(** The first session of a new orchestrator, and a new Architectrix. *)
Lemma architectrix_rejects_example :
  exists m : Message.t,
    SimpleMessageQueue.published
      (AgentOrchestrator.queue
         (snd (AgentOrchestrator.startSession "s1" (JObj []) "Build a REST API"
                 (AgentOrchestrator.new 0))))
    = [("s1", "architectrix", m)] /\
    Agent.currentTasks
      (snd (Agent.handleMessage Agent.executeTask m
              (ArchitectrixAgent.new (SimpleMessageQueue.initialWorld 0))))
    = [].
Proof.
  destruct (architectrix_rejects_the_analysis_task "s1" (JObj []) "Build a REST API"
              (AgentOrchestrator.new 0) Agent.executeTask
              (ArchitectrixAgent.new (SimpleMessageQueue.initialWorld 0)))
    as (m & Hp & _ & _ & Ht & _); [discriminate|discriminate|split; reflexivity|].
  exists m. split; [exact Hp|exact Ht].
Defined.

(** Code Conjurer receives the task planned for it. *)
Lemma code_conjurer_planned_task_example :
  Agent.status
    (snd (Agent.handleMessage (CodeConjurerAgent.executeTask (fun _ _ => Agent.ret JNull))
            (snd samplePlannedAssignment)
            (CodeConjurerAgent.new (SimpleMessageQueue.initialWorld 0))))
  = "working".
Proof.
  refine (proj1 (proj2 (proj2 (proj2
            (code_conjurer_cannot_execute_its_planned_task (fun _ _ => Agent.ret JNull)
               "s1" samplePlannedTask samplePlannedAssignment
               (CodeConjurerAgent.new (SimpleMessageQueue.initialWorld 0)) _ _ _))))).
  - eexists. repeat split.
  - repeat split.
  - split; reflexivity.
Defined.

(** Code Conjurer implements a feature. *)
Lemma feature_steps_example :
  Agent.currentTasks
    (snd (Agent.handleMessage (CodeConjurerAgent.executeTask (fun _ _ => Agent.ret JNull))
            (sampleAssignment "code_implementation" (JObj [("feature", JStr "login")]))
            (CodeConjurerAgent.new (SimpleMessageQueue.initialWorld 0))))
  = [].
Proof.
  exact (proj1 (proj2
           (feature_steps_are_reported_to_the_active_session (fun _ _ => Agent.ret JNull)
              (sampleAssignment "code_implementation" (JObj [("feature", JStr "login")]))
              (JObj [("id", JStr "t1"); ("type", JStr "code_implementation");
                     ("input", JObj [("feature", JStr "login")])])
              (JStr "Complete the assigned task") (JObj [("feature", JStr "login")])
              (JStr "login") "t1"
              (CodeConjurerAgent.new (SimpleMessageQueue.initialWorld 0))
              eq_refl eq_refl eq_refl eq_refl eq_refl eq_refl eq_refl eq_refl))).
Defined.

(** ** Starting a session: who hears what *)

Section Routing.
Import Service.












End Routing.



(** ** Broadcasting *)

Section Broadcast.
Import Service.

Lemma broadcast_fold (sessionId type : string) (payload : JsVal) (priority : option Z)
    (recipients : list (option string)) (acc : list string) (s : t) :
  let r := fold_left
             (fun (acc : list string * t) agentId =>
                let r := sendMessageToAgent sessionId agentId type payload priority (snd acc) in
                (fst acc ++ [fst r], snd r))
             recipients (acc, s) in
  let n := SimpleMessageQueue.uuids (queue s) in
  fst r = acc ++ imap (fun i _ => uuid_of (n + i)) recipients /\
  SimpleMessageQueue.published (queue (snd r))
  = SimpleMessageQueue.published (queue s)
    ++ imap (fun i agentId =>
               (sessionId, default "undefined" agentId,
                SimpleMessageQueue.enrich (uuid_of (n + i)) (SimpleMessageQueue.now (queue s))
                  (Envelope.mk type sessionId "user" (One (default "undefined" agentId))
                     payload None (Some (orNum priority 5)) None)))
         recipients /\
  SimpleMessageQueue.now (queue (snd r)) = SimpleMessageQueue.now (queue s) /\
  activeAgents (snd r) = activeAgents s.
Proof.
  revert acc s. induction recipients as [|agentId rest IH]; intros acc s; cbn zeta.
  - cbn [fold_left imap fst snd]. rewrite !app_nil_r. repeat split.
  - cbn [fold_left]. specialize (IH (acc ++ [fst (sendMessageToAgent sessionId agentId type
                                                    payload priority s)])
                                   (snd (sendMessageToAgent sessionId agentId type payload
                                           priority s))).
    cbn zeta in IH. cbn [fst snd] in IH |- *.
    destruct IH as (Hids & Hp & Hn & Ha).
    destruct (sendMessage_one
                (Envelope.mk type sessionId "user" (One (default "undefined" agentId)) payload
                   None (Some (orNum priority 5)) None)
                (default "undefined" agentId) (queue s) eq_refl) as (Hp1 & Hn1 & Hu1).
    unfold sendMessageToAgent in Hids, Hp, Hn, Ha |- *.
    cbn [fst snd withQueue queue activeAgents] in Hids, Hp, Hn, Ha |- *.
    rewrite Hids, Hp, Hn, Ha, Hp1, Hn1, Hu1. cbn [imap].
    rewrite <- !app_assoc. cbn [app]. rewrite Nat.add_0_r.
    split; [|split; [|split; reflexivity]].
    + f_equal. f_equal. apply imap_ext. intros i x _. cbn. rewrite Nat.add_succ_r. reflexivity.
    + f_equal. f_equal. apply imap_ext. intros i x _. cbn. rewrite Nat.add_succ_r. reflexivity.
Qed.

Lemma prefix_append (p s t : string) :
  String.prefix p s = true -> String.prefix p (s +:+ t) = true.
Proof.
  revert s. induction p as [|c p IH]; intros s;
    [intros _; destruct (s +:+ t); reflexivity|].
  destruct s as [|d s]; [discriminate|].
  change (String d s +:+ t) with (String d (s +:+ t)). cbn [String.prefix].
  destruct (Ascii.ascii_dec c d); [apply IH|discriminate].
Qed.

Lemma afterFirst_append (sep : ascii) (s t : string) :
  afterFirst sep s = None -> afterFirst sep (s +:+ String sep t) = Some t.
Proof.
  induction s as [|c s IH].
  - intros _. change (EmptyString +:+ String sep t) with (String sep t).
    cbn [afterFirst]. rewrite Ascii.eqb_refl. reflexivity.
  - change (String c s +:+ String sep t) with (String c (s +:+ String sep t)).
    cbn [afterFirst]. destruct (Ascii.eqb c sep); [discriminate|exact IH].
Qed.

End Broadcast.

(** X30. [broadcastMessage] selects its recipients by the text of the keys
    of [activeAgents], not by session: it publishes one message, from
    "user" on the channel of the given session, for every key that starts
    with the session id, in the order of the keys, each addressed to what
    stands between the first and the second colon of the key, and returns
    the ids of these messages.  The key of an agent that is active for
    another session whose id merely begins with the given one is among
    them: that agent is sent the message as well, on the given session's
    channel. *)
Theorem broadcast_follows_key_prefixes
    (sessionId type : string) (payload : JsVal) (priority : option Z) (s : Service.t) :
  let keys := List.filter (String.prefix sessionId) (map fst (Service.activeAgents s)) in
  let r := Service.broadcastMessage sessionId type payload priority s in
  let q := Service.queue s in
  let n := SimpleMessageQueue.uuids q in
  fst r = imap (fun i _ => uuid_of (n + i)) keys /\
  SimpleMessageQueue.published (Service.queue (snd r))
  = SimpleMessageQueue.published q
    ++ imap (fun i key =>
               let agentId := default "undefined" (splitSecond ":" key) in
               (sessionId, agentId,
                SimpleMessageQueue.enrich (uuid_of (n + i)) (SimpleMessageQueue.now q)
                  (Envelope.mk type sessionId "user" (One agentId) payload None
                     (Some (orNum priority 5)) None)))
         keys /\
  (forall otherSession agentId : string,
      String.prefix sessionId otherSession = true ->
      afterFirst ":" otherSession = None ->
      afterFirst ":" agentId = None ->
      let key := AgentOrchestrator.agentKey otherSession agentId in
      String.prefix sessionId key = true /\ splitSecond ":" key = Some agentId).
Proof.
  intros keys r q n.
  pose proof (broadcast_fold sessionId type payload priority (map (splitSecond ":") keys) []
                s) as H.
  cbv zeta in H. destruct H as (Hids & Hp & _).
  subst r. unfold Service.broadcastMessage. cbv zeta. fold keys.
  split; [|split].
  - rewrite Hids. cbn [app]. subst n q. rewrite imap_fmap. reflexivity.
  - rewrite Hp. subst n q. rewrite imap_fmap. reflexivity.
  - intros otherSession agentId Hpre Hs Ha.
    unfold AgentOrchestrator.agentKey. split.
    + apply prefix_append, Hpre.
    + unfold splitSecond.
      change (otherSession +:+ ":" +:+ agentId) with (otherSession +:+ String ":" agentId).
      rewrite afterFirst_append by exact Hs. cbn [option_map]. f_equal.
      clear Hpre Hs. induction agentId as [|c a IH]; [reflexivity|].
      cbn [splitHead afterFirst] in Ha |- *.
      destruct (Ascii.eqb c ":"); [discriminate|]. rewrite IH by exact Ha. reflexivity.
Qed.
